(** * Powker_middle: browser clients of the poker lobby and game room

    A shallow embedding of the three JavaScript sources

    - the lobby client   (class [PokerClient]),
    - the game room client (class [GameRoomClient], [static/js/game.js]),
    - the ability dialog (class [AbilitySelectionManager]),

    and the properties of their event handlers.

    Conventions of the embedding.
    - A JavaScript string is the [string] of its UTF-8 bytes.  [length]
      counts UTF-16 code units, [trim] knows the white space of the
      language, [toUpperCase] and [toLowerCase] follow the Unicode
      tables.
    - A JavaScript number that the code treats as an integer is a [Z]
      held in a double: reading digits and multiplying round to the
      nearest double, and a number is written as text the way
      [Number::toString] writes it.  Below 2^53 all of this is exact.
    - A field that the code tests for presence ([x.f || d], [if (!x.f)],
      [x?.f]) is an [option].
    - The DOM is a store from element ids to elements, with one typed field
      per container whose children the code builds; the socket is the list
      of messages emitted so far; [localStorage] is the one key the code
      uses.
    - [setTimeout] adds to a queue of pending timers; the page's clock is
      a number of milliseconds that [advance] moves on, running the timers
      that are due.
    - A handler that throws stops where it throws: what it wrote before
      stays written, and its completion is reported as [Threw]. *)

From Stdlib Require Import String Ascii List ZArith Bool Lia DecimalString.
From Stdlib Require Import DecimalPos.
Import ListNotations.

Local Open Scope string_scope.
Local Open Scope list_scope.

(* ================================================================= *)
(** ** JavaScript primitives used by the clients *)

Module JS.

(** Outcome of a call that may throw. *)
Inductive result (A : Type) : Type :=
| Ok (a : A)
| TypeError (what : string).
Arguments Ok {A} a.
Arguments TypeError {A} what.

(** *** Numbers *)

(** The numbers the clients meet: integers held in a double, [NaN] and
    the two infinities.  [Num z] is the double whose value is [z]. *)
Inductive num : Type :=
| NaN
| Num (z : Z)
| Inf (negative : bool).

(** Values that travel in socket payloads. *)
Inductive value : Type :=
| VUndefined
| VNull
| VBool (b : bool)
| VNum (n : num)
| VStr (s : string).

(** 2^53: below it every integer is a double of its own. *)
Definition two53 : Z := 9007199254740992.

(** [Number.isSafeInteger]. *)
Definition safe (z : Z) : Prop := (Z.abs z < two53)%Z.

(** The double nearest to an integer, ties to the even mantissa: what a
    number read from text or the exact result of a product is rounded
    to.  From 2^53 on the 53 leading bits are kept; a magnitude that
    rounds to 2^1024 is an infinity. *)
Definition round64 (z : Z) : num :=
  let a := Z.abs z in
  if (a <? two53)%Z then Num z
  else
    let e := (Z.log2 a - 52)%Z in
    let q := Z.shiftr a e in
    let r := (a - Z.shiftl q e)%Z in
    let half := Z.shiftl 1 (e - 1) in
    let q' := if (half <? r)%Z || ((r =? half)%Z && Z.odd q) then (q + 1)%Z else q in
    let v := Z.shiftl q' e in
    if (1024 <=? Z.log2 v)%Z then Inf (z <? 0)%Z
    else Num (if (z <? 0)%Z then (- v)%Z else v).

(** [a * b] *)
Definition num_mul (a b : num) : num :=
  match a, b with
  | NaN, _ | _, NaN => NaN
  | Num x, Num y => round64 (x * y)
  | Inf n, Num y | Num y, Inf n =>
      if (y =? 0)%Z then NaN else Inf (xorb n (y <? 0)%Z)
  | Inf n, Inf m => Inf (xorb n m)
  end.

(** [a < b] and [a <= b]: false when either side is [NaN]. *)
Definition num_ltb (a b : num) : bool :=
  match a, b with
  | NaN, _ | _, NaN => false
  | Num x, Num y => (x <? y)%Z
  | Num _, Inf m => negb m
  | Inf n, Num _ => n
  | Inf n, Inf m => n && negb m
  end.

Definition num_leb (a b : num) : bool :=
  match a, b with
  | NaN, _ | _, NaN => false
  | Num x, Num y => (x <=? y)%Z
  | Num _, Inf m => negb m
  | Inf n, Num _ => n
  | Inf n, Inf m => n || negb m
  end.

(** Truthiness of a number: every number but [0] and [NaN]. *)
Definition truthy_num (n : num) : bool :=
  match n with
  | NaN => false
  | Num z => negb (z =? 0)%Z
  | Inf _ => true
  end.

(** [n || d] on numbers. *)
Definition num_or (n : num) (d : Z) : num :=
  if truthy_num n then n else Num d.

(** *** Strings *)

(** A string is held as its UTF-8 bytes. *)

Definition byte (c : ascii) : nat := nat_of_ascii c.

Definition is_ascii (c : ascii) : bool := (byte c <? 128)%nat.

(** [s.length] counts UTF-16 code units: one for each character of one
    to three bytes, two for a character of four bytes. *)
Definition units_of (c : ascii) : nat :=
  let n := byte c in
  if (n <? 128)%nat then 1        (* a character of its own *)
  else if (n <? 192)%nat then 0   (* a continuation byte *)
  else if (n <? 240)%nat then 1   (* head of two or three bytes *)
  else 2.                         (* head of four bytes *)

Fixpoint str_length (s : string) : nat :=
  match s with
  | EmptyString => 0
  | String c s' => units_of c + str_length s'
  end.

Definition is_upper (c : ascii) : bool :=
  let n := nat_of_ascii c in (65 <=? n)%nat && (n <=? 90)%nat.

Definition is_lower (c : ascii) : bool :=
  let n := nat_of_ascii c in (97 <=? n)%nat && (n <=? 122)%nat.

Definition lower_char (c : ascii) : ascii :=
  if is_upper c then ascii_of_nat (nat_of_ascii c + 32) else c.

Definition upper_char (c : ascii) : ascii :=
  if is_lower c then ascii_of_nat (nat_of_ascii c - 32) else c.

Fixpoint map_chars (f : ascii -> ascii) (s : string) : string :=
  match s with
  | EmptyString => EmptyString
  | String c s' => String (f c) (map_chars f s')
  end.


(** The characters beyond ASCII that [toUpperCase] changes, each with
    what it becomes (Unicode 14.0, SpecialCasing included: a character
    may become several). *)
Definition upper_table : list (string * string) :=
  [("µ", "Μ"); ("ß", "SS"); ("à", "À"); ("á", "Á"); ("â", "Â"); ("ã", "Ã"); ("ä", "Ä");
   ("å", "Å"); ("æ", "Æ"); ("ç", "Ç"); ("è", "È"); ("é", "É"); ("ê", "Ê"); ("ë", "Ë");
   ("ì", "Ì"); ("í", "Í"); ("î", "Î"); ("ï", "Ï"); ("ð", "Ð"); ("ñ", "Ñ"); ("ò", "Ò");
   ("ó", "Ó"); ("ô", "Ô"); ("õ", "Õ"); ("ö", "Ö"); ("ø", "Ø"); ("ù", "Ù"); ("ú", "Ú");
   ("û", "Û"); ("ü", "Ü"); ("ý", "Ý"); ("þ", "Þ"); ("ÿ", "Ÿ"); ("ā", "Ā"); ("ă", "Ă");
   ("ą", "Ą"); ("ć", "Ć"); ("ĉ", "Ĉ"); ("ċ", "Ċ"); ("č", "Č"); ("ď", "Ď"); ("đ", "Đ");
   ("ē", "Ē"); ("ĕ", "Ĕ"); ("ė", "Ė"); ("ę", "Ę"); ("ě", "Ě"); ("ĝ", "Ĝ"); ("ğ", "Ğ");
   ("ġ", "Ġ"); ("ģ", "Ģ"); ("ĥ", "Ĥ"); ("ħ", "Ħ"); ("ĩ", "Ĩ"); ("ī", "Ī"); ("ĭ", "Ĭ");
   ("į", "Į"); ("ı", "I"); ("ĳ", "Ĳ"); ("ĵ", "Ĵ"); ("ķ", "Ķ"); ("ĺ", "Ĺ"); ("ļ", "Ļ");
   ("ľ", "Ľ"); ("ŀ", "Ŀ"); ("ł", "Ł"); ("ń", "Ń"); ("ņ", "Ņ"); ("ň", "Ň"); ("ŉ", "ʼN");
   ("ŋ", "Ŋ"); ("ō", "Ō"); ("ŏ", "Ŏ"); ("ő", "Ő"); ("œ", "Œ"); ("ŕ", "Ŕ"); ("ŗ", "Ŗ");
   ("ř", "Ř"); ("ś", "Ś"); ("ŝ", "Ŝ"); ("ş", "Ş"); ("š", "Š"); ("ţ", "Ţ"); ("ť", "Ť");
   ("ŧ", "Ŧ"); ("ũ", "Ũ"); ("ū", "Ū"); ("ŭ", "Ŭ"); ("ů", "Ů"); ("ű", "Ű"); ("ų", "Ų");
   ("ŵ", "Ŵ"); ("ŷ", "Ŷ"); ("ź", "Ź"); ("ż", "Ż"); ("ž", "Ž"); ("ſ", "S"); ("ƀ", "Ƀ");
   ("ƃ", "Ƃ"); ("ƅ", "Ƅ"); ("ƈ", "Ƈ"); ("ƌ", "Ƌ"); ("ƒ", "Ƒ"); ("ƕ", "Ƕ"); ("ƙ", "Ƙ");
   ("ƚ", "Ƚ"); ("ƞ", "Ƞ"); ("ơ", "Ơ"); ("ƣ", "Ƣ"); ("ƥ", "Ƥ"); ("ƨ", "Ƨ"); ("ƭ", "Ƭ");
   ("ư", "Ư"); ("ƴ", "Ƴ"); ("ƶ", "Ƶ"); ("ƹ", "Ƹ"); ("ƽ", "Ƽ"); ("ƿ", "Ƿ"); ("ǅ", "Ǆ");
   ("ǆ", "Ǆ"); ("ǈ", "Ǉ"); ("ǉ", "Ǉ"); ("ǋ", "Ǌ"); ("ǌ", "Ǌ"); ("ǎ", "Ǎ"); ("ǐ", "Ǐ");
   ("ǒ", "Ǒ"); ("ǔ", "Ǔ"); ("ǖ", "Ǖ"); ("ǘ", "Ǘ"); ("ǚ", "Ǚ"); ("ǜ", "Ǜ"); ("ǝ", "Ǝ");
   ("ǟ", "Ǟ"); ("ǡ", "Ǡ"); ("ǣ", "Ǣ"); ("ǥ", "Ǥ"); ("ǧ", "Ǧ"); ("ǩ", "Ǩ"); ("ǫ", "Ǫ");
   ("ǭ", "Ǭ"); ("ǯ", "Ǯ"); ("ǰ", "J̌"); ("ǲ", "Ǳ"); ("ǳ", "Ǳ"); ("ǵ", "Ǵ"); ("ǹ", "Ǹ");
   ("ǻ", "Ǻ"); ("ǽ", "Ǽ"); ("ǿ", "Ǿ"); ("ȁ", "Ȁ"); ("ȃ", "Ȃ"); ("ȅ", "Ȅ"); ("ȇ", "Ȇ");
   ("ȉ", "Ȉ"); ("ȋ", "Ȋ"); ("ȍ", "Ȍ"); ("ȏ", "Ȏ"); ("ȑ", "Ȑ"); ("ȓ", "Ȓ"); ("ȕ", "Ȕ");
   ("ȗ", "Ȗ"); ("ș", "Ș"); ("ț", "Ț"); ("ȝ", "Ȝ"); ("ȟ", "Ȟ"); ("ȣ", "Ȣ"); ("ȥ", "Ȥ");
   ("ȧ", "Ȧ"); ("ȩ", "Ȩ"); ("ȫ", "Ȫ"); ("ȭ", "Ȭ"); ("ȯ", "Ȯ"); ("ȱ", "Ȱ"); ("ȳ", "Ȳ");
   ("ȼ", "Ȼ"); ("ȿ", "Ȿ"); ("ɀ", "Ɀ"); ("ɂ", "Ɂ"); ("ɇ", "Ɇ"); ("ɉ", "Ɉ"); ("ɋ", "Ɋ");
   ("ɍ", "Ɍ"); ("ɏ", "Ɏ"); ("ɐ", "Ɐ"); ("ɑ", "Ɑ"); ("ɒ", "Ɒ"); ("ɓ", "Ɓ"); ("ɔ", "Ɔ");
   ("ɖ", "Ɖ"); ("ɗ", "Ɗ"); ("ə", "Ə"); ("ɛ", "Ɛ"); ("ɜ", "Ɜ"); ("ɠ", "Ɠ"); ("ɡ", "Ɡ");
   ("ɣ", "Ɣ"); ("ɥ", "Ɥ"); ("ɦ", "Ɦ"); ("ɨ", "Ɨ"); ("ɩ", "Ɩ"); ("ɪ", "Ɪ"); ("ɫ", "Ɫ");
   ("ɬ", "Ɬ"); ("ɯ", "Ɯ"); ("ɱ", "Ɱ"); ("ɲ", "Ɲ"); ("ɵ", "Ɵ"); ("ɽ", "Ɽ"); ("ʀ", "Ʀ");
   ("ʂ", "Ʂ"); ("ʃ", "Ʃ"); ("ʇ", "Ʇ"); ("ʈ", "Ʈ"); ("ʉ", "Ʉ"); ("ʊ", "Ʊ"); ("ʋ", "Ʋ");
   ("ʌ", "Ʌ"); ("ʒ", "Ʒ"); ("ʝ", "Ʝ"); ("ʞ", "Ʞ"); ("ͅ", "Ι"); ("ͱ", "Ͱ"); ("ͳ", "Ͳ");
   ("ͷ", "Ͷ"); ("ͻ", "Ͻ"); ("ͼ", "Ͼ"); ("ͽ", "Ͽ"); ("ΐ", "Ϊ́"); ("ά", "Ά"); ("έ", "Έ");
   ("ή", "Ή"); ("ί", "Ί"); ("ΰ", "Ϋ́"); ("α", "Α"); ("β", "Β"); ("γ", "Γ"); ("δ", "Δ");
   ("ε", "Ε"); ("ζ", "Ζ"); ("η", "Η"); ("θ", "Θ"); ("ι", "Ι"); ("κ", "Κ"); ("λ", "Λ");
   ("μ", "Μ"); ("ν", "Ν"); ("ξ", "Ξ"); ("ο", "Ο"); ("π", "Π"); ("ρ", "Ρ"); ("ς", "Σ");
   ("σ", "Σ"); ("τ", "Τ"); ("υ", "Υ"); ("φ", "Φ"); ("χ", "Χ"); ("ψ", "Ψ"); ("ω", "Ω");
   ("ϊ", "Ϊ"); ("ϋ", "Ϋ"); ("ό", "Ό"); ("ύ", "Ύ"); ("ώ", "Ώ"); ("ϐ", "Β"); ("ϑ", "Θ");
   ("ϕ", "Φ"); ("ϖ", "Π"); ("ϗ", "Ϗ"); ("ϙ", "Ϙ"); ("ϛ", "Ϛ"); ("ϝ", "Ϝ"); ("ϟ", "Ϟ");
   ("ϡ", "Ϡ"); ("ϣ", "Ϣ"); ("ϥ", "Ϥ"); ("ϧ", "Ϧ"); ("ϩ", "Ϩ"); ("ϫ", "Ϫ"); ("ϭ", "Ϭ");
   ("ϯ", "Ϯ"); ("ϰ", "Κ"); ("ϱ", "Ρ"); ("ϲ", "Ϲ"); ("ϳ", "Ϳ"); ("ϵ", "Ε"); ("ϸ", "Ϸ");
   ("ϻ", "Ϻ"); ("а", "А"); ("б", "Б"); ("в", "В"); ("г", "Г"); ("д", "Д"); ("е", "Е");
   ("ж", "Ж"); ("з", "З"); ("и", "И"); ("й", "Й"); ("к", "К"); ("л", "Л"); ("м", "М");
   ("н", "Н"); ("о", "О"); ("п", "П"); ("р", "Р"); ("с", "С"); ("т", "Т"); ("у", "У");
   ("ф", "Ф"); ("х", "Х"); ("ц", "Ц"); ("ч", "Ч"); ("ш", "Ш"); ("щ", "Щ"); ("ъ", "Ъ");
   ("ы", "Ы"); ("ь", "Ь"); ("э", "Э"); ("ю", "Ю"); ("я", "Я"); ("ѐ", "Ѐ"); ("ё", "Ё");
   ("ђ", "Ђ"); ("ѓ", "Ѓ"); ("є", "Є"); ("ѕ", "Ѕ"); ("і", "І"); ("ї", "Ї"); ("ј", "Ј");
   ("љ", "Љ"); ("њ", "Њ"); ("ћ", "Ћ"); ("ќ", "Ќ"); ("ѝ", "Ѝ"); ("ў", "Ў"); ("џ", "Џ");
   ("ѡ", "Ѡ"); ("ѣ", "Ѣ"); ("ѥ", "Ѥ"); ("ѧ", "Ѧ"); ("ѩ", "Ѩ"); ("ѫ", "Ѫ"); ("ѭ", "Ѭ");
   ("ѯ", "Ѯ"); ("ѱ", "Ѱ"); ("ѳ", "Ѳ"); ("ѵ", "Ѵ"); ("ѷ", "Ѷ"); ("ѹ", "Ѹ"); ("ѻ", "Ѻ");
   ("ѽ", "Ѽ"); ("ѿ", "Ѿ"); ("ҁ", "Ҁ"); ("ҋ", "Ҋ"); ("ҍ", "Ҍ"); ("ҏ", "Ҏ"); ("ґ", "Ґ");
   ("ғ", "Ғ"); ("ҕ", "Ҕ"); ("җ", "Җ"); ("ҙ", "Ҙ"); ("қ", "Қ"); ("ҝ", "Ҝ"); ("ҟ", "Ҟ");
   ("ҡ", "Ҡ"); ("ң", "Ң"); ("ҥ", "Ҥ"); ("ҧ", "Ҧ"); ("ҩ", "Ҩ"); ("ҫ", "Ҫ"); ("ҭ", "Ҭ");
   ("ү", "Ү"); ("ұ", "Ұ"); ("ҳ", "Ҳ"); ("ҵ", "Ҵ"); ("ҷ", "Ҷ"); ("ҹ", "Ҹ"); ("һ", "Һ");
   ("ҽ", "Ҽ"); ("ҿ", "Ҿ"); ("ӂ", "Ӂ"); ("ӄ", "Ӄ"); ("ӆ", "Ӆ"); ("ӈ", "Ӈ"); ("ӊ", "Ӊ");
   ("ӌ", "Ӌ"); ("ӎ", "Ӎ"); ("ӏ", "Ӏ"); ("ӑ", "Ӑ"); ("ӓ", "Ӓ"); ("ӕ", "Ӕ"); ("ӗ", "Ӗ");
   ("ә", "Ә"); ("ӛ", "Ӛ"); ("ӝ", "Ӝ"); ("ӟ", "Ӟ"); ("ӡ", "Ӡ"); ("ӣ", "Ӣ"); ("ӥ", "Ӥ");
   ("ӧ", "Ӧ"); ("ө", "Ө"); ("ӫ", "Ӫ"); ("ӭ", "Ӭ"); ("ӯ", "Ӯ"); ("ӱ", "Ӱ"); ("ӳ", "Ӳ");
   ("ӵ", "Ӵ"); ("ӷ", "Ӷ"); ("ӹ", "Ӹ"); ("ӻ", "Ӻ"); ("ӽ", "Ӽ"); ("ӿ", "Ӿ"); ("ԁ", "Ԁ");
   ("ԃ", "Ԃ"); ("ԅ", "Ԅ"); ("ԇ", "Ԇ"); ("ԉ", "Ԉ"); ("ԋ", "Ԋ"); ("ԍ", "Ԍ"); ("ԏ", "Ԏ");
   ("ԑ", "Ԑ"); ("ԓ", "Ԓ"); ("ԕ", "Ԕ"); ("ԗ", "Ԗ"); ("ԙ", "Ԙ"); ("ԛ", "Ԛ"); ("ԝ", "Ԝ");
   ("ԟ", "Ԟ"); ("ԡ", "Ԡ"); ("ԣ", "Ԣ"); ("ԥ", "Ԥ"); ("ԧ", "Ԧ"); ("ԩ", "Ԩ"); ("ԫ", "Ԫ");
   ("ԭ", "Ԭ"); ("ԯ", "Ԯ"); ("ա", "Ա"); ("բ", "Բ"); ("գ", "Գ"); ("դ", "Դ"); ("ե", "Ե");
   ("զ", "Զ"); ("է", "Է"); ("ը", "Ը"); ("թ", "Թ"); ("ժ", "Ժ"); ("ի", "Ի"); ("լ", "Լ");
   ("խ", "Խ"); ("ծ", "Ծ"); ("կ", "Կ"); ("հ", "Հ"); ("ձ", "Ձ"); ("ղ", "Ղ"); ("ճ", "Ճ");
   ("մ", "Մ"); ("յ", "Յ"); ("ն", "Ն"); ("շ", "Շ"); ("ո", "Ո"); ("չ", "Չ"); ("պ", "Պ");
   ("ջ", "Ջ"); ("ռ", "Ռ"); ("ս", "Ս"); ("վ", "Վ"); ("տ", "Տ"); ("ր", "Ր"); ("ց", "Ց");
   ("ւ", "Ւ"); ("փ", "Փ"); ("ք", "Ք"); ("օ", "Օ"); ("ֆ", "Ֆ"); ("և", "ԵՒ"); ("ა", "Ა");
   ("ბ", "Ბ"); ("გ", "Გ"); ("დ", "Დ"); ("ე", "Ე"); ("ვ", "Ვ"); ("ზ", "Ზ"); ("თ", "Თ");
   ("ი", "Ი"); ("კ", "Კ"); ("ლ", "Ლ"); ("მ", "Მ"); ("ნ", "Ნ"); ("ო", "Ო"); ("პ", "Პ");
   ("ჟ", "Ჟ"); ("რ", "Რ"); ("ს", "Ს"); ("ტ", "Ტ"); ("უ", "Უ"); ("ფ", "Ფ"); ("ქ", "Ქ");
   ("ღ", "Ღ"); ("ყ", "Ყ"); ("შ", "Შ"); ("ჩ", "Ჩ"); ("ც", "Ც"); ("ძ", "Ძ"); ("წ", "Წ");
   ("ჭ", "Ჭ"); ("ხ", "Ხ"); ("ჯ", "Ჯ"); ("ჰ", "Ჰ"); ("ჱ", "Ჱ"); ("ჲ", "Ჲ"); ("ჳ", "Ჳ");
   ("ჴ", "Ჴ"); ("ჵ", "Ჵ"); ("ჶ", "Ჶ"); ("ჷ", "Ჷ"); ("ჸ", "Ჸ"); ("ჹ", "Ჹ"); ("ჺ", "Ჺ");
   ("ჽ", "Ჽ"); ("ჾ", "Ჾ"); ("ჿ", "Ჿ"); ("ᏸ", "Ᏸ"); ("ᏹ", "Ᏹ"); ("ᏺ", "Ᏺ"); ("ᏻ", "Ᏻ");
   ("ᏼ", "Ᏼ"); ("ᏽ", "Ᏽ"); ("ᲀ", "В"); ("ᲁ", "Д"); ("ᲂ", "О"); ("ᲃ", "С"); ("ᲄ", "Т");
   ("ᲅ", "Т"); ("ᲆ", "Ъ"); ("ᲇ", "Ѣ"); ("ᲈ", "Ꙋ"); ("ᵹ", "Ᵹ"); ("ᵽ", "Ᵽ"); ("ᶎ", "Ᶎ");
   ("ḁ", "Ḁ"); ("ḃ", "Ḃ"); ("ḅ", "Ḅ"); ("ḇ", "Ḇ"); ("ḉ", "Ḉ"); ("ḋ", "Ḋ"); ("ḍ", "Ḍ");
   ("ḏ", "Ḏ"); ("ḑ", "Ḑ"); ("ḓ", "Ḓ"); ("ḕ", "Ḕ"); ("ḗ", "Ḗ"); ("ḙ", "Ḙ"); ("ḛ", "Ḛ");
   ("ḝ", "Ḝ"); ("ḟ", "Ḟ"); ("ḡ", "Ḡ"); ("ḣ", "Ḣ"); ("ḥ", "Ḥ"); ("ḧ", "Ḧ"); ("ḩ", "Ḩ");
   ("ḫ", "Ḫ"); ("ḭ", "Ḭ"); ("ḯ", "Ḯ"); ("ḱ", "Ḱ"); ("ḳ", "Ḳ"); ("ḵ", "Ḵ"); ("ḷ", "Ḷ");
   ("ḹ", "Ḹ"); ("ḻ", "Ḻ"); ("ḽ", "Ḽ"); ("ḿ", "Ḿ"); ("ṁ", "Ṁ"); ("ṃ", "Ṃ"); ("ṅ", "Ṅ");
   ("ṇ", "Ṇ"); ("ṉ", "Ṉ"); ("ṋ", "Ṋ"); ("ṍ", "Ṍ"); ("ṏ", "Ṏ"); ("ṑ", "Ṑ"); ("ṓ", "Ṓ");
   ("ṕ", "Ṕ"); ("ṗ", "Ṗ"); ("ṙ", "Ṙ"); ("ṛ", "Ṛ"); ("ṝ", "Ṝ"); ("ṟ", "Ṟ"); ("ṡ", "Ṡ");
   ("ṣ", "Ṣ"); ("ṥ", "Ṥ"); ("ṧ", "Ṧ"); ("ṩ", "Ṩ"); ("ṫ", "Ṫ"); ("ṭ", "Ṭ"); ("ṯ", "Ṯ");
   ("ṱ", "Ṱ"); ("ṳ", "Ṳ"); ("ṵ", "Ṵ"); ("ṷ", "Ṷ"); ("ṹ", "Ṹ"); ("ṻ", "Ṻ"); ("ṽ", "Ṽ");
   ("ṿ", "Ṿ"); ("ẁ", "Ẁ"); ("ẃ", "Ẃ"); ("ẅ", "Ẅ"); ("ẇ", "Ẇ"); ("ẉ", "Ẉ"); ("ẋ", "Ẋ");
   ("ẍ", "Ẍ"); ("ẏ", "Ẏ"); ("ẑ", "Ẑ"); ("ẓ", "Ẓ"); ("ẕ", "Ẕ"); ("ẖ", "H̱"); ("ẗ", "T̈");
   ("ẘ", "W̊"); ("ẙ", "Y̊"); ("ẚ", "Aʾ"); ("ẛ", "Ṡ"); ("ạ", "Ạ"); ("ả", "Ả"); ("ấ", "Ấ");
   ("ầ", "Ầ"); ("ẩ", "Ẩ"); ("ẫ", "Ẫ"); ("ậ", "Ậ"); ("ắ", "Ắ"); ("ằ", "Ằ"); ("ẳ", "Ẳ");
   ("ẵ", "Ẵ"); ("ặ", "Ặ"); ("ẹ", "Ẹ"); ("ẻ", "Ẻ"); ("ẽ", "Ẽ"); ("ế", "Ế"); ("ề", "Ề");
   ("ể", "Ể"); ("ễ", "Ễ"); ("ệ", "Ệ"); ("ỉ", "Ỉ"); ("ị", "Ị"); ("ọ", "Ọ"); ("ỏ", "Ỏ");
   ("ố", "Ố"); ("ồ", "Ồ"); ("ổ", "Ổ"); ("ỗ", "Ỗ"); ("ộ", "Ộ"); ("ớ", "Ớ"); ("ờ", "Ờ");
   ("ở", "Ở"); ("ỡ", "Ỡ"); ("ợ", "Ợ"); ("ụ", "Ụ"); ("ủ", "Ủ"); ("ứ", "Ứ"); ("ừ", "Ừ");
   ("ử", "Ử"); ("ữ", "Ữ"); ("ự", "Ự"); ("ỳ", "Ỳ"); ("ỵ", "Ỵ"); ("ỷ", "Ỷ"); ("ỹ", "Ỹ");
   ("ỻ", "Ỻ"); ("ỽ", "Ỽ"); ("ỿ", "Ỿ"); ("ἀ", "Ἀ"); ("ἁ", "Ἁ"); ("ἂ", "Ἂ"); ("ἃ", "Ἃ");
   ("ἄ", "Ἄ"); ("ἅ", "Ἅ"); ("ἆ", "Ἆ"); ("ἇ", "Ἇ"); ("ἐ", "Ἐ"); ("ἑ", "Ἑ"); ("ἒ", "Ἒ");
   ("ἓ", "Ἓ"); ("ἔ", "Ἔ"); ("ἕ", "Ἕ"); ("ἠ", "Ἠ"); ("ἡ", "Ἡ"); ("ἢ", "Ἢ"); ("ἣ", "Ἣ");
   ("ἤ", "Ἤ"); ("ἥ", "Ἥ"); ("ἦ", "Ἦ"); ("ἧ", "Ἧ"); ("ἰ", "Ἰ"); ("ἱ", "Ἱ"); ("ἲ", "Ἲ");
   ("ἳ", "Ἳ"); ("ἴ", "Ἴ"); ("ἵ", "Ἵ"); ("ἶ", "Ἶ"); ("ἷ", "Ἷ"); ("ὀ", "Ὀ"); ("ὁ", "Ὁ");
   ("ὂ", "Ὂ"); ("ὃ", "Ὃ"); ("ὄ", "Ὄ"); ("ὅ", "Ὅ"); ("ὐ", "Υ̓"); ("ὑ", "Ὑ"); ("ὒ", "Υ̓̀");
   ("ὓ", "Ὓ"); ("ὔ", "Υ̓́"); ("ὕ", "Ὕ"); ("ὖ", "Υ̓͂"); ("ὗ", "Ὗ"); ("ὠ", "Ὠ"); ("ὡ", "Ὡ");
   ("ὢ", "Ὢ"); ("ὣ", "Ὣ"); ("ὤ", "Ὤ"); ("ὥ", "Ὥ"); ("ὦ", "Ὦ"); ("ὧ", "Ὧ"); ("ὰ", "Ὰ");
   ("ά", "Ά"); ("ὲ", "Ὲ"); ("έ", "Έ"); ("ὴ", "Ὴ"); ("ή", "Ή"); ("ὶ", "Ὶ"); ("ί", "Ί");
   ("ὸ", "Ὸ"); ("ό", "Ό"); ("ὺ", "Ὺ"); ("ύ", "Ύ"); ("ὼ", "Ὼ"); ("ώ", "Ώ"); ("ᾀ", "ἈΙ");
   ("ᾁ", "ἉΙ"); ("ᾂ", "ἊΙ"); ("ᾃ", "ἋΙ"); ("ᾄ", "ἌΙ"); ("ᾅ", "ἍΙ"); ("ᾆ", "ἎΙ"); ("ᾇ", "ἏΙ");
   ("ᾈ", "ἈΙ"); ("ᾉ", "ἉΙ"); ("ᾊ", "ἊΙ"); ("ᾋ", "ἋΙ"); ("ᾌ", "ἌΙ"); ("ᾍ", "ἍΙ"); ("ᾎ", "ἎΙ");
   ("ᾏ", "ἏΙ"); ("ᾐ", "ἨΙ"); ("ᾑ", "ἩΙ"); ("ᾒ", "ἪΙ"); ("ᾓ", "ἫΙ"); ("ᾔ", "ἬΙ"); ("ᾕ", "ἭΙ");
   ("ᾖ", "ἮΙ"); ("ᾗ", "ἯΙ"); ("ᾘ", "ἨΙ"); ("ᾙ", "ἩΙ"); ("ᾚ", "ἪΙ"); ("ᾛ", "ἫΙ"); ("ᾜ", "ἬΙ");
   ("ᾝ", "ἭΙ"); ("ᾞ", "ἮΙ"); ("ᾟ", "ἯΙ"); ("ᾠ", "ὨΙ"); ("ᾡ", "ὩΙ"); ("ᾢ", "ὪΙ"); ("ᾣ", "ὫΙ");
   ("ᾤ", "ὬΙ"); ("ᾥ", "ὭΙ"); ("ᾦ", "ὮΙ"); ("ᾧ", "ὯΙ"); ("ᾨ", "ὨΙ"); ("ᾩ", "ὩΙ"); ("ᾪ", "ὪΙ");
   ("ᾫ", "ὫΙ"); ("ᾬ", "ὬΙ"); ("ᾭ", "ὭΙ"); ("ᾮ", "ὮΙ"); ("ᾯ", "ὯΙ"); ("ᾰ", "Ᾰ"); ("ᾱ", "Ᾱ");
   ("ᾲ", "ᾺΙ"); ("ᾳ", "ΑΙ"); ("ᾴ", "ΆΙ"); ("ᾶ", "Α͂"); ("ᾷ", "Α͂Ι"); ("ᾼ", "ΑΙ"); ("ι", "Ι");
   ("ῂ", "ῊΙ"); ("ῃ", "ΗΙ"); ("ῄ", "ΉΙ"); ("ῆ", "Η͂"); ("ῇ", "Η͂Ι"); ("ῌ", "ΗΙ"); ("ῐ", "Ῐ");
   ("ῑ", "Ῑ"); ("ῒ", "Ϊ̀"); ("ΐ", "Ϊ́"); ("ῖ", "Ι͂"); ("ῗ", "Ϊ͂"); ("ῠ", "Ῠ"); ("ῡ", "Ῡ");
   ("ῢ", "Ϋ̀"); ("ΰ", "Ϋ́"); ("ῤ", "Ρ̓"); ("ῥ", "Ῥ"); ("ῦ", "Υ͂"); ("ῧ", "Ϋ͂");
   ("ῲ", "ῺΙ"); ("ῳ", "ΩΙ"); ("ῴ", "ΏΙ"); ("ῶ", "Ω͂"); ("ῷ", "Ω͂Ι"); ("ῼ", "ΩΙ"); ("ⅎ", "Ⅎ");
   ("ⅰ", "Ⅰ"); ("ⅱ", "Ⅱ"); ("ⅲ", "Ⅲ"); ("ⅳ", "Ⅳ"); ("ⅴ", "Ⅴ"); ("ⅵ", "Ⅵ"); ("ⅶ", "Ⅶ");
   ("ⅷ", "Ⅷ"); ("ⅸ", "Ⅸ"); ("ⅹ", "Ⅹ"); ("ⅺ", "Ⅺ"); ("ⅻ", "Ⅻ"); ("ⅼ", "Ⅼ"); ("ⅽ", "Ⅽ");
   ("ⅾ", "Ⅾ"); ("ⅿ", "Ⅿ"); ("ↄ", "Ↄ"); ("ⓐ", "Ⓐ"); ("ⓑ", "Ⓑ"); ("ⓒ", "Ⓒ"); ("ⓓ", "Ⓓ");
   ("ⓔ", "Ⓔ"); ("ⓕ", "Ⓕ"); ("ⓖ", "Ⓖ"); ("ⓗ", "Ⓗ"); ("ⓘ", "Ⓘ"); ("ⓙ", "Ⓙ"); ("ⓚ", "Ⓚ");
   ("ⓛ", "Ⓛ"); ("ⓜ", "Ⓜ"); ("ⓝ", "Ⓝ"); ("ⓞ", "Ⓞ"); ("ⓟ", "Ⓟ"); ("ⓠ", "Ⓠ"); ("ⓡ", "Ⓡ");
   ("ⓢ", "Ⓢ"); ("ⓣ", "Ⓣ"); ("ⓤ", "Ⓤ"); ("ⓥ", "Ⓥ"); ("ⓦ", "Ⓦ"); ("ⓧ", "Ⓧ"); ("ⓨ", "Ⓨ");
   ("ⓩ", "Ⓩ"); ("ⰰ", "Ⰰ"); ("ⰱ", "Ⰱ"); ("ⰲ", "Ⰲ"); ("ⰳ", "Ⰳ"); ("ⰴ", "Ⰴ"); ("ⰵ", "Ⰵ");
   ("ⰶ", "Ⰶ"); ("ⰷ", "Ⰷ"); ("ⰸ", "Ⰸ"); ("ⰹ", "Ⰹ"); ("ⰺ", "Ⰺ"); ("ⰻ", "Ⰻ"); ("ⰼ", "Ⰼ");
   ("ⰽ", "Ⰽ"); ("ⰾ", "Ⰾ"); ("ⰿ", "Ⰿ"); ("ⱀ", "Ⱀ"); ("ⱁ", "Ⱁ"); ("ⱂ", "Ⱂ"); ("ⱃ", "Ⱃ");
   ("ⱄ", "Ⱄ"); ("ⱅ", "Ⱅ"); ("ⱆ", "Ⱆ"); ("ⱇ", "Ⱇ"); ("ⱈ", "Ⱈ"); ("ⱉ", "Ⱉ"); ("ⱊ", "Ⱊ");
   ("ⱋ", "Ⱋ"); ("ⱌ", "Ⱌ"); ("ⱍ", "Ⱍ"); ("ⱎ", "Ⱎ"); ("ⱏ", "Ⱏ"); ("ⱐ", "Ⱐ"); ("ⱑ", "Ⱑ");
   ("ⱒ", "Ⱒ"); ("ⱓ", "Ⱓ"); ("ⱔ", "Ⱔ"); ("ⱕ", "Ⱕ"); ("ⱖ", "Ⱖ"); ("ⱗ", "Ⱗ"); ("ⱘ", "Ⱘ");
   ("ⱙ", "Ⱙ"); ("ⱚ", "Ⱚ"); ("ⱛ", "Ⱛ"); ("ⱜ", "Ⱜ"); ("ⱝ", "Ⱝ"); ("ⱞ", "Ⱞ"); ("ⱟ", "Ⱟ");
   ("ⱡ", "Ⱡ"); ("ⱥ", "Ⱥ"); ("ⱦ", "Ⱦ"); ("ⱨ", "Ⱨ"); ("ⱪ", "Ⱪ"); ("ⱬ", "Ⱬ"); ("ⱳ", "Ⱳ");
   ("ⱶ", "Ⱶ"); ("ⲁ", "Ⲁ"); ("ⲃ", "Ⲃ"); ("ⲅ", "Ⲅ"); ("ⲇ", "Ⲇ"); ("ⲉ", "Ⲉ"); ("ⲋ", "Ⲋ");
   ("ⲍ", "Ⲍ"); ("ⲏ", "Ⲏ"); ("ⲑ", "Ⲑ"); ("ⲓ", "Ⲓ"); ("ⲕ", "Ⲕ"); ("ⲗ", "Ⲗ"); ("ⲙ", "Ⲙ");
   ("ⲛ", "Ⲛ"); ("ⲝ", "Ⲝ"); ("ⲟ", "Ⲟ"); ("ⲡ", "Ⲡ"); ("ⲣ", "Ⲣ"); ("ⲥ", "Ⲥ"); ("ⲧ", "Ⲧ");
   ("ⲩ", "Ⲩ"); ("ⲫ", "Ⲫ"); ("ⲭ", "Ⲭ"); ("ⲯ", "Ⲯ"); ("ⲱ", "Ⲱ"); ("ⲳ", "Ⲳ"); ("ⲵ", "Ⲵ");
   ("ⲷ", "Ⲷ"); ("ⲹ", "Ⲹ"); ("ⲻ", "Ⲻ"); ("ⲽ", "Ⲽ"); ("ⲿ", "Ⲿ"); ("ⳁ", "Ⳁ"); ("ⳃ", "Ⳃ");
   ("ⳅ", "Ⳅ"); ("ⳇ", "Ⳇ"); ("ⳉ", "Ⳉ"); ("ⳋ", "Ⳋ"); ("ⳍ", "Ⳍ"); ("ⳏ", "Ⳏ"); ("ⳑ", "Ⳑ");
   ("ⳓ", "Ⳓ"); ("ⳕ", "Ⳕ"); ("ⳗ", "Ⳗ"); ("ⳙ", "Ⳙ"); ("ⳛ", "Ⳛ"); ("ⳝ", "Ⳝ"); ("ⳟ", "Ⳟ");
   ("ⳡ", "Ⳡ"); ("ⳣ", "Ⳣ"); ("ⳬ", "Ⳬ"); ("ⳮ", "Ⳮ"); ("ⳳ", "Ⳳ"); ("ⴀ", "Ⴀ"); ("ⴁ", "Ⴁ");
   ("ⴂ", "Ⴂ"); ("ⴃ", "Ⴃ"); ("ⴄ", "Ⴄ"); ("ⴅ", "Ⴅ"); ("ⴆ", "Ⴆ"); ("ⴇ", "Ⴇ"); ("ⴈ", "Ⴈ");
   ("ⴉ", "Ⴉ"); ("ⴊ", "Ⴊ"); ("ⴋ", "Ⴋ"); ("ⴌ", "Ⴌ"); ("ⴍ", "Ⴍ"); ("ⴎ", "Ⴎ"); ("ⴏ", "Ⴏ");
   ("ⴐ", "Ⴐ"); ("ⴑ", "Ⴑ"); ("ⴒ", "Ⴒ"); ("ⴓ", "Ⴓ"); ("ⴔ", "Ⴔ"); ("ⴕ", "Ⴕ"); ("ⴖ", "Ⴖ");
   ("ⴗ", "Ⴗ"); ("ⴘ", "Ⴘ"); ("ⴙ", "Ⴙ"); ("ⴚ", "Ⴚ"); ("ⴛ", "Ⴛ"); ("ⴜ", "Ⴜ"); ("ⴝ", "Ⴝ");
   ("ⴞ", "Ⴞ"); ("ⴟ", "Ⴟ"); ("ⴠ", "Ⴠ"); ("ⴡ", "Ⴡ"); ("ⴢ", "Ⴢ"); ("ⴣ", "Ⴣ"); ("ⴤ", "Ⴤ");
   ("ⴥ", "Ⴥ"); ("ⴧ", "Ⴧ"); ("ⴭ", "Ⴭ"); ("ꙁ", "Ꙁ"); ("ꙃ", "Ꙃ"); ("ꙅ", "Ꙅ"); ("ꙇ", "Ꙇ");
   ("ꙉ", "Ꙉ"); ("ꙋ", "Ꙋ"); ("ꙍ", "Ꙍ"); ("ꙏ", "Ꙏ"); ("ꙑ", "Ꙑ"); ("ꙓ", "Ꙓ"); ("ꙕ", "Ꙕ");
   ("ꙗ", "Ꙗ"); ("ꙙ", "Ꙙ"); ("ꙛ", "Ꙛ"); ("ꙝ", "Ꙝ"); ("ꙟ", "Ꙟ"); ("ꙡ", "Ꙡ"); ("ꙣ", "Ꙣ");
   ("ꙥ", "Ꙥ"); ("ꙧ", "Ꙧ"); ("ꙩ", "Ꙩ"); ("ꙫ", "Ꙫ"); ("ꙭ", "Ꙭ"); ("ꚁ", "Ꚁ"); ("ꚃ", "Ꚃ");
   ("ꚅ", "Ꚅ"); ("ꚇ", "Ꚇ"); ("ꚉ", "Ꚉ"); ("ꚋ", "Ꚋ"); ("ꚍ", "Ꚍ"); ("ꚏ", "Ꚏ"); ("ꚑ", "Ꚑ");
   ("ꚓ", "Ꚓ"); ("ꚕ", "Ꚕ"); ("ꚗ", "Ꚗ"); ("ꚙ", "Ꚙ"); ("ꚛ", "Ꚛ"); ("ꜣ", "Ꜣ"); ("ꜥ", "Ꜥ");
   ("ꜧ", "Ꜧ"); ("ꜩ", "Ꜩ"); ("ꜫ", "Ꜫ"); ("ꜭ", "Ꜭ"); ("ꜯ", "Ꜯ"); ("ꜳ", "Ꜳ"); ("ꜵ", "Ꜵ");
   ("ꜷ", "Ꜷ"); ("ꜹ", "Ꜹ"); ("ꜻ", "Ꜻ"); ("ꜽ", "Ꜽ"); ("ꜿ", "Ꜿ"); ("ꝁ", "Ꝁ"); ("ꝃ", "Ꝃ");
   ("ꝅ", "Ꝅ"); ("ꝇ", "Ꝇ"); ("ꝉ", "Ꝉ"); ("ꝋ", "Ꝋ"); ("ꝍ", "Ꝍ"); ("ꝏ", "Ꝏ"); ("ꝑ", "Ꝑ");
   ("ꝓ", "Ꝓ"); ("ꝕ", "Ꝕ"); ("ꝗ", "Ꝗ"); ("ꝙ", "Ꝙ"); ("ꝛ", "Ꝛ"); ("ꝝ", "Ꝝ"); ("ꝟ", "Ꝟ");
   ("ꝡ", "Ꝡ"); ("ꝣ", "Ꝣ"); ("ꝥ", "Ꝥ"); ("ꝧ", "Ꝧ"); ("ꝩ", "Ꝩ"); ("ꝫ", "Ꝫ"); ("ꝭ", "Ꝭ");
   ("ꝯ", "Ꝯ"); ("ꝺ", "Ꝺ"); ("ꝼ", "Ꝼ"); ("ꝿ", "Ꝿ"); ("ꞁ", "Ꞁ"); ("ꞃ", "Ꞃ"); ("ꞅ", "Ꞅ");
   ("ꞇ", "Ꞇ"); ("ꞌ", "Ꞌ"); ("ꞑ", "Ꞑ"); ("ꞓ", "Ꞓ"); ("ꞔ", "Ꞔ"); ("ꞗ", "Ꞗ"); ("ꞙ", "Ꞙ");
   ("ꞛ", "Ꞛ"); ("ꞝ", "Ꞝ"); ("ꞟ", "Ꞟ"); ("ꞡ", "Ꞡ"); ("ꞣ", "Ꞣ"); ("ꞥ", "Ꞥ"); ("ꞧ", "Ꞧ");
   ("ꞩ", "Ꞩ"); ("ꞵ", "Ꞵ"); ("ꞷ", "Ꞷ"); ("ꞹ", "Ꞹ"); ("ꞻ", "Ꞻ"); ("ꞽ", "Ꞽ"); ("ꞿ", "Ꞿ");
   ("ꟁ", "Ꟁ"); ("ꟃ", "Ꟃ"); ("ꟈ", "Ꟈ"); ("ꟊ", "Ꟊ"); ("ꟑ", "Ꟑ"); ("ꟗ", "Ꟗ"); ("ꟙ", "Ꟙ");
   ("ꟶ", "Ꟶ"); ("ꭓ", "Ꭓ"); ("ꭰ", "Ꭰ"); ("ꭱ", "Ꭱ"); ("ꭲ", "Ꭲ"); ("ꭳ", "Ꭳ"); ("ꭴ", "Ꭴ");
   ("ꭵ", "Ꭵ"); ("ꭶ", "Ꭶ"); ("ꭷ", "Ꭷ"); ("ꭸ", "Ꭸ"); ("ꭹ", "Ꭹ"); ("ꭺ", "Ꭺ"); ("ꭻ", "Ꭻ");
   ("ꭼ", "Ꭼ"); ("ꭽ", "Ꭽ"); ("ꭾ", "Ꭾ"); ("ꭿ", "Ꭿ"); ("ꮀ", "Ꮀ"); ("ꮁ", "Ꮁ"); ("ꮂ", "Ꮂ");
   ("ꮃ", "Ꮃ"); ("ꮄ", "Ꮄ"); ("ꮅ", "Ꮅ"); ("ꮆ", "Ꮆ"); ("ꮇ", "Ꮇ"); ("ꮈ", "Ꮈ"); ("ꮉ", "Ꮉ");
   ("ꮊ", "Ꮊ"); ("ꮋ", "Ꮋ"); ("ꮌ", "Ꮌ"); ("ꮍ", "Ꮍ"); ("ꮎ", "Ꮎ"); ("ꮏ", "Ꮏ"); ("ꮐ", "Ꮐ");
   ("ꮑ", "Ꮑ"); ("ꮒ", "Ꮒ"); ("ꮓ", "Ꮓ"); ("ꮔ", "Ꮔ"); ("ꮕ", "Ꮕ"); ("ꮖ", "Ꮖ"); ("ꮗ", "Ꮗ");
   ("ꮘ", "Ꮘ"); ("ꮙ", "Ꮙ"); ("ꮚ", "Ꮚ"); ("ꮛ", "Ꮛ"); ("ꮜ", "Ꮜ"); ("ꮝ", "Ꮝ"); ("ꮞ", "Ꮞ");
   ("ꮟ", "Ꮟ"); ("ꮠ", "Ꮠ"); ("ꮡ", "Ꮡ"); ("ꮢ", "Ꮢ"); ("ꮣ", "Ꮣ"); ("ꮤ", "Ꮤ"); ("ꮥ", "Ꮥ");
   ("ꮦ", "Ꮦ"); ("ꮧ", "Ꮧ"); ("ꮨ", "Ꮨ"); ("ꮩ", "Ꮩ"); ("ꮪ", "Ꮪ"); ("ꮫ", "Ꮫ"); ("ꮬ", "Ꮬ");
   ("ꮭ", "Ꮭ"); ("ꮮ", "Ꮮ"); ("ꮯ", "Ꮯ"); ("ꮰ", "Ꮰ"); ("ꮱ", "Ꮱ"); ("ꮲ", "Ꮲ"); ("ꮳ", "Ꮳ");
   ("ꮴ", "Ꮴ"); ("ꮵ", "Ꮵ"); ("ꮶ", "Ꮶ"); ("ꮷ", "Ꮷ"); ("ꮸ", "Ꮸ"); ("ꮹ", "Ꮹ"); ("ꮺ", "Ꮺ");
   ("ꮻ", "Ꮻ"); ("ꮼ", "Ꮼ"); ("ꮽ", "Ꮽ"); ("ꮾ", "Ꮾ"); ("ꮿ", "Ꮿ"); ("ﬀ", "FF"); ("ﬁ", "FI");
   ("ﬂ", "FL"); ("ﬃ", "FFI"); ("ﬄ", "FFL"); ("ﬅ", "ST"); ("ﬆ", "ST"); ("ﬓ", "ՄՆ");
   ("ﬔ", "ՄԵ"); ("ﬕ", "ՄԻ"); ("ﬖ", "ՎՆ"); ("ﬗ", "ՄԽ"); ("ａ", "Ａ"); ("ｂ", "Ｂ"); ("ｃ", "Ｃ");
   ("ｄ", "Ｄ"); ("ｅ", "Ｅ"); ("ｆ", "Ｆ"); ("ｇ", "Ｇ"); ("ｈ", "Ｈ"); ("ｉ", "Ｉ"); ("ｊ", "Ｊ");
   ("ｋ", "Ｋ"); ("ｌ", "Ｌ"); ("ｍ", "Ｍ"); ("ｎ", "Ｎ"); ("ｏ", "Ｏ"); ("ｐ", "Ｐ"); ("ｑ", "Ｑ");
   ("ｒ", "Ｒ"); ("ｓ", "Ｓ"); ("ｔ", "Ｔ"); ("ｕ", "Ｕ"); ("ｖ", "Ｖ"); ("ｗ", "Ｗ"); ("ｘ", "Ｘ");
   ("ｙ", "Ｙ"); ("ｚ", "Ｚ"); ("𐐨", "𐐀"); ("𐐩", "𐐁"); ("𐐪", "𐐂"); ("𐐫", "𐐃"); ("𐐬", "𐐄");
   ("𐐭", "𐐅"); ("𐐮", "𐐆"); ("𐐯", "𐐇"); ("𐐰", "𐐈"); ("𐐱", "𐐉"); ("𐐲", "𐐊"); ("𐐳", "𐐋");
   ("𐐴", "𐐌"); ("𐐵", "𐐍"); ("𐐶", "𐐎"); ("𐐷", "𐐏"); ("𐐸", "𐐐"); ("𐐹", "𐐑"); ("𐐺", "𐐒");
   ("𐐻", "𐐓"); ("𐐼", "𐐔"); ("𐐽", "𐐕"); ("𐐾", "𐐖"); ("𐐿", "𐐗"); ("𐑀", "𐐘"); ("𐑁", "𐐙");
   ("𐑂", "𐐚"); ("𐑃", "𐐛"); ("𐑄", "𐐜"); ("𐑅", "𐐝"); ("𐑆", "𐐞"); ("𐑇", "𐐟"); ("𐑈", "𐐠");
   ("𐑉", "𐐡"); ("𐑊", "𐐢"); ("𐑋", "𐐣"); ("𐑌", "𐐤"); ("𐑍", "𐐥"); ("𐑎", "𐐦"); ("𐑏", "𐐧");
   ("𐓘", "𐒰"); ("𐓙", "𐒱"); ("𐓚", "𐒲"); ("𐓛", "𐒳"); ("𐓜", "𐒴"); ("𐓝", "𐒵"); ("𐓞", "𐒶");
   ("𐓟", "𐒷"); ("𐓠", "𐒸"); ("𐓡", "𐒹"); ("𐓢", "𐒺"); ("𐓣", "𐒻"); ("𐓤", "𐒼"); ("𐓥", "𐒽");
   ("𐓦", "𐒾"); ("𐓧", "𐒿"); ("𐓨", "𐓀"); ("𐓩", "𐓁"); ("𐓪", "𐓂"); ("𐓫", "𐓃"); ("𐓬", "𐓄");
   ("𐓭", "𐓅"); ("𐓮", "𐓆"); ("𐓯", "𐓇"); ("𐓰", "𐓈"); ("𐓱", "𐓉"); ("𐓲", "𐓊"); ("𐓳", "𐓋");
   ("𐓴", "𐓌"); ("𐓵", "𐓍"); ("𐓶", "𐓎"); ("𐓷", "𐓏"); ("𐓸", "𐓐"); ("𐓹", "𐓑"); ("𐓺", "𐓒");
   ("𐓻", "𐓓"); ("𐖗", "𐕰"); ("𐖘", "𐕱"); ("𐖙", "𐕲"); ("𐖚", "𐕳"); ("𐖛", "𐕴"); ("𐖜", "𐕵");
   ("𐖝", "𐕶"); ("𐖞", "𐕷"); ("𐖟", "𐕸"); ("𐖠", "𐕹"); ("𐖡", "𐕺"); ("𐖣", "𐕼"); ("𐖤", "𐕽");
   ("𐖥", "𐕾"); ("𐖦", "𐕿"); ("𐖧", "𐖀"); ("𐖨", "𐖁"); ("𐖩", "𐖂"); ("𐖪", "𐖃"); ("𐖫", "𐖄");
   ("𐖬", "𐖅"); ("𐖭", "𐖆"); ("𐖮", "𐖇"); ("𐖯", "𐖈"); ("𐖰", "𐖉"); ("𐖱", "𐖊"); ("𐖳", "𐖌");
   ("𐖴", "𐖍"); ("𐖵", "𐖎"); ("𐖶", "𐖏"); ("𐖷", "𐖐"); ("𐖸", "𐖑"); ("𐖹", "𐖒"); ("𐖻", "𐖔");
   ("𐖼", "𐖕"); ("𐳀", "𐲀"); ("𐳁", "𐲁"); ("𐳂", "𐲂"); ("𐳃", "𐲃"); ("𐳄", "𐲄"); ("𐳅", "𐲅");
   ("𐳆", "𐲆"); ("𐳇", "𐲇"); ("𐳈", "𐲈"); ("𐳉", "𐲉"); ("𐳊", "𐲊"); ("𐳋", "𐲋"); ("𐳌", "𐲌");
   ("𐳍", "𐲍"); ("𐳎", "𐲎"); ("𐳏", "𐲏"); ("𐳐", "𐲐"); ("𐳑", "𐲑"); ("𐳒", "𐲒"); ("𐳓", "𐲓");
   ("𐳔", "𐲔"); ("𐳕", "𐲕"); ("𐳖", "𐲖"); ("𐳗", "𐲗"); ("𐳘", "𐲘"); ("𐳙", "𐲙"); ("𐳚", "𐲚");
   ("𐳛", "𐲛"); ("𐳜", "𐲜"); ("𐳝", "𐲝"); ("𐳞", "𐲞"); ("𐳟", "𐲟"); ("𐳠", "𐲠"); ("𐳡", "𐲡");
   ("𐳢", "𐲢"); ("𐳣", "𐲣"); ("𐳤", "𐲤"); ("𐳥", "𐲥"); ("𐳦", "𐲦"); ("𐳧", "𐲧"); ("𐳨", "𐲨");
   ("𐳩", "𐲩"); ("𐳪", "𐲪"); ("𐳫", "𐲫"); ("𐳬", "𐲬"); ("𐳭", "𐲭"); ("𐳮", "𐲮"); ("𐳯", "𐲯");
   ("𐳰", "𐲰"); ("𐳱", "𐲱"); ("𐳲", "𐲲"); ("𑣀", "𑢠"); ("𑣁", "𑢡"); ("𑣂", "𑢢"); ("𑣃", "𑢣");
   ("𑣄", "𑢤"); ("𑣅", "𑢥"); ("𑣆", "𑢦"); ("𑣇", "𑢧"); ("𑣈", "𑢨"); ("𑣉", "𑢩"); ("𑣊", "𑢪");
   ("𑣋", "𑢫"); ("𑣌", "𑢬"); ("𑣍", "𑢭"); ("𑣎", "𑢮"); ("𑣏", "𑢯"); ("𑣐", "𑢰"); ("𑣑", "𑢱");
   ("𑣒", "𑢲"); ("𑣓", "𑢳"); ("𑣔", "𑢴"); ("𑣕", "𑢵"); ("𑣖", "𑢶"); ("𑣗", "𑢷"); ("𑣘", "𑢸");
   ("𑣙", "𑢹"); ("𑣚", "𑢺"); ("𑣛", "𑢻"); ("𑣜", "𑢼"); ("𑣝", "𑢽"); ("𑣞", "𑢾"); ("𑣟", "𑢿");
   ("𖹠", "𖹀"); ("𖹡", "𖹁"); ("𖹢", "𖹂"); ("𖹣", "𖹃"); ("𖹤", "𖹄"); ("𖹥", "𖹅"); ("𖹦", "𖹆");
   ("𖹧", "𖹇"); ("𖹨", "𖹈"); ("𖹩", "𖹉"); ("𖹪", "𖹊"); ("𖹫", "𖹋"); ("𖹬", "𖹌"); ("𖹭", "𖹍");
   ("𖹮", "𖹎"); ("𖹯", "𖹏"); ("𖹰", "𖹐"); ("𖹱", "𖹑"); ("𖹲", "𖹒"); ("𖹳", "𖹓"); ("𖹴", "𖹔");
   ("𖹵", "𖹕"); ("𖹶", "𖹖"); ("𖹷", "𖹗"); ("𖹸", "𖹘"); ("𖹹", "𖹙"); ("𖹺", "𖹚"); ("𖹻", "𖹛");
   ("𖹼", "𖹜"); ("𖹽", "𖹝"); ("𖹾", "𖹞"); ("𖹿", "𖹟"); ("𞤢", "𞤀"); ("𞤣", "𞤁"); ("𞤤", "𞤂");
   ("𞤥", "𞤃"); ("𞤦", "𞤄"); ("𞤧", "𞤅"); ("𞤨", "𞤆"); ("𞤩", "𞤇"); ("𞤪", "𞤈"); ("𞤫", "𞤉");
   ("𞤬", "𞤊"); ("𞤭", "𞤋"); ("𞤮", "𞤌"); ("𞤯", "𞤍"); ("𞤰", "𞤎"); ("𞤱", "𞤏"); ("𞤲", "𞤐");
   ("𞤳", "𞤑"); ("𞤴", "𞤒"); ("𞤵", "𞤓"); ("𞤶", "𞤔"); ("𞤷", "𞤕"); ("𞤸", "𞤖"); ("𞤹", "𞤗");
   ("𞤺", "𞤘"); ("𞤻", "𞤙"); ("𞤼", "𞤚"); ("𞤽", "𞤛"); ("𞤾", "𞤜"); ("𞤿", "𞤝"); ("𞥀", "𞤞");
   ("𞥁", "𞤟"); ("𞥂", "𞤠"); ("𞥃", "𞤡")].

(** [s.toUpperCase()].  An ASCII byte is raised when it is a small
    letter; a character of the table is replaced by its entry, [skip]
    counting the bytes of it still to be passed over; every other byte
    stays. *)
Fixpoint upper_go (skip : nat) (s : string) : string :=
  match s with
  | EmptyString => EmptyString
  | String c s' =>
      match skip with
      | S k => upper_go k s'
      | O =>
          if is_ascii c then String (upper_char c) (upper_go 0 s')
          else
            match find (fun kv => prefix (fst kv) s) upper_table with
            | Some (k, v) => (v ++ upper_go (String.length k - 1) s')%string
            | None => String c (upper_go 0 s')
            end
      end
  end.

Definition toUpperCase (s : string) : string := upper_go 0 s.

(** *** Lower case *)

Definition continuation (c : ascii) : bool :=
  let n := byte c in (128 <=? n)%nat && (n <? 192)%nat.

(** The six bits a continuation byte carries. *)
Definition low6 (c : ascii) : Z := (Z.of_nat (byte c) - 128)%Z.

(** The code point of the character at the head of [s], when [s] starts
    with a well-formed one. *)
Definition code_point (s : string) : option Z :=
  match s with
  | EmptyString => None
  | String a r =>
      let n := Z.of_nat (byte a) in
      if (n <? 128)%Z then Some n
      else if (n <? 192)%Z then None
      else if (n <? 224)%Z then
        match r with
        | String b _ =>
            if continuation b then Some ((n - 192) * 64 + low6 b)%Z else None
        | _ => None
        end
      else if (n <? 240)%Z then
        match r with
        | String b (String c _) =>
            if continuation b && continuation c
            then Some (((n - 224) * 64 + low6 b) * 64 + low6 c)%Z else None
        | _ => None
        end
      else
        match r with
        | String b (String c (String d _)) =>
            if continuation b && continuation c && continuation d
            then Some ((((n - 240) * 64 + low6 b) * 64 + low6 c) * 64 + low6 d)%Z
            else None
        | _ => None
        end
  end.

Definition in_ranges (t : list (Z * Z)) (n : Z) : bool :=
  existsb (fun r => (fst r <=? n)%Z && (n <=? snd r)%Z) t.

(** The two classes of characters that decide the form of a small sigma
    (Unicode 14.0): the case-ignorable ones, and the cased ones that are
    not case-ignorable, as ranges of code points. *)
Definition case_ignorable : list (Z * Z) :=
  [(39, 39); (46, 46); (58, 58); (94, 94); (96, 96); (168, 168); (173, 173); (175, 175);
   (180, 180); (183, 184); (688, 879); (884, 885); (890, 890); (900, 901); (903, 903);
   (1155, 1161); (1369, 1369); (1375, 1375); (1425, 1469); (1471, 1471); (1473, 1474);
   (1476, 1477); (1479, 1479); (1524, 1524); (1536, 1541); (1552, 1562); (1564, 1564);
   (1600, 1600); (1611, 1631); (1648, 1648); (1750, 1757); (1759, 1768); (1770, 1773);
   (1807, 1807); (1809, 1809); (1840, 1866); (1958, 1968); (2027, 2037); (2042, 2042);
   (2045, 2045); (2070, 2093); (2137, 2139); (2184, 2184); (2192, 2193); (2200, 2207);
   (2249, 2306); (2362, 2362); (2364, 2364); (2369, 2376); (2381, 2381); (2385, 2391);
   (2402, 2403); (2417, 2417); (2433, 2433); (2492, 2492); (2497, 2500); (2509, 2509);
   (2530, 2531); (2558, 2558); (2561, 2562); (2620, 2620); (2625, 2626); (2631, 2632);
   (2635, 2637); (2641, 2641); (2672, 2673); (2677, 2677); (2689, 2690); (2748, 2748);
   (2753, 2757); (2759, 2760); (2765, 2765); (2786, 2787); (2810, 2815); (2817, 2817);
   (2876, 2876); (2879, 2879); (2881, 2884); (2893, 2893); (2901, 2902); (2914, 2915);
   (2946, 2946); (3008, 3008); (3021, 3021); (3072, 3072); (3076, 3076); (3132, 3132);
   (3134, 3136); (3142, 3144); (3146, 3149); (3157, 3158); (3170, 3171); (3201, 3201);
   (3260, 3260); (3263, 3263); (3270, 3270); (3276, 3277); (3298, 3299); (3328, 3329);
   (3387, 3388); (3393, 3396); (3405, 3405); (3426, 3427); (3457, 3457); (3530, 3530);
   (3538, 3540); (3542, 3542); (3633, 3633); (3636, 3642); (3654, 3662); (3761, 3761);
   (3764, 3772); (3782, 3782); (3784, 3789); (3864, 3865); (3893, 3893); (3895, 3895);
   (3897, 3897); (3953, 3966); (3968, 3972); (3974, 3975); (3981, 3991); (3993, 4028);
   (4038, 4038); (4141, 4144); (4146, 4151); (4153, 4154); (4157, 4158); (4184, 4185);
   (4190, 4192); (4209, 4212); (4226, 4226); (4229, 4230); (4237, 4237); (4253, 4253);
   (4348, 4348); (4957, 4959); (5906, 5908); (5938, 5939); (5970, 5971); (6002, 6003);
   (6068, 6069); (6071, 6077); (6086, 6086); (6089, 6099); (6103, 6103); (6109, 6109);
   (6155, 6159); (6211, 6211); (6277, 6278); (6313, 6313); (6432, 6434); (6439, 6440);
   (6450, 6450); (6457, 6459); (6679, 6680); (6683, 6683); (6742, 6742); (6744, 6750);
   (6752, 6752); (6754, 6754); (6757, 6764); (6771, 6780); (6783, 6783); (6823, 6823);
   (6832, 6862); (6912, 6915); (6964, 6964); (6966, 6970); (6972, 6972); (6978, 6978);
   (7019, 7027); (7040, 7041); (7074, 7077); (7080, 7081); (7083, 7085); (7142, 7142);
   (7144, 7145); (7149, 7149); (7151, 7153); (7212, 7219); (7222, 7223); (7288, 7293);
   (7376, 7378); (7380, 7392); (7394, 7400); (7405, 7405); (7412, 7412); (7416, 7417);
   (7468, 7530); (7544, 7544); (7579, 7679); (8125, 8125); (8127, 8129); (8141, 8143);
   (8157, 8159); (8173, 8175); (8189, 8190); (8203, 8207); (8216, 8217); (8228, 8228);
   (8231, 8231); (8234, 8238); (8288, 8292); (8294, 8303); (8305, 8305); (8319, 8319);
   (8336, 8348); (8400, 8432); (11388, 11389); (11503, 11505); (11631, 11631); (11647, 11647);
   (11744, 11775); (11823, 11823); (12293, 12293); (12330, 12333); (12337, 12341);
   (12347, 12347); (12441, 12446); (12540, 12542); (40981, 40981); (42232, 42237);
   (42508, 42508); (42607, 42610); (42612, 42621); (42623, 42623); (42652, 42655);
   (42736, 42737); (42752, 42785); (42864, 42864); (42888, 42890); (42994, 42996);
   (43000, 43001); (43010, 43010); (43014, 43014); (43019, 43019); (43045, 43046);
   (43052, 43052); (43204, 43205); (43232, 43249); (43263, 43263); (43302, 43309);
   (43335, 43345); (43392, 43394); (43443, 43443); (43446, 43449); (43452, 43453);
   (43471, 43471); (43493, 43494); (43561, 43566); (43569, 43570); (43573, 43574);
   (43587, 43587); (43596, 43596); (43632, 43632); (43644, 43644); (43696, 43696);
   (43698, 43700); (43703, 43704); (43710, 43711); (43713, 43713); (43741, 43741);
   (43756, 43757); (43763, 43764); (43766, 43766); (43867, 43871); (43881, 43883);
   (44005, 44005); (44008, 44008); (44013, 44013); (64286, 64286); (64434, 64450);
   (65024, 65039); (65043, 65043); (65056, 65071); (65106, 65106); (65109, 65109);
   (65279, 65279); (65287, 65287); (65294, 65294); (65306, 65306); (65342, 65342);
   (65344, 65344); (65392, 65392); (65438, 65439); (65507, 65507); (65529, 65531);
   (66045, 66045); (66272, 66272); (66422, 66426); (67456, 67461); (67463, 67504);
   (67506, 67514); (68097, 68099); (68101, 68102); (68108, 68111); (68152, 68154);
   (68159, 68159); (68325, 68326); (68900, 68903); (69291, 69292); (69446, 69456);
   (69506, 69509); (69633, 69633); (69688, 69702); (69744, 69744); (69747, 69748);
   (69759, 69761); (69811, 69814); (69817, 69818); (69821, 69821); (69826, 69826);
   (69837, 69837); (69888, 69890); (69927, 69931); (69933, 69940); (70003, 70003);
   (70016, 70017); (70070, 70078); (70089, 70092); (70095, 70095); (70191, 70193);
   (70196, 70196); (70198, 70199); (70206, 70206); (70367, 70367); (70371, 70378);
   (70400, 70401); (70459, 70460); (70464, 70464); (70502, 70508); (70512, 70516);
   (70712, 70719); (70722, 70724); (70726, 70726); (70750, 70750); (70835, 70840);
   (70842, 70842); (70847, 70848); (70850, 70851); (71090, 71093); (71100, 71101);
   (71103, 71104); (71132, 71133); (71219, 71226); (71229, 71229); (71231, 71232);
   (71339, 71339); (71341, 71341); (71344, 71349); (71351, 71351); (71453, 71455);
   (71458, 71461); (71463, 71467); (71727, 71735); (71737, 71738); (71995, 71996);
   (71998, 71998); (72003, 72003); (72148, 72151); (72154, 72155); (72160, 72160);
   (72193, 72202); (72243, 72248); (72251, 72254); (72263, 72263); (72273, 72278);
   (72281, 72283); (72330, 72342); (72344, 72345); (72752, 72758); (72760, 72765);
   (72767, 72767); (72850, 72871); (72874, 72880); (72882, 72883); (72885, 72886);
   (73009, 73014); (73018, 73018); (73020, 73021); (73023, 73029); (73031, 73031);
   (73104, 73105); (73109, 73109); (73111, 73111); (73459, 73460); (78896, 78904);
   (92912, 92916); (92976, 92982); (92992, 92995); (94031, 94031); (94095, 94111);
   (94176, 94177); (94179, 94180); (110576, 110579); (110581, 110587); (110589, 110590);
   (113821, 113822); (113824, 113827); (118528, 118573); (118576, 118598); (119143, 119145);
   (119155, 119170); (119173, 119179); (119210, 119213); (119362, 119364); (121344, 121398);
   (121403, 121452); (121461, 121461); (121476, 121476); (121499, 121503); (121505, 121519);
   (122880, 122886); (122888, 122904); (122907, 122913); (122915, 122916); (122918, 122922);
   (123184, 123197); (123566, 123566); (123628, 123631); (125136, 125142); (125252, 125259);
   (127995, 127999); (917505, 917505); (917536, 917631); (917760, 917999)]%Z.

Definition cased : list (Z * Z) :=
  [(65, 90); (97, 122); (170, 170); (181, 181); (186, 186); (192, 214); (216, 246);
   (248, 442); (444, 447); (452, 659); (661, 687); (880, 883); (886, 887); (891, 893);
   (895, 895); (902, 902); (904, 906); (908, 908); (910, 929); (931, 1013); (1015, 1153);
   (1162, 1327); (1329, 1366); (1376, 1416); (4256, 4293); (4295, 4295); (4301, 4301);
   (4304, 4346); (4349, 4351); (5024, 5109); (5112, 5117); (7296, 7304); (7312, 7354);
   (7357, 7359); (7424, 7467); (7531, 7543); (7545, 7578); (7680, 7957); (7960, 7965);
   (7968, 8005); (8008, 8013); (8016, 8023); (8025, 8025); (8027, 8027); (8029, 8029);
   (8031, 8061); (8064, 8116); (8118, 8124); (8126, 8126); (8130, 8132); (8134, 8140);
   (8144, 8147); (8150, 8155); (8160, 8172); (8178, 8180); (8182, 8188); (8450, 8450);
   (8455, 8455); (8458, 8467); (8469, 8469); (8473, 8477); (8484, 8484); (8486, 8486);
   (8488, 8488); (8490, 8493); (8495, 8500); (8505, 8505); (8508, 8511); (8517, 8521);
   (8526, 8526); (8544, 8575); (8579, 8580); (9398, 9449); (11264, 11387); (11390, 11492);
   (11499, 11502); (11506, 11507); (11520, 11557); (11559, 11559); (11565, 11565);
   (42560, 42605); (42624, 42651); (42786, 42863); (42865, 42887); (42891, 42894);
   (42896, 42954); (42960, 42961); (42963, 42963); (42965, 42969); (42997, 42998);
   (43002, 43002); (43824, 43866); (43872, 43880); (43888, 43967); (64256, 64262);
   (64275, 64279); (65313, 65338); (65345, 65370); (66560, 66639); (66736, 66771);
   (66776, 66811); (66928, 66938); (66940, 66954); (66956, 66962); (66964, 66965);
   (66967, 66977); (66979, 66993); (66995, 67001); (67003, 67004); (68736, 68786);
   (68800, 68850); (71840, 71903); (93760, 93823); (119808, 119892); (119894, 119964);
   (119966, 119967); (119970, 119970); (119973, 119974); (119977, 119980); (119982, 119993);
   (119995, 119995); (119997, 120003); (120005, 120069); (120071, 120074); (120077, 120084);
   (120086, 120092); (120094, 120121); (120123, 120126); (120128, 120132); (120134, 120134);
   (120138, 120144); (120146, 120485); (120488, 120512); (120514, 120538); (120540, 120570);
   (120572, 120596); (120598, 120628); (120630, 120654); (120656, 120686); (120688, 120712);
   (120714, 120744); (120746, 120770); (120772, 120779); (122624, 122633); (122635, 122654);
   (125184, 125251); (127280, 127305); (127312, 127337); (127344, 127369)]%Z.

(** The characters beyond ASCII that [toLowerCase] changes whatever
    stands around them, each with what it becomes (Unicode 14.0). *)
Definition lower_table : list (string * string) :=
  [("À", "à"); ("Á", "á"); ("Â", "â"); ("Ã", "ã"); ("Ä", "ä"); ("Å", "å"); ("Æ", "æ");
   ("Ç", "ç"); ("È", "è"); ("É", "é"); ("Ê", "ê"); ("Ë", "ë"); ("Ì", "ì"); ("Í", "í");
   ("Î", "î"); ("Ï", "ï"); ("Ð", "ð"); ("Ñ", "ñ"); ("Ò", "ò"); ("Ó", "ó"); ("Ô", "ô");
   ("Õ", "õ"); ("Ö", "ö"); ("Ø", "ø"); ("Ù", "ù"); ("Ú", "ú"); ("Û", "û"); ("Ü", "ü");
   ("Ý", "ý"); ("Þ", "þ"); ("Ā", "ā"); ("Ă", "ă"); ("Ą", "ą"); ("Ć", "ć"); ("Ĉ", "ĉ");
   ("Ċ", "ċ"); ("Č", "č"); ("Ď", "ď"); ("Đ", "đ"); ("Ē", "ē"); ("Ĕ", "ĕ"); ("Ė", "ė");
   ("Ę", "ę"); ("Ě", "ě"); ("Ĝ", "ĝ"); ("Ğ", "ğ"); ("Ġ", "ġ"); ("Ģ", "ģ"); ("Ĥ", "ĥ");
   ("Ħ", "ħ"); ("Ĩ", "ĩ"); ("Ī", "ī"); ("Ĭ", "ĭ"); ("Į", "į"); ("İ", "i̇"); ("Ĳ", "ĳ");
   ("Ĵ", "ĵ"); ("Ķ", "ķ"); ("Ĺ", "ĺ"); ("Ļ", "ļ"); ("Ľ", "ľ"); ("Ŀ", "ŀ"); ("Ł", "ł");
   ("Ń", "ń"); ("Ņ", "ņ"); ("Ň", "ň"); ("Ŋ", "ŋ"); ("Ō", "ō"); ("Ŏ", "ŏ"); ("Ő", "ő");
   ("Œ", "œ"); ("Ŕ", "ŕ"); ("Ŗ", "ŗ"); ("Ř", "ř"); ("Ś", "ś"); ("Ŝ", "ŝ"); ("Ş", "ş");
   ("Š", "š"); ("Ţ", "ţ"); ("Ť", "ť"); ("Ŧ", "ŧ"); ("Ũ", "ũ"); ("Ū", "ū"); ("Ŭ", "ŭ");
   ("Ů", "ů"); ("Ű", "ű"); ("Ų", "ų"); ("Ŵ", "ŵ"); ("Ŷ", "ŷ"); ("Ÿ", "ÿ"); ("Ź", "ź");
   ("Ż", "ż"); ("Ž", "ž"); ("Ɓ", "ɓ"); ("Ƃ", "ƃ"); ("Ƅ", "ƅ"); ("Ɔ", "ɔ"); ("Ƈ", "ƈ");
   ("Ɖ", "ɖ"); ("Ɗ", "ɗ"); ("Ƌ", "ƌ"); ("Ǝ", "ǝ"); ("Ə", "ə"); ("Ɛ", "ɛ"); ("Ƒ", "ƒ");
   ("Ɠ", "ɠ"); ("Ɣ", "ɣ"); ("Ɩ", "ɩ"); ("Ɨ", "ɨ"); ("Ƙ", "ƙ"); ("Ɯ", "ɯ"); ("Ɲ", "ɲ");
   ("Ɵ", "ɵ"); ("Ơ", "ơ"); ("Ƣ", "ƣ"); ("Ƥ", "ƥ"); ("Ʀ", "ʀ"); ("Ƨ", "ƨ"); ("Ʃ", "ʃ");
   ("Ƭ", "ƭ"); ("Ʈ", "ʈ"); ("Ư", "ư"); ("Ʊ", "ʊ"); ("Ʋ", "ʋ"); ("Ƴ", "ƴ"); ("Ƶ", "ƶ");
   ("Ʒ", "ʒ"); ("Ƹ", "ƹ"); ("Ƽ", "ƽ"); ("Ǆ", "ǆ"); ("ǅ", "ǆ"); ("Ǉ", "ǉ"); ("ǈ", "ǉ");
   ("Ǌ", "ǌ"); ("ǋ", "ǌ"); ("Ǎ", "ǎ"); ("Ǐ", "ǐ"); ("Ǒ", "ǒ"); ("Ǔ", "ǔ"); ("Ǖ", "ǖ");
   ("Ǘ", "ǘ"); ("Ǚ", "ǚ"); ("Ǜ", "ǜ"); ("Ǟ", "ǟ"); ("Ǡ", "ǡ"); ("Ǣ", "ǣ"); ("Ǥ", "ǥ");
   ("Ǧ", "ǧ"); ("Ǩ", "ǩ"); ("Ǫ", "ǫ"); ("Ǭ", "ǭ"); ("Ǯ", "ǯ"); ("Ǳ", "ǳ"); ("ǲ", "ǳ");
   ("Ǵ", "ǵ"); ("Ƕ", "ƕ"); ("Ƿ", "ƿ"); ("Ǹ", "ǹ"); ("Ǻ", "ǻ"); ("Ǽ", "ǽ"); ("Ǿ", "ǿ");
   ("Ȁ", "ȁ"); ("Ȃ", "ȃ"); ("Ȅ", "ȅ"); ("Ȇ", "ȇ"); ("Ȉ", "ȉ"); ("Ȋ", "ȋ"); ("Ȍ", "ȍ");
   ("Ȏ", "ȏ"); ("Ȑ", "ȑ"); ("Ȓ", "ȓ"); ("Ȕ", "ȕ"); ("Ȗ", "ȗ"); ("Ș", "ș"); ("Ț", "ț");
   ("Ȝ", "ȝ"); ("Ȟ", "ȟ"); ("Ƞ", "ƞ"); ("Ȣ", "ȣ"); ("Ȥ", "ȥ"); ("Ȧ", "ȧ"); ("Ȩ", "ȩ");
   ("Ȫ", "ȫ"); ("Ȭ", "ȭ"); ("Ȯ", "ȯ"); ("Ȱ", "ȱ"); ("Ȳ", "ȳ"); ("Ⱥ", "ⱥ"); ("Ȼ", "ȼ");
   ("Ƚ", "ƚ"); ("Ⱦ", "ⱦ"); ("Ɂ", "ɂ"); ("Ƀ", "ƀ"); ("Ʉ", "ʉ"); ("Ʌ", "ʌ"); ("Ɇ", "ɇ");
   ("Ɉ", "ɉ"); ("Ɋ", "ɋ"); ("Ɍ", "ɍ"); ("Ɏ", "ɏ"); ("Ͱ", "ͱ"); ("Ͳ", "ͳ"); ("Ͷ", "ͷ");
   ("Ϳ", "ϳ"); ("Ά", "ά"); ("Έ", "έ"); ("Ή", "ή"); ("Ί", "ί"); ("Ό", "ό"); ("Ύ", "ύ");
   ("Ώ", "ώ"); ("Α", "α"); ("Β", "β"); ("Γ", "γ"); ("Δ", "δ"); ("Ε", "ε"); ("Ζ", "ζ");
   ("Η", "η"); ("Θ", "θ"); ("Ι", "ι"); ("Κ", "κ"); ("Λ", "λ"); ("Μ", "μ"); ("Ν", "ν");
   ("Ξ", "ξ"); ("Ο", "ο"); ("Π", "π"); ("Ρ", "ρ"); ("Τ", "τ"); ("Υ", "υ"); ("Φ", "φ");
   ("Χ", "χ"); ("Ψ", "ψ"); ("Ω", "ω"); ("Ϊ", "ϊ"); ("Ϋ", "ϋ"); ("Ϗ", "ϗ"); ("Ϙ", "ϙ");
   ("Ϛ", "ϛ"); ("Ϝ", "ϝ"); ("Ϟ", "ϟ"); ("Ϡ", "ϡ"); ("Ϣ", "ϣ"); ("Ϥ", "ϥ"); ("Ϧ", "ϧ");
   ("Ϩ", "ϩ"); ("Ϫ", "ϫ"); ("Ϭ", "ϭ"); ("Ϯ", "ϯ"); ("ϴ", "θ"); ("Ϸ", "ϸ"); ("Ϲ", "ϲ");
   ("Ϻ", "ϻ"); ("Ͻ", "ͻ"); ("Ͼ", "ͼ"); ("Ͽ", "ͽ"); ("Ѐ", "ѐ"); ("Ё", "ё"); ("Ђ", "ђ");
   ("Ѓ", "ѓ"); ("Є", "є"); ("Ѕ", "ѕ"); ("І", "і"); ("Ї", "ї"); ("Ј", "ј"); ("Љ", "љ");
   ("Њ", "њ"); ("Ћ", "ћ"); ("Ќ", "ќ"); ("Ѝ", "ѝ"); ("Ў", "ў"); ("Џ", "џ"); ("А", "а");
   ("Б", "б"); ("В", "в"); ("Г", "г"); ("Д", "д"); ("Е", "е"); ("Ж", "ж"); ("З", "з");
   ("И", "и"); ("Й", "й"); ("К", "к"); ("Л", "л"); ("М", "м"); ("Н", "н"); ("О", "о");
   ("П", "п"); ("Р", "р"); ("С", "с"); ("Т", "т"); ("У", "у"); ("Ф", "ф"); ("Х", "х");
   ("Ц", "ц"); ("Ч", "ч"); ("Ш", "ш"); ("Щ", "щ"); ("Ъ", "ъ"); ("Ы", "ы"); ("Ь", "ь");
   ("Э", "э"); ("Ю", "ю"); ("Я", "я"); ("Ѡ", "ѡ"); ("Ѣ", "ѣ"); ("Ѥ", "ѥ"); ("Ѧ", "ѧ");
   ("Ѩ", "ѩ"); ("Ѫ", "ѫ"); ("Ѭ", "ѭ"); ("Ѯ", "ѯ"); ("Ѱ", "ѱ"); ("Ѳ", "ѳ"); ("Ѵ", "ѵ");
   ("Ѷ", "ѷ"); ("Ѹ", "ѹ"); ("Ѻ", "ѻ"); ("Ѽ", "ѽ"); ("Ѿ", "ѿ"); ("Ҁ", "ҁ"); ("Ҋ", "ҋ");
   ("Ҍ", "ҍ"); ("Ҏ", "ҏ"); ("Ґ", "ґ"); ("Ғ", "ғ"); ("Ҕ", "ҕ"); ("Җ", "җ"); ("Ҙ", "ҙ");
   ("Қ", "қ"); ("Ҝ", "ҝ"); ("Ҟ", "ҟ"); ("Ҡ", "ҡ"); ("Ң", "ң"); ("Ҥ", "ҥ"); ("Ҧ", "ҧ");
   ("Ҩ", "ҩ"); ("Ҫ", "ҫ"); ("Ҭ", "ҭ"); ("Ү", "ү"); ("Ұ", "ұ"); ("Ҳ", "ҳ"); ("Ҵ", "ҵ");
   ("Ҷ", "ҷ"); ("Ҹ", "ҹ"); ("Һ", "һ"); ("Ҽ", "ҽ"); ("Ҿ", "ҿ"); ("Ӏ", "ӏ"); ("Ӂ", "ӂ");
   ("Ӄ", "ӄ"); ("Ӆ", "ӆ"); ("Ӈ", "ӈ"); ("Ӊ", "ӊ"); ("Ӌ", "ӌ"); ("Ӎ", "ӎ"); ("Ӑ", "ӑ");
   ("Ӓ", "ӓ"); ("Ӕ", "ӕ"); ("Ӗ", "ӗ"); ("Ә", "ә"); ("Ӛ", "ӛ"); ("Ӝ", "ӝ"); ("Ӟ", "ӟ");
   ("Ӡ", "ӡ"); ("Ӣ", "ӣ"); ("Ӥ", "ӥ"); ("Ӧ", "ӧ"); ("Ө", "ө"); ("Ӫ", "ӫ"); ("Ӭ", "ӭ");
   ("Ӯ", "ӯ"); ("Ӱ", "ӱ"); ("Ӳ", "ӳ"); ("Ӵ", "ӵ"); ("Ӷ", "ӷ"); ("Ӹ", "ӹ"); ("Ӻ", "ӻ");
   ("Ӽ", "ӽ"); ("Ӿ", "ӿ"); ("Ԁ", "ԁ"); ("Ԃ", "ԃ"); ("Ԅ", "ԅ"); ("Ԇ", "ԇ"); ("Ԉ", "ԉ");
   ("Ԋ", "ԋ"); ("Ԍ", "ԍ"); ("Ԏ", "ԏ"); ("Ԑ", "ԑ"); ("Ԓ", "ԓ"); ("Ԕ", "ԕ"); ("Ԗ", "ԗ");
   ("Ԙ", "ԙ"); ("Ԛ", "ԛ"); ("Ԝ", "ԝ"); ("Ԟ", "ԟ"); ("Ԡ", "ԡ"); ("Ԣ", "ԣ"); ("Ԥ", "ԥ");
   ("Ԧ", "ԧ"); ("Ԩ", "ԩ"); ("Ԫ", "ԫ"); ("Ԭ", "ԭ"); ("Ԯ", "ԯ"); ("Ա", "ա"); ("Բ", "բ");
   ("Գ", "գ"); ("Դ", "դ"); ("Ե", "ե"); ("Զ", "զ"); ("Է", "է"); ("Ը", "ը"); ("Թ", "թ");
   ("Ժ", "ժ"); ("Ի", "ի"); ("Լ", "լ"); ("Խ", "խ"); ("Ծ", "ծ"); ("Կ", "կ"); ("Հ", "հ");
   ("Ձ", "ձ"); ("Ղ", "ղ"); ("Ճ", "ճ"); ("Մ", "մ"); ("Յ", "յ"); ("Ն", "ն"); ("Շ", "շ");
   ("Ո", "ո"); ("Չ", "չ"); ("Պ", "պ"); ("Ջ", "ջ"); ("Ռ", "ռ"); ("Ս", "ս"); ("Վ", "վ");
   ("Տ", "տ"); ("Ր", "ր"); ("Ց", "ց"); ("Ւ", "ւ"); ("Փ", "փ"); ("Ք", "ք"); ("Օ", "օ");
   ("Ֆ", "ֆ"); ("Ⴀ", "ⴀ"); ("Ⴁ", "ⴁ"); ("Ⴂ", "ⴂ"); ("Ⴃ", "ⴃ"); ("Ⴄ", "ⴄ"); ("Ⴅ", "ⴅ");
   ("Ⴆ", "ⴆ"); ("Ⴇ", "ⴇ"); ("Ⴈ", "ⴈ"); ("Ⴉ", "ⴉ"); ("Ⴊ", "ⴊ"); ("Ⴋ", "ⴋ"); ("Ⴌ", "ⴌ");
   ("Ⴍ", "ⴍ"); ("Ⴎ", "ⴎ"); ("Ⴏ", "ⴏ"); ("Ⴐ", "ⴐ"); ("Ⴑ", "ⴑ"); ("Ⴒ", "ⴒ"); ("Ⴓ", "ⴓ");
   ("Ⴔ", "ⴔ"); ("Ⴕ", "ⴕ"); ("Ⴖ", "ⴖ"); ("Ⴗ", "ⴗ"); ("Ⴘ", "ⴘ"); ("Ⴙ", "ⴙ"); ("Ⴚ", "ⴚ");
   ("Ⴛ", "ⴛ"); ("Ⴜ", "ⴜ"); ("Ⴝ", "ⴝ"); ("Ⴞ", "ⴞ"); ("Ⴟ", "ⴟ"); ("Ⴠ", "ⴠ"); ("Ⴡ", "ⴡ");
   ("Ⴢ", "ⴢ"); ("Ⴣ", "ⴣ"); ("Ⴤ", "ⴤ"); ("Ⴥ", "ⴥ"); ("Ⴧ", "ⴧ"); ("Ⴭ", "ⴭ"); ("Ꭰ", "ꭰ");
   ("Ꭱ", "ꭱ"); ("Ꭲ", "ꭲ"); ("Ꭳ", "ꭳ"); ("Ꭴ", "ꭴ"); ("Ꭵ", "ꭵ"); ("Ꭶ", "ꭶ"); ("Ꭷ", "ꭷ");
   ("Ꭸ", "ꭸ"); ("Ꭹ", "ꭹ"); ("Ꭺ", "ꭺ"); ("Ꭻ", "ꭻ"); ("Ꭼ", "ꭼ"); ("Ꭽ", "ꭽ"); ("Ꭾ", "ꭾ");
   ("Ꭿ", "ꭿ"); ("Ꮀ", "ꮀ"); ("Ꮁ", "ꮁ"); ("Ꮂ", "ꮂ"); ("Ꮃ", "ꮃ"); ("Ꮄ", "ꮄ"); ("Ꮅ", "ꮅ");
   ("Ꮆ", "ꮆ"); ("Ꮇ", "ꮇ"); ("Ꮈ", "ꮈ"); ("Ꮉ", "ꮉ"); ("Ꮊ", "ꮊ"); ("Ꮋ", "ꮋ"); ("Ꮌ", "ꮌ");
   ("Ꮍ", "ꮍ"); ("Ꮎ", "ꮎ"); ("Ꮏ", "ꮏ"); ("Ꮐ", "ꮐ"); ("Ꮑ", "ꮑ"); ("Ꮒ", "ꮒ"); ("Ꮓ", "ꮓ");
   ("Ꮔ", "ꮔ"); ("Ꮕ", "ꮕ"); ("Ꮖ", "ꮖ"); ("Ꮗ", "ꮗ"); ("Ꮘ", "ꮘ"); ("Ꮙ", "ꮙ"); ("Ꮚ", "ꮚ");
   ("Ꮛ", "ꮛ"); ("Ꮜ", "ꮜ"); ("Ꮝ", "ꮝ"); ("Ꮞ", "ꮞ"); ("Ꮟ", "ꮟ"); ("Ꮠ", "ꮠ"); ("Ꮡ", "ꮡ");
   ("Ꮢ", "ꮢ"); ("Ꮣ", "ꮣ"); ("Ꮤ", "ꮤ"); ("Ꮥ", "ꮥ"); ("Ꮦ", "ꮦ"); ("Ꮧ", "ꮧ"); ("Ꮨ", "ꮨ");
   ("Ꮩ", "ꮩ"); ("Ꮪ", "ꮪ"); ("Ꮫ", "ꮫ"); ("Ꮬ", "ꮬ"); ("Ꮭ", "ꮭ"); ("Ꮮ", "ꮮ"); ("Ꮯ", "ꮯ");
   ("Ꮰ", "ꮰ"); ("Ꮱ", "ꮱ"); ("Ꮲ", "ꮲ"); ("Ꮳ", "ꮳ"); ("Ꮴ", "ꮴ"); ("Ꮵ", "ꮵ"); ("Ꮶ", "ꮶ");
   ("Ꮷ", "ꮷ"); ("Ꮸ", "ꮸ"); ("Ꮹ", "ꮹ"); ("Ꮺ", "ꮺ"); ("Ꮻ", "ꮻ"); ("Ꮼ", "ꮼ"); ("Ꮽ", "ꮽ");
   ("Ꮾ", "ꮾ"); ("Ꮿ", "ꮿ"); ("Ᏸ", "ᏸ"); ("Ᏹ", "ᏹ"); ("Ᏺ", "ᏺ"); ("Ᏻ", "ᏻ"); ("Ᏼ", "ᏼ");
   ("Ᏽ", "ᏽ"); ("Ა", "ა"); ("Ბ", "ბ"); ("Გ", "გ"); ("Დ", "დ"); ("Ე", "ე"); ("Ვ", "ვ");
   ("Ზ", "ზ"); ("Თ", "თ"); ("Ი", "ი"); ("Კ", "კ"); ("Ლ", "ლ"); ("Მ", "მ"); ("Ნ", "ნ");
   ("Ო", "ო"); ("Პ", "პ"); ("Ჟ", "ჟ"); ("Რ", "რ"); ("Ს", "ს"); ("Ტ", "ტ"); ("Უ", "უ");
   ("Ფ", "ფ"); ("Ქ", "ქ"); ("Ღ", "ღ"); ("Ყ", "ყ"); ("Შ", "შ"); ("Ჩ", "ჩ"); ("Ც", "ც");
   ("Ძ", "ძ"); ("Წ", "წ"); ("Ჭ", "ჭ"); ("Ხ", "ხ"); ("Ჯ", "ჯ"); ("Ჰ", "ჰ"); ("Ჱ", "ჱ");
   ("Ჲ", "ჲ"); ("Ჳ", "ჳ"); ("Ჴ", "ჴ"); ("Ჵ", "ჵ"); ("Ჶ", "ჶ"); ("Ჷ", "ჷ"); ("Ჸ", "ჸ");
   ("Ჹ", "ჹ"); ("Ჺ", "ჺ"); ("Ჽ", "ჽ"); ("Ჾ", "ჾ"); ("Ჿ", "ჿ"); ("Ḁ", "ḁ"); ("Ḃ", "ḃ");
   ("Ḅ", "ḅ"); ("Ḇ", "ḇ"); ("Ḉ", "ḉ"); ("Ḋ", "ḋ"); ("Ḍ", "ḍ"); ("Ḏ", "ḏ"); ("Ḑ", "ḑ");
   ("Ḓ", "ḓ"); ("Ḕ", "ḕ"); ("Ḗ", "ḗ"); ("Ḙ", "ḙ"); ("Ḛ", "ḛ"); ("Ḝ", "ḝ"); ("Ḟ", "ḟ");
   ("Ḡ", "ḡ"); ("Ḣ", "ḣ"); ("Ḥ", "ḥ"); ("Ḧ", "ḧ"); ("Ḩ", "ḩ"); ("Ḫ", "ḫ"); ("Ḭ", "ḭ");
   ("Ḯ", "ḯ"); ("Ḱ", "ḱ"); ("Ḳ", "ḳ"); ("Ḵ", "ḵ"); ("Ḷ", "ḷ"); ("Ḹ", "ḹ"); ("Ḻ", "ḻ");
   ("Ḽ", "ḽ"); ("Ḿ", "ḿ"); ("Ṁ", "ṁ"); ("Ṃ", "ṃ"); ("Ṅ", "ṅ"); ("Ṇ", "ṇ"); ("Ṉ", "ṉ");
   ("Ṋ", "ṋ"); ("Ṍ", "ṍ"); ("Ṏ", "ṏ"); ("Ṑ", "ṑ"); ("Ṓ", "ṓ"); ("Ṕ", "ṕ"); ("Ṗ", "ṗ");
   ("Ṙ", "ṙ"); ("Ṛ", "ṛ"); ("Ṝ", "ṝ"); ("Ṟ", "ṟ"); ("Ṡ", "ṡ"); ("Ṣ", "ṣ"); ("Ṥ", "ṥ");
   ("Ṧ", "ṧ"); ("Ṩ", "ṩ"); ("Ṫ", "ṫ"); ("Ṭ", "ṭ"); ("Ṯ", "ṯ"); ("Ṱ", "ṱ"); ("Ṳ", "ṳ");
   ("Ṵ", "ṵ"); ("Ṷ", "ṷ"); ("Ṹ", "ṹ"); ("Ṻ", "ṻ"); ("Ṽ", "ṽ"); ("Ṿ", "ṿ"); ("Ẁ", "ẁ");
   ("Ẃ", "ẃ"); ("Ẅ", "ẅ"); ("Ẇ", "ẇ"); ("Ẉ", "ẉ"); ("Ẋ", "ẋ"); ("Ẍ", "ẍ"); ("Ẏ", "ẏ");
   ("Ẑ", "ẑ"); ("Ẓ", "ẓ"); ("Ẕ", "ẕ"); ("ẞ", "ß"); ("Ạ", "ạ"); ("Ả", "ả"); ("Ấ", "ấ");
   ("Ầ", "ầ"); ("Ẩ", "ẩ"); ("Ẫ", "ẫ"); ("Ậ", "ậ"); ("Ắ", "ắ"); ("Ằ", "ằ"); ("Ẳ", "ẳ");
   ("Ẵ", "ẵ"); ("Ặ", "ặ"); ("Ẹ", "ẹ"); ("Ẻ", "ẻ"); ("Ẽ", "ẽ"); ("Ế", "ế"); ("Ề", "ề");
   ("Ể", "ể"); ("Ễ", "ễ"); ("Ệ", "ệ"); ("Ỉ", "ỉ"); ("Ị", "ị"); ("Ọ", "ọ"); ("Ỏ", "ỏ");
   ("Ố", "ố"); ("Ồ", "ồ"); ("Ổ", "ổ"); ("Ỗ", "ỗ"); ("Ộ", "ộ"); ("Ớ", "ớ"); ("Ờ", "ờ");
   ("Ở", "ở"); ("Ỡ", "ỡ"); ("Ợ", "ợ"); ("Ụ", "ụ"); ("Ủ", "ủ"); ("Ứ", "ứ"); ("Ừ", "ừ");
   ("Ử", "ử"); ("Ữ", "ữ"); ("Ự", "ự"); ("Ỳ", "ỳ"); ("Ỵ", "ỵ"); ("Ỷ", "ỷ"); ("Ỹ", "ỹ");
   ("Ỻ", "ỻ"); ("Ỽ", "ỽ"); ("Ỿ", "ỿ"); ("Ἀ", "ἀ"); ("Ἁ", "ἁ"); ("Ἂ", "ἂ"); ("Ἃ", "ἃ");
   ("Ἄ", "ἄ"); ("Ἅ", "ἅ"); ("Ἆ", "ἆ"); ("Ἇ", "ἇ"); ("Ἐ", "ἐ"); ("Ἑ", "ἑ"); ("Ἒ", "ἒ");
   ("Ἓ", "ἓ"); ("Ἔ", "ἔ"); ("Ἕ", "ἕ"); ("Ἠ", "ἠ"); ("Ἡ", "ἡ"); ("Ἢ", "ἢ"); ("Ἣ", "ἣ");
   ("Ἤ", "ἤ"); ("Ἥ", "ἥ"); ("Ἦ", "ἦ"); ("Ἧ", "ἧ"); ("Ἰ", "ἰ"); ("Ἱ", "ἱ"); ("Ἲ", "ἲ");
   ("Ἳ", "ἳ"); ("Ἴ", "ἴ"); ("Ἵ", "ἵ"); ("Ἶ", "ἶ"); ("Ἷ", "ἷ"); ("Ὀ", "ὀ"); ("Ὁ", "ὁ");
   ("Ὂ", "ὂ"); ("Ὃ", "ὃ"); ("Ὄ", "ὄ"); ("Ὅ", "ὅ"); ("Ὑ", "ὑ"); ("Ὓ", "ὓ"); ("Ὕ", "ὕ");
   ("Ὗ", "ὗ"); ("Ὠ", "ὠ"); ("Ὡ", "ὡ"); ("Ὢ", "ὢ"); ("Ὣ", "ὣ"); ("Ὤ", "ὤ"); ("Ὥ", "ὥ");
   ("Ὦ", "ὦ"); ("Ὧ", "ὧ"); ("ᾈ", "ᾀ"); ("ᾉ", "ᾁ"); ("ᾊ", "ᾂ"); ("ᾋ", "ᾃ"); ("ᾌ", "ᾄ");
   ("ᾍ", "ᾅ"); ("ᾎ", "ᾆ"); ("ᾏ", "ᾇ"); ("ᾘ", "ᾐ"); ("ᾙ", "ᾑ"); ("ᾚ", "ᾒ"); ("ᾛ", "ᾓ");
   ("ᾜ", "ᾔ"); ("ᾝ", "ᾕ"); ("ᾞ", "ᾖ"); ("ᾟ", "ᾗ"); ("ᾨ", "ᾠ"); ("ᾩ", "ᾡ"); ("ᾪ", "ᾢ");
   ("ᾫ", "ᾣ"); ("ᾬ", "ᾤ"); ("ᾭ", "ᾥ"); ("ᾮ", "ᾦ"); ("ᾯ", "ᾧ"); ("Ᾰ", "ᾰ"); ("Ᾱ", "ᾱ");
   ("Ὰ", "ὰ"); ("Ά", "ά"); ("ᾼ", "ᾳ"); ("Ὲ", "ὲ"); ("Έ", "έ"); ("Ὴ", "ὴ"); ("Ή", "ή");
   ("ῌ", "ῃ"); ("Ῐ", "ῐ"); ("Ῑ", "ῑ"); ("Ὶ", "ὶ"); ("Ί", "ί"); ("Ῠ", "ῠ"); ("Ῡ", "ῡ");
   ("Ὺ", "ὺ"); ("Ύ", "ύ"); ("Ῥ", "ῥ"); ("Ὸ", "ὸ"); ("Ό", "ό"); ("Ὼ", "ὼ"); ("Ώ", "ώ");
   ("ῼ", "ῳ"); ("Ω", "ω"); ("K", "k"); ("Å", "å"); ("Ⅎ", "ⅎ"); ("Ⅰ", "ⅰ"); ("Ⅱ", "ⅱ");
   ("Ⅲ", "ⅲ"); ("Ⅳ", "ⅳ"); ("Ⅴ", "ⅴ"); ("Ⅵ", "ⅵ"); ("Ⅶ", "ⅶ"); ("Ⅷ", "ⅷ"); ("Ⅸ", "ⅸ");
   ("Ⅹ", "ⅹ"); ("Ⅺ", "ⅺ"); ("Ⅻ", "ⅻ"); ("Ⅼ", "ⅼ"); ("Ⅽ", "ⅽ"); ("Ⅾ", "ⅾ"); ("Ⅿ", "ⅿ");
   ("Ↄ", "ↄ"); ("Ⓐ", "ⓐ"); ("Ⓑ", "ⓑ"); ("Ⓒ", "ⓒ"); ("Ⓓ", "ⓓ"); ("Ⓔ", "ⓔ"); ("Ⓕ", "ⓕ");
   ("Ⓖ", "ⓖ"); ("Ⓗ", "ⓗ"); ("Ⓘ", "ⓘ"); ("Ⓙ", "ⓙ"); ("Ⓚ", "ⓚ"); ("Ⓛ", "ⓛ"); ("Ⓜ", "ⓜ");
   ("Ⓝ", "ⓝ"); ("Ⓞ", "ⓞ"); ("Ⓟ", "ⓟ"); ("Ⓠ", "ⓠ"); ("Ⓡ", "ⓡ"); ("Ⓢ", "ⓢ"); ("Ⓣ", "ⓣ");
   ("Ⓤ", "ⓤ"); ("Ⓥ", "ⓥ"); ("Ⓦ", "ⓦ"); ("Ⓧ", "ⓧ"); ("Ⓨ", "ⓨ"); ("Ⓩ", "ⓩ"); ("Ⰰ", "ⰰ");
   ("Ⰱ", "ⰱ"); ("Ⰲ", "ⰲ"); ("Ⰳ", "ⰳ"); ("Ⰴ", "ⰴ"); ("Ⰵ", "ⰵ"); ("Ⰶ", "ⰶ"); ("Ⰷ", "ⰷ");
   ("Ⰸ", "ⰸ"); ("Ⰹ", "ⰹ"); ("Ⰺ", "ⰺ"); ("Ⰻ", "ⰻ"); ("Ⰼ", "ⰼ"); ("Ⰽ", "ⰽ"); ("Ⰾ", "ⰾ");
   ("Ⰿ", "ⰿ"); ("Ⱀ", "ⱀ"); ("Ⱁ", "ⱁ"); ("Ⱂ", "ⱂ"); ("Ⱃ", "ⱃ"); ("Ⱄ", "ⱄ"); ("Ⱅ", "ⱅ");
   ("Ⱆ", "ⱆ"); ("Ⱇ", "ⱇ"); ("Ⱈ", "ⱈ"); ("Ⱉ", "ⱉ"); ("Ⱊ", "ⱊ"); ("Ⱋ", "ⱋ"); ("Ⱌ", "ⱌ");
   ("Ⱍ", "ⱍ"); ("Ⱎ", "ⱎ"); ("Ⱏ", "ⱏ"); ("Ⱐ", "ⱐ"); ("Ⱑ", "ⱑ"); ("Ⱒ", "ⱒ"); ("Ⱓ", "ⱓ");
   ("Ⱔ", "ⱔ"); ("Ⱕ", "ⱕ"); ("Ⱖ", "ⱖ"); ("Ⱗ", "ⱗ"); ("Ⱘ", "ⱘ"); ("Ⱙ", "ⱙ"); ("Ⱚ", "ⱚ");
   ("Ⱛ", "ⱛ"); ("Ⱜ", "ⱜ"); ("Ⱝ", "ⱝ"); ("Ⱞ", "ⱞ"); ("Ⱟ", "ⱟ"); ("Ⱡ", "ⱡ"); ("Ɫ", "ɫ");
   ("Ᵽ", "ᵽ"); ("Ɽ", "ɽ"); ("Ⱨ", "ⱨ"); ("Ⱪ", "ⱪ"); ("Ⱬ", "ⱬ"); ("Ɑ", "ɑ"); ("Ɱ", "ɱ");
   ("Ɐ", "ɐ"); ("Ɒ", "ɒ"); ("Ⱳ", "ⱳ"); ("Ⱶ", "ⱶ"); ("Ȿ", "ȿ"); ("Ɀ", "ɀ"); ("Ⲁ", "ⲁ");
   ("Ⲃ", "ⲃ"); ("Ⲅ", "ⲅ"); ("Ⲇ", "ⲇ"); ("Ⲉ", "ⲉ"); ("Ⲋ", "ⲋ"); ("Ⲍ", "ⲍ"); ("Ⲏ", "ⲏ");
   ("Ⲑ", "ⲑ"); ("Ⲓ", "ⲓ"); ("Ⲕ", "ⲕ"); ("Ⲗ", "ⲗ"); ("Ⲙ", "ⲙ"); ("Ⲛ", "ⲛ"); ("Ⲝ", "ⲝ");
   ("Ⲟ", "ⲟ"); ("Ⲡ", "ⲡ"); ("Ⲣ", "ⲣ"); ("Ⲥ", "ⲥ"); ("Ⲧ", "ⲧ"); ("Ⲩ", "ⲩ"); ("Ⲫ", "ⲫ");
   ("Ⲭ", "ⲭ"); ("Ⲯ", "ⲯ"); ("Ⲱ", "ⲱ"); ("Ⲳ", "ⲳ"); ("Ⲵ", "ⲵ"); ("Ⲷ", "ⲷ"); ("Ⲹ", "ⲹ");
   ("Ⲻ", "ⲻ"); ("Ⲽ", "ⲽ"); ("Ⲿ", "ⲿ"); ("Ⳁ", "ⳁ"); ("Ⳃ", "ⳃ"); ("Ⳅ", "ⳅ"); ("Ⳇ", "ⳇ");
   ("Ⳉ", "ⳉ"); ("Ⳋ", "ⳋ"); ("Ⳍ", "ⳍ"); ("Ⳏ", "ⳏ"); ("Ⳑ", "ⳑ"); ("Ⳓ", "ⳓ"); ("Ⳕ", "ⳕ");
   ("Ⳗ", "ⳗ"); ("Ⳙ", "ⳙ"); ("Ⳛ", "ⳛ"); ("Ⳝ", "ⳝ"); ("Ⳟ", "ⳟ"); ("Ⳡ", "ⳡ"); ("Ⳣ", "ⳣ");
   ("Ⳬ", "ⳬ"); ("Ⳮ", "ⳮ"); ("Ⳳ", "ⳳ"); ("Ꙁ", "ꙁ"); ("Ꙃ", "ꙃ"); ("Ꙅ", "ꙅ"); ("Ꙇ", "ꙇ");
   ("Ꙉ", "ꙉ"); ("Ꙋ", "ꙋ"); ("Ꙍ", "ꙍ"); ("Ꙏ", "ꙏ"); ("Ꙑ", "ꙑ"); ("Ꙓ", "ꙓ"); ("Ꙕ", "ꙕ");
   ("Ꙗ", "ꙗ"); ("Ꙙ", "ꙙ"); ("Ꙛ", "ꙛ"); ("Ꙝ", "ꙝ"); ("Ꙟ", "ꙟ"); ("Ꙡ", "ꙡ"); ("Ꙣ", "ꙣ");
   ("Ꙥ", "ꙥ"); ("Ꙧ", "ꙧ"); ("Ꙩ", "ꙩ"); ("Ꙫ", "ꙫ"); ("Ꙭ", "ꙭ"); ("Ꚁ", "ꚁ"); ("Ꚃ", "ꚃ");
   ("Ꚅ", "ꚅ"); ("Ꚇ", "ꚇ"); ("Ꚉ", "ꚉ"); ("Ꚋ", "ꚋ"); ("Ꚍ", "ꚍ"); ("Ꚏ", "ꚏ"); ("Ꚑ", "ꚑ");
   ("Ꚓ", "ꚓ"); ("Ꚕ", "ꚕ"); ("Ꚗ", "ꚗ"); ("Ꚙ", "ꚙ"); ("Ꚛ", "ꚛ"); ("Ꜣ", "ꜣ"); ("Ꜥ", "ꜥ");
   ("Ꜧ", "ꜧ"); ("Ꜩ", "ꜩ"); ("Ꜫ", "ꜫ"); ("Ꜭ", "ꜭ"); ("Ꜯ", "ꜯ"); ("Ꜳ", "ꜳ"); ("Ꜵ", "ꜵ");
   ("Ꜷ", "ꜷ"); ("Ꜹ", "ꜹ"); ("Ꜻ", "ꜻ"); ("Ꜽ", "ꜽ"); ("Ꜿ", "ꜿ"); ("Ꝁ", "ꝁ"); ("Ꝃ", "ꝃ");
   ("Ꝅ", "ꝅ"); ("Ꝇ", "ꝇ"); ("Ꝉ", "ꝉ"); ("Ꝋ", "ꝋ"); ("Ꝍ", "ꝍ"); ("Ꝏ", "ꝏ"); ("Ꝑ", "ꝑ");
   ("Ꝓ", "ꝓ"); ("Ꝕ", "ꝕ"); ("Ꝗ", "ꝗ"); ("Ꝙ", "ꝙ"); ("Ꝛ", "ꝛ"); ("Ꝝ", "ꝝ"); ("Ꝟ", "ꝟ");
   ("Ꝡ", "ꝡ"); ("Ꝣ", "ꝣ"); ("Ꝥ", "ꝥ"); ("Ꝧ", "ꝧ"); ("Ꝩ", "ꝩ"); ("Ꝫ", "ꝫ"); ("Ꝭ", "ꝭ");
   ("Ꝯ", "ꝯ"); ("Ꝺ", "ꝺ"); ("Ꝼ", "ꝼ"); ("Ᵹ", "ᵹ"); ("Ꝿ", "ꝿ"); ("Ꞁ", "ꞁ"); ("Ꞃ", "ꞃ");
   ("Ꞅ", "ꞅ"); ("Ꞇ", "ꞇ"); ("Ꞌ", "ꞌ"); ("Ɥ", "ɥ"); ("Ꞑ", "ꞑ"); ("Ꞓ", "ꞓ"); ("Ꞗ", "ꞗ");
   ("Ꞙ", "ꞙ"); ("Ꞛ", "ꞛ"); ("Ꞝ", "ꞝ"); ("Ꞟ", "ꞟ"); ("Ꞡ", "ꞡ"); ("Ꞣ", "ꞣ"); ("Ꞥ", "ꞥ");
   ("Ꞧ", "ꞧ"); ("Ꞩ", "ꞩ"); ("Ɦ", "ɦ"); ("Ɜ", "ɜ"); ("Ɡ", "ɡ"); ("Ɬ", "ɬ"); ("Ɪ", "ɪ");
   ("Ʞ", "ʞ"); ("Ʇ", "ʇ"); ("Ʝ", "ʝ"); ("Ꭓ", "ꭓ"); ("Ꞵ", "ꞵ"); ("Ꞷ", "ꞷ"); ("Ꞹ", "ꞹ");
   ("Ꞻ", "ꞻ"); ("Ꞽ", "ꞽ"); ("Ꞿ", "ꞿ"); ("Ꟁ", "ꟁ"); ("Ꟃ", "ꟃ"); ("Ꞔ", "ꞔ"); ("Ʂ", "ʂ");
   ("Ᶎ", "ᶎ"); ("Ꟈ", "ꟈ"); ("Ꟊ", "ꟊ"); ("Ꟑ", "ꟑ"); ("Ꟗ", "ꟗ"); ("Ꟙ", "ꟙ"); ("Ꟶ", "ꟶ");
   ("Ａ", "ａ"); ("Ｂ", "ｂ"); ("Ｃ", "ｃ"); ("Ｄ", "ｄ"); ("Ｅ", "ｅ"); ("Ｆ", "ｆ"); ("Ｇ", "ｇ");
   ("Ｈ", "ｈ"); ("Ｉ", "ｉ"); ("Ｊ", "ｊ"); ("Ｋ", "ｋ"); ("Ｌ", "ｌ"); ("Ｍ", "ｍ"); ("Ｎ", "ｎ");
   ("Ｏ", "ｏ"); ("Ｐ", "ｐ"); ("Ｑ", "ｑ"); ("Ｒ", "ｒ"); ("Ｓ", "ｓ"); ("Ｔ", "ｔ"); ("Ｕ", "ｕ");
   ("Ｖ", "ｖ"); ("Ｗ", "ｗ"); ("Ｘ", "ｘ"); ("Ｙ", "ｙ"); ("Ｚ", "ｚ"); ("𐐀", "𐐨"); ("𐐁", "𐐩");
   ("𐐂", "𐐪"); ("𐐃", "𐐫"); ("𐐄", "𐐬"); ("𐐅", "𐐭"); ("𐐆", "𐐮"); ("𐐇", "𐐯"); ("𐐈", "𐐰");
   ("𐐉", "𐐱"); ("𐐊", "𐐲"); ("𐐋", "𐐳"); ("𐐌", "𐐴"); ("𐐍", "𐐵"); ("𐐎", "𐐶"); ("𐐏", "𐐷");
   ("𐐐", "𐐸"); ("𐐑", "𐐹"); ("𐐒", "𐐺"); ("𐐓", "𐐻"); ("𐐔", "𐐼"); ("𐐕", "𐐽"); ("𐐖", "𐐾");
   ("𐐗", "𐐿"); ("𐐘", "𐑀"); ("𐐙", "𐑁"); ("𐐚", "𐑂"); ("𐐛", "𐑃"); ("𐐜", "𐑄"); ("𐐝", "𐑅");
   ("𐐞", "𐑆"); ("𐐟", "𐑇"); ("𐐠", "𐑈"); ("𐐡", "𐑉"); ("𐐢", "𐑊"); ("𐐣", "𐑋"); ("𐐤", "𐑌");
   ("𐐥", "𐑍"); ("𐐦", "𐑎"); ("𐐧", "𐑏"); ("𐒰", "𐓘"); ("𐒱", "𐓙"); ("𐒲", "𐓚"); ("𐒳", "𐓛");
   ("𐒴", "𐓜"); ("𐒵", "𐓝"); ("𐒶", "𐓞"); ("𐒷", "𐓟"); ("𐒸", "𐓠"); ("𐒹", "𐓡"); ("𐒺", "𐓢");
   ("𐒻", "𐓣"); ("𐒼", "𐓤"); ("𐒽", "𐓥"); ("𐒾", "𐓦"); ("𐒿", "𐓧"); ("𐓀", "𐓨"); ("𐓁", "𐓩");
   ("𐓂", "𐓪"); ("𐓃", "𐓫"); ("𐓄", "𐓬"); ("𐓅", "𐓭"); ("𐓆", "𐓮"); ("𐓇", "𐓯"); ("𐓈", "𐓰");
   ("𐓉", "𐓱"); ("𐓊", "𐓲"); ("𐓋", "𐓳"); ("𐓌", "𐓴"); ("𐓍", "𐓵"); ("𐓎", "𐓶"); ("𐓏", "𐓷");
   ("𐓐", "𐓸"); ("𐓑", "𐓹"); ("𐓒", "𐓺"); ("𐓓", "𐓻"); ("𐕰", "𐖗"); ("𐕱", "𐖘"); ("𐕲", "𐖙");
   ("𐕳", "𐖚"); ("𐕴", "𐖛"); ("𐕵", "𐖜"); ("𐕶", "𐖝"); ("𐕷", "𐖞"); ("𐕸", "𐖟"); ("𐕹", "𐖠");
   ("𐕺", "𐖡"); ("𐕼", "𐖣"); ("𐕽", "𐖤"); ("𐕾", "𐖥"); ("𐕿", "𐖦"); ("𐖀", "𐖧"); ("𐖁", "𐖨");
   ("𐖂", "𐖩"); ("𐖃", "𐖪"); ("𐖄", "𐖫"); ("𐖅", "𐖬"); ("𐖆", "𐖭"); ("𐖇", "𐖮"); ("𐖈", "𐖯");
   ("𐖉", "𐖰"); ("𐖊", "𐖱"); ("𐖌", "𐖳"); ("𐖍", "𐖴"); ("𐖎", "𐖵"); ("𐖏", "𐖶"); ("𐖐", "𐖷");
   ("𐖑", "𐖸"); ("𐖒", "𐖹"); ("𐖔", "𐖻"); ("𐖕", "𐖼"); ("𐲀", "𐳀"); ("𐲁", "𐳁"); ("𐲂", "𐳂");
   ("𐲃", "𐳃"); ("𐲄", "𐳄"); ("𐲅", "𐳅"); ("𐲆", "𐳆"); ("𐲇", "𐳇"); ("𐲈", "𐳈"); ("𐲉", "𐳉");
   ("𐲊", "𐳊"); ("𐲋", "𐳋"); ("𐲌", "𐳌"); ("𐲍", "𐳍"); ("𐲎", "𐳎"); ("𐲏", "𐳏"); ("𐲐", "𐳐");
   ("𐲑", "𐳑"); ("𐲒", "𐳒"); ("𐲓", "𐳓"); ("𐲔", "𐳔"); ("𐲕", "𐳕"); ("𐲖", "𐳖"); ("𐲗", "𐳗");
   ("𐲘", "𐳘"); ("𐲙", "𐳙"); ("𐲚", "𐳚"); ("𐲛", "𐳛"); ("𐲜", "𐳜"); ("𐲝", "𐳝"); ("𐲞", "𐳞");
   ("𐲟", "𐳟"); ("𐲠", "𐳠"); ("𐲡", "𐳡"); ("𐲢", "𐳢"); ("𐲣", "𐳣"); ("𐲤", "𐳤"); ("𐲥", "𐳥");
   ("𐲦", "𐳦"); ("𐲧", "𐳧"); ("𐲨", "𐳨"); ("𐲩", "𐳩"); ("𐲪", "𐳪"); ("𐲫", "𐳫"); ("𐲬", "𐳬");
   ("𐲭", "𐳭"); ("𐲮", "𐳮"); ("𐲯", "𐳯"); ("𐲰", "𐳰"); ("𐲱", "𐳱"); ("𐲲", "𐳲"); ("𑢠", "𑣀");
   ("𑢡", "𑣁"); ("𑢢", "𑣂"); ("𑢣", "𑣃"); ("𑢤", "𑣄"); ("𑢥", "𑣅"); ("𑢦", "𑣆"); ("𑢧", "𑣇");
   ("𑢨", "𑣈"); ("𑢩", "𑣉"); ("𑢪", "𑣊"); ("𑢫", "𑣋"); ("𑢬", "𑣌"); ("𑢭", "𑣍"); ("𑢮", "𑣎");
   ("𑢯", "𑣏"); ("𑢰", "𑣐"); ("𑢱", "𑣑"); ("𑢲", "𑣒"); ("𑢳", "𑣓"); ("𑢴", "𑣔"); ("𑢵", "𑣕");
   ("𑢶", "𑣖"); ("𑢷", "𑣗"); ("𑢸", "𑣘"); ("𑢹", "𑣙"); ("𑢺", "𑣚"); ("𑢻", "𑣛"); ("𑢼", "𑣜");
   ("𑢽", "𑣝"); ("𑢾", "𑣞"); ("𑢿", "𑣟"); ("𖹀", "𖹠"); ("𖹁", "𖹡"); ("𖹂", "𖹢"); ("𖹃", "𖹣");
   ("𖹄", "𖹤"); ("𖹅", "𖹥"); ("𖹆", "𖹦"); ("𖹇", "𖹧"); ("𖹈", "𖹨"); ("𖹉", "𖹩"); ("𖹊", "𖹪");
   ("𖹋", "𖹫"); ("𖹌", "𖹬"); ("𖹍", "𖹭"); ("𖹎", "𖹮"); ("𖹏", "𖹯"); ("𖹐", "𖹰"); ("𖹑", "𖹱");
   ("𖹒", "𖹲"); ("𖹓", "𖹳"); ("𖹔", "𖹴"); ("𖹕", "𖹵"); ("𖹖", "𖹶"); ("𖹗", "𖹷"); ("𖹘", "𖹸");
   ("𖹙", "𖹹"); ("𖹚", "𖹺"); ("𖹛", "𖹻"); ("𖹜", "𖹼"); ("𖹝", "𖹽"); ("𖹞", "𖹾"); ("𖹟", "𖹿");
   ("𞤀", "𞤢"); ("𞤁", "𞤣"); ("𞤂", "𞤤"); ("𞤃", "𞤥"); ("𞤄", "𞤦"); ("𞤅", "𞤧"); ("𞤆", "𞤨");
   ("𞤇", "𞤩"); ("𞤈", "𞤪"); ("𞤉", "𞤫"); ("𞤊", "𞤬"); ("𞤋", "𞤭"); ("𞤌", "𞤮"); ("𞤍", "𞤯");
   ("𞤎", "𞤰"); ("𞤏", "𞤱"); ("𞤐", "𞤲"); ("𞤑", "𞤳"); ("𞤒", "𞤴"); ("𞤓", "𞤵"); ("𞤔", "𞤶");
   ("𞤕", "𞤷"); ("𞤖", "𞤸"); ("𞤗", "𞤹"); ("𞤘", "𞤺"); ("𞤙", "𞤻"); ("𞤚", "𞤼"); ("𞤛", "𞤽");
   ("𞤜", "𞤾"); ("𞤝", "𞤿"); ("𞤞", "𞥀"); ("𞤟", "𞥁"); ("𞤠", "𞥂"); ("𞤡", "𞥃")].

(** A cased letter follows, case-ignorable characters apart. *)
Fixpoint cased_ahead (s : string) : bool :=
  match s with
  | EmptyString => false
  | String a r =>
      if continuation a then cased_ahead r
      else
        match code_point s with
        | Some n => if in_ranges case_ignorable n then cased_ahead r else in_ranges cased n
        | None => false
        end
  end.

(** [s.toLowerCase()].  An ASCII byte is lowered when it is a capital
    letter; a capital sigma becomes the final form when a cased letter
    stands before it and none after it, case-ignorable characters apart,
    and the plain small sigma otherwise; a character of the table is
    replaced by its entry; every other byte stays.  [skip] counts the
    bytes of a replaced character still to be passed over, [before]
    tells whether a cased letter stands before. *)
Fixpoint lower_go (skip : nat) (before : bool) (s : string) : string :=
  match s with
  | EmptyString => EmptyString
  | String c s' =>
      match skip with
      | S k => lower_go k before s'
      | O =>
          let after :=
            if continuation c then before
            else
              match code_point s with
              | Some n => if in_ranges case_ignorable n then before else in_ranges cased n
              | None => false
              end in
          if is_ascii c then String (lower_char c) (lower_go 0 after s')
          else if prefix "Σ" s then
            ((if before && negb (cased_ahead s') then "ς" else "σ") ++ lower_go 1 after s')%string
          else
            match find (fun kv => prefix (fst kv) s) lower_table with
            | Some (k, v) => (v ++ lower_go (String.length k - 1) after s')%string
            | None => String c (lower_go 0 after s')
            end
      end
  end.

Definition toLowerCase (s : string) : string := lower_go 0 false s.

(** White space ([WhiteSpace] and [LineTerminator]): in ASCII TAB, LF,
    VT, FF, CR and the space; beyond it U+00A0, and U+1680,
    U+2000..U+200A, U+2028, U+2029, U+202F, U+205F, U+3000 and U+FEFF,
    recognised by their bytes. *)
Definition is_space (c : ascii) : bool :=
  let n := nat_of_ascii c in
  (n =? 32)%nat || ((9 <=? n)%nat && (n <=? 13)%nat).

Definition is_space2 (a b : ascii) : bool :=
  (byte a =? 194)%nat && (byte b =? 160)%nat.

Definition is_space3 (a b c : ascii) : bool :=
  let x := byte a in
  let y := byte b in
  let z := byte c in
  ((x =? 225) && (y =? 154) && (z =? 128))%nat ||
  ((x =? 226) && (y =? 128) &&
   (((128 <=? z) && (z <=? 138)) || (z =? 168) || (z =? 169) || (z =? 175)))%nat ||
  ((x =? 226) && (y =? 129) && (z =? 159))%nat ||
  ((x =? 227) && (y =? 128) && (z =? 128))%nat ||
  ((x =? 239) && (y =? 187) && (z =? 191))%nat.

(** White space removed from the head of [s]; with [back] set, [s] is
    read from its end, so the bytes of a character come last one
    first. *)
Fixpoint strip (back : bool) (s : string) : string :=
  match s with
  | EmptyString => EmptyString
  | String a s1 =>
      if is_space a then strip back s1
      else
        match s1 with
        | EmptyString => s
        | String b s2 =>
            if (if back then is_space2 b a else is_space2 a b) then strip back s2
            else
              match s2 with
              | EmptyString => s
              | String c s3 =>
                  if (if back then is_space3 c b a else is_space3 a b c)
                  then strip back s3
                  else s
              end
        end
  end.

Fixpoint rev_append (s acc : string) : string :=
  match s with
  | EmptyString => acc
  | String c s' => rev_append s' (String c acc)
  end.

Definition reverse (s : string) : string := rev_append s EmptyString.

Definition trim_start (s : string) : string := strip false s.
Definition trim_end (s : string) : string := reverse (strip true (reverse s)).

(** [s.trim()]: leading and trailing white space removed. *)
Definition trim (s : string) : string := trim_end (trim_start s).

(** [s.split(sep)] for a non-empty separator: the pieces between the
    occurrences of [sep], found left to right without overlap.  [skip]
    counts the characters of a separator still to be passed over, [cur]
    is the piece being collected. *)
Fixpoint split_go (sep : string) (skip : nat) (cur s : string) : list string :=
  match s with
  | EmptyString => [cur]
  | String c s' =>
      match skip with
      | S k => split_go sep k cur s'
      | O =>
          if prefix sep s
          then cur :: split_go sep (String.length sep - 1) EmptyString s'
          else split_go sep 0 (cur ++ String c EmptyString)%string s'
      end
  end.

Definition split (sep s : string) : list string := split_go sep 0 EmptyString s.

(** [arr.join(sep)]. *)
Fixpoint join (sep : string) (l : list string) : string :=
  match l with
  | [] => EmptyString
  | [x] => x
  | x :: rest => (x ++ sep ++ join sep rest)%string
  end.

(** Truthiness of a string: every string but the empty one. *)
Definition truthy_str (s : string) : bool :=
  match s with EmptyString => false | _ => true end.

(** *** Numbers and text *)

(** The decimal digits of an integer, [-] before a negative one. *)
Definition decimal (z : Z) : string := NilZero.string_of_int (Z.to_int z).

Definition rounds_to (c a : Z) : bool :=
  match round64 c with
  | Num v => (v =? a)%Z
  | _ => false
  end.

(** The integer of [k] significant digits that reads back as the double
    [a] of [nd] digits, if there is one: of the two multiples of
    10^(nd-k) around [a] the nearer, on a tie the one whose digits end
    even. *)
Definition candidate (a nd k : Z) : option Z :=
  if (nd <? k)%Z then None
  else
    let p := (10 ^ (nd - k))%Z in
    let lo := (a / p * p)%Z in
    let hi := (lo + p)%Z in
    match rounds_to lo a, rounds_to hi a with
    | true, false => Some lo
    | false, true => Some hi
    | true, true =>
        if (a - lo <? hi - a)%Z then Some lo
        else if (hi - a <? a - lo)%Z then Some hi
        else if Z.even (lo / p) then Some lo
        else Some hi
    | false, false => None
    end.

Fixpoint shortest_go (a nd : Z) (ks : list Z) : Z :=
  match ks with
  | [] => a
  | k :: rest =>
      match candidate a nd k with
      | Some c => c
      | None => shortest_go a nd rest
      end
  end.

(** The integer with the fewest significant digits that reads back as
    the double [a], for [a] from 2^53 on: the digits [Number::toString]
    writes, zeros to follow. *)
Definition shortest (a : Z) : Z :=
  shortest_go a (Z.of_nat (String.length (decimal a)))
    [1; 2; 3; 4; 5; 6; 7; 8; 9; 10; 11; 12; 13; 14; 15; 16; 17]%Z.

Fixpoint strip_zeros (s : string) : string :=
  match s with
  | EmptyString => EmptyString
  | String c s' =>
      match strip_zeros s' with
      | EmptyString => if Ascii.eqb c "0" then EmptyString else String c EmptyString
      | t => String c t
      end
  end.

(** A positive integer as [Number::toString] lays it out: all its
    digits up to 21 of them, from 22 digits on the significant ones with
    a point after the first and the exponent. *)
Definition layout (c : Z) : string :=
  let ds := decimal c in
  let n := String.length ds in
  if (n <=? 21)%nat then ds
  else
    match strip_zeros ds with
    | String d EmptyString => String d EmptyString ++ "e+" ++ decimal (Z.of_nat n - 1)
    | String d rest => String d ("." ++ rest) ++ "e+" ++ decimal (Z.of_nat n - 1)
    | EmptyString => ds
    end.

(** [String(n)], also what a template or an assignment to [value] or
    [textContent] makes of a number. *)
Definition string_of_num (n : num) : string :=
  match n with
  | NaN => "NaN"
  | Inf false => "Infinity"
  | Inf true => "-Infinity"
  | Num z =>
      if (Z.abs z <? two53)%Z then decimal z
      else ((if (z <? 0)%Z then "-" else "") ++ layout (shortest (Z.abs z)))%string
  end.

(** The text of a number that arrives in a payload. *)
Definition string_of_Z (z : Z) : string := string_of_num (round64 z).

(** Value of a digit character in the given radix, if it is one. *)
Definition digit_val (radix : Z) (c : ascii) : option Z :=
  let n := Z.of_nat (nat_of_ascii c) in
  let d :=
    if ((48 <=? n) && (n <=? 57))%Z then Some (n - 48)%Z
    else if ((97 <=? n) && (n <=? 122))%Z then Some (n - 87)%Z
    else if ((65 <=? n) && (n <=? 90))%Z then Some (n - 55)%Z
    else None in
  match d with
  | Some v => if (v <? radix)%Z then Some v else None
  | None => None
  end.

(** The longest run of digits at the head of [s], read in [radix];
    [acc] is [None] until a digit has been seen. *)
Fixpoint digits_go (radix : Z) (acc : option Z) (s : string) : option Z :=
  match s with
  | EmptyString => acc
  | String c s' =>
      match digit_val radix c with
      | Some v =>
          digits_go radix
            (Some (match acc with Some a => a * radix + v | None => v end)%Z) s'
      | None => acc
      end
  end.

(** After white space and sign: a [0x] / [0X] prefix selects radix 16. *)
Definition parse_magnitude (s : string) : option Z :=
  match s with
  | String "0" (String "x" s') => digits_go 16 None s'
  | String "0" (String "X" s') => digits_go 16 None s'
  | _ => digits_go 10 None s
  end.

(** [parseInt(s)] with no radix argument: the integer the digits spell,
    as a double. *)
Definition parseInt (s : string) : num :=
  let t := trim_start s in
  let '(neg, body) :=
    match t with
    | String "-" r => (true, r)
    | String "+" r => (false, r)
    | _ => (false, t)
    end in
  match parse_magnitude body with
  | Some m => round64 (if neg then (- m)%Z else m)
  | None => NaN
  end.

(** [parseInt] of an absent DOM value ([parseInt(undefined)]). *)
Definition parseInt_opt (s : option string) : num :=
  match s with
  | Some v => parseInt v
  | None => NaN
  end.

End JS.

(* ================================================================= *)
(** ** The part of the DOM the clients touch *)

Module Dom.

(** An element reached through [document.getElementById]. *)
Record Element : Type := mkElement {
  textContent : string;
  value : string;
  classList : list string;
  disabled : bool;
  styleDisplay : string
}.

Definition blank : Element :=
  {| textContent := ""; value := ""; classList := [];
     disabled := false; styleDisplay := "" |}.

(** The document: element id to element. *)
Definition Store : Type := string -> Element.

Definition upd (id : string) (f : Element -> Element) (d : Store) : Store :=
  fun i => if String.eqb i id then f (d i) else d i.

Definition set_textContent (t : string) (e : Element) : Element :=
  {| textContent := t; value := value e; classList := classList e;
     disabled := disabled e; styleDisplay := styleDisplay e |}.

Definition set_value (v : string) (e : Element) : Element :=
  {| textContent := textContent e; value := v; classList := classList e;
     disabled := disabled e; styleDisplay := styleDisplay e |}.

Definition set_classList (l : list string) (e : Element) : Element :=
  {| textContent := textContent e; value := value e; classList := l;
     disabled := disabled e; styleDisplay := styleDisplay e |}.

Definition set_disabled (b : bool) (e : Element) : Element :=
  {| textContent := textContent e; value := value e; classList := classList e;
     disabled := b; styleDisplay := styleDisplay e |}.

Definition set_display (v : string) (e : Element) : Element :=
  {| textContent := textContent e; value := value e; classList := classList e;
     disabled := disabled e; styleDisplay := v |}.

(** [classList.contains], [classList.add], [classList.remove]. *)
Definition contains (c : string) (l : list string) : bool :=
  existsb (String.eqb c) l.

Definition add (c : string) (l : list string) : list string :=
  if contains c l then l else l ++ [c].

Definition remove (c : string) (l : list string) : list string :=
  filter (fun x => negb (String.eqb c x)) l.

Definition add_class (c : string) (e : Element) : Element :=
  set_classList (add c (classList e)) e.

Definition remove_class (c : string) (e : Element) : Element :=
  set_classList (remove c (classList e)) e.

Definition has_class (c : string) (e : Element) : bool :=
  contains c (classList e).

End Dom.

(* ================================================================= *)
(** ** The lobby client: class [PokerClient] *)

Module Lobby.
Import JS Dom.

(** A player of a lobby snapshot. *)
Module Player.
Record t : Type := mk {
  socketId : string;
  username : string;
  isHost : bool;
  isReady : bool
}.
End Player.

Record Config : Type := mkConfig {
  smallBlind : Z;
  bigBlind : Z;
  startingFunds : Z;
  maxPlayers : Z
}.

(** A lobby snapshot as the server pushes it. *)
Record LobbyData : Type := mkLobby {
  name : string;
  code : string;
  players : list Player.t;
  config : Config
}.

(** Outbound commands. *)
Inductive Emit : Type :=
| set_username (username : string)
| create_lobby (name : string) (smallBlind bigBlind startingFunds maxPlayers : num)
| join_lobby (code : string)
| toggle_ready
| update_lobby_config (smallBlind bigBlind startingFunds : num)
| leave_lobby
| start_game.

(** Inbound events with the fields the handlers read.  [lobby] is absent
    when the payload carries none. *)
Inductive Event : Type :=
| username_set (username : string)
| username_error (error : string)
| lobby_created (lobby : option LobbyData)
| lobby_joined (lobby : option LobbyData) (assignedUsername : string)
| lobby_error (error : string)
| player_joined (lobby : option LobbyData)
| player_left (lobby : option LobbyData)
| player_ready_changed (lobby : option LobbyData)
| lobby_config_updated (lobby : option LobbyData)
| lobby_left
| transition_to_game (gameId playerToken : string)
| game_error (error : string).

(** A row of the players list. *)
Record PlayerItem : Type := mkPlayerItem {
  itemClasses : list string;
  itemName : string;
  itemStatus : string
}.

(** A pending [setTimeout]: the callbacks of this client all remove the
    class [show] from one element. *)
Record Timer : Type := mkTimer {
  fireAt : nat;
  target : string
}.

(** The client object together with the page it drives.  [showMessage]
    only writes to the console, which is not modelled. *)
Record Client : Type := mkClient {
  username : string;
  currentLobby : option LobbyData;
  isHost : bool;
  isReady : bool;
  socketId : string;             (* socket.id *)
  outbox : list Emit;            (* socket.emit, oldest first *)
  dom : Store;
  activeScreen : string;         (* the .screen carrying class active *)
  playersList : list PlayerItem; (* children of #players-list *)
  now : nat;                     (* milliseconds *)
  timers : list Timer;
  playerToken : option string;   (* localStorage 'playerToken' *)
  location : string              (* window.location.href *)
}.

Definition with_username v c :=
  mkClient v (currentLobby c) (isHost c) (isReady c) (socketId c) (outbox c)
    (dom c) (activeScreen c) (playersList c) (now c) (timers c)
    (playerToken c) (location c).
Definition with_currentLobby v c :=
  mkClient (username c) v (isHost c) (isReady c) (socketId c) (outbox c)
    (dom c) (activeScreen c) (playersList c) (now c) (timers c)
    (playerToken c) (location c).
Definition with_isHost v c :=
  mkClient (username c) (currentLobby c) v (isReady c) (socketId c) (outbox c)
    (dom c) (activeScreen c) (playersList c) (now c) (timers c)
    (playerToken c) (location c).
Definition with_isReady v c :=
  mkClient (username c) (currentLobby c) (isHost c) v (socketId c) (outbox c)
    (dom c) (activeScreen c) (playersList c) (now c) (timers c)
    (playerToken c) (location c).
Definition with_outbox v c :=
  mkClient (username c) (currentLobby c) (isHost c) (isReady c) (socketId c) v
    (dom c) (activeScreen c) (playersList c) (now c) (timers c)
    (playerToken c) (location c).
Definition with_dom v c :=
  mkClient (username c) (currentLobby c) (isHost c) (isReady c) (socketId c)
    (outbox c) v (activeScreen c) (playersList c) (now c) (timers c)
    (playerToken c) (location c).
Definition with_activeScreen v c :=
  mkClient (username c) (currentLobby c) (isHost c) (isReady c) (socketId c)
    (outbox c) (dom c) v (playersList c) (now c) (timers c)
    (playerToken c) (location c).
Definition with_playersList v c :=
  mkClient (username c) (currentLobby c) (isHost c) (isReady c) (socketId c)
    (outbox c) (dom c) (activeScreen c) v (now c) (timers c)
    (playerToken c) (location c).
Definition with_now v c :=
  mkClient (username c) (currentLobby c) (isHost c) (isReady c) (socketId c)
    (outbox c) (dom c) (activeScreen c) (playersList c) v (timers c)
    (playerToken c) (location c).
Definition with_timers v c :=
  mkClient (username c) (currentLobby c) (isHost c) (isReady c) (socketId c)
    (outbox c) (dom c) (activeScreen c) (playersList c) (now c) v
    (playerToken c) (location c).
Definition with_playerToken v c :=
  mkClient (username c) (currentLobby c) (isHost c) (isReady c) (socketId c)
    (outbox c) (dom c) (activeScreen c) (playersList c) (now c) (timers c)
    v (location c).
Definition with_location v c :=
  mkClient (username c) (currentLobby c) (isHost c) (isReady c) (socketId c)
    (outbox c) (dom c) (activeScreen c) (playersList c) (now c) (timers c)
    (playerToken c) v.

(** [document.getElementById(id)] followed by an update of the element. *)
Definition on_element (id : string) (f : Element -> Element) (c : Client) : Client :=
  with_dom (upd id f (dom c)) c.

Definition emit (m : Emit) (c : Client) : Client :=
  with_outbox (outbox c ++ [m]) c.

(** *** UI management *)

Definition showScreen (screenId : string) (c : Client) : Client :=
  with_activeScreen screenId c.

Definition showError (elementId message : string) (c : Client) : Client :=
  let c := on_element elementId (set_textContent message) c in
  let c := on_element elementId (add_class "show") c in
  (* Hide after 5 seconds *)
  with_timers (timers c ++ [mkTimer (now c + 5000) elementId]) c.

Definition hideError (elementId : string) (c : Client) : Client :=
  on_element elementId (remove_class "show") c.

(** The page's clock moves on by [dt] milliseconds with no other event:
    the timers that are due run, in the order they were set. *)
Definition run_timer (t : Timer) (c : Client) : Client :=
  on_element (target t) (remove_class "show") c.

Definition advance (dt : nat) (c : Client) : Client :=
  let t' := now c + dt in
  let due := filter (fun t => (fireAt t <=? t')%nat) (timers c) in
  let rest := filter (fun t => negb (fireAt t <=? t')%nat) (timers c) in
  let c := fold_left (fun c t => run_timer t c) due c in
  with_timers rest (with_now t' c).

(** *** Socket actions *)

Definition input_value (id : string) (c : Client) : string := value (dom c id).

Definition createLobby (c : Client) : Client :=
  let c := hideError "create-lobby-error" c in
  let lobbyName := trim (input_value "lobby-name-input" c) in
  let smallBlind := num_or (parseInt (input_value "small-blind-input" c)) 5 in
  let bigBlind := num_or (parseInt (input_value "big-blind-input" c)) 10 in
  let startingFunds := num_or (parseInt (input_value "starting-funds-input" c)) 1000 in
  let maxPlayers := num_or (parseInt (input_value "max-players-input" c)) 8 in
  (* Validation *)
  if num_ltb bigBlind (num_mul smallBlind (Num 2)) then
    showError "create-lobby-error"
      "Big blind must be at least double the small blind" c
  else if num_ltb startingFunds (num_mul bigBlind (Num 10)) then
    showError "create-lobby-error"
      "Starting funds must be at least 10 times the big blind" c
  else
    emit (create_lobby
            (if truthy_str lobbyName then lobbyName
             else (username c ++ "'s Table")%string)
            smallBlind bigBlind startingFunds maxPlayers) c.

Definition toggleReady (c : Client) : Client := emit toggle_ready c.
Definition startGame (c : Client) : Client := emit start_game c.

(** *** Lobby room display updates *)

Definition updateLobbyDisplay (c : Client) : Client :=
  match currentLobby c with
  | None => c
  | Some l =>
      let c := on_element "lobby-title" (set_textContent (name l)) c in
      let c := on_element "lobby-code-text" (set_textContent (code l)) c in
      on_element "max-player-count"
        (set_textContent (string_of_Z (maxPlayers (config l)))) c
  end.

Definition updateReadyButton (c : Client) : Client :=
  if isReady c then
    let c := on_element "toggle-ready-btn" (set_textContent "Not Ready") c in
    let c := on_element "toggle-ready-btn" (remove_class "btn-secondary") c in
    on_element "toggle-ready-btn" (add_class "btn-primary") c
  else
    let c := on_element "toggle-ready-btn" (set_textContent "Ready Up") c in
    let c := on_element "toggle-ready-btn" (remove_class "btn-primary") c in
    on_element "toggle-ready-btn" (add_class "btn-secondary") c.

Definition playerItem (p : Player.t) : PlayerItem :=
  let classes :=
    if Player.isHost p && Player.isReady p then ["player-item"; "host"; "ready"]
    else if Player.isHost p then ["player-item"; "host"]
    else if Player.isReady p then ["player-item"; "ready"]
    else ["player-item"] in
  let statusText :=
    if Player.isHost p
    then (if Player.isReady p then "HOST (READY)" else "HOST (NOT READY)")
    else (if Player.isReady p then "READY" else "NOT READY") in
  mkPlayerItem classes (Player.username p) statusText.

(** The body of the [forEach] of [updatePlayersDisplay]. *)
Definition displayPlayer (c : Client) (p : Player.t) : Client :=
  (* Update our ready status if this is us *)
  let c :=
    if String.eqb (Player.socketId p) (socketId c)
    then updateReadyButton (with_isReady (Player.isReady p) c)
    else c in
  with_playersList (playersList c ++ [playerItem p]) c.

Definition updatePlayersDisplay (c : Client) : Client :=
  match currentLobby c with
  | None => c
  | Some l =>
      let c := on_element "player-count"
                 (set_textContent (string_of_Z (Z.of_nat (List.length (players l))))) c in
      let c := with_playersList [] c in
      fold_left displayPlayer (players l) c
  end.

Definition updateSettingsDisplay (c : Client) : Client :=
  match currentLobby c with
  | None => c
  | Some l =>
      let c := on_element "display-small-blind"
                 (set_textContent (string_of_Z (smallBlind (config l)))) c in
      let c := on_element "display-big-blind"
                 (set_textContent (string_of_Z (bigBlind (config l)))) c in
      on_element "display-starting-funds"
        (set_textContent (string_of_Z (startingFunds (config l)))) c
  end.

Definition updateHostControls (c : Client) : Client :=
  if isHost c then
    let c := on_element "edit-settings-btn" (set_display "inline-block") c in
    on_element "start-game-btn" (set_display "inline-block") c
  else
    let c := on_element "edit-settings-btn" (set_display "none") c in
    on_element "start-game-btn" (set_display "none") c.

(** [players.length >= 2 && players.every(p => p.isReady)] *)
Definition canStart (players : list Player.t) : bool :=
  (2 <=? List.length players)%nat && forallb Player.isReady players.

Definition updateStartButton (c : Client) : Client :=
  if negb (isHost c) then c else
  match currentLobby c with
  | None => c
  | Some l =>
      let players := players l in
      (* Need at least 2 players and all must be ready (including host) *)
      let canStart := canStart players in
      let c := on_element "start-game-btn" (set_disabled (negb canStart)) c in
      if canStart then
        on_element "start-game-btn" (set_textContent "Start Game") c
      else if (List.length players <? 2)%nat then
        on_element "start-game-btn" (set_textContent "Need More Players") c
      else
        on_element "start-game-btn" (set_textContent "Waiting for Players") c
  end.

Definition showLobbyRoom (c : Client) : Client :=
  let c := showScreen "lobby-room-screen" c in
  let c := updateLobbyDisplay c in
  let c := updatePlayersDisplay c in
  let c := updateSettingsDisplay c in
  let c := updateHostControls c in
  updateStartButton c.

(** *** The handlers registered by [registerSocketEvents] *)

Definition handle (ev : Event) (c : Client) : Client :=
  match ev with
  | username_set u =>
      let c := with_username u c in
      let c := showScreen "lobby-menu-screen" c in
      on_element "player-username" (set_textContent (username c)) c
  | username_error e => showError "username-error" e c
  | lobby_created l =>
      let c := with_currentLobby l c in
      let c := with_isHost true c in
      showLobbyRoom c
  | lobby_joined l u =>
      let c := with_currentLobby l c in
      let c := with_isHost false c in
      let c := with_username u c in
      showLobbyRoom c
  | lobby_error e =>
      (* Also show in relevant error containers *)
      let c :=
        if String.eqb (activeScreen c) "create-lobby-screen"
        then showError "create-lobby-error" e c else c in
      if String.eqb (activeScreen c) "join-lobby-screen"
      then showError "join-lobby-error" e c else c
  | player_joined l | player_left l | player_ready_changed l =>
      let c := with_currentLobby l c in
      let c := updatePlayersDisplay c in
      updateStartButton c
  | lobby_config_updated l =>
      let c := with_currentLobby l c in
      updateSettingsDisplay c
  | lobby_left =>
      let c := with_currentLobby None c in
      let c := with_isHost false c in
      let c := with_isReady false c in
      showScreen "lobby-menu-screen" c
  | transition_to_game gid tok =>
      (* Store the secure token for game authentication *)
      let c := with_playerToken (Some tok) c in
      with_location ("/game/" ++ gid)%string c
  | game_error _ => c
  end.

(** The start button as the page shows it. *)
Definition startButton (c : Client) : Element := dom c "start-game-btn".

(** *** More socket actions *)

Definition setUsername (c : Client) : Client :=
  let name_ := trim (input_value "username-input" c) in
  let c := hideError "username-error" c in
  if negb (truthy_str name_) then
    showError "username-error" "Username cannot be empty" c
  else if (str_length name_ <? 2)%nat then
    showError "username-error" "Username must be at least 2 characters" c
  else if (20 <? str_length name_)%nat then
    showError "username-error" "Username must be less than 20 characters" c
  else
    emit (set_username name_) c.

Fixpoint all_chars (p : ascii -> bool) (s : string) : bool :=
  match s with
  | EmptyString => true
  | String ch s' => p ch && all_chars p s'
  end.

Fixpoint keep_chars (p : ascii -> bool) (s : string) : string :=
  match s with
  | EmptyString => EmptyString
  | String ch s' => if p ch then String ch (keep_chars p s') else keep_chars p s'
  end.

(** [/^[A-Z]+$/.test(s)] *)
Definition onlyCapitals (s : string) : bool := truthy_str s && all_chars is_upper s.

Definition joinLobby (c : Client) : Client :=
  let c := hideError "join-lobby-error" c in
  let lobbyCode := toUpperCase (trim (input_value "lobby-code-input" c)) in
  if negb (truthy_str lobbyCode) then
    showError "join-lobby-error" "Please enter a lobby code" c
  else if negb (str_length lobbyCode =? 6)%nat then
    showError "join-lobby-error" "Lobby code must be 6 letters" c
  else if negb (onlyCapitals lobbyCode) then
    showError "join-lobby-error" "Lobby code must contain only letters" c
  else
    emit (join_lobby lobbyCode) c.

(** The [confirm] dialog answers [confirmed]. *)
Definition leaveLobby (confirmed : bool) (c : Client) : Client :=
  if confirmed then emit leave_lobby c else c.

(** *** Listeners on the form fields *)

(** Auto-format lobby code input:
    [value.toUpperCase().replace(/[^A-Z]/g, '')] *)
Definition onLobbyCodeInput (c : Client) : Client :=
  on_element "lobby-code-input"
    (fun e => set_value (keep_chars is_upper (toUpperCase (value e))) e) c.

(** Auto-update big blind when small blind changes *)
Definition onSmallBlindInput (c : Client) : Client :=
  let smallBlind := num_or (parseInt (input_value "small-blind-input" c)) 1 in
  let currentBigBlind := num_or (parseInt (input_value "big-blind-input" c)) 2 in
  if num_leb currentBigBlind smallBlind then
    on_element "big-blind-input"
      (set_value (string_of_num (num_mul smallBlind (Num 2)))) c
  else c.

(** Ensure big blind is at least double small blind *)
Definition onBigBlindInput (c : Client) : Client :=
  let bigBlind := num_or (parseInt (input_value "big-blind-input" c)) 2 in
  let smallBlind := num_or (parseInt (input_value "small-blind-input" c)) 1 in
  if num_ltb bigBlind (num_mul smallBlind (Num 2)) then
    on_element "big-blind-input"
      (set_value (string_of_num (num_mul smallBlind (Num 2)))) c
  else c.

(** Ensure starting funds is reasonable *)
Definition onStartingFundsInput (c : Client) : Client :=
  let funds := num_or (parseInt (input_value "starting-funds-input" c)) 100 in
  let bigBlind := num_or (parseInt (input_value "big-blind-input" c)) 10 in
  if num_ltb funds (num_mul bigBlind (Num 10)) then
    on_element "starting-funds-input"
      (set_value (string_of_num (num_mul bigBlind (Num 10)))) c
  else c.

(** *** Settings management *)

(** Reads [this.currentLobby.config] first: with no lobby held it throws
    before anything is written. *)
Definition showSettingsEditor (c : Client) : result Client :=
  match currentLobby c with
  | None => TypeError "Cannot read properties of null (reading 'config')"
  | Some l =>
      (* Populate current values *)
      let c := on_element "edit-small-blind"
                 (set_value (string_of_Z (smallBlind (config l)))) c in
      let c := on_element "edit-big-blind"
                 (set_value (string_of_Z (bigBlind (config l)))) c in
      let c := on_element "edit-starting-funds"
                 (set_value (string_of_Z (startingFunds (config l)))) c in
      let c := on_element "game-settings" (set_display "none") c in
      Ok (on_element "settings-editor" (set_display "block") c)
  end.

Definition hideSettingsEditor (c : Client) : Client :=
  let c := on_element "settings-editor" (set_display "none") c in
  on_element "game-settings" (set_display "block") c.

(** A failed check only reaches [showMessage], that is the console. *)
Definition saveSettings (c : Client) : Client :=
  let smallBlind := num_or (parseInt (input_value "edit-small-blind" c)) 5 in
  let bigBlind := num_or (parseInt (input_value "edit-big-blind" c)) 10 in
  let startingFunds := num_or (parseInt (input_value "edit-starting-funds" c)) 1000 in
  (* Validation *)
  if num_ltb bigBlind (num_mul smallBlind (Num 2)) then c
  else if num_ltb startingFunds (num_mul bigBlind (Num 10)) then c
  else
    hideSettingsEditor (emit (update_lobby_config smallBlind bigBlind startingFunds) c).

(** An ASCII letter of either case. *)
Definition is_letter (ch : ascii) : bool := is_upper ch || is_lower ch.

(** A text of ASCII characters only. *)
Definition ascii_only (s : string) : bool := all_chars is_ascii s.

End Lobby.

(* ================================================================= *)
(** ** The game room client: classes [GameRoomClient] and
       [AbilitySelectionManager] *)

Module Game.
Import JS Dom.

(** *** Game snapshot *)

Module Ability.
Record t : Type := mk {
  Name : string;
  Type_ : string;        (* the field Type *)
  Description : string
}.
End Ability.

(** A seat.  An absent [HoleCards] or [Abilities] is the empty list: the
    code only asks [x && x.length > 0]. *)
Module Player.
Record t : Type := mk {
  Name : string;
  Balance : Z;
  IsMyTurn : bool;
  IsFolded : bool;
  IsAllIn : bool;
  HasActedThisRound : bool;
  CurrentBet : Z;
  HoleCards : list string;
  Abilities : list Ability.t
}.
End Player.

Module TurnMgr.
Record t : Type := mk { CurrentBet : Z }.
End TurnMgr.

Record GameState : Type := mkGameState {
  CurrentPhase : option string;
  Pot : option Z;
  TurnManager : option TurnMgr.t;
  Players : option (list Player.t);
  Board : option (list string);
  CurrentPlayer : option string
}.

Record PlayerAction : Type := mkPlayerAction {
  PlayerName : string;
  Action : string;
  Amount : option Z
}.

(** *** Payload of [ability_choice_required] *)

Module PlayerOpt.
Record t : Type := mk { id : Z; name : string; balance : Z }.
End PlayerOpt.

Module CardOpt.
Record t : Type := mk { index : Z; name : string }.
End CardOpt.

Module RevealOpt.
Record t : Type := mk { value : bool; name : string }.
End RevealOpt.

Module CardRef.
Record t : Type := mk { index : Z; card : string; isDrawnCard : bool }.
End CardRef.

Module DrawnCard.
Record t : Type := mk { Card : option string; Rank : JS.value; Suit : JS.value }.
End DrawnCard.

Module Chosen.
Record t : Type := mk { index : option Z; card : string }.
End Chosen.

Record ChoiceData : Type := mkChoiceData {
  abilityUsed : string;
  message : option string;
  instructions : option string;
  step : option Z;
  availablePlayers : option (list PlayerOpt.t);
  cardOptions : option (list CardOpt.t);
  revealOptions : option (list RevealOpt.t);
  availableCards : option (list CardRef.t);
  drawnCard : option DrawnCard.t;
  availableBurntCards : option (list CardRef.t);
  currentHoleCards : option (list string);
  availableHoleCards : option (list CardRef.t);
  chosenBurntCard : option Chosen.t;
  availableBoardCards : option (list CardRef.t)
}.

(** *** What the page shows *)

Record CardEl : Type := mkCardEl {
  cardClass : string;
  cardText : string
}.

Record TurnItem : Type := mkTurnItem {
  itemClasses : list string;
  nameWithFunds : string;
  statusText : string;
  betText : string;
  lastAction : option (string * string)   (* class and label *)
}.

Inductive TurnList : Type :=
| NoPlayers                       (* the div "No players available" *)
| TurnItems (items : list TurnItem).

Record AbilityEl : Type := mkAbilityEl {
  abilityName : string;
  abilityDescription : string;
  dataAbility : string;
  clickType : string               (* the argument its click passes to useAbility *)
}.

Inductive AbilityRegion : Type :=
| NoAbilities (text : string)
| AbilityButtons (buttons : list AbilityEl).

Record LogItem : Type := mkLogItem {
  logClass : string;
  logText : string
}.

(** Controls of the ability dialog. *)
Record SelectEl : Type := mkSelect {
  options : list (string * string);   (* value and label *)
  selectedIndex : nat
}.

Record Radio : Type := mkRadio {
  radioValue : string;
  radioLabel : string;
  checked : bool
}.

Record CardBtn : Type := mkCardBtn {
  btnClass : string;
  dataIndex : string;
  dataCard : string;
  cardType : string;
  selected : bool
}.

Record Grid : Type := mkGrid {
  gridId : string;
  gridButtons : list CardBtn
}.

(** The content of the dialog body.  [genericDump] stands for the [pre]
    element holding the JSON text of the payload. *)
Record Form : Type := mkForm {
  peekPlayer : option SelectEl;       (* #peek-player *)
  peekCard : option SelectEl;         (* #peek-card *)
  burnChoice : list Radio;            (* input[name=burn-choice] *)
  grids : list Grid;                  (* .card-selection-grid, document order *)
  labels : list string;
  genericDump : option ChoiceData
}.

Definition emptyForm : Form := mkForm None None [] [] [] None.

(** *** Outbound messages *)

Inductive Emit : Type :=
| join_game (gameId playerToken : string)
| use_ability (gameId ability : string) (selection : list (string * JS.value))
| cancel_ability (gameId : string).

(** *** The two objects and their page *)

Record World : Type := mkWorld {
  gameId : string                (* this.gameId *);
  gameState : option GameState   (* this.gameState *);
  dom : Store                    (* elements reached by id *);
  turnList : TurnList            (* children of #players-turn-list *);
  holeCards : list CardEl        (* children of #hole-cards *);
  boardCards : list CardEl       (* children of #board-cards *);
  abilityCards : AbilityRegion   (* children of #ability-cards *);
  actionsLog : list LogItem      (* children of #actions-log *);
  outbox : list Emit             (* socket.emit, oldest first *);
  playerToken : option string    (* localStorage 'playerToken' *);
  timeString : string            (* new Date().toLocaleTimeString() *);
  currentAbility : option string (* manager.currentAbility *);
  currentChoices : option ChoiceData (* manager.currentChoices *);
  selectionContent : Form        (* children of #ability-selection-content *)
}.

Definition with_gameId v w :=
  mkWorld v (gameState w) (dom w) (turnList w) (holeCards w)
    (boardCards w) (abilityCards w) (actionsLog w) (outbox w)
    (playerToken w) (timeString w) (currentAbility w) (currentChoices w)
    (selectionContent w).
Definition with_gameState v w :=
  mkWorld (gameId w) v (dom w) (turnList w) (holeCards w) (boardCards w)
    (abilityCards w) (actionsLog w) (outbox w) (playerToken w)
    (timeString w) (currentAbility w) (currentChoices w)
    (selectionContent w).
Definition with_dom v w :=
  mkWorld (gameId w) (gameState w) v (turnList w) (holeCards w)
    (boardCards w) (abilityCards w) (actionsLog w) (outbox w)
    (playerToken w) (timeString w) (currentAbility w) (currentChoices w)
    (selectionContent w).
Definition with_turnList v w :=
  mkWorld (gameId w) (gameState w) (dom w) v (holeCards w) (boardCards w)
    (abilityCards w) (actionsLog w) (outbox w) (playerToken w)
    (timeString w) (currentAbility w) (currentChoices w)
    (selectionContent w).
Definition with_holeCards v w :=
  mkWorld (gameId w) (gameState w) (dom w) (turnList w) v (boardCards w)
    (abilityCards w) (actionsLog w) (outbox w) (playerToken w)
    (timeString w) (currentAbility w) (currentChoices w)
    (selectionContent w).
Definition with_boardCards v w :=
  mkWorld (gameId w) (gameState w) (dom w) (turnList w) (holeCards w) v
    (abilityCards w) (actionsLog w) (outbox w) (playerToken w)
    (timeString w) (currentAbility w) (currentChoices w)
    (selectionContent w).
Definition with_abilityCards v w :=
  mkWorld (gameId w) (gameState w) (dom w) (turnList w) (holeCards w)
    (boardCards w) v (actionsLog w) (outbox w) (playerToken w)
    (timeString w) (currentAbility w) (currentChoices w)
    (selectionContent w).
Definition with_actionsLog v w :=
  mkWorld (gameId w) (gameState w) (dom w) (turnList w) (holeCards w)
    (boardCards w) (abilityCards w) v (outbox w) (playerToken w)
    (timeString w) (currentAbility w) (currentChoices w)
    (selectionContent w).
Definition with_outbox v w :=
  mkWorld (gameId w) (gameState w) (dom w) (turnList w) (holeCards w)
    (boardCards w) (abilityCards w) (actionsLog w) v (playerToken w)
    (timeString w) (currentAbility w) (currentChoices w)
    (selectionContent w).
Definition with_playerToken v w :=
  mkWorld (gameId w) (gameState w) (dom w) (turnList w) (holeCards w)
    (boardCards w) (abilityCards w) (actionsLog w) (outbox w) v
    (timeString w) (currentAbility w) (currentChoices w)
    (selectionContent w).
Definition with_currentAbility v w :=
  mkWorld (gameId w) (gameState w) (dom w) (turnList w) (holeCards w)
    (boardCards w) (abilityCards w) (actionsLog w) (outbox w)
    (playerToken w) (timeString w) v (currentChoices w)
    (selectionContent w).
Definition with_currentChoices v w :=
  mkWorld (gameId w) (gameState w) (dom w) (turnList w) (holeCards w)
    (boardCards w) (abilityCards w) (actionsLog w) (outbox w)
    (playerToken w) (timeString w) (currentAbility w) v
    (selectionContent w).
Definition with_selectionContent v w :=
  mkWorld (gameId w) (gameState w) (dom w) (turnList w) (holeCards w)
    (boardCards w) (abilityCards w) (actionsLog w) (outbox w)
    (playerToken w) (timeString w) (currentAbility w) (currentChoices w) v.

(** *** Steps that may throw *)

Inductive completion : Type := Done | Threw.

Definition Step : Type := World -> World * completion.

Definition run (f : World -> World) : Step := fun w => (f w, Done).

Definition seq (a b : Step) : Step :=
  fun w => match a w with
           | (w', Done) => b w'
           | (w', Threw) => (w', Threw)
           end.

Definition throw : Step := fun w => (w, Threw).

Declare Scope step_scope.
Delimit Scope step_scope with step.
Bind Scope step_scope with Step.
Notation "a ;; b" := (seq a b) (at level 61, right associativity) : step_scope.

Definition on_element (id : string) (f : Element -> Element) (w : World) : World :=
  with_dom (upd id f (dom w)) w.

Definition emit (m : Emit) (w : World) : World :=
  with_outbox (outbox w ++ [m]) w.

(** *** [GameRoomClient]: UI updates *)

Definition addActionLog (message type : string) (w : World) : World :=
  let item := mkLogItem ("action-item " ++ type)%string
                ("[" ++ timeString w ++ "] " ++ message)%string in
  let items := actionsLog w ++ [item] in
  (* Keep only last 20 messages *)
  with_actionsLog (if (20 <? List.length items)%nat then tl items else items) w.

Definition updateConnectionStatus (status text : string) (w : World) : World :=
  let w := on_element "connection-status"
             (set_classList ["connection-status"; status]) w in
  on_element "status-text" (set_textContent text) w.

(** Helper function to parse card and get suit info. *)
Record CardInfo : Type := mkCardInfo {
  display : string;
  isRed : bool
}.

Definition parseCard (cardString : string) : result CardInfo :=
  match split " of " (toLowerCase cardString) with
  | [rank; suit] =>
      (* Convert rank to short form *)
      let shortRank :=
        if String.eqb rank "ace" then "A"
        else if String.eqb rank "king" then "K"
        else if String.eqb rank "queen" then "Q"
        else if String.eqb rank "jack" then "J"
        else rank in
      (* Get suit symbol and color *)
      if String.eqb suit "hearts" then Ok (mkCardInfo (shortRank ++ "♥")%string true)
      else if String.eqb suit "diamonds" then Ok (mkCardInfo (shortRank ++ "♦")%string true)
      else if String.eqb suit "clubs" then Ok (mkCardInfo (shortRank ++ "♣")%string false)
      else if String.eqb suit "spades" then Ok (mkCardInfo (shortRank ++ "♠")%string false)
      else
        match suit with
        | String c _ =>
            Ok (mkCardInfo (shortRank ++ String (upper_char c) EmptyString)%string false)
        | EmptyString =>
            (* suit[0] is undefined *)
            TypeError "Cannot read properties of undefined (reading 'toUpperCase')"
        end
  | _ => Ok (mkCardInfo cardString false) (* Fallback *)
  end.

Definition revealedCard (info : CardInfo) : CardEl :=
  mkCardEl
    ("card-placeholder revealed " ++ (if isRed info then "red-suit" else "black-suit"))%string
    (display info).

(** The [forEach] over card strings: each card is parsed and appended; a
    throw leaves the cards appended so far. *)
Fixpoint appendCards (cards : list string) (acc : list CardEl)
  : list CardEl * completion :=
  match cards with
  | [] => (acc, Done)
  | card :: rest =>
      match parseCard card with
      | Ok info => appendCards rest (acc ++ [revealedCard info])
      | TypeError _ => (acc, Threw)
      end
  end.

Definition nonEmpty {A : Type} (l : list A) : bool :=
  match l with [] => false | _ => true end.

Definition turnStatusClass (p : Player.t) : list string :=
  if Player.IsMyTurn p then ["current-turn"]
  else if Player.IsFolded p then ["folded"]
  else if Player.IsAllIn p then ["all-in"]
  else if Player.HasActedThisRound p then ["acted"]
  else [].

Definition turnStatusText (p : Player.t) : string :=
  if Player.IsMyTurn p then "Current Turn"
  else if Player.IsFolded p then "Folded"
  else if Player.IsAllIn p then "All In"
  else if Player.HasActedThisRound p then "Waiting"
  else "To Act".

Definition turnLastAction (p : Player.t) : option (string * string) :=
  if Player.HasActedThisRound p && negb (Player.IsFolded p) && negb (Player.IsAllIn p) then
    (* Determine action based on bet amount *)
    if (Player.CurrentBet p =? 0)%Z then Some ("player-action check", "Check")
    else Some ("player-action call", "Call")
  else if Player.IsFolded p then Some ("player-action fold", "Fold")
  else if Player.IsAllIn p then Some ("player-action all-in", "All In")
  else None.

(** The body of the [forEach] of [updateTurnIndicator]. *)
Definition turnItem (p : Player.t) : TurnItem :=
  mkTurnItem
    ("player-turn-item" :: turnStatusClass p)
    (Player.Name p ++ " ($" ++ string_of_Z (Player.Balance p) ++ ")")%string
    (turnStatusText p)
    ("Bet: $" ++ string_of_Z (Player.CurrentBet p))%string
    (turnLastAction p).

Definition gamePlayers (w : World) : option (list Player.t) :=
  match gameState w with
  | Some g => Players g
  | None => None
  end.

Definition updateTurnIndicator (w : World) : World :=
  match gamePlayers w with
  | None => with_turnList NoPlayers w
  | Some ps => with_turnList (TurnItems (map turnItem ps)) w
  end.

Definition updateHoleCards : Step := fun w =>
  match gamePlayers w with
  | None => (w, Done)
  | Some ps =>
      (* Find the player with hole cards (should be only me after filtering) *)
      match find (fun p => nonEmpty (Player.HoleCards p)) ps with
      | Some myPlayer =>
          let '(els, r) := appendCards (Player.HoleCards myPlayer) [] in
          (with_holeCards els w, r)
      | None =>
          (with_holeCards [mkCardEl "card-placeholder" "Card 1";
                           mkCardEl "card-placeholder" "Card 2"] w, Done)
      end
  end.

Definition boardNames : list string :=
  ["Flop 1"; "Flop 2"; "Flop 3"; "Turn"; "River"].

Definition hiddenCard (name : string) : CardEl :=
  mkCardEl "card-placeholder hidden" name.

(** Called with the game state present ([updateGameDisplay] has checked). *)
Definition updateBoardCards (g : GameState) : Step := fun w =>
  match Board g with
  | Some (card :: more) =>
      let '(els, r) := appendCards (card :: more) [] in
      match r with
      | Threw => (with_boardCards els w, Threw)
      | Done =>
          (* Add placeholder for remaining cards *)
          (with_boardCards
             (els ++ map hiddenCard (skipn (List.length (card :: more)) boardNames)) w,
           Done)
      end
  | _ => (with_boardCards (map hiddenCard boardNames) w, Done)
  end.

Definition abilityButton (a : Ability.t) : AbilityEl :=
  mkAbilityEl (Ability.Name a) (Ability.Description a)
    (toLowerCase (Ability.Type_ a)) (Ability.Type_ a).

Definition updateAbilities (w : World) : World :=
  match gamePlayers w with
  | None => with_abilityCards (NoAbilities "No game state available") w
  | Some ps =>
      match find (fun p => nonEmpty (Player.Abilities p)) ps with
      | Some myPlayer =>
          with_abilityCards (AbilityButtons (map abilityButton (Player.Abilities myPlayer))) w
      | None => with_abilityCards (NoAbilities "No abilities available") w
      end
  end.

(** [${x}] for a field that may be absent. *)
Definition tpl_str (o : option string) : string :=
  match o with Some s => s | None => "undefined" end.

Definition tpl_Z (o : option Z) : string :=
  match o with Some z => string_of_Z z | None => "undefined" end.

(** [x || d] for a string field that may be absent. *)
Definition str_or (o : option string) (d : string) : string :=
  match o with
  | Some s => if truthy_str s then s else d
  | None => d
  end.

Definition phaseText (g : GameState) : string := str_or (CurrentPhase g) "-----".

Definition potText (g : GameState) : string :=
  match Pot g with
  | Some z => if (z =? 0)%Z then "0" else string_of_Z z
  | None => "0"
  end.

Definition betText_of (g : GameState) : string :=
  match TurnManager g with
  | Some tm => string_of_Z (TurnMgr.CurrentBet tm)
  | None => string_of_Z 0
  end.

Definition stateLogLine (g : GameState) : string :=
  ("Phase: " ++ tpl_str (CurrentPhase g) ++ ", Pot: " ++ tpl_Z (Pot g)
     ++ ", Current Player: " ++ str_or (CurrentPlayer g) "None")%string.

Definition updateGameDisplay : Step := fun w =>
  match gameState w with
  | None => (w, Done)
  | Some g =>
      (run (on_element "current-phase" (set_textContent (phaseText g))) ;;
       run (on_element "current-pot" (set_textContent (potText g))) ;;
       run (on_element "current-bet-amount" (set_textContent (betText_of g))) ;;
       run updateTurnIndicator ;;
       updateHoleCards ;;
       updateBoardCards g ;;
       run updateAbilities ;;
       run (addActionLog (stateLogLine g) "system"))%step w
  end.

(** *** [GameRoomClient]: socket actions *)

Definition joinGame (w : World) : World :=
  let w := addActionLog "Joining game room..." "system" w in
  (* Get secure token from localStorage *)
  match playerToken w with
  | Some tok =>
      if truthy_str tok then
        (* Don't clear token immediately - wait for successful join *)
        emit (join_game (gameId w) tok) w
      else addActionLog "Error: No authentication token found" "system" w
  | None => addActionLog "Error: No authentication token found" "system" w
  end.

Definition useAbility (abilityType : string) (w : World) : World :=
  let w := addActionLog ("Using " ++ abilityType ++ " ability...")%string "player-action" w in
  emit (use_ability (gameId w) (toLowerCase abilityType) []) w.

(** *** [AbilitySelectionManager] *)

Definition overlay : string := "ability-selection-overlay".

(** Create the selection window overlay (constructor and [init]). *)
Definition createSelectionWindow (w : World) : World :=
  let w := on_element overlay (set_classList ["ability-selection-overlay"; "hidden"]) w in
  let w := on_element "ability-selection-title" (set_textContent "Choose Action") w in
  let w := on_element "ability-selection-message" (set_textContent "Select an option:") w in
  with_selectionContent emptyForm w.

Definition newManager (w : World) : World :=
  let w := with_currentAbility None w in
  let w := with_currentChoices None w in
  createSelectionWindow w.

Definition isHidden (w : World) : bool := has_class "hidden" (dom w overlay).

(** [step || 1] *)
Definition step_or_1 (data : ChoiceData) : Z :=
  match step data with
  | Some z => if (z =? 0)%Z then 1%Z else z
  | None => 1%Z
  end.

(** Get display title for ability.  (A tag that names a member of
    [Object.prototype] is outside this model.) *)
Definition getAbilityTitle (data : ChoiceData) : string :=
  let ability := toLowerCase (abilityUsed data) in
  if String.eqb ability "peek" then "Peek Ability"
  else if String.eqb ability "burn" then "Burn Ability"
  else if String.eqb ability "manifest" then "Manifest Ability"
  else if String.eqb ability "trashman" then
    ("Trashman Ability" ++
       match step data with
       | Some z => if (z =? 0)%Z then "" else " - Step " ++ string_of_Z z
       | None => ""
       end)%string
  else if String.eqb ability "deadman" then "Deadman Ability"
  else if String.eqb ability "chaos" then "Chaos Ability"
  else if String.eqb ability "yoink" then "Yoink Ability"
  else (ability ++ " Ability")%string.

Definition or_nil {A : Type} (o : option (list A)) : list A :=
  match o with Some l => l | None => [] end.

Definition cardButton (cls type : string) (c : CardRef.t) : CardBtn :=
  mkCardBtn cls (string_of_Z (CardRef.index c)) (CardRef.card c) type false.

(** Peek: Player selection + card choice *)
Definition createPeekInterface (data : ChoiceData) : Form :=
  let players := or_nil (availablePlayers data) in
  let cardOptions :=
    match cardOptions data with
    | Some l => l
    | None => [CardOpt.mk 0 "First Card"; CardOpt.mk 1 "Second Card"]
    end in
  mkForm
    (Some (mkSelect
             (("", "Choose player...") ::
              map (fun p => (string_of_Z (PlayerOpt.id p),
                             (PlayerOpt.name p ++ " ($" ++
                              string_of_Z (PlayerOpt.balance p) ++ ")")%string))
                  players) 0))
    (Some (mkSelect
             (("", "Choose card...") ::
              map (fun c => (string_of_Z (CardOpt.index c), CardOpt.name c))
                  cardOptions) 0))
    [] [] ["Target Player:"; "Card to Peek:"] None.

Definition string_of_bool (b : bool) : string := if b then "true" else "false".

Fixpoint burnRadios (index : nat) (l : list RevealOpt.t) : list Radio :=
  match l with
  | [] => []
  | o :: rest =>
      mkRadio (string_of_bool (RevealOpt.value o)) (RevealOpt.name o)
              (Nat.eqb index 0)
      :: burnRadios (S index) rest
  end.

(** Burn: Suit vs Rank choice *)
Definition createBurnInterface (data : ChoiceData) : Form :=
  let options :=
    match revealOptions data with
    | Some l => l
    | None => [RevealOpt.mk true "Reveal Suit"; RevealOpt.mk false "Reveal Rank"]
    end in
  mkForm None None (burnRadios 0 options) [] ["What to reveal:"] None.

(** Manifest: Card selection grid *)
Definition createManifestInterface (data : ChoiceData) : Form :=
  let cards := or_nil (availableCards data) in
  mkForm None None []
    [mkGrid ""
       (map (fun c => cardButton "card-selection-btn"
                        (if CardRef.isDrawnCard c then "(New)" else "(Current)") c)
            cards)]
    ("Choose card to discard:" ::
     match drawnCard data with
     | Some d => [("New card drawn: " ++ str_or (DrawnCard.Card d) "Unknown")%string]
     | None => []
     end)
    None.

(** Trashman: Multi-step interface *)
Definition createTrashmanInterface (data : ChoiceData) : Form :=
  if (step_or_1 data =? 1)%Z then
    (* Step 1: Choose burnt card *)
    let burntCards := or_nil (availableBurntCards data) in
    let currentHole := or_nil (currentHoleCards data) in
    mkForm None None []
      [mkGrid "" (map (cardButton "card-selection-btn" "(Burnt)") burntCards)]
      [("Current hole cards: " ++ join ", " currentHole)%string;
       "Choose burnt card to retrieve:"]
      None
  else
    (* Step 2: Choose hole card to discard *)
    let holeCards := or_nil (availableHoleCards data) in
    mkForm None None []
      [mkGrid "" (map (cardButton "card-selection-btn" "(Current)") holeCards)]
      [("Retrieving: " ++
        match chosenBurntCard data with
        | Some c => Chosen.card c
        | None => "Unknown"
        end)%string;
       "Choose hole card to discard:"]
      None.

(** Yoink: Two card grids (hole + board) *)
Definition createYoinkInterface (data : ChoiceData) : Form :=
  let holeCards := or_nil (availableHoleCards data) in
  let boardCards := or_nil (availableBoardCards data) in
  mkForm None None []
    [mkGrid "yoink-hole-grid"
       (map (cardButton "card-selection-btn hole-card" "(Your card)") holeCards);
     mkGrid "yoink-board-grid"
       (map (cardButton "card-selection-btn board-card" "(Board card)") boardCards)]
    ["Your hole cards (choose one):"; "Board cards (choose one):"]
    None.

(** Generic interface for unknown abilities *)
Definition createGenericInterface (data : ChoiceData) : Form :=
  mkForm None None [] []
    ["Ability data received but no specific interface available."]
    (Some data).

(** Hide selection window *)
Definition hideSelectionWindow (w : World) : World :=
  let w := on_element overlay (add_class "hidden") w in
  let w := with_currentAbility None w in
  with_currentChoices None w.

(** Main method called when Flask sends ability_choice_required *)
Definition showAbilitySelection (data : ChoiceData) (w : World) : World :=
  let w := with_currentAbility (Some (abilityUsed data)) w in
  let w := with_currentChoices (Some data) w in
  let title := getAbilityTitle data in
  let message :=
    match message data with
    | Some m => if truthy_str m then m else str_or (instructions data) "Make your selection"
    | None => str_or (instructions data) "Make your selection"
    end in
  let w := on_element "ability-selection-title" (set_textContent title) w in
  let w := on_element "ability-selection-message" (set_textContent message) w in
  (* Clear previous content *)
  let w := with_selectionContent emptyForm w in
  (* Create appropriate UI based on ability type *)
  let tag := toLowerCase (abilityUsed data) in
  let w :=
    with_selectionContent
      (if String.eqb tag "peek" then createPeekInterface data
       else if String.eqb tag "burn" then createBurnInterface data
       else if String.eqb tag "manifest" then createManifestInterface data
       else if String.eqb tag "trashman" then createTrashmanInterface data
       else if String.eqb tag "yoink" then createYoinkInterface data
       else createGenericInterface data) w in
  let w := on_element overlay (remove_class "hidden") w in
  addActionLog (title ++ " - " ++ message)%string "system" w.

(** **** Reading the form controls *)

Definition selectValue (s : SelectEl) : string :=
  match nth_error (options s) (selectedIndex s) with
  | Some (v, _) => v
  | None => ""
  end.

(** [document.querySelector('.card-selection-btn.selected')] *)
Definition selectedButton (f : Form) : option CardBtn :=
  find selected (flat_map gridButtons (grids f)).

(** [document.querySelector('#id .card-selection-btn.selected')] *)
Definition selectedButtonIn (id : string) (f : Form) : option CardBtn :=
  find selected
    (flat_map gridButtons (filter (fun g => String.eqb (gridId g) id) (grids f))).

Definition datasetIndex (b : CardBtn) : JS.value := VNum (parseInt (dataIndex b)).

Definition getPeekSelection (f : Form) : option (list (string * JS.value)) :=
  let playerId := option_map selectValue (peekPlayer f) in
  let cardIndex := option_map selectValue (peekCard f) in
  match playerId with
  | None => None
  | Some pid =>
      if negb (truthy_str pid) then None
      else
        match cardIndex with
        | Some "" => None
        | _ =>
            Some [("targetPlayerId", VNum (parseInt pid));
                  ("cardIndex", VNum (parseInt_opt cardIndex))]
        end
  end.

Definition getBurnSelection (f : Form) : option (list (string * JS.value)) :=
  match find checked (burnChoice f) with
  | None => None
  | Some r => Some [("revealSuit", VBool (String.eqb (radioValue r) "true"))]
  end.

Definition getManifestSelection (choices : ChoiceData) (f : Form)
  : option (list (string * JS.value)) :=
  match selectedButton f with
  | None => None
  | Some b =>
      Some [("discardIndex", datasetIndex b);
            ("drawnCard",
             match drawnCard choices with Some d => DrawnCard.Rank d | None => VNull end);
            ("drawnCardSuit",
             match drawnCard choices with Some d => DrawnCard.Suit d | None => VNull end)]
  end.

(** [this.currentChoices.chosenBurntCard?.index || 0] *)
Definition echoedBurntIndex (choices : ChoiceData) : Z :=
  match chosenBurntCard choices with
  | Some c =>
      match Chosen.index c with
      | Some z => if (z =? 0)%Z then 0%Z else z
      | None => 0%Z
      end
  | None => 0%Z
  end.

Definition getTrashmanSelection (choices : ChoiceData) (f : Form)
  : option (list (string * JS.value)) :=
  match selectedButton f with
  | None => None
  | Some b =>
      if (step_or_1 choices =? 1)%Z then
        Some [("burntCardIndex", datasetIndex b)]
      else
        Some [("burntCardIndex", VNum (Num (echoedBurntIndex choices)));
              ("holeCardIndex", datasetIndex b)]
  end.

Definition getYoinkSelection (f : Form) : option (list (string * JS.value)) :=
  match selectedButtonIn "yoink-hole-grid" f, selectedButtonIn "yoink-board-grid" f with
  | Some holeSelected, Some boardSelected =>
      Some [("cardIndex", datasetIndex holeSelected);        (* hole card index *)
            ("targetPlayerId", datasetIndex boardSelected)]  (* board card index *)
  | _, _ => None
  end.

(** Extract selection data based on current ability *)
Definition getSelectionData (ability : string) (choices : ChoiceData) (f : Form)
  : option (list (string * JS.value)) :=
  let tag := toLowerCase ability in
  if String.eqb tag "peek" then getPeekSelection f
  else if String.eqb tag "burn" then getBurnSelection f
  else if String.eqb tag "manifest" then getManifestSelection choices f
  else if String.eqb tag "trashman" then getTrashmanSelection choices f
  else if String.eqb tag "yoink" then getYoinkSelection f
  else None.

(** Confirm current selection.  After a successful send the window is
    hidden, which sets [currentChoices] to null; the log line that follows
    reads [this.currentChoices.abilityUsed] and throws. *)
Definition confirmSelection : Step := fun w =>
  match currentAbility w, currentChoices w with
  | Some ability, Some choices =>
      if negb (truthy_str ability) then (w, Done)
      else
        match getSelectionData ability choices (selectionContent w) with
        | None =>
            (addActionLog "Please make a selection before confirming" "system" w, Done)
        | Some selection =>
            (* Send selection back to Flask *)
            let w := emit (use_ability (gameId w) ability selection) w in
            let w := hideSelectionWindow w in
            match currentChoices w with
            | Some c =>
                (addActionLog (getAbilityTitle c ++ " - Selection confirmed")%string
                   "player-action" w, Done)
            | None => (w, Threw)
            end
        end
  | _, _ => (w, Done)
  end.

(** Cancel ability *)
Definition cancelAbility (w : World) : World :=
  let w := emit (cancel_ability (gameId w)) w in
  let w := hideSelectionWindow w in
  addActionLog "Ability cancelled" "system" w.

Definition handleAbilityChoiceRequired (data : ChoiceData) (w : World) : World :=
  showAbilitySelection data w.

(** **** The user operating the form controls *)

Definition chooseOption (i : nat) (s : SelectEl) : SelectEl :=
  if (i <? List.length (options s))%nat then mkSelect (options s) i else s.

(** Checking the radio at position [i] of a group unchecks the others;
    [k] is the position of the head of [l]. *)
Fixpoint checkRadio (k i : nat) (l : list Radio) : list Radio :=
  match l with
  | [] => []
  | r :: rest =>
      mkRadio (radioValue r) (radioLabel r) (Nat.eqb k i) :: checkRadio (S k) i rest
  end.

Definition setSelected (b : bool) (c : CardBtn) : CardBtn :=
  mkCardBtn (btnClass c) (dataIndex c) (dataCard c) (cardType c) b.

Definition deselectGrid (g : Grid) : Grid :=
  mkGrid (gridId g) (map (setSelected false) (gridButtons g)).

Fixpoint mapAt {A : Type} (i : nat) (f : A -> A) (l : list A) : list A :=
  match l, i with
  | [], _ => []
  | x :: rest, O => f x :: rest
  | x :: rest, S k => x :: mapAt k f rest
  end.

Definition isYoinkGrid (g : Grid) : bool :=
  String.eqb (gridId g) "yoink-hole-grid" || String.eqb (gridId g) "yoink-board-grid".

(** The click handler bound by [bindCardSelection], on button [i] of
    grid [g]. *)
Definition clickCard (g i : nat) (f : Form) : Form :=
  match nth_error (grids f) g with
  | None => f
  | Some grid =>
      match nth_error (gridButtons grid) i with
      | None => f
      | Some _ =>
          let cleared :=
            if isYoinkGrid grid
            then mapAt g deselectGrid (grids f)   (* one selection in each grid *)
            else map deselectGrid (grids f) in    (* only one selection total *)
          let picked :=
            mapAt g (fun gr => mkGrid (gridId gr)
                                 (mapAt i (setSelected true) (gridButtons gr)))
                  cleared in
          mkForm (peekPlayer f) (peekCard f) (burnChoice f) picked
                 (labels f) (genericDump f)
      end
  end.

Definition choosePeekPlayer (i : nat) (f : Form) : Form :=
  mkForm (option_map (chooseOption i) (peekPlayer f)) (peekCard f) (burnChoice f)
         (grids f) (labels f) (genericDump f).

Definition choosePeekCard (i : nat) (f : Form) : Form :=
  mkForm (peekPlayer f) (option_map (chooseOption i) (peekCard f)) (burnChoice f)
         (grids f) (labels f) (genericDump f).

Definition clickRadio (i : nat) (f : Form) : Form :=
  if (i <? List.length (burnChoice f))%nat then
    mkForm (peekPlayer f) (peekCard f) (checkRadio 0 i (burnChoice f))
           (grids f) (labels f) (genericDump f)
  else f.

(** *** Events *)

Inductive SocketEvent : Type :=
| connect
| disconnect
| connect_error
| game_room_joined (playersJoined totalPlayers : Z)
| waiting_for_players (msg : string)
| game_started (gs : option GameState)
| game_state_update (gs : option GameState)
| game_error (error : string)
| player_action_result (pa : PlayerAction) (gs : option GameState)
| ability_result (msg : string)
| ability_choice_required (data : ChoiceData)
| ability_error (error : string)
| ability_cancelled (msg : string).

Inductive UiEvent : Type :=
| click_ability (abilityType : string)   (* a button of #ability-cards *)
| click_close                            (* #ability-selection-close *)
| click_cancel                           (* #ability-cancel-btn *)
| click_confirm                          (* #ability-confirm-btn *)
| click_overlay (onOverlayItself : bool) (* e.target === this.selectionWindow *)
| choose_peek_player (i : nat)
| choose_peek_card (i : nat)
| click_radio (i : nat)
| click_card (grid i : nat).

Definition actionLine (pa : PlayerAction) : string :=
  (PlayerName pa ++ " " ++ toLowerCase (Action pa) ++
     match Amount pa with
     | Some z => if (z =? 0)%Z then "" else " $" ++ string_of_Z z
     | None => ""
     end)%string.

(** The handlers registered by [initializeSocket] and
    [registerGameEvents]. *)
Definition on_socket (ev : SocketEvent) : Step :=
  match ev with
  | connect => run (updateConnectionStatus "connected" "Connected")
  | disconnect =>
      run (fun w =>
             let w := updateConnectionStatus "disconnected" "Disconnected" w in
             addActionLog "Connection lost. Please refresh the page." "system" w)
  | connect_error => run (updateConnectionStatus "disconnected" "Connection Error")
  | game_room_joined pj tp =>
      run (fun w =>
             let w := addActionLog
                        ("Joined game room (" ++ string_of_Z pj ++ "/" ++
                         string_of_Z tp ++ " players)")%string "system" w in
             (* Now safe to clear token *)
             with_playerToken None w)
  | waiting_for_players m => run (addActionLog m "system")
  | game_started gs =>
      (run (addActionLog "Game started!" "important") ;;
       run (with_gameState gs) ;;
       updateGameDisplay)%step
  | game_state_update gs =>
      (run (with_gameState gs) ;; updateGameDisplay)%step
  | game_error e => run (addActionLog ("Error: " ++ e)%string "system")
  | player_action_result pa gs =>
      (run (addActionLog (actionLine pa) "player-action") ;;
       match gs with
       | Some g => (run (with_gameState (Some g)) ;; updateGameDisplay)%step
       | None => run (fun w => w)
       end)%step
  | ability_result m =>
      (* Game state will be updated via separate game_state_update event *)
      run (addActionLog m "player-action")
  | ability_choice_required data => run (handleAbilityChoiceRequired data)
  | ability_error e => run (addActionLog ("Ability error: " ++ e)%string "system")
  | ability_cancelled m => run (addActionLog m "system")
  end.

(** The listeners bound by [updateAbilities], the manager's [bindEvents]
    and [bindCardSelection], and the form controls themselves. *)
Definition on_ui (ev : UiEvent) : Step :=
  match ev with
  | click_ability t => run (useAbility t)
  | click_close => run hideSelectionWindow
  | click_cancel => run cancelAbility
  | click_confirm => confirmSelection
  | click_overlay true => run hideSelectionWindow
  | click_overlay false => run (fun w => w)
  | choose_peek_player i =>
      run (fun w => with_selectionContent (choosePeekPlayer i (selectionContent w)) w)
  | choose_peek_card i =>
      run (fun w => with_selectionContent (choosePeekCard i (selectionContent w)) w)
  | click_radio i =>
      run (fun w => with_selectionContent (clickRadio i (selectionContent w)) w)
  | click_card g i =>
      run (fun w => with_selectionContent (clickCard g i (selectionContent w)) w)
  end.

Inductive Event : Type :=
| Socket (ev : SocketEvent)
| Ui (ev : UiEvent).

Definition handle (ev : Event) : Step :=
  match ev with
  | Socket e => on_socket e
  | Ui e => on_ui e
  end.

(** The state after an event; a throw only cuts the handler short. *)
Definition after (ev : Event) (w : World) : World := fst (handle ev w).

(** The page names a game: [!(!this.gameId || this.gameId === '-----')]. *)
Definition hasGameId (w : World) : bool :=
  let id := textContent (dom w "current-game-id") in
  negb (negb (truthy_str id) || String.eqb id "-----").

(** [init()], run once by the constructor.  Without a game id nothing is
    set up: no socket, no listeners, no ability dialog. *)
Definition init (w : World) : World :=
  (* Get game ID from URL or page *)
  let w' := with_gameId (textContent (dom w "current-game-id")) w in
  if hasGameId w then
    (* Initialize ability selection manager *)
    joinGame (newManager w')
  else
    addActionLog "Error: No game ID provided" "system" w'.

End Game.

(* ================================================================= *)
(** ** The properties, in the words of the specification *)

Module Spec.
Import JS Dom.

(** *** Lobby: start-game eligibility *)

(** "enabled iff at least 2 players and every player's ready flag is
    true (host included)" *)
Definition eligible (l : Lobby.LobbyData) : Prop :=
  (2 <= List.length (Lobby.players l))%nat /\
  Forall (fun p => Lobby.Player.isReady p = true) (Lobby.players l).

(** The label names the blocking reason. *)
Definition startLabel (l : Lobby.LobbyData) : string :=
  if (List.length (Lobby.players l) <? 2)%nat then "Need More Players"
  else if forallb Lobby.Player.isReady (Lobby.players l) then "Start Game"
  else "Waiting for Players".

(** The lobby events whose handler recomputes the start button. *)
Definition refreshesStart (ev : Lobby.Event) (l : Lobby.LobbyData) : Prop :=
  ev = Lobby.player_joined (Some l) \/
  ev = Lobby.player_left (Some l) \/
  ev = Lobby.player_ready_changed (Some l).

(** *** Lobby: create-lobby form *)

(** The values [createLobby] parses out of the form. *)
Record Parsed : Type := mkParsed {
  pSmallBlind : Z;
  pBigBlind : Z;
  pStartingFunds : Z;
  pMaxPlayers : Z
}.

(** [parseInt(field.value) || d] *)
Definition field (c : Lobby.Client) (id : string) (d : Z) : num :=
  num_or (parseInt (value (Lobby.dom c id))) d.

(** The four values, when none of them is an infinity. *)
Definition parsed (c : Lobby.Client) : option Parsed :=
  match field c "small-blind-input" 5, field c "big-blind-input" 10,
        field c "starting-funds-input" 1000, field c "max-players-input" 8 with
  | Num sb, Num bb, Num sf, Num mp => Some (mkParsed sb bb sf mp)
  | _, _, _, _ => None
  end.

(** "bigBlind >= 2 x smallBlind, startingFunds >= 10 x bigBlind" *)
Definition validConfig (v : Parsed) : Prop :=
  (pBigBlind v >= 2 * pSmallBlind v)%Z /\ (pStartingFunds v >= 10 * pBigBlind v)%Z.

(** The two products of the checks stay below 2^53, where the code
    computes them exactly. *)
Definition exactProducts (v : Parsed) : Prop :=
  safe (pSmallBlind v * 2) /\ safe (pBigBlind v * 10).

(** The message for a configuration that fails the checks: the first
    check that fails speaks. *)
Definition configError (v : Parsed) : string :=
  if (pBigBlind v <? pSmallBlind v * 2)%Z
  then "Big blind must be at least double the small blind"
  else "Starting funds must be at least 10 times the big blind".


Definition shown (e : Element) : bool := has_class "show" e.


(** *** Game: turn status *)

Inductive TurnStatus : Type :=
| MyTurn | Folded | AllIn | ActedThisRound | ToAct.

(** "my-turn > folded > all-in > acted-this-round > to-act" *)
Definition priority : list ((Game.Player.t -> bool) * TurnStatus) :=
  [ (Game.Player.IsMyTurn, MyTurn);
    (Game.Player.IsFolded, Folded);
    (Game.Player.IsAllIn, AllIn);
    (Game.Player.HasActedThisRound, ActedThisRound) ].

(** First match wins. *)
Definition classify (p : Game.Player.t) : TurnStatus :=
  match find (fun rule => fst rule p) priority with
  | Some rule => snd rule
  | None => ToAct
  end.

Definition statusLabel (s : TurnStatus) : string :=
  match s with
  | MyTurn => "Current Turn"
  | Folded => "Folded"
  | AllIn => "All In"
  | ActedThisRound => "Waiting"
  | ToAct => "To Act"
  end.

Definition statusClasses (s : TurnStatus) : list string :=
  match s with
  | MyTurn => ["current-turn"]
  | Folded => ["folded"]
  | AllIn => ["all-in"]
  | ActedThisRound => ["acted"]
  | ToAct => []
  end.

(** *** Game: the regions derived from a snapshot *)

(** How a card string shows when it parses. *)
Definition cardFace (card : string) : Game.CardEl :=
  match Game.parseCard card with
  | Ok info => Game.revealedCard info
  | TypeError _ => Game.mkCardEl "" ""
  end.

Definition turnListOf (g : Game.GameState) : Game.TurnList :=
  match Game.Players g with
  | Some ps => Game.TurnItems (map Game.turnItem ps)
  | None => Game.NoPlayers
  end.

(** Own hole cards: the first seat carrying card data. *)
Definition holeCardsOf (ps : list Game.Player.t) : list Game.CardEl :=
  match find (fun p => Game.nonEmpty (Game.Player.HoleCards p)) ps with
  | Some me => map cardFace (Game.Player.HoleCards me)
  | None => [Game.mkCardEl "card-placeholder" "Card 1";
             Game.mkCardEl "card-placeholder" "Card 2"]
  end.

(** Board: the revealed cards, then hidden placeholders up to five. *)
Definition boardOf (g : Game.GameState) : list Game.CardEl :=
  let board := match Game.Board g with Some b => b | None => [] end in
  map cardFace board
    ++ map Game.hiddenCard (skipn (List.length board) Game.boardNames).

(** Own abilities: the first seat carrying ability data. *)
Definition abilitiesOf (g : Game.GameState) : Game.AbilityRegion :=
  match Game.Players g with
  | None => Game.NoAbilities "No game state available"
  | Some ps =>
      match find (fun p => Game.nonEmpty (Game.Player.Abilities p)) ps with
      | Some me => Game.AbilityButtons (map Game.abilityButton (Game.Player.Abilities me))
      | None => Game.NoAbilities "No abilities available"
      end
  end.

(** "replace snapshot, then recompute every derived view region" *)
Definition replaceAndRecompute (pushed : option Game.GameState) : Game.Step :=
  Game.seq (Game.run (Game.with_gameState pushed)) Game.updateGameDisplay.

(** The events that carry a game state, with the state carried. *)
Inductive carries : Game.SocketEvent -> Game.GameState -> Prop :=
| carries_started g : carries (Game.game_started (Some g)) g
| carries_update g : carries (Game.game_state_update (Some g)) g
| carries_action pa g : carries (Game.player_action_result pa (Some g)) g.

(** *** Ability dialog *)

Inductive Tag : Type := Peek | Burn | Manifest | Trashman | Yoink.

Definition tagOf (ability : string) : option Tag :=
  let t := toLowerCase ability in
  if String.eqb t "peek" then Some Peek
  else if String.eqb t "burn" then Some Burn
  else if String.eqb t "manifest" then Some Manifest
  else if String.eqb t "trashman" then Some Trashman
  else if String.eqb t "yoink" then Some Yoink
  else None.

(** A select shows a real option, not its placeholder at position 0. *)
Definition chosen (s : option Game.SelectEl) : bool :=
  match s with
  | Some sel => negb (Nat.eqb (Game.selectedIndex sel) 0)
  | None => false
  end.

Definition anySelected (gs : list Game.Grid) : bool :=
  existsb (fun g => existsb Game.selected (Game.gridButtons g)) gs.

Definition gridNamed (id : string) (g : Game.Grid) : bool :=
  String.eqb (Game.gridId g) id.

(** Every required field of the form of the given ability is set. *)
Definition complete (t : Tag) (f : Game.Form) : bool :=
  match t with
  | Peek => chosen (Game.peekPlayer f) && chosen (Game.peekCard f)
  | Burn => existsb Game.checked (Game.burnChoice f)
  | Manifest | Trashman => anySelected (Game.grids f)
  | Yoink =>
      anySelected (filter (gridNamed "yoink-hole-grid") (Game.grids f)) &&
      anySelected (filter (gridNamed "yoink-board-grid") (Game.grids f))
  end.

(** Field names of the selection each ability sends. *)
Definition payloadKeys (t : Tag) (data : Game.ChoiceData) : list string :=
  match t with
  | Peek => ["targetPlayerId"; "cardIndex"]
  | Burn => ["revealSuit"]
  | Manifest => ["discardIndex"; "drawnCard"; "drawnCardSuit"]
  | Trashman =>
      if (Game.step_or_1 data =? 1)%Z then ["burntCardIndex"]
      else ["burntCardIndex"; "holeCardIndex"]
  | Yoink => ["cardIndex"; "targetPlayerId"]
  end.

(** The user operating the controls of the form, as opposed to the
    buttons of the dialog. *)
Definition isFormEdit (ev : Game.UiEvent) : bool :=
  match ev with
  | Game.choose_peek_player _ | Game.choose_peek_card _
  | Game.click_radio _ | Game.click_card _ _ => true
  | _ => false
  end.

Definition afterAll (evs : list Game.Event) (w : Game.World) : Game.World :=
  fold_left (fun w ev => Game.after ev w) evs w.

(** The dialog is closed with no prompt held. *)
Definition idle (w : Game.World) : Prop :=
  Game.currentAbility w = None /\ Game.currentChoices w = None.

(** Worlds the page can be in once [init] has set the client up: the
    manager is constructed on load, then events arrive one at a time. *)
Inductive reachable : Game.World -> Prop :=
| reach_load w : Game.hasGameId w = true -> reachable (Game.init w)
| reach_event w ev : reachable w -> reachable (Game.after ev w).

End Spec.

(* ================================================================= *)
(** ** Frames and invariants used by the proofs *)

Module Inv.
Import JS Dom Game.

(** The parts of the world that belong to the socket, the storage and the
    ability dialog. *)
Definition frame (w w' : World) : Prop :=
  gameId w' = gameId w /\
  outbox w' = outbox w /\
  playerToken w' = playerToken w /\
  timeString w' = timeString w /\
  currentAbility w' = currentAbility w /\
  currentChoices w' = currentChoices w /\
  selectionContent w' = selectionContent w /\
  dom w' overlay = dom w overlay.

(** Frame together with the held snapshot. *)
Definition keeps (w w' : World) : Prop := frame w w' /\ gameState w' = gameState w.

(** The message is a [join_game]. *)
Definition isJoin (m : Emit) : bool :=
  match m with join_game _ _ => true | _ => false end.

(** The invariant of the dialog: hidden means no prompt held. *)
Definition hiddenIdle (w : World) : Prop := isHidden w = true -> Spec.idle w.

(** The part of the world the dialog's state lives in. *)
Definition dialogKept (w w' : World) : Prop :=
  currentAbility w' = currentAbility w /\
  currentChoices w' = currentChoices w /\
  dom w' overlay = dom w overlay.

(** The form after the user operates one of its controls. *)
Definition applyEdit (ev : UiEvent) (f : Form) : Form :=
  match ev with
  | choose_peek_player i => choosePeekPlayer i f
  | choose_peek_card i => choosePeekCard i f
  | click_radio i => clickRadio i f
  | click_card g i => clickCard g i f
  | _ => f
  end.

(** A select as [createPeekInterface] builds it: the placeholder with the
    empty value first, then options with non-empty values, and one of them
    showing. *)
Definition selectWellFormed (s : SelectEl) : Prop :=
  (exists label rest,
      options s = ("", label) :: rest /\ Forall (fun o => fst o <> "") rest) /\
  (selectedIndex s < List.length (options s))%nat.

(** The form holds the two selects of the peek interface. *)
Definition peekShape (f : Form) : Prop :=
  exists sp sc,
    peekPlayer f = Some sp /\ peekCard f = Some sc /\
    selectWellFormed sp /\ selectWellFormed sc.

(** The getter the switch of [getSelectionData] picks for a known tag. *)
Definition getterOf (t : Spec.Tag) (choices : ChoiceData) (f : Form)
  : option (list (string * JS.value)) :=
  match t with
  | Spec.Peek => getPeekSelection f
  | Spec.Burn => getBurnSelection f
  | Spec.Manifest => getManifestSelection choices f
  | Spec.Trashman => getTrashmanSelection choices f
  | Spec.Yoink => getYoinkSelection f
  end.

(** The ready button shows the state [b]: the label names the move it
    offers and the style is primary when ready. *)
Definition readyShown (b : bool) (e : Element) : Prop :=
  textContent e = (if b then "Not Ready" else "Ready Up") /\
  has_class "btn-primary" e = b /\
  has_class "btn-secondary" e = negb b.

(** The lobby room shows the snapshot [l]. *)
Definition roomShown (l : Lobby.LobbyData) (c : Lobby.Client) : Prop :=
  Lobby.activeScreen c = "lobby-room-screen" /\
  Lobby.currentLobby c = Some l /\
  textContent (Lobby.dom c "lobby-title") = Lobby.name l /\
  textContent (Lobby.dom c "lobby-code-text") = Lobby.code l /\
  textContent (Lobby.dom c "max-player-count") =
    string_of_Z (Lobby.maxPlayers (Lobby.config l)) /\
  textContent (Lobby.dom c "player-count") =
    string_of_Z (Z.of_nat (List.length (Lobby.players l))) /\
  Lobby.playersList c = map Lobby.playerItem (Lobby.players l) /\
  textContent (Lobby.dom c "display-small-blind") =
    string_of_Z (Lobby.smallBlind (Lobby.config l)) /\
  textContent (Lobby.dom c "display-big-blind") =
    string_of_Z (Lobby.bigBlind (Lobby.config l)) /\
  textContent (Lobby.dom c "display-starting-funds") =
    string_of_Z (Lobby.startingFunds (Lobby.config l)).

(** The log holds at most 20 lines. *)
Definition logBounded (w : World) : Prop := (List.length (actionsLog w) <= 20)%nat.

(** A step keeps the bound of the log. *)
Definition keepsLogBound (w w' : World) : Prop := logBounded w -> logBounded w'.

(** *** The ability dialog in use *)

(** The page after a prompt arrives and the user operates the controls
    of its form. *)
Definition promptThen (data : ChoiceData) (edits : list UiEvent) (w0 : World) : World :=
  Spec.afterAll (map Ui edits) (after (Socket (ability_choice_required data)) w0).

Definition editAll (edits : list UiEvent) (f : Form) : Form :=
  fold_left (fun f ev => applyEdit ev f) edits f.

(** The form the switch of [showAbilitySelection] builds for a known tag. *)
Definition formOf (t : Spec.Tag) (data : ChoiceData) : Form :=
  match t with
  | Spec.Peek => createPeekInterface data
  | Spec.Burn => createBurnInterface data
  | Spec.Manifest => createManifestInterface data
  | Spec.Trashman => createTrashmanInterface data
  | Spec.Yoink => createYoinkInterface data
  end.

(** What operating a form cannot change: the options of its selects, the
    values of its radios, and its buttons apart from their selection. *)
Definition controlsOf (f : Form) :=
  (option_map options (peekPlayer f),
   option_map options (peekCard f),
   map (fun r => (radioValue r, radioLabel r)) (burnChoice f),
   map deselectGrid (grids f)).

(** [data.cardOptions || [...]] and [data.revealOptions || [...]] *)
Definition cardChoices (data : ChoiceData) : list CardOpt.t :=
  match cardOptions data with
  | Some l => l
  | None => [CardOpt.mk 0 "First Card"; CardOpt.mk 1 "Second Card"]
  end.

Definition revealChoices (data : ChoiceData) : list RevealOpt.t :=
  match revealOptions data with
  | Some l => l
  | None => [RevealOpt.mk true "Reveal Suit"; RevealOpt.mk false "Reveal Rank"]
  end.

(** The cards the trashman form offers at the step of the prompt. *)
Definition trashmanOffer (data : ChoiceData) : list CardRef.t :=
  if (step_or_1 data =? 1)%Z then or_nil (availableBurntCards data)
  else or_nil (availableHoleCards data).

(** Confirm sends one [use_ability] with the given selection. *)
Definition confirmSends (w : World) (ability : string)
                        (selection : list (string * JS.value)) : Prop :=
  outbox (after (Ui click_confirm) w) =
  (outbox w ++ [use_ability (gameId w) ability selection])%list.

End Inv.

(* ================================================================= *)
(** ** Sample pages and payloads *)

Module Sample.
Import JS Dom.

Definition page : Store := fun _ => blank.

(** *** Lobby *)

Definition alice : Lobby.Player.t := Lobby.Player.mk "s1" "alice" true true.
Definition bob : Lobby.Player.t := Lobby.Player.mk "s2" "bob" false true.
Definition carol : Lobby.Player.t := Lobby.Player.mk "s3" "carol" false false.

Definition config : Lobby.Config := Lobby.mkConfig 5 10 1000 8.

Definition readyPair : Lobby.LobbyData := Lobby.mkLobby "Table" "ABCDEF" [alice; bob] config.
Definition oneSeat : Lobby.LobbyData := Lobby.mkLobby "Table" "ABCDEF" [alice] config.
Definition notReady : Lobby.LobbyData :=
  Lobby.mkLobby "Table" "ABCDEF" [alice; bob; carol] config.

Definition client (host : bool) (d : Store) : Lobby.Client :=
  Lobby.mkClient "bob" None host false "s2" [] d "lobby-room-screen" [] 0 [] None "/".

(** A page whose start button is disabled in the markup. *)
Definition pageStartDisabled : Store := upd "start-game-btn" (set_disabled true) page.

(** The create-lobby form filled in. *)
Definition formPage (small big funds : string) : Store :=
  upd "small-blind-input" (set_value small)
    (upd "big-blind-input" (set_value big)
       (upd "starting-funds-input" (set_value funds) page)).

Definition creator (small big funds : string) : Lobby.Client :=
  Lobby.mkClient "alice" None false false "s1" [] (formPage small big funds)
    "create-lobby-screen" [] 0 [] None "/".

(** *** Game *)

Definition seatMe : Game.Player.t :=
  Game.Player.mk "alice" 990 true false false false 10
    ["Ace of Spades"; "3 of Hearts"]
    [Game.Ability.mk "Peek" "Peek" "Look at a card"].

Definition seatOther : Game.Player.t :=
  Game.Player.mk "bob" 1000 false true true true 0 [] [].

Definition snapshot : Game.GameState :=
  Game.mkGameState (Some "Flop") (Some 100%Z) (Some (Game.TurnMgr.mk 10))
    (Some [seatMe; seatOther]) (Some ["King of Clubs"; "10 of Diamonds"; "Joker"])
    (Some "alice").

Definition snapshot2 : Game.GameState :=
  Game.mkGameState (Some "Turn") (Some 250%Z) (Some (Game.TurnMgr.mk 50))
    (Some [seatMe; seatOther]) (Some ["King of Clubs"; "10 of Diamonds"; "Joker"; "2 of Spades"])
    (Some "bob").

Definition gamePage : Store := upd "current-game-id" (set_textContent "g1") page.

Definition world (token : option string) : Game.World :=
  Game.mkWorld "g1" None gamePage Game.NoPlayers [] [] (Game.NoAbilities "") [] []
    token "12:00:00" None None Game.emptyForm.

(** The page after load with a stored token. *)
Definition loaded : Game.World := Game.init (world (Some "tok")).

(** The page once a first snapshot has been pushed. *)
Definition playing : Game.World :=
  Game.after (Game.Socket (Game.game_state_update (Some snapshot))) loaded.

(** The page with a prompt shown. *)
Definition prompted (data : Game.ChoiceData) : Game.World :=
  Game.after (Game.Socket (Game.ability_choice_required data)) playing.

Definition noChoice (ability : string) : Game.ChoiceData :=
  Game.mkChoiceData ability None None None None None None None None None None None
    None None.

Definition peekPrompt : Game.ChoiceData :=
  Game.mkChoiceData "peek" (Some "Pick a target") None None
    (Some [Game.PlayerOpt.mk 7 "bob" 1000]) None None None None None None None None None.

(** Step two of trashman: the server echoes the burnt card chosen in
    step one. *)
Definition trashmanStep2 : Game.ChoiceData :=
  Game.mkChoiceData "trashman" None None (Some 2%Z) None None None None None None None
    (Some [Game.CardRef.mk 0 "Ace of Spades" false; Game.CardRef.mk 1 "3 of Hearts" false])
    (Some (Game.Chosen.mk (Some 3%Z) "Queen of Hearts")) None.

(** *** Lobby forms *)

(** The username screen with a name typed. *)
Definition named (typed : string) : Lobby.Client :=
  Lobby.mkClient "" None false false "s1" [] (upd "username-input" (set_value typed) page)
    "username-screen" [] 0 [] None "/".

(** The join screen with a code typed. *)
Definition joining (typed : string) : Lobby.Client :=
  Lobby.mkClient "bob" None false false "s2" [] (upd "lobby-code-input" (set_value typed) page)
    "join-lobby-screen" [] 0 [] None "/".

(** The lobby room with the settings editor filled in. *)
Definition editing (small big funds : string) : Lobby.Client :=
  Lobby.mkClient "alice" (Some readyPair) true true "s1" []
    (upd "edit-small-blind" (set_value small)
       (upd "edit-big-blind" (set_value big)
          (upd "edit-starting-funds" (set_value funds) page)))
    "lobby-room-screen" [] 0 [] None "/".

(** A table with settings of its own, and its host editing them. *)
Definition highStakes : Lobby.LobbyData :=
  Lobby.mkLobby "High" "QWERTY" [alice; bob] (Lobby.mkConfig 25 60 700 6).

Definition editingAt (l : Lobby.LobbyData) (small big funds : string) : Lobby.Client :=
  Lobby.mkClient "alice" (Some l) true true "s1" []
    (upd "edit-small-blind" (set_value small)
       (upd "edit-big-blind" (set_value big)
          (upd "edit-starting-funds" (set_value funds) page)))
    "lobby-room-screen" [] 0 [] None "/".

(** Bob's page in the lobby room, holding a snapshot. *)
Definition inRoom (l : Lobby.LobbyData) : Lobby.Client :=
  Lobby.mkClient "bob" (Some l) false false "s2" [] page "lobby-room-screen" [] 0 [] None "/".

(** *** Game room *)

(** A page that names no game. *)
Definition unnamedPage (token : option string) : Game.World :=
  Game.mkWorld "" None (upd "current-game-id" (set_textContent "-----") page)
    Game.NoPlayers [] [] (Game.NoAbilities "") [] [] token "12:00:00" None None
    Game.emptyForm.

(** A seat whose first hole card has no suit. *)
Definition seatBad : Game.Player.t :=
  Game.Player.mk "alice" 990 true false false false 10 ["Ace of "; "3 of Hearts"] [].

Definition badHand : Game.GameState :=
  Game.mkGameState (Some "Turn") (Some 250%Z) None (Some [seatBad])
    (Some ["2 of Spades"]) (Some "alice").

(** *** Prompts *)

Definition burnPrompt : Game.ChoiceData :=
  Game.mkChoiceData "Burn" None None None None None
    (Some [Game.RevealOpt.mk true "Reveal Suit"; Game.RevealOpt.mk false "Reveal Rank"])
    None None None None None None None.

Definition manifestPrompt : Game.ChoiceData :=
  Game.mkChoiceData "manifest" None None None None None None
    (Some [Game.CardRef.mk 0 "Ace of Spades" false; Game.CardRef.mk 1 "3 of Hearts" false;
           Game.CardRef.mk 2 "9 of Clubs" true])
    (Some (Game.DrawnCard.mk (Some "9 of Clubs") (JS.VNum (JS.Num 9)) (JS.VNum (JS.Num 2))))
    None None None None None.

Definition trashmanStep1 : Game.ChoiceData :=
  Game.mkChoiceData "trashman" None None (Some 1%Z) None None None None None
    (Some [Game.CardRef.mk 4 "Queen of Hearts" false; Game.CardRef.mk 9 "2 of Clubs" false])
    (Some ["Ace of Spades"; "3 of Hearts"]) None None None.

Definition yoinkPrompt : Game.ChoiceData :=
  Game.mkChoiceData "yoink" None None None None None None None None None None
    (Some [Game.CardRef.mk 0 "Ace of Spades" false; Game.CardRef.mk 1 "3 of Hearts" false])
    None
    (Some [Game.CardRef.mk 0 "King of Clubs" false; Game.CardRef.mk 1 "10 of Diamonds" false;
           Game.CardRef.mk 2 "Joker" false]).

Definition unknownPrompt : Game.ChoiceData := noChoice "deadman".

End Sample.

(* ================================================================= *)
(** ** Facts about the DOM store *)

Section DomFacts.
Import Dom.

Lemma upd_same (id : string) (f : Element -> Element) (d : Store) :
  upd id f d id = f (d id).
Proof. unfold upd. now rewrite String.eqb_refl. Qed.

Lemma upd_other (id id' : string) (f : Element -> Element) (d : Store) :
  id' <> id -> upd id f d id' = d id'.
Proof.
  intros Hne. unfold upd.
  destruct (String.eqb id' id) eqn:E; [|reflexivity].
  apply String.eqb_eq in E. contradiction.
Qed.

Lemma contains_add (c : string) (l : list string) :
  contains c (add c l) = true.
Proof.
  unfold add. destruct (contains c l) eqn:E; [exact E|].
  unfold contains. rewrite existsb_app. simpl.
  rewrite String.eqb_refl. now rewrite orb_true_r.
Qed.

Lemma contains_remove (c : string) (l : list string) :
  contains c (remove c l) = false.
Proof.
  unfold contains, remove. induction l as [|x l IH]; simpl; [reflexivity|].
  destruct (String.eqb c x) eqn:E; simpl; [exact IH|].
  now rewrite E.
Qed.

Lemma has_class_add (c : string) (e : Element) :
  has_class c (add_class c e) = true.
Proof. unfold has_class, add_class. simpl. apply contains_add. Qed.

Lemma has_class_remove (c : string) (e : Element) :
  has_class c (remove_class c e) = false.
Proof. unfold has_class, remove_class. simpl. apply contains_remove. Qed.

Lemma has_class_set_text (c t : string) (e : Element) :
  has_class c (set_textContent t e) = has_class c e.
Proof. reflexivity. Qed.

End DomFacts.

(* ================================================================= *)
(** ** The lobby client *)

Section LobbyFacts.
Import JS Dom Lobby.

(** *** Start button *)

Lemma displayPlayer_keeps (c : Client) (p : Player.t) :
  isHost (displayPlayer c p) = isHost c /\
  currentLobby (displayPlayer c p) = currentLobby c /\
  dom (displayPlayer c p) "start-game-btn" = dom c "start-game-btn".
Proof.
  unfold displayPlayer, updateReadyButton.
  destruct (String.eqb (Player.socketId p) (socketId c));
    [destruct (Player.isReady p)|]; simpl; auto.
Qed.

Lemma updatePlayersDisplay_keeps (c : Client) :
  isHost (updatePlayersDisplay c) = isHost c /\
  currentLobby (updatePlayersDisplay c) = currentLobby c /\
  dom (updatePlayersDisplay c) "start-game-btn" = dom c "start-game-btn".
Proof.
  unfold updatePlayersDisplay. destruct (currentLobby c) as [l|] eqn:El; [|auto].
  rewrite <- El.
  set (c0 := with_playersList [] _).
  assert (H0 : isHost c0 = isHost c /\ currentLobby c0 = currentLobby c /\
               dom c0 "start-game-btn" = dom c "start-game-btn")
    by (subst c0; simpl; auto).
  clearbody c0. revert c0 H0.
  induction (players l) as [|p ps IH]; intros c0 H0; simpl; [exact H0|].
  apply IH. destruct (displayPlayer_keeps c0 p) as (A & B & C).
  destruct H0 as (A0 & B0 & C0). rewrite A, B, C. auto.
Qed.

Lemma canStart_eligible (l : LobbyData) :
  canStart (players l) = true <-> Spec.eligible l.
Proof.
  unfold canStart, Spec.eligible. rewrite andb_true_iff, Nat.leb_le, forallb_forall, Forall_forall.
  tauto.
Qed.

(** The button [updateStartButton] leaves behind on the host's page. *)
Lemma updateStartButton_host (c : Client) (l : LobbyData) :
  isHost c = true -> currentLobby c = Some l ->
  disabled (startButton (updateStartButton c)) = negb (canStart (players l)) /\
  textContent (startButton (updateStartButton c)) = Spec.startLabel l.
Proof.
  intros Hh Hl. unfold updateStartButton, startButton, Spec.startLabel.
  rewrite Hh, Hl. simpl. unfold canStart.
  destruct (List.length (players l) <? 2)%nat eqn:E2.
  - apply Nat.ltb_lt in E2.
    assert (E : (2 <=? List.length (players l))%nat = false) by (apply Nat.leb_gt; lia).
    rewrite E. simpl. auto.
  - apply Nat.ltb_ge in E2.
    assert (E : (2 <=? List.length (players l))%nat = true) by (apply Nat.leb_le; lia).
    rewrite E. simpl.
    destruct (forallb Player.isReady (players l)); simpl; auto.
Qed.

Lemma updateStartButton_guest (c : Client) :
  isHost c = false -> updateStartButton c = c.
Proof. intros H. unfold updateStartButton. now rewrite H. Qed.

Lemma startLabel_cases (l : LobbyData) :
  (Spec.eligible l -> Spec.startLabel l = "Start Game") /\
  ((List.length (players l) < 2)%nat -> Spec.startLabel l = "Need More Players") /\
  ((2 <= List.length (players l))%nat -> ~ Spec.eligible l ->
   Spec.startLabel l = "Waiting for Players").
Proof.
  unfold Spec.startLabel. repeat split.
  - intros [H2 Hall].
    assert (E : (List.length (players l) <? 2)%nat = false) by (apply Nat.ltb_ge; lia).
    rewrite E.
    assert (F : forallb Player.isReady (players l) = true)
      by (apply forallb_forall; now apply Forall_forall).
    now rewrite F.
  - intros H. apply Nat.ltb_lt in H. now rewrite H.
  - intros H2 Hn.
    assert (E : (List.length (players l) <? 2)%nat = false) by (apply Nat.ltb_ge; lia).
    rewrite E.
    destruct (forallb Player.isReady (players l)) eqn:F; [|reflexivity].
    exfalso. apply Hn. split; [exact H2|].
    apply Forall_forall. now apply forallb_forall.
Qed.

Lemma handle_refresh (c : Client) (ev : Event) (l : LobbyData) :
  Spec.refreshesStart ev l ->
  handle ev c = updateStartButton (updatePlayersDisplay (with_currentLobby (Some l) c)).
Proof. intros [-> | [-> | ->]]; reflexivity. Qed.

(** C5 (as amended).  On the host's page, after each of [player_joined],
    [player_left] and [player_ready_changed] the start button is enabled
    exactly when the snapshot carried by the event has at least two
    players, all of them ready, and its label is "Start Game" then,
    "Need More Players" below two players and "Waiting for Players"
    otherwise: it is recomputed from that snapshot, whatever the button
    showed before.  On a page that is not the host's the same events leave
    the button as it was. *)
Theorem C5_start_button_on_host :
  forall (c : Client) (ev : Event) (l : LobbyData),
    Spec.refreshesStart ev l ->
    let btn := startButton (handle ev c) in
    (isHost c = true ->
     (disabled btn = false <-> Spec.eligible l) /\
     textContent btn = Spec.startLabel l /\
     (Spec.eligible l -> textContent btn = "Start Game") /\
     ((List.length (players l) < 2)%nat -> textContent btn = "Need More Players") /\
     ((2 <= List.length (players l))%nat -> ~ Spec.eligible l ->
      textContent btn = "Waiting for Players")) /\
    (isHost c = false -> btn = startButton c).
Proof.
  intros c ev l Hev btn. subst btn. rewrite (handle_refresh c ev l Hev).
  destruct (updatePlayersDisplay_keeps (with_currentLobby (Some l) c)) as (A & B & C).
  split; intros Hh.
  - assert (Hbtn : disabled (startButton (updateStartButton
                      (updatePlayersDisplay (with_currentLobby (Some l) c)))) =
                   negb (canStart (players l)) /\
                   textContent (startButton (updateStartButton
                      (updatePlayersDisplay (with_currentLobby (Some l) c)))) =
                   Spec.startLabel l).
    { apply updateStartButton_host; [rewrite A | rewrite B]; simpl; auto. }
    destruct Hbtn as [Hd Ht].
    destruct (startLabel_cases l) as (L1 & L2 & L3).
    split; [|rewrite Ht; auto].
    rewrite Hd, <- canStart_eligible.
    destruct (canStart (players l)); simpl; split; congruence.
  - rewrite updateStartButton_guest; [|rewrite A; exact Hh].
    unfold startButton. rewrite C. reflexivity.
Qed.

Lemma C5_start_button_on_host_witness :
  disabled (startButton (handle (player_ready_changed (Some Sample.readyPair))
                           (Sample.client true Sample.pageStartDisabled))) = false /\
  textContent (startButton (handle (player_joined (Some Sample.notReady))
                              (Sample.client true Sample.page))) = "Waiting for Players".
Proof.
  split.
  - apply (C5_start_button_on_host (Sample.client true Sample.pageStartDisabled)
             (player_ready_changed (Some Sample.readyPair)) Sample.readyPair).
    + right; right; reflexivity.
    + reflexivity.
    + split; [simpl; lia | repeat constructor].
  - apply (C5_start_button_on_host (Sample.client true Sample.page)
             (player_joined (Some Sample.notReady)) Sample.notReady).
    + left; reflexivity.
    + reflexivity.
    + simpl; lia.
    + intros [_ Hall]. inversion Hall as [|? ? _ Hbob]. inversion Hbob as [|? ? _ Hcarol].
      inversion Hcarol as [|? ? Hready _]. discriminate Hready.
Defined.

(** C5 (as stated) fails off the host's page: [updateStartButton] returns
    at once when [isHost] is unset, so the button keeps what the markup
    gave it.  With a disabled button it stays disabled under a snapshot
    of two ready players; with an enabled one it stays enabled under a
    snapshot of a single player. *)
Lemma C5_guest_button_not_recomputed :
  (canStart (players Sample.readyPair) = true /\
   disabled (startButton (handle (player_ready_changed (Some Sample.readyPair))
                            (Sample.client false Sample.pageStartDisabled))) = true) /\
  (canStart (players Sample.oneSeat) = false /\
   disabled (startButton (handle (player_left (Some Sample.oneSeat))
                            (Sample.client false Sample.page))) = false).
Proof. repeat split. Qed.

(** Adding a player who is not ready to a lobby that could start turns
    eligibility off; marking that player ready turns it back on. *)
Lemma eligibility_follows_newcomer (l : LobbyData) (p : Player.t) :
  Spec.eligible l ->
  let joined r :=
    mkLobby (name l) (code l)
      (players l ++ [Player.mk (Player.socketId p) (Player.username p)
                       (Player.isHost p) r])
      (config l) in
  ~ Spec.eligible (joined false) /\ Spec.eligible (joined true).
Proof.
  intros [H2 Hall] joined. subst joined. unfold Spec.eligible. simpl. split.
  - intros [_ H]. apply Forall_app in H. destruct H as [_ H].
    inversion H as [|? ? Hr _]. discriminate Hr.
  - split; [rewrite length_app; simpl; lia|].
    apply Forall_app. split; [exact Hall | repeat constructor].
Qed.

(** *** Create-lobby form *)

Lemma showError_element (id msg : string) (c : Client) :
  textContent (dom (showError id msg c) id) = msg /\
  has_class "show" (dom (showError id msg c) id) = true /\
  outbox (showError id msg c) = outbox c /\
  now (showError id msg c) = now c /\
  timers (showError id msg c) = timers c ++ [mkTimer (now c + 5000) id].
Proof.
  unfold showError, on_element. simpl. rewrite !upd_same.
  repeat split. apply has_class_add.
Qed.

(** Running timers never shows an element. *)
Lemma run_timers_stay_hidden (l : list Timer) (c : Client) (id : string) :
  has_class "show" (dom c id) = false ->
  has_class "show" (dom (fold_left (fun c t => run_timer t c) l c) id) = false.
Proof.
  revert c. induction l as [|t l IH]; intros c H; simpl; [exact H|].
  apply IH. unfold run_timer, on_element. simpl. unfold upd.
  destruct (String.eqb id (target t)); [apply has_class_remove | exact H].
Qed.

Lemma run_timers_hide (l : list Timer) (c : Client) (t : Timer) :
  In t l ->
  has_class "show" (dom (fold_left (fun c t => run_timer t c) l c) (target t)) = false.
Proof.
  revert c. induction l as [|t' l IH]; intros c Hin; simpl; [contradiction|].
  destruct Hin as [-> | Hin]; [|now apply IH].
  apply run_timers_stay_hidden. unfold run_timer, on_element. simpl.
  rewrite upd_same. apply has_class_remove.
Qed.


Lemma run_timers_outbox (l : list Timer) (c : Client) :
  outbox (fold_left (fun c t => run_timer t c) l c) = outbox c.
Proof. revert c. induction l as [|t l IH]; intros c; simpl; [reflexivity|]. now rewrite IH. Qed.

Lemma advance_dom (dt : nat) (c : Client) :
  dom (advance dt c) =
  dom (fold_left (fun c t => run_timer t c)
         (filter (fun t => (fireAt t <=? now c + dt)%nat) (timers c)) c).
Proof. reflexivity. Qed.



Lemma hideError_keeps (id : string) (c : Client) :
  outbox (hideError id c) = outbox c /\ timers (hideError id c) = timers c /\
  now (hideError id c) = now c /\ username (hideError id c) = username c /\
  has_class "show" (dom (hideError id c) id) = false /\
  (forall id', id' <> id -> dom (hideError id c) id' = dom c id').
Proof.
  unfold hideError, on_element. simpl. repeat split.
  - rewrite upd_same. apply has_class_remove.
  - intros id' H. now apply upd_other.
Qed.

(** Below 2^53 reading, multiplying and comparing are those of the
    integers. *)
Lemma round64_safe (z : Z) : safe z -> round64 z = Num z.
Proof.
  unfold safe, round64. intros H. apply Z.ltb_lt in H. now rewrite H.
Qed.

Lemma num_mul_safe (x y : Z) : safe (x * y) -> num_mul (Num x) (Num y) = Num (x * y).
Proof. intros H. simpl. now apply round64_safe. Qed.

Lemma parsed_fields (c : Client) (v : Spec.Parsed) :
  Spec.parsed c = Some v ->
  Spec.field c "small-blind-input" 5 = Num (Spec.pSmallBlind v) /\
  Spec.field c "big-blind-input" 10 = Num (Spec.pBigBlind v) /\
  Spec.field c "starting-funds-input" 1000 = Num (Spec.pStartingFunds v) /\
  Spec.field c "max-players-input" 8 = Num (Spec.pMaxPlayers v).
Proof.
  unfold Spec.parsed.
  destruct (Spec.field c "small-blind-input" 5) as [|sb|]; try discriminate.
  destruct (Spec.field c "big-blind-input" 10) as [|bb|]; try discriminate.
  destruct (Spec.field c "starting-funds-input" 1000) as [|sf|]; try discriminate.
  destruct (Spec.field c "max-players-input" 8) as [|mp|]; try discriminate.
  intros H. injection H as <-. repeat split.
Qed.

Lemma validConfig_dec (v : Spec.Parsed) :
  Spec.validConfig v <->
  (Spec.pBigBlind v <? Spec.pSmallBlind v * 2)%Z = false /\
  (Spec.pStartingFunds v <? Spec.pBigBlind v * 10)%Z = false.
Proof. unfold Spec.validConfig. rewrite !Z.ltb_ge. lia. Qed.

(** [createLobby] reads the inputs after [hideError], which leaves them
    as they were. *)
Lemma createLobby_fields (c : Client) :
  let sb := Spec.field c "small-blind-input" 5 in
  let bb := Spec.field c "big-blind-input" 10 in
  let sf := Spec.field c "starting-funds-input" 1000 in
  let mp := Spec.field c "max-players-input" 8 in
  let c0 := hideError "create-lobby-error" c in
  createLobby c =
  if num_ltb bb (num_mul sb (Num 2)) then
    showError "create-lobby-error"
      "Big blind must be at least double the small blind" c0
  else if num_ltb sf (num_mul bb (Num 10)) then
    showError "create-lobby-error"
      "Starting funds must be at least 10 times the big blind" c0
  else
    emit (create_lobby
            (if truthy_str (trim (value (dom c "lobby-name-input")))
             then trim (value (dom c "lobby-name-input"))
             else (username c ++ "'s Table")%string)
            sb bb sf mp) c0.
Proof. reflexivity. Qed.

(** What [createLobby] does, by the outcome of its two checks. *)
Lemma createLobby_cases (c : Client) (v : Spec.Parsed) :
  Spec.parsed c = Some v ->
  Spec.exactProducts v ->
  let c0 := hideError "create-lobby-error" c in
  (Spec.validConfig v ->
   exists name,
     createLobby c =
     emit (create_lobby name (Num (Spec.pSmallBlind v)) (Num (Spec.pBigBlind v))
             (Num (Spec.pStartingFunds v)) (Num (Spec.pMaxPlayers v))) c0) /\
  (~ Spec.validConfig v ->
   createLobby c = showError "create-lobby-error" (Spec.configError v) c0).
Proof.
  intros Hp [Hs Hb] c0. destruct (parsed_fields c v Hp) as (E1 & E2 & E3 & E4).
  rewrite (createLobby_fields c). cbv zeta. fold c0.
  rewrite E1, E2, E3, E4, (num_mul_safe _ _ Hs), (num_mul_safe _ _ Hb).
  cbn [num_ltb]. unfold Spec.configError.
  split; intros Hv.
  - apply validConfig_dec in Hv. destruct Hv as [H1 H2]. rewrite H1, H2.
    eexists. reflexivity.
  - destruct (Spec.pBigBlind v <? Spec.pSmallBlind v * 2)%Z eqn:C1; [reflexivity|].
    destruct (Spec.pStartingFunds v <? Spec.pBigBlind v * 10)%Z eqn:C2; [reflexivity|].
    exfalso. apply Hv. apply validConfig_dec. now split.
Qed.




End LobbyFacts.

(* ================================================================= *)
(** ** The game room client *)

Section GameFacts.
Import JS Dom Game Inv.

(** *** Card parsing *)

(** A string that does not split into exactly two parts around " of " is
    shown as it is, in black. *)
Lemma parseCard_fallback (s : string) :
  List.length (split " of " (toLowerCase s)) <> 2%nat ->
  parseCard s = Ok (mkCardInfo s false).
Proof.
  intros H. unfold parseCard.
  destruct (split " of " (toLowerCase s)) as [|a [|b [|c l]]]; simpl in H;
    try reflexivity.
  contradiction.
Qed.

(** [parseCard] throws exactly on the strings with one " of " and nothing
    after it. *)
Lemma parseCard_throws_iff (s : string) :
  (exists msg, parseCard s = TypeError msg) <->
  (exists rank, split " of " (toLowerCase s) = [rank; ""]).
Proof.
  unfold parseCard. split.
  - intros [msg H].
    destruct (split " of " (toLowerCase s)) as [|a [|b [|c l]]]; try discriminate.
    destruct b as [|ch b']; [now exists a|].
    exfalso. revert H.
    repeat match goal with
           | |- context [if ?b then _ else _] => destruct b
           end; discriminate.
  - intros [rank ->]. simpl. eexists. reflexivity.
Qed.

(** C2.  [parseCard] maps "Ace of Spades" to A-spade in black, "3 of
    Hearts" to 3-heart in red and "Joker" to itself in black, as claimed;
    it is not total: on "Ace of " the suit is the empty string, [suit[0]]
    is undefined and the call throws instead of returning a pair. *)
Theorem C2_parseCard_throws_on_empty_suit :
  parseCard "Ace of Spades" = Ok (mkCardInfo "A♠" false) /\
  parseCard "3 of Hearts" = Ok (mkCardInfo "3♥" true) /\
  parseCard "Joker" = Ok (mkCardInfo "Joker" false) /\
  parseCard "Ace of " =
    TypeError "Cannot read properties of undefined (reading 'toUpperCase')" /\
  (forall info, parseCard "Ace of " <> Ok info).
Proof.
  repeat split; try reflexivity.
  intros info H. discriminate H.
Qed.

(** *** The action log *)

Lemma last_snoc {A : Type} (l : list A) (x d : A) : last (l ++ [x]) d = x.
Proof.
  induction l as [|a l IH]; [reflexivity|].
  simpl. destruct (l ++ [x]) eqn:E; [destruct l; discriminate|]. exact IH.
Qed.

(** The line just logged is the last of the log, also when the oldest
    line is dropped. *)
Lemma addActionLog_last (msg type : string) (w : World) (d : LogItem) :
  last (actionsLog (addActionLog msg type w)) d =
  mkLogItem ("action-item " ++ type) ("[" ++ timeString w ++ "] " ++ msg).
Proof.
  unfold addActionLog. simpl.
  destruct (20 <? List.length (actionsLog w ++ [_]))%nat eqn:E; [|apply last_snoc].
  destruct (actionsLog w) as [|a l]; [discriminate E|].
  simpl. apply last_snoc.
Qed.

(** The log never holds more than 20 lines once it holds at most 20. *)
Lemma addActionLog_capped (msg type : string) (w : World) :
  (List.length (actionsLog w) <= 20)%nat ->
  (List.length (actionsLog (addActionLog msg type w)) <= 20)%nat.
Proof.
  intros H. unfold addActionLog. simpl.
  destruct (20 <? List.length (actionsLog w ++ [_]))%nat eqn:E.
  - destruct (actionsLog w) as [|a l]; [discriminate E|].
    simpl in *. rewrite length_app in *. simpl in *. lia.
  - apply Nat.ltb_ge in E. exact E.
Qed.

(** *** What the display update leaves alone *)

Lemma frame_refl (w : World) : frame w w.
Proof. repeat split. Qed.

Lemma frame_trans (w1 w2 w3 : World) : frame w1 w2 -> frame w2 w3 -> frame w1 w3.
Proof.
  unfold frame. intros (A1 & A2 & A3 & A4 & A5 & A6 & A7 & A8)
                       (B1 & B2 & B3 & B4 & B5 & B6 & B7 & B8).
  repeat split; congruence.
Qed.

Lemma updateHoleCards_frame (w : World) :
  frame w (fst (updateHoleCards w)) /\
  gameState (fst (updateHoleCards w)) = gameState w.
Proof.
  unfold updateHoleCards. destruct (gamePlayers w) as [ps|]; [|split; [apply frame_refl|reflexivity]].
  destruct (find _ ps) as [me|]; [|split; [repeat split|reflexivity]].
  destruct (appendCards _ _) as [els r]. split; [repeat split|reflexivity].
Qed.

Lemma updateBoardCards_frame (g : GameState) (w : World) :
  frame w (fst (updateBoardCards g w)) /\
  gameState (fst (updateBoardCards g w)) = gameState w.
Proof.
  unfold updateBoardCards. destruct (Board g) as [[|c more]|];
    try (split; [repeat split|reflexivity]).
  destruct (appendCards _ _) as [els [|]]; split; try reflexivity; repeat split.
Qed.

Lemma updateTurnIndicator_frame (w : World) :
  frame w (updateTurnIndicator w) /\ gameState (updateTurnIndicator w) = gameState w.
Proof.
  unfold updateTurnIndicator. destruct (gamePlayers w); split; try reflexivity; repeat split.
Qed.

Lemma updateAbilities_frame (w : World) :
  frame w (updateAbilities w) /\ gameState (updateAbilities w) = gameState w.
Proof.
  unfold updateAbilities. destruct (gamePlayers w) as [ps|];
    [destruct (find _ ps)|]; split; try reflexivity; repeat split.
Qed.

Lemma seq_fst_frame (P : World -> World -> Prop) (a b : Step) (w : World) :
  (forall w1 w2 w3, P w1 w2 -> P w2 w3 -> P w1 w3) ->
  P w (fst (a w)) -> (forall w', P w' (fst (b w'))) -> P w (fst (seq a b w)).
Proof.
  intros Ptrans Ha Hb. unfold seq. destruct (a w) as [w' [|]]; simpl in *.
  - eapply Ptrans; [exact Ha | apply Hb].
  - exact Ha.
Qed.

Lemma keeps_trans (w1 w2 w3 : World) : keeps w1 w2 -> keeps w2 w3 -> keeps w1 w3.
Proof.
  intros [F1 G1] [F2 G2]. split; [eapply frame_trans; eassumption | congruence].
Qed.

Lemma keeps_run (f : World -> World) :
  (forall w, keeps w (f w)) -> forall w, keeps w (fst (run f w)).
Proof. intros H w. apply H. Qed.

Lemma updateGameDisplay_keeps (w : World) : keeps w (fst (updateGameDisplay w)).
Proof.
  unfold updateGameDisplay. destruct (gameState w) as [g|] eqn:Eg;
    [|split; [apply frame_refl|reflexivity]].
  clear Eg. revert w.
  repeat (intros w; apply seq_fst_frame; [exact keeps_trans | | clear w]);
    try (intros w; apply keeps_run; clear w; intros w).
  all: try (split; [repeat split | reflexivity]).
  - apply updateTurnIndicator_frame.
  - apply updateHoleCards_frame.
  - apply updateBoardCards_frame.
  - apply updateAbilities_frame.
Qed.

(** *** Joining with the stored token *)

(** What an event does to the stored token and to the socket. *)
Lemma on_socket_token (ev : SocketEvent) (w : World) :
  playerToken (fst (on_socket ev w)) =
  match ev with
  | game_room_joined _ _ => None
  | _ => playerToken w
  end.
Proof.
  destruct ev as [ | | | pj tp | m | gs | gs | e | pa gs | m | data | e | m ];
    try reflexivity.
  - (* game_started *)
    simpl. unfold seq, run.
    match goal with |- context [updateGameDisplay ?x] =>
      destruct (updateGameDisplay_keeps x) as [(_ & _ & H & _) _] end.
    cbv iota beta. rewrite H. reflexivity.
  - (* game_state_update *)
    simpl. unfold seq, run.
    match goal with |- context [updateGameDisplay ?x] =>
      destruct (updateGameDisplay_keeps x) as [(_ & _ & H & _) _] end.
    cbv iota beta. rewrite H. reflexivity.
  - (* player_action_result *)
    destruct gs as [g|]; [|reflexivity].
    simpl. unfold seq, run.
    match goal with |- context [updateGameDisplay ?x] =>
      destruct (updateGameDisplay_keeps x) as [(_ & _ & H & _) _] end.
    cbv iota beta. rewrite H. reflexivity.
Qed.

Lemma confirmSelection_token (w : World) :
  playerToken (fst (confirmSelection w)) = playerToken w.
Proof.
  unfold confirmSelection.
  destruct (currentAbility w) as [a|]; [|reflexivity].
  destruct (currentChoices w) as [ch|]; [|reflexivity].
  destruct (negb (truthy_str a)); [reflexivity|].
  destruct (getSelectionData a ch (selectionContent w)); reflexivity.
Qed.

Lemma after_token (ev : Event) (w : World) :
  playerToken (after ev w) =
  match ev with
  | Socket (game_room_joined _ _) => None
  | _ => playerToken w
  end.
Proof.
  unfold after. destruct ev as [se | ue]; simpl.
  - rewrite on_socket_token. destruct se; reflexivity.
  - destruct ue as [t | | | | [|] | i | i | i | g i]; try reflexivity.
    apply confirmSelection_token.
Qed.

(** No handler sends [join_game]: only [joinGame] does, once, on load. *)
Lemma after_sends_no_join (ev : Event) (w : World) :
  exists sent, outbox (after ev w) = outbox w ++ sent /\ forallb (fun m => negb (isJoin m)) sent = true.
Proof.
  unfold after. destruct ev as [se | ue]; simpl.
  - exists []. rewrite app_nil_r. split; [|reflexivity].
    destruct se as [ | | | pj tp | m | gs | gs | e | pa gs | m | data | e | m ];
      try reflexivity.
    + simpl. unfold seq, run.
      match goal with |- context [updateGameDisplay ?x] =>
        destruct (updateGameDisplay_keeps x) as [(_ & H & _) _] end.
      cbv iota beta. rewrite H. reflexivity.
    + simpl. unfold seq, run.
      match goal with |- context [updateGameDisplay ?x] =>
        destruct (updateGameDisplay_keeps x) as [(_ & H & _) _] end.
      cbv iota beta. rewrite H. reflexivity.
    + destruct gs as [g|]; [|reflexivity].
      simpl. unfold seq, run.
      match goal with |- context [updateGameDisplay ?x] =>
        destruct (updateGameDisplay_keeps x) as [(_ & H & _) _] end.
      cbv iota beta. rewrite H. reflexivity.
  - destruct ue as [t | | | | [|] | i | i | i | g i];
      try (exists []; rewrite app_nil_r; split; reflexivity).
    + eexists [_]. split; reflexivity.
    + eexists [_]. split; reflexivity.
    + change (on_ui click_confirm) with confirmSelection. unfold confirmSelection.
      destruct (currentAbility w) as [a|];
        [|exists []; rewrite app_nil_r; split; reflexivity].
      destruct (currentChoices w) as [ch|];
        [|exists []; rewrite app_nil_r; split; reflexivity].
      destruct (negb (truthy_str a));
        [exists []; rewrite app_nil_r; split; reflexivity|].
      destruct (getSelectionData a ch (selectionContent w)).
      * eexists [_]. split; reflexivity.
      * exists []. rewrite app_nil_r. split; reflexivity.
Qed.

(** C3.  [joinGame] sends [join_game], carrying the stored token, exactly
    when a non-empty token is stored; with no token or an empty one it
    sends nothing and its last log line is the error.  Sending leaves the
    token in the storage; among all handlers only the one of
    [game_room_joined] removes it, and no handler sends [join_game]
    again. *)
Theorem C3_join_needs_token :
  forall (w : World),
    (forall tok, playerToken w = Some tok -> tok <> "" ->
       outbox (joinGame w) = outbox w ++ [join_game (gameId w) tok]) /\
    ((playerToken w = None \/ playerToken w = Some "") ->
       outbox (joinGame w) = outbox w /\
       forall d, last (actionsLog (joinGame w)) d =
                 mkLogItem "action-item system"
                   ("[" ++ timeString w ++ "] Error: No authentication token found")) /\
    playerToken (joinGame w) = playerToken w /\
    (forall ev, playerToken (after ev w) =
                match ev with
                | Socket (game_room_joined _ _) => None
                | _ => playerToken w
                end) /\
    (forall ev, exists sent,
        outbox (after ev w) = outbox w ++ sent /\
        forallb (fun m => negb (isJoin m)) sent = true).
Proof.
  intros w. split; [|split; [|split; [|split]]].
  - intros tok Ht Hne. unfold joinGame. simpl. rewrite Ht.
    destruct tok; [contradiction|]. reflexivity.
  - intros H.
    assert (E : joinGame w =
                addActionLog "Error: No authentication token found" "system"
                  (addActionLog "Joining game room..." "system" w)).
    { unfold joinGame. simpl. destruct H as [-> | ->]; reflexivity. }
    rewrite E. split; [reflexivity|]. intros d. now rewrite addActionLog_last.
  - unfold joinGame. simpl. destruct (playerToken w) as [[|c t]|] eqn:E; simpl; exact E.
  - intros ev. apply after_token.
  - intros ev. apply after_sends_no_join.
Qed.

Lemma C3_join_needs_token_witness :
  outbox (joinGame (Sample.world (Some "tok"))) = [join_game "g1" "tok"] /\
  outbox (joinGame (Sample.world None)) = [] /\
  outbox (joinGame (Sample.world (Some ""))) = [].
Proof.
  split; [|split].
  - apply (C3_join_needs_token (Sample.world (Some "tok"))); [reflexivity | discriminate].
  - apply (C3_join_needs_token (Sample.world None)). left; reflexivity.
  - apply (C3_join_needs_token (Sample.world (Some ""))). right; reflexivity.
Defined.

(** *** Turn status *)

Lemma statusLabel_injective (s1 s2 : Spec.TurnStatus) :
  Spec.statusLabel s1 = Spec.statusLabel s2 -> s1 = s2.
Proof. destruct s1, s2; simpl; intros H; try reflexivity; discriminate H. Qed.

Lemma classify_priority (p : Player.t) :
  turnStatusText p = Spec.statusLabel (Spec.classify p) /\
  turnStatusClass p = Spec.statusClasses (Spec.classify p).
Proof.
  unfold turnStatusText, turnStatusClass, Spec.classify, Spec.priority. simpl.
  destruct (Player.IsMyTurn p), (Player.IsFolded p), (Player.IsAllIn p),
    (Player.HasActedThisRound p); split; reflexivity.
Qed.

(** C7.  The turn list shows one row per seat of the snapshot, in order,
    and the status of a row, as text and as style class, is the first
    match in the order my-turn, folded, all-in, acted-this-round, with
    to-act when none matches; the five statuses show differently, so a
    seat has exactly one.  A seat both folded and all-in is never shown
    all-in, and is shown folded unless the first rule of the order, its
    turn, applies. *)
Theorem C7_turn_status_priority :
  forall (w : World) (g : GameState) (ps : list Player.t),
    gameState w = Some g -> Players g = Some ps ->
    turnList (updateTurnIndicator w) = TurnItems (map turnItem ps) /\
    (forall p,
        statusText (turnItem p) = Spec.statusLabel (Spec.classify p) /\
        itemClasses (turnItem p) =
          "player-turn-item" :: Spec.statusClasses (Spec.classify p) /\
        (Player.IsFolded p = true -> Player.IsAllIn p = true ->
         Spec.classify p <> Spec.AllIn /\
         statusText (turnItem p) <> "All In" /\
         (Player.IsMyTurn p = false ->
          Spec.classify p = Spec.Folded /\ statusText (turnItem p) = "Folded"))) /\
    (forall s1 s2, Spec.statusLabel s1 = Spec.statusLabel s2 -> s1 = s2).
Proof.
  intros w g ps Hg Hps. split; [|split].
  - unfold updateTurnIndicator, gamePlayers. rewrite Hg, Hps. reflexivity.
  - intros p. destruct (classify_priority p) as [Ht Hc].
    split; [exact Ht|]. split; [simpl; now rewrite Hc|].
    intros Hf Ha. simpl. rewrite Ht.
    unfold Spec.classify, Spec.priority. simpl. rewrite Hf.
    destruct (Player.IsMyTurn p); simpl.
    + repeat split; discriminate.
    + repeat split; discriminate.
  - exact statusLabel_injective.
Qed.

Lemma C7_turn_status_priority_witness :
  turnList (updateTurnIndicator Sample.playing) =
    TurnItems [turnItem Sample.seatMe; turnItem Sample.seatOther] /\
  statusText (turnItem Sample.seatOther) = "Folded".
Proof.
  destruct (C7_turn_status_priority Sample.playing Sample.snapshot
              [Sample.seatMe; Sample.seatOther] eq_refl eq_refl) as (Hl & Hp & _).
  split; [exact Hl|].
  apply (Hp Sample.seatOther); reflexivity.
Defined.

(** *** Closing the ability dialog *)

(** C8.  A click on Cancel sends exactly one [cancel_ability] and hides
    the dialog; a click on the dismiss control, or on the overlay outside
    the window, hides the dialog in the same way (same overlay, same
    title, message and form, no prompt held) and sends nothing. *)
Theorem C8_cancel_versus_dismiss :
  forall (w : World),
    let cancelled := after (Ui click_cancel) w in
    outbox cancelled = outbox w ++ [cancel_ability (gameId w)] /\
    isHidden cancelled = true /\
    forall ev, ev = Ui click_close \/ ev = Ui (click_overlay true) ->
      let closed := after ev w in
      outbox closed = outbox w /\
      isHidden closed = true /\
      (forall id, dom closed id = dom cancelled id) /\
      selectionContent closed = selectionContent cancelled /\
      currentAbility closed = None /\ currentAbility cancelled = None /\
      currentChoices closed = None /\ currentChoices cancelled = None.
Proof.
  intros w cancelled. subst cancelled. split; [reflexivity|]. split.
  - unfold after, isHidden. simpl. rewrite upd_same. apply has_class_add.
  - intros ev [-> | ->]; simpl; (split; [reflexivity|]); (split; [|repeat split]);
      unfold after, isHidden; simpl; rewrite upd_same; apply has_class_add.
Qed.

Lemma C8_cancel_versus_dismiss_witness :
  outbox (after (Ui click_close) (Sample.prompted Sample.peekPrompt)) =
  outbox (Sample.prompted Sample.peekPrompt).
Proof.
  exact (proj1 (proj2 (proj2 (C8_cancel_versus_dismiss (Sample.prompted Sample.peekPrompt)))
                  (Ui click_close) (or_introl eq_refl))).
Defined.

(** *** The two-step ability *)

Lemma trashman_is_truthy (ability : string) :
  toLowerCase ability = "trashman" -> truthy_str ability = true.
Proof. destruct ability; [discriminate | reflexivity]. Qed.

Lemma echoedBurntIndex_echo (data : ChoiceData) (c : Chosen.t) (n : Z) :
  chosenBurntCard data = Some c -> Chosen.index c = Some n ->
  echoedBurntIndex data = n.
Proof.
  intros Hc Hn. unfold echoedBurntIndex. rewrite Hc, Hn.
  destruct (n =? 0)%Z eqn:E; [|reflexivity].
  apply Z.eqb_eq in E. now subst.
Qed.

(** C9.  With a trashman prompt past its first step held, the payload that
    Confirm sends carries as [burntCardIndex] the index of the
    [chosenBurntCard] of the prompt, as the server sent it, next to the
    hole card picked in the form. *)
Theorem C9_trashman_step2_echoes_burnt_index :
  forall (w : World) (ability : string) (data : ChoiceData)
         (c : Chosen.t) (n : Z) (b : CardBtn),
    currentAbility w = Some ability ->
    toLowerCase ability = "trashman" ->
    currentChoices w = Some data ->
    step_or_1 data <> 1%Z ->
    chosenBurntCard data = Some c ->
    Chosen.index c = Some n ->
    selectedButton (selectionContent w) = Some b ->
    outbox (after (Ui click_confirm) w) =
    outbox w ++
      [use_ability (gameId w) ability
         [("burntCardIndex", VNum (Num n));
          ("holeCardIndex", VNum (parseInt (dataIndex b)))]].
Proof.
  intros w ability data c n b Ha Ht Hd Hs Hc Hn Hb.
  unfold after. simpl. unfold confirmSelection. rewrite Ha, Hd.
  rewrite (trashman_is_truthy _ Ht). simpl negb. cbv iota.
  unfold getSelectionData. rewrite Ht. simpl String.eqb. cbv iota.
  unfold getTrashmanSelection. rewrite Hb.
  apply Z.eqb_neq in Hs. rewrite Hs.
  rewrite (echoedBurntIndex_echo data c n Hc Hn). reflexivity.
Qed.

Lemma C9_trashman_step2_echoes_burnt_index_witness :
  let w := Spec.afterAll [Socket (ability_choice_required Sample.trashmanStep2);
                          Ui (click_card 0 1)] Sample.playing in
  outbox (after (Ui click_confirm) w) =
  outbox w ++ [use_ability "g1" "trashman"
                 [("burntCardIndex", VNum (Num 3)); ("holeCardIndex", VNum (Num 1))]].
Proof.
  intros w.
  apply (C9_trashman_step2_echoes_burnt_index w "trashman" Sample.trashmanStep2
           (Chosen.mk (Some 3%Z) "Queen of Hearts") 3
           (mkCardBtn "card-selection-btn" "1" "3 of Hearts" "(Current)" true));
    try reflexivity.
  discriminate.
Defined.

(** *** The dialog holds a prompt only while it is shown *)

Lemma hideSelectionWindow_idle (w : World) :
  isHidden (hideSelectionWindow w) = true /\ Spec.idle (hideSelectionWindow w).
Proof.
  unfold isHidden, hideSelectionWindow, Spec.idle. simpl. rewrite upd_same.
  split; [apply has_class_add | split; reflexivity].
Qed.

Lemma showAbilitySelection_shown (data : ChoiceData) (w : World) :
  isHidden (showAbilitySelection data w) = false.
Proof.
  unfold isHidden, showAbilitySelection. simpl. rewrite upd_same. apply has_class_remove.
Qed.

Lemma dialogKept_trans (w1 w2 w3 : World) :
  dialogKept w1 w2 -> dialogKept w2 w3 -> dialogKept w1 w3.
Proof. intros (A & B & C) (A' & B' & C'). repeat split; congruence. Qed.

Lemma keeps_dialogKept (w w' : World) : keeps w w' -> dialogKept w w'.
Proof. intros [(_ & _ & _ & _ & Ha & Hc & _ & Hd) _]. repeat split; assumption. Qed.

Lemma dialogKept_hiddenIdle (w w' : World) :
  dialogKept w w' -> hiddenIdle w -> hiddenIdle w'.
Proof.
  intros (Ha & Hc & Hd) H. unfold hiddenIdle, isHidden, Spec.idle in *.
  rewrite Hd, Ha, Hc. exact H.
Qed.

Lemma on_socket_dialogKept (ev : SocketEvent) (w : World) :
  (forall data, ev <> ability_choice_required data) ->
  dialogKept w (fst (on_socket ev w)).
Proof.
  intros Hne.
  destruct ev as [ | | | pj tp | m | gs | gs | e | pa gs | m | data | e | m ];
    try solve [repeat split].
  - cbn [on_socket]. apply (seq_fst_frame dialogKept); [exact dialogKept_trans | repeat split |].
    intros w1. apply (seq_fst_frame dialogKept); [exact dialogKept_trans | repeat split |].
    intros w2. apply keeps_dialogKept, updateGameDisplay_keeps.
  - cbn [on_socket]. apply (seq_fst_frame dialogKept); [exact dialogKept_trans | repeat split |].
    intros w1. apply keeps_dialogKept, updateGameDisplay_keeps.
  - cbn [on_socket]. apply (seq_fst_frame dialogKept); [exact dialogKept_trans | repeat split |].
    intros w1. destruct gs as [g|]; [|repeat split].
    apply (seq_fst_frame dialogKept); [exact dialogKept_trans | repeat split |].
    intros w2. apply keeps_dialogKept, updateGameDisplay_keeps.
  - exfalso. now apply (Hne data).
Qed.

(** What Confirm can do: nothing, only log, or send once and hide. *)
Lemma confirmSelection_cases (w : World) :
  confirmSelection w = (w, Done) \/
  (confirmSelection w =
     (addActionLog "Please make a selection before confirming" "system" w, Done) /\
   exists a ch, currentAbility w = Some a /\ currentChoices w = Some ch /\
                truthy_str a = true /\
                getSelectionData a ch (selectionContent w) = None) \/
  (exists a ch sel,
      currentAbility w = Some a /\ currentChoices w = Some ch /\ truthy_str a = true /\
      getSelectionData a ch (selectionContent w) = Some sel /\
      confirmSelection w =
        (hideSelectionWindow (emit (use_ability (gameId w) a sel) w), Threw)).
Proof.
  unfold confirmSelection.
  destruct (currentAbility w) as [a|] eqn:Ea; [|now left].
  destruct (currentChoices w) as [ch|] eqn:Ec; [|now left].
  destruct (truthy_str a) eqn:Et; simpl; [|now left].
  destruct (getSelectionData a ch (selectionContent w)) as [sel|] eqn:Es.
  - right; right. exists a, ch, sel. repeat split; try assumption; reflexivity.
  - right; left. split; [reflexivity|]. exists a, ch. repeat split; try assumption; reflexivity.
Qed.

Lemma after_hiddenIdle (ev : Event) (w : World) :
  hiddenIdle w -> hiddenIdle (after ev w).
Proof.
  intros H. unfold after. destruct ev as [se | ue]; simpl.
  - destruct se as [ | | | pj tp | m | gs | gs | e | pa gs | m | data | e | m ];
      try solve [apply (dialogKept_hiddenIdle w); [apply on_socket_dialogKept; discriminate | exact H]].
    intros Hh. simpl in Hh. unfold handleAbilityChoiceRequired in Hh.
    rewrite showAbilitySelection_shown in Hh. discriminate.
  - destruct ue as [t | | | | [|] | i | i | i | g i];
      try solve [apply (dialogKept_hiddenIdle w); [repeat split | exact H]].
    + intros _. apply hideSelectionWindow_idle.
    + intros _. simpl.
      destruct (hideSelectionWindow_idle (emit (cancel_ability (gameId w)) w)) as [_ Hi].
      exact Hi.
    + change (on_ui click_confirm w) with (confirmSelection w).
      destruct (confirmSelection_cases w) as [-> | [[-> _] | (a & ch & sel & _ & _ & _ & _ & ->)]];
        simpl.
      * exact H.
      * apply (dialogKept_hiddenIdle w); [repeat split | exact H].
      * intros _. apply hideSelectionWindow_idle.
    + intros _. apply hideSelectionWindow_idle.
Qed.

Lemma reachable_hiddenIdle (w : World) : Spec.reachable w -> hiddenIdle w.
Proof.
  induction 1 as [w0 Hid | w ev _ IH].
  - intros _. unfold Spec.idle, init. rewrite Hid. unfold joinGame, newManager. simpl.
    destruct (playerToken w0) as [[|c t]|]; split; reflexivity.
  - now apply after_hiddenIdle.
Qed.

(** C10.  In every world the page can reach, a hidden selection window
    comes with [currentAbility] and [currentChoices] both null.  The
    dismiss control, the overlay click and Cancel each leave the window
    hidden with both null, from any world; so does Confirm whenever it
    hides the window.  Hence Confirm pressed while the window is hidden
    does nothing at all: no message is sent. *)
Theorem C10_hidden_dialog_holds_no_prompt :
  (forall w, Spec.reachable w -> isHidden w = true -> Spec.idle w) /\
  (forall w ev,
      ev = click_close \/ ev = click_overlay true \/ ev = click_cancel ->
      isHidden (after (Ui ev) w) = true /\ Spec.idle (after (Ui ev) w)) /\
  (forall w,
      isHidden w = false -> isHidden (after (Ui click_confirm) w) = true ->
      Spec.idle (after (Ui click_confirm) w)) /\
  (forall w, Spec.reachable w -> isHidden w = true ->
             handle (Ui click_confirm) w = (w, Done) /\
             outbox (after (Ui click_confirm) w) = outbox w).
Proof.
  split; [|split; [|split]].
  - intros w Hr. exact (reachable_hiddenIdle w Hr).
  - intros w ev [-> | [-> | ->]]; unfold after; simpl.
    + apply hideSelectionWindow_idle.
    + apply hideSelectionWindow_idle.
    + apply (hideSelectionWindow_idle (emit (cancel_ability (gameId w)) w)).
  - intros w Hshown Hhid. unfold after in *. simpl in *.
    destruct (confirmSelection_cases w) as [E | [[E _] | (a & ch & sel & _ & _ & _ & _ & E)]];
      rewrite E in *; simpl in *.
    + congruence.
    + unfold isHidden in *. simpl in Hhid. congruence.
    + apply hideSelectionWindow_idle.
  - intros w Hr Hh. destruct (reachable_hiddenIdle w Hr Hh) as [Ha Hc].
    assert (E : handle (Ui click_confirm) w = (w, Done)).
    { simpl. unfold confirmSelection. now rewrite Ha. }
    split; [exact E|]. unfold after. now rewrite E.
Qed.

Lemma C10_hidden_dialog_holds_no_prompt_witness :
  let w := after (Ui click_close)
             (after (Socket (ability_choice_required Sample.peekPrompt)) Sample.playing) in
  Spec.idle w /\ outbox (after (Ui click_confirm) w) = outbox w.
Proof.
  intros w.
  assert (R : Spec.reachable w) by (repeat constructor).
  assert (Hh : isHidden w = true) by reflexivity.
  destruct C10_hidden_dialog_holds_no_prompt as (Inv & _ & _ & Hconfirm).
  split; [exact (Inv w R Hh) | exact (proj2 (Hconfirm w R Hh))].
Defined.

(** *** Confirming a prompt *)

Lemma decimal_nonempty (z : Z) : decimal z <> "".
Proof.
  unfold decimal, NilZero.string_of_int.
  destruct (Z.to_int z) as [d | d]; [|discriminate].
  destruct d; discriminate.
Qed.

Lemma layout_nonempty (c : Z) : layout c <> "".
Proof.
  unfold layout. cbv zeta.
  destruct (String.length (decimal c) <=? 21)%nat; [apply decimal_nonempty|].
  destruct (strip_zeros (decimal c)) as [|d [|d' rest]];
    [apply decimal_nonempty | discriminate | discriminate].
Qed.

Lemma string_of_num_nonempty (n : num) : string_of_num n <> "".
Proof.
  destruct n as [|z|[|]]; try discriminate. simpl.
  destruct (Z.abs z <? two53)%Z; [apply decimal_nonempty|].
  destruct (z <? 0)%Z; [discriminate | apply layout_nonempty].
Qed.

Lemma string_of_Z_nonempty (z : Z) : string_of_Z z <> "".
Proof. apply string_of_num_nonempty. Qed.

Lemma after_edit (ev : UiEvent) (w : World) :
  Spec.isFormEdit ev = true ->
  after (Ui ev) w = with_selectionContent (applyEdit ev (selectionContent w)) w.
Proof. destruct ev; intros H; try discriminate H; reflexivity. Qed.

Lemma chooseOption_wellFormed (i : nat) (s : SelectEl) :
  selectWellFormed s -> selectWellFormed (chooseOption i s).
Proof.
  intros [Hopts Hidx]. unfold chooseOption.
  destruct (i <? List.length (options s))%nat eqn:E; [|now split].
  split; [exact Hopts | simpl; now apply Nat.ltb_lt].
Qed.

Lemma applyEdit_peekShape (ev : UiEvent) (f : Form) :
  peekShape f -> peekShape (applyEdit ev f).
Proof.
  intros (sp & sc & Hp & Hc & Wp & Wc).
  assert (Hsame : forall f', peekPlayer f' = peekPlayer f -> peekCard f' = peekCard f ->
                             peekShape f').
  { intros f' Ep Ec. exists sp, sc. rewrite Ep, Ec. auto. }
  destruct ev as [t | | | | b | i | i | i | g i]; simpl;
    try (apply Hsame; reflexivity).
  - exists (chooseOption i sp), sc. unfold choosePeekPlayer. simpl. rewrite Hp.
    split; [reflexivity|]. split; [assumption|].
    split; [now apply chooseOption_wellFormed | assumption].
  - exists sp, (chooseOption i sc). unfold choosePeekCard. simpl. rewrite Hc.
    split; [assumption|]. split; [reflexivity|].
    split; [assumption | now apply chooseOption_wellFormed].
  - unfold clickRadio. destruct (i <? _)%nat; apply Hsame; reflexivity.
  - unfold clickCard. destruct (nth_error (grids f) g) as [grid|];
      [destruct (nth_error (gridButtons grid) i)|]; apply Hsame; reflexivity.
Qed.

(** Operating the form controls changes the form and nothing else. *)
Lemma afterAll_edits (edits : list UiEvent) (w : World) :
  forallb Spec.isFormEdit edits = true ->
  let w' := Spec.afterAll (map Ui edits) w in
  currentAbility w' = currentAbility w /\
  currentChoices w' = currentChoices w /\
  isHidden w' = isHidden w /\
  outbox w' = outbox w /\
  gameId w' = gameId w /\
  (peekShape (selectionContent w) -> peekShape (selectionContent w')).
Proof.
  revert w. induction edits as [|ev edits IH]; intros w Hall; simpl.
  - repeat split; auto.
  - simpl in Hall. apply andb_true_iff in Hall. destruct Hall as [Hev Hall].
    specialize (IH (after (Ui ev) w) Hall). simpl in IH.
    destruct IH as (A & B & C & D & E & F).
    rewrite (after_edit ev w Hev) in *. simpl in *.
    repeat split; try assumption.
    intros Hs. apply F. now apply applyEdit_peekShape.
Qed.

Lemma createPeekInterface_shape (data : ChoiceData) : peekShape (createPeekInterface data).
Proof.
  unfold peekShape, createPeekInterface. eexists. eexists.
  split; [reflexivity|]. split; [reflexivity|].
  split; (split; [|simpl; lia]); eexists; eexists; (split; [reflexivity|]);
    apply Forall_forall; intros o Hin; apply in_map_iff in Hin;
    destruct Hin as (x & <- & _); simpl; apply string_of_Z_nonempty.
Qed.

(** The value of a well-formed select is empty exactly when its
    placeholder shows. *)
Lemma selectValue_placeholder (s : SelectEl) :
  selectWellFormed s ->
  truthy_str (selectValue s) = negb (Nat.eqb (selectedIndex s) 0).
Proof.
  intros [(label & rest & Ho & Hne) Hidx]. unfold selectValue. rewrite Ho in *.
  destruct (selectedIndex s) as [|k]; [reflexivity|]. simpl in *.
  destruct (nth_error rest k) as [[v l]|] eqn:E.
  - apply nth_error_In in E. rewrite Forall_forall in Hne.
    specialize (Hne _ E). simpl in Hne. destruct v; [contradiction | reflexivity].
  - apply nth_error_None in E. lia.
Qed.

Lemma find_existsb {A : Type} (p : A -> bool) (l : list A) :
  existsb p l = match find p l with Some _ => true | None => false end.
Proof.
  induction l as [|x l IH]; [reflexivity|]. simpl. destruct (p x); [reflexivity | exact IH].
Qed.

Lemma existsb_flat_map {A B : Type} (p : B -> bool) (f : A -> list B) (l : list A) :
  existsb p (flat_map f l) = existsb (fun x => existsb p (f x)) l.
Proof.
  induction l as [|x l IH]; [reflexivity|]. simpl. now rewrite existsb_app, IH.
Qed.

Lemma anySelected_find (gs : list Grid) :
  Spec.anySelected gs =
  match find selected (flat_map gridButtons gs) with Some _ => true | None => false end.
Proof. unfold Spec.anySelected. now rewrite <- find_existsb, existsb_flat_map. Qed.

Lemma getSelectionData_tag (a : string) (t : Spec.Tag) (choices : ChoiceData) (f : Form) :
  Spec.tagOf a = Some t -> getSelectionData a choices f = getterOf t choices f.
Proof.
  unfold Spec.tagOf, getSelectionData.
  repeat match goal with
         | |- context [String.eqb ?x ?y] => destruct (String.eqb x y)
         end; intros H; inversion H; reflexivity.
Qed.

Lemma tagOf_truthy (a : string) (t : Spec.Tag) :
  Spec.tagOf a = Some t -> truthy_str a = true.
Proof. destruct a; [discriminate | reflexivity]. Qed.

(** A getter answers null exactly when a required field is unset, and
    otherwise with the fields of its ability. *)
Lemma getterOf_complete (t : Spec.Tag) (choices : ChoiceData) (f : Form) :
  (t = Spec.Peek -> peekShape f) ->
  match getterOf t choices f with
  | None => Spec.complete t f = false
  | Some sel => Spec.complete t f = true /\ map fst sel = Spec.payloadKeys t choices
  end.
Proof.
  intros Hshape. destruct t; simpl.
  - destruct (Hshape eq_refl) as (sp & sc & Hp & Hc & Wp & Wc).
    unfold getPeekSelection. rewrite Hp, Hc. simpl.
    rewrite <- (selectValue_placeholder sp Wp), <- (selectValue_placeholder sc Wc).
    destruct (truthy_str (selectValue sp)); simpl; [|reflexivity].
    destruct (selectValue sc); simpl; [reflexivity | split; reflexivity].
  - unfold getBurnSelection. rewrite find_existsb.
    destruct (find checked (burnChoice f)); [split|]; reflexivity.
  - unfold getManifestSelection, selectedButton. rewrite anySelected_find.
    destruct (find selected _); [split|]; reflexivity.
  - unfold getTrashmanSelection, selectedButton. rewrite anySelected_find.
    destruct (find selected _); [|reflexivity].
    destruct (step_or_1 choices =? 1)%Z; split; reflexivity.
  - unfold getYoinkSelection, selectedButtonIn. rewrite !anySelected_find.
    unfold Spec.gridNamed.
    destruct (find selected _); [|reflexivity].
    destruct (find selected _); [split|]; reflexivity.
Qed.

(** The burn form comes with its first radio checked: Confirm pressed
    right after the prompt sends that choice. *)
Lemma burn_prompt_is_preselected :
  Spec.complete Spec.Burn (selectionContent (Sample.prompted (Sample.noChoice "burn"))) = true /\
  outbox (after (Ui click_confirm) (Sample.prompted (Sample.noChoice "burn"))) =
    [join_game "g1" "tok"; use_ability "g1" "burn" [("revealSuit", VBool true)]].
Proof. vm_compute. split; reflexivity. Qed.

(** A prompt with a tag outside the five known ones gets the generic
    form; Confirm then never sends. *)
Lemma unknown_tag_never_sends (data : ChoiceData) (f : Form) :
  Spec.tagOf (abilityUsed data) = None ->
  getSelectionData (abilityUsed data) data f = None.
Proof.
  unfold Spec.tagOf, getSelectionData.
  repeat match goal with
         | |- context [String.eqb ?x ?y] => destruct (String.eqb x y)
         end; intros H; try discriminate H; reflexivity.
Qed.

(** C4.  Let a prompt for one of the five abilities be shown and the user
    operate the controls of its form in any way.  If a required field is
    then unset, Confirm sends nothing and the dialog stays open; if the
    selection is complete, Confirm sends exactly one [use_ability], for the
    ability of the prompt and with the fields of that ability, and hides
    the dialog. *)
Theorem C4_confirm_after_prompt :
  forall (w0 : World) (data : ChoiceData) (t : Spec.Tag) (edits : list UiEvent),
    Spec.tagOf (abilityUsed data) = Some t ->
    forallb Spec.isFormEdit edits = true ->
    let w := Spec.afterAll (map Ui edits)
               (after (Socket (ability_choice_required data)) w0) in
    isHidden w = false /\
    (Spec.complete t (selectionContent w) = false ->
     outbox (after (Ui click_confirm) w) = outbox w /\
     isHidden (after (Ui click_confirm) w) = false) /\
    (Spec.complete t (selectionContent w) = true ->
     exists sel,
       outbox (after (Ui click_confirm) w) =
         outbox w ++ [use_ability (gameId w) (abilityUsed data) sel] /\
       map fst sel = Spec.payloadKeys t data /\
       isHidden (after (Ui click_confirm) w) = true).
Proof.
  intros w0 data t edits Htag Hedits w.
  set (w1 := after (Socket (ability_choice_required data)) w0) in *.
  destruct (afterAll_edits edits w1 Hedits) as (Ha & Hc & Hh & _ & _ & Hshape).
  fold w in Ha, Hc, Hh, Hshape.
  assert (Ha1 : currentAbility w = Some (abilityUsed data)) by (rewrite Ha; reflexivity).
  assert (Hc1 : currentChoices w = Some data) by (rewrite Hc; reflexivity).
  assert (Hh1 : isHidden w = false)
    by (rewrite Hh; apply showAbilitySelection_shown).
  assert (Hs1 : t = Spec.Peek -> peekShape (selectionContent w)).
  { intros ->. apply Hshape. subst w1. unfold after. simpl.
    unfold handleAbilityChoiceRequired, showAbilitySelection. simpl.
    unfold Spec.tagOf in Htag.
    destruct (String.eqb (toLowerCase (abilityUsed data)) "peek");
      [apply createPeekInterface_shape|].
    repeat match type of Htag with
           | context [String.eqb ?x ?y] => destruct (String.eqb x y)
           end; discriminate. }
  pose proof (getterOf_complete t data (selectionContent w) Hs1) as Hget.
  rewrite <- (getSelectionData_tag _ _ _ _ Htag) in Hget.
  split; [exact Hh1|].
  unfold after. simpl. unfold confirmSelection.
  rewrite Ha1, Hc1, (tagOf_truthy _ _ Htag). simpl.
  destruct (getSelectionData (abilityUsed data) data (selectionContent w)) as [sel|].
  - destruct Hget as [Hcomp Hkeys]. split; [intros H; congruence|].
    intros _. exists sel. simpl. split; [reflexivity|]. split; [exact Hkeys|].
    apply hideSelectionWindow_idle.
  - split; [|intros H; congruence].
    intros _. split; [reflexivity | exact Hh1].
Qed.

Lemma C4_confirm_after_prompt_witness :
  let shown := after (Socket (ability_choice_required Sample.peekPrompt)) Sample.playing in
  let picked := Spec.afterAll [Ui (choose_peek_player 1); Ui (choose_peek_card 2)] shown in
  (outbox (after (Ui click_confirm) shown) = outbox shown /\
   isHidden (after (Ui click_confirm) shown) = false) /\
  (exists sel,
      outbox (after (Ui click_confirm) picked) =
        outbox picked ++ [use_ability "g1" "peek" sel] /\
      map fst sel = ["targetPlayerId"; "cardIndex"] /\
      isHidden (after (Ui click_confirm) picked) = true).
Proof.
  intros shown picked. split.
  - apply (C4_confirm_after_prompt Sample.playing Sample.peekPrompt Spec.Peek []);
      reflexivity.
  - apply (C4_confirm_after_prompt Sample.playing Sample.peekPrompt Spec.Peek
             [choose_peek_player 1; choose_peek_card 2]); reflexivity.
Defined.

(** *** State pushes *)

Lemma appendCards_done (cards : list string) (acc els : list CardEl) :
  appendCards cards acc = (els, Done) -> els = acc ++ map Spec.cardFace cards.
Proof.
  revert acc. induction cards as [|card rest IH]; intros acc H; simpl in *.
  - inversion H. now rewrite app_nil_r.
  - unfold Spec.cardFace at 1. destruct (parseCard card) as [info | msg]; [|discriminate].
    rewrite (IH _ H), <- app_assoc. reflexivity.
Qed.

Lemma updateHoleCards_done (w w' : World) (ps : list Player.t) :
  gamePlayers w = Some ps -> updateHoleCards w = (w', Done) ->
  w' = with_holeCards (Spec.holeCardsOf ps) w.
Proof.
  intros Hp H. unfold updateHoleCards in H. rewrite Hp in H. unfold Spec.holeCardsOf.
  destruct (find _ ps) as [me|]; [|now inversion H].
  destruct (appendCards (Player.HoleCards me) []) as [els r] eqn:E.
  inversion H; subst. now rewrite (appendCards_done _ _ _ E).
Qed.

Lemma updateHoleCards_no_players (w : World) :
  gamePlayers w = None -> updateHoleCards w = (w, Done).
Proof. intros H. unfold updateHoleCards. now rewrite H. Qed.

Lemma updateBoardCards_done (g : GameState) (w w' : World) :
  updateBoardCards g w = (w', Done) -> w' = with_boardCards (Spec.boardOf g) w.
Proof.
  unfold updateBoardCards, Spec.boardOf.
  destruct (Board g) as [[|card more]|]; try (intros H; now inversion H).
  destruct (appendCards (card :: more) []) as [els [|]] eqn:E; intros H; [|discriminate].
  inversion H. now rewrite (appendCards_done _ _ _ E).
Qed.

(** [updateGameDisplay] with a snapshot held, step by step. *)
Lemma updateGameDisplay_steps (w : World) (g : GameState) :
  gameState w = Some g ->
  updateGameDisplay w =
  let w4 :=
    updateTurnIndicator
      (on_element "current-bet-amount" (set_textContent (betText_of g))
         (on_element "current-pot" (set_textContent (potText g))
            (on_element "current-phase" (set_textContent (phaseText g)) w))) in
  match updateHoleCards w4 with
  | (w5, Done) =>
      match updateBoardCards g w5 with
      | (w6, Done) => (addActionLog (stateLogLine g) "system" (updateAbilities w6), Done)
      | (w6, Threw) => (w6, Threw)
      end
  | (w5, Threw) => (w5, Threw)
  end.
Proof.
  intros Hg. unfold updateGameDisplay. rewrite Hg. unfold seq, run. cbv zeta.
  destruct (updateHoleCards _) as [w5 [|]]; [|reflexivity].
  destruct (updateBoardCards g w5) as [w6 [|]]; reflexivity.
Qed.

Lemma updateTurnIndicator_eq (w : World) :
  updateTurnIndicator w =
  with_turnList
    (match gamePlayers w with
     | Some ps => TurnItems (map turnItem ps)
     | None => NoPlayers
     end) w.
Proof. unfold updateTurnIndicator. destruct (gamePlayers w); reflexivity. Qed.

Lemma updateAbilities_eq (w : World) :
  updateAbilities w =
  with_abilityCards
    (match gamePlayers w with
     | None => NoAbilities "No game state available"
     | Some ps =>
         match find (fun p => nonEmpty (Player.Abilities p)) ps with
         | Some me => AbilityButtons (map abilityButton (Player.Abilities me))
         | None => NoAbilities "No abilities available"
         end
     end) w.
Proof.
  unfold updateAbilities. destruct (gamePlayers w) as [ps|]; [destruct (find _ ps)|];
    reflexivity.
Qed.

(** When the display update runs to its end, every region shows what the
    held snapshot determines. *)
Lemma updateGameDisplay_done (w : World) (g : GameState) :
  gameState w = Some g ->
  snd (updateGameDisplay w) = Done ->
  let w' := fst (updateGameDisplay w) in
  gameState w' = Some g /\
  textContent (dom w' "current-phase") = phaseText g /\
  textContent (dom w' "current-pot") = potText g /\
  textContent (dom w' "current-bet-amount") = betText_of g /\
  turnList w' = Spec.turnListOf g /\
  boardCards w' = Spec.boardOf g /\
  abilityCards w' = Spec.abilitiesOf g /\
  (forall ps, Players g = Some ps -> holeCards w' = Spec.holeCardsOf ps) /\
  (forall d, last (actionsLog w') d =
             mkLogItem "action-item system"
               ("[" ++ timeString w ++ "] " ++ stateLogLine g)).
Proof.
  intros Hg. rewrite (updateGameDisplay_steps w g Hg). cbv zeta.
  rewrite updateTurnIndicator_eq.
  set (w4 := with_turnList _ _).
  assert (Hp4 : gamePlayers w4 = Players g)
    by (subst w4; unfold gamePlayers; simpl; now rewrite Hg).
  assert (Ht4 : turnList w4 = Spec.turnListOf g)
    by (subst w4; unfold Spec.turnListOf, gamePlayers; simpl; now rewrite Hg).
  assert (Hd4 : dom w4 = upd "current-bet-amount" (set_textContent (betText_of g))
                          (upd "current-pot" (set_textContent (potText g))
                             (upd "current-phase" (set_textContent (phaseText g)) (dom w))))
    by reflexivity.
  assert (Hg4 : gameState w4 = Some g) by exact Hg.
  assert (Hts4 : timeString w4 = timeString w) by reflexivity.
  clearbody w4.
  destruct (updateHoleCards w4) as [w5 [|]] eqn:E5; [|discriminate].
  destruct (updateBoardCards g w5) as [w6 [|]] eqn:E6; [|discriminate].
  intros _. simpl fst.
  apply updateBoardCards_done in E6. subst w6.
  rewrite updateAbilities_eq.
  assert (E5' : w5 = w4 /\ Players g = None \/
                exists ps, Players g = Some ps /\
                           w5 = with_holeCards (Spec.holeCardsOf ps) w4).
  { destruct (Players g) as [ps|] eqn:Eps.
    - right. exists ps. split; [reflexivity|].
      now apply (updateHoleCards_done w4 w5 ps Hp4).
    - left. rewrite (updateHoleCards_no_players w4 Hp4) in E5. now inversion E5. }
  clear E5.
  repeat match goal with |- _ /\ _ => split end;
    try (intros d; rewrite addActionLog_last);
    destruct E5' as [[-> Eps] | (ps & Eps & ->)];
    unfold gamePlayers, Spec.abilitiesOf; simpl;
    rewrite ?Hg4, ?Hd4, ?Ht4, ?Hts4, ?Eps; try reflexivity.
  - intros ps' Hps'. congruence.
  - intros ps' Hps'. congruence.
Qed.

(** A card string that [parseCard] rejects cuts the display update short:
    the snapshot is held, the regions after the failing one keep what they
    showed, and the state line is not logged. *)
Lemma state_push_cut_short :
  let bad := mkGameState (Some "Flop") (Some 100%Z) None
               (Some [Sample.seatMe]) (Some ["Ace of "]) None in
  let w := after (Socket (game_state_update (Some bad))) Sample.playing in
  snd (handle (Socket (game_state_update (Some bad))) Sample.playing) = Threw /\
  gameState w = Some bad /\
  boardCards w = [] /\
  actionsLog w = actionsLog Sample.playing.
Proof. vm_compute. repeat split. Qed.

(** An event that carries a state hands it to [updateGameDisplay]. *)
Lemma carries_display (ev : SocketEvent) (g : GameState) (w : World) :
  Spec.carries ev g ->
  exists w0, handle (Socket ev) w = updateGameDisplay w0 /\
             gameState w0 = Some g /\ timeString w0 = timeString w.
Proof.
  intros H. destruct H as [g | g | pa g]; eexists; (split; [reflexivity|]); split; reflexivity.
Qed.

(** C1 (as amended).  [game_started] and [game_state_update], and
    [player_action_result] when it carries a game state, are handled
    alike: the held snapshot is replaced by the pushed state and, the
    handler running to its end, every derived region (phase, pot and bet
    banner, turn list, board, own abilities, and own hole cards when the
    state lists its seats) shows what the pushed state determines,
    whatever the page showed before.  [ability_result], and
    [player_action_result] without a game state, only add their line to
    the action log. *)
Theorem C1_state_push_handling :
  (forall (w : World) (ev : SocketEvent) (g : GameState),
      Spec.carries ev g ->
      snd (handle (Socket ev) w) = Done ->
      let w' := after (Socket ev) w in
      gameState w' = Some g /\
      textContent (dom w' "current-phase") = phaseText g /\
      textContent (dom w' "current-pot") = potText g /\
      textContent (dom w' "current-bet-amount") = betText_of g /\
      turnList w' = Spec.turnListOf g /\
      boardCards w' = Spec.boardOf g /\
      abilityCards w' = Spec.abilitiesOf g /\
      (forall ps, Players g = Some ps -> holeCards w' = Spec.holeCardsOf ps) /\
      (forall d, last (actionsLog w') d =
                 mkLogItem "action-item system"
                   ("[" ++ timeString w ++ "] " ++ stateLogLine g))) /\
  (forall (w : World) (msg : string),
      handle (Socket (ability_result msg)) w =
      (addActionLog msg "player-action" w, Done)) /\
  (forall (w : World) (pa : PlayerAction),
      handle (Socket (player_action_result pa None)) w =
      (addActionLog (actionLine pa) "player-action" w, Done)).
Proof.
  split; [|split; reflexivity].
  intros w ev g Hc Hdone w'. subst w'. unfold after.
  destruct (carries_display ev g w Hc) as (w0 & E & Hg & Hts).
  rewrite E in *. rewrite <- Hts.
  exact (updateGameDisplay_done w0 g Hg Hdone).
Qed.

Lemma C1_state_push_handling_witness :
  gameState (after (Socket (game_state_update (Some Sample.snapshot2))) Sample.playing) =
    Some Sample.snapshot2 /\
  textContent (dom (after (Socket (game_state_update (Some Sample.snapshot2)))
                      Sample.playing) "current-pot") =
    potText Sample.snapshot2.
Proof.
  assert (Hdone : snd (handle (Socket (game_state_update (Some Sample.snapshot2)))
                         Sample.playing) = Done) by (vm_compute; reflexivity).
  destruct (proj1 C1_state_push_handling Sample.playing
              (game_state_update (Some Sample.snapshot2)) Sample.snapshot2
              (Spec.carries_update Sample.snapshot2) Hdone) as (H1 & _ & H3 & _).
  exact (conj H1 H3).
Defined.

(** C1 (as stated) fails on [ability_result]: on a page showing a first
    snapshot the handler adds its one log line and nothing more.  The
    snapshot held stays, no region is written, and the log lacks the state
    line that every run of [updateGameDisplay] appends; replacing the
    snapshot and recomputing, whatever state is taken as pushed, ends in a
    different world. *)
Lemma C1_ability_result_only_logs :
  handle (Socket (ability_result "bob peeked")) Sample.playing =
    (addActionLog "bob peeked" "player-action" Sample.playing, Done) /\
  gameState (after (Socket (ability_result "bob peeked")) Sample.playing) =
    Some Sample.snapshot /\
  actionsLog (after (Socket (ability_result "bob peeked")) Sample.playing) =
    actionsLog Sample.playing ++
    [mkLogItem "action-item player-action" "[12:00:00] bob peeked"] /\
  (forall pushed,
      ~ (gameState (fst (Spec.replaceAndRecompute pushed
                           (addActionLog "bob peeked" "player-action" Sample.playing))) =
         gameState (after (Socket (ability_result "bob peeked")) Sample.playing) /\
         actionsLog (fst (Spec.replaceAndRecompute pushed
                            (addActionLog "bob peeked" "player-action" Sample.playing))) =
         actionsLog (after (Socket (ability_result "bob peeked")) Sample.playing))).
Proof.
  split; [reflexivity|].
  split; [vm_compute; reflexivity|].
  split; [vm_compute; reflexivity|].
  intros pushed [Hstate Hlog].
  assert (Hp : pushed = Some Sample.snapshot).
  { unfold Spec.replaceAndRecompute, seq, run in Hstate.
    match type of Hstate with context [updateGameDisplay ?x] =>
      destruct (updateGameDisplay_keeps x) as [_ Hk] end.
    cbv iota beta in Hstate. rewrite Hk in Hstate.
    change (pushed = gameState (addActionLog "bob peeked" "player-action" Sample.playing))
      in Hstate.
    rewrite Hstate. vm_compute. reflexivity. }
  subst pushed. vm_compute in Hlog. discriminate Hlog.
Qed.

End GameFacts.

(* ================================================================= *)
(** ** Numbers written into attributes and read back *)

Section TextFacts.
Import JS.

Lemma ascii_byte (a : ascii) (k : nat) :
  is_ascii a = true -> (128 <= k)%nat -> (byte a =? k)%nat = false.
Proof.
  unfold is_ascii. intros H Hk. apply Nat.ltb_lt in H. apply Nat.eqb_neq. lia.
Qed.

(** White space beyond ASCII has no ASCII byte. *)
Lemma is_space2_ascii (a b : ascii) :
  is_ascii a = true \/ is_ascii b = true -> is_space2 a b = false.
Proof.
  unfold is_space2. intros [H | H].
  - now rewrite (ascii_byte a 194 H) by lia.
  - rewrite (ascii_byte b 160 H) by lia. apply andb_false_r.
Qed.

Lemma is_space3_ascii (a b c : ascii) :
  is_ascii a = true \/ is_ascii c = true -> is_space3 a b c = false.
Proof.
  unfold is_space3. cbv zeta. intros [H | H].
  - rewrite (ascii_byte a 225 H), (ascii_byte a 226 H), (ascii_byte a 227 H),
      (ascii_byte a 239 H) by lia. reflexivity.
  - assert (L : (128 <=? byte c)%nat = false)
      by (apply Nat.leb_gt; unfold is_ascii in H; now apply Nat.ltb_lt in H).
    rewrite (ascii_byte c 128 H), (ascii_byte c 168 H), (ascii_byte c 169 H),
      (ascii_byte c 175 H), (ascii_byte c 159 H), (ascii_byte c 191 H), L by lia.
    cbn [andb orb]. now rewrite !andb_false_r.
Qed.

(** Stripping stops at an ASCII character that is not white space. *)
Lemma strip_stops (back : bool) (a : ascii) (s : string) :
  is_ascii a = true -> is_space a = false ->
  strip back (String a s) = String a s.
Proof.
  intros Ha Hs. cbn [strip]. rewrite Hs.
  destruct s as [|b [|c s]]; [reflexivity | |].
  - destruct back; rewrite is_space2_ascii by auto; reflexivity.
  - destruct back; rewrite is_space2_ascii, is_space3_ascii by auto; reflexivity.
Qed.

End TextFacts.

(* ================================================================= *)
(** ** Numbers written and read back *)

Section NumberFacts.
Import JS.

Lemma digits_go_from (d : Decimal.uint) (p : positive) :
  digits_go 10 (Some (Zpos p)) (NilEmpty.string_of_uint d) =
  Some (Zpos (Pos.of_uint_acc d p)).
Proof.
  revert p. induction d; intros p;
    cbn [NilEmpty.string_of_uint Pos.of_uint_acc digits_go]; [reflexivity | ..];
    match goal with
    | |- context [digit_val 10 ?ch] =>
        let v := eval vm_compute in (digit_val 10 ch) in
        change (digit_val 10 ch) with v
    end; cbv iota; rewrite <- IHd; do 2 f_equal; lia.
Qed.

Lemma digits_go_zero (d : Decimal.uint) :
  digits_go 10 (Some 0%Z) (NilEmpty.string_of_uint d) = Some (Z.of_N (Pos.of_uint d)).
Proof.
  induction d;
    cbn [NilEmpty.string_of_uint Pos.of_uint digits_go]; [reflexivity | ..];
    match goal with
    | |- context [digit_val 10 ?ch] =>
        let v := eval vm_compute in (digit_val 10 ch) in
        change (digit_val 10 ch) with v
    end; cbv iota; cbn [Z.mul Z.add]; [exact IHd | ..]; apply digits_go_from.
Qed.

Lemma digits_go_fresh (d : Decimal.uint) :
  d <> Decimal.Nil ->
  digits_go 10 None (NilEmpty.string_of_uint d) = Some (Z.of_N (Pos.of_uint d)).
Proof.
  destruct d; intros H; [contradiction | ..];
    cbn [NilEmpty.string_of_uint Pos.of_uint digits_go];
    match goal with
    | |- context [digit_val 10 ?ch] =>
        let v := eval vm_compute in (digit_val 10 ch) in
        change (digit_val 10 ch) with v
    end; cbv iota; [apply digits_go_zero | ..]; apply digits_go_from.
Qed.

Lemma parse_magnitude_decimal (d : Decimal.uint) :
  parse_magnitude (NilEmpty.string_of_uint d) =
  digits_go 10 None (NilEmpty.string_of_uint d).
Proof. destruct d as [|d|d|d|d|d|d|d|d|d|d]; try reflexivity. destruct d; reflexivity. Qed.

(** Digits have no white space or sign before them. *)
Lemma trim_start_digits (d : Decimal.uint) :
  trim_start (NilEmpty.string_of_uint d) = NilEmpty.string_of_uint d.
Proof.
  unfold trim_start.
  destruct d; [reflexivity | ..]; cbn [NilEmpty.string_of_uint];
    apply strip_stops; reflexivity.
Qed.

Lemma parseInt_digits (d : Decimal.uint) :
  d <> Decimal.Nil ->
  parseInt (NilEmpty.string_of_uint d) = round64 (Z.of_N (Pos.of_uint d)).
Proof.
  intros H. unfold parseInt. rewrite trim_start_digits.
  assert (E : match NilEmpty.string_of_uint d with
              | String "-" r => (true, r)
              | String "+" r => (false, r)
              | _ => (false, NilEmpty.string_of_uint d)
              end = (false, NilEmpty.string_of_uint d))
    by (destruct d; reflexivity).
  rewrite E, parse_magnitude_decimal, (digits_go_fresh d H). reflexivity.
Qed.

Lemma string_of_uint_nonnil (d : Decimal.uint) :
  d <> Decimal.Nil -> NilZero.string_of_uint d = NilEmpty.string_of_uint d.
Proof. destruct d; [contradiction | reflexivity ..]. Qed.

Lemma parseInt_minus (s : string) :
  parseInt (String "-" s) =
  match parse_magnitude s with
  | Some m => round64 (- m)
  | None => NaN
  end.
Proof.
  unfold parseInt, trim_start. rewrite strip_stops by reflexivity. reflexivity.
Qed.

(** [parseInt] reads the decimal digits of an integer as the double
    nearest to it. *)
Lemma parseInt_decimal (z : Z) : parseInt (decimal z) = round64 z.
Proof.
  destruct z as [|p|p]; [reflexivity | |];
    pose proof (Unsigned.to_uint_nonnil p) as Hn.
  - change (decimal (Zpos p)) with (NilZero.string_of_uint (Pos.to_uint p)).
    rewrite (string_of_uint_nonnil _ Hn), (parseInt_digits _ Hn), Unsigned.of_to.
    reflexivity.
  - change (decimal (Zneg p))
      with (String "-" (NilZero.string_of_uint (Pos.to_uint p))).
    rewrite (string_of_uint_nonnil _ Hn), parseInt_minus, parse_magnitude_decimal,
      (digits_go_fresh _ Hn), Unsigned.of_to.
    reflexivity.
Qed.

(** A safe integer is written with all its digits. *)
Lemma string_of_num_safe (z : Z) : safe z -> string_of_num (Num z) = decimal z.
Proof. unfold safe. intros H. apply Z.ltb_lt in H. simpl. now rewrite H. Qed.

Lemma string_of_Z_safe (z : Z) : safe z -> string_of_Z z = decimal z.
Proof.
  intros H. unfold string_of_Z. rewrite (round64_safe z H). now apply string_of_num_safe.
Qed.

(** A safe integer written with [String(n)], as a template literal or an
    assignment to a field does, is read back by [parseInt]. *)
Lemma parseInt_string_of_num (z : Z) : safe z -> parseInt (string_of_num (Num z)) = Num z.
Proof.
  intros H. rewrite (string_of_num_safe z H), parseInt_decimal. now apply round64_safe.
Qed.

Lemma parseInt_string_of_Z (z : Z) : safe z -> parseInt (string_of_Z z) = Num z.
Proof.
  intros H. rewrite (string_of_Z_safe z H), parseInt_decimal. now apply round64_safe.
Qed.

(** From 10^21 on the text has an exponent, of which [parseInt] reads the
    digits before the point: a card numbered 10^21 comes back as 1. *)
Lemma parseInt_string_of_Z_large :
  string_of_Z (10 ^ 21) = "1e+21" /\ parseInt (string_of_Z (10 ^ 21)) = Num 1.
Proof. vm_compute. split; reflexivity. Qed.

End NumberFacts.

(* ================================================================= *)
(** ** The lobby client: forms and listeners *)

Section LobbyForms.
Import JS Dom Lobby.

(** *** Characters and strings *)

Lemma length_map_chars (f : ascii -> ascii) (s : string) :
  String.length (map_chars f s) = String.length s.
Proof. induction s as [|ch s IH]; simpl; [reflexivity | now rewrite IH]. Qed.

Lemma upper_not_space (ch : ascii) : is_upper ch = true -> is_space ch = false.
Proof.
  unfold is_upper, is_space. cbv zeta. intros H.
  apply andb_true_iff in H. destruct H as [H1 H2].
  apply Nat.leb_le in H1. apply Nat.leb_le in H2.
  apply orb_false_iff. split.
  - apply Nat.eqb_neq. lia.
  - apply andb_false_iff. right. apply Nat.leb_gt. lia.
Qed.

Lemma upper_not_lower (ch : ascii) : is_upper ch = true -> is_lower ch = false.
Proof.
  unfold is_upper, is_lower. cbv zeta. intros H.
  apply andb_true_iff in H. destruct H as [H1 H2].
  apply Nat.leb_le in H1. apply Nat.leb_le in H2.
  apply andb_false_iff. left. apply Nat.leb_gt. lia.
Qed.

Lemma upper_is_ascii (ch : ascii) : is_upper ch = true -> is_ascii ch = true.
Proof.
  unfold is_upper, is_ascii, byte. cbv zeta. intros H.
  apply andb_true_iff in H. destruct H as [_ H2].
  apply Nat.leb_le in H2. apply Nat.ltb_lt. lia.
Qed.

Lemma is_upper_upper_char (ch : ascii) : is_upper (upper_char ch) = is_letter ch.
Proof.
  unfold upper_char, is_letter. destruct (is_lower ch) eqn:El.
  - rewrite orb_true_r. unfold is_lower in El. cbv zeta in El.
    apply andb_true_iff in El. destruct El as [H1 H2].
    apply Nat.leb_le in H1. apply Nat.leb_le in H2.
    unfold is_upper. cbv zeta. rewrite nat_ascii_embedding by lia.
    apply andb_true_iff. split; apply Nat.leb_le; lia.
  - now rewrite orb_false_r.
Qed.

(** On an ASCII text the code units are the bytes and [toUpperCase]
    raises the small letters one by one. *)
Lemma ascii_length (s : string) : ascii_only s = true -> str_length s = String.length s.
Proof.
  unfold ascii_only. induction s as [|ch s IH]; simpl; [reflexivity|].
  intros H. apply andb_true_iff in H. destruct H as [Hc Hs].
  rewrite (IH Hs). unfold units_of. cbv zeta. unfold is_ascii in Hc. now rewrite Hc.
Qed.

Lemma toUpperCase_ascii (s : string) :
  ascii_only s = true -> toUpperCase s = map_chars upper_char s.
Proof.
  unfold ascii_only, toUpperCase. induction s as [|ch s IH]; simpl; [reflexivity|].
  intros H. apply andb_true_iff in H. destruct H as [Hc Hs].
  now rewrite Hc, (IH Hs).
Qed.

Lemma upper_char_ascii (ch : ascii) : is_ascii ch = true -> is_ascii (upper_char ch) = true.
Proof.
  intros H. unfold upper_char. destruct (is_lower ch) eqn:El; [|exact H].
  unfold is_lower in El. cbv zeta in El. apply andb_true_iff in El.
  destruct El as [H1 H2]. apply Nat.leb_le in H1. apply Nat.leb_le in H2.
  unfold is_ascii, byte. rewrite nat_ascii_embedding by lia. apply Nat.ltb_lt. lia.
Qed.

Lemma map_upper_ascii (s : string) :
  ascii_only s = true -> ascii_only (map_chars upper_char s) = true.
Proof.
  unfold ascii_only. induction s as [|ch s IH]; simpl; [reflexivity|].
  intros H. apply andb_true_iff in H. destruct H as [Hc Hs].
  now rewrite (upper_char_ascii ch Hc), (IH Hs).
Qed.

Lemma all_upper_map (s : string) :
  all_chars is_upper (map_chars upper_char s) = all_chars is_letter s.
Proof.
  induction s as [|ch s IH]; simpl; [reflexivity|].
  now rewrite is_upper_upper_char, IH.
Qed.

Lemma capitals_ascii (s : string) : all_chars is_upper s = true -> ascii_only s = true.
Proof.
  unfold ascii_only. induction s as [|ch s IH]; simpl; [reflexivity|].
  intros H. apply andb_true_iff in H. destruct H as [Hc Hs].
  now rewrite (upper_is_ascii ch Hc), (IH Hs).
Qed.

Lemma toUpperCase_capitals (s : string) :
  all_chars is_upper s = true -> toUpperCase s = s.
Proof.
  intros H. rewrite (toUpperCase_ascii s (capitals_ascii s H)).
  induction s as [|ch s IH]; simpl; [reflexivity|].
  simpl in H. apply andb_true_iff in H. destruct H as [Hc Hs].
  rewrite (IH Hs). unfold upper_char. now rewrite (upper_not_lower ch Hc).
Qed.

Lemma all_keep_chars (p : ascii -> bool) (s : string) :
  all_chars p (keep_chars p s) = true.
Proof.
  induction s as [|ch s IH]; simpl; [reflexivity|].
  destruct (p ch) eqn:E; simpl; [now rewrite E | exact IH].
Qed.

Lemma keep_chars_all (p : ascii -> bool) (s : string) :
  all_chars p s = true -> keep_chars p s = s.
Proof.
  induction s as [|ch s IH]; simpl; [reflexivity|].
  intros H. apply andb_true_iff in H. destruct H as [Hc Hs]. now rewrite Hc, (IH Hs).
Qed.

(** Raising and then keeping the capitals keeps the letters, raised. *)
Lemma keep_upper_map (s : string) :
  keep_chars is_upper (map_chars upper_char s) =
  map_chars upper_char (keep_chars is_letter s).
Proof.
  induction s as [|ch s IH]; simpl; [reflexivity|].
  rewrite is_upper_upper_char. destruct (is_letter ch); simpl; now rewrite IH.
Qed.

Lemma all_chars_rev_append (p : ascii -> bool) (s acc : string) :
  all_chars p (rev_append s acc) = all_chars p s && all_chars p acc.
Proof.
  revert acc. induction s as [|ch s IH]; intros acc; simpl; [reflexivity|].
  rewrite IH. simpl. now rewrite andb_assoc, (andb_comm (all_chars p s)).
Qed.

Lemma rev_append_twice (s a b : string) :
  rev_append (rev_append s a) b = rev_append a (s ++ b)%string.
Proof.
  revert a b. induction s as [|ch s IH]; intros a b; simpl; [reflexivity|].
  now rewrite IH.
Qed.

Lemma append_empty (s : string) : (s ++ "")%string = s.
Proof. induction s as [|ch s IH]; simpl; [reflexivity | now rewrite IH]. Qed.

Lemma reverse_reverse (s : string) : reverse (reverse s) = s.
Proof. unfold reverse. rewrite rev_append_twice. simpl. apply append_empty. Qed.

Lemma strip_capitals (back : bool) (s : string) :
  all_chars is_upper s = true -> strip back s = s.
Proof.
  destruct s as [|ch s]; [reflexivity|]. simpl all_chars. intros H.
  apply andb_true_iff in H. destruct H as [Hc _].
  apply strip_stops; [now apply upper_is_ascii | now apply upper_not_space].
Qed.

Lemma trim_capitals (s : string) : all_chars is_upper s = true -> trim s = s.
Proof.
  intros H. unfold trim, trim_start, trim_end.
  rewrite (strip_capitals false s H), strip_capitals, reverse_reverse; [reflexivity|].
  unfold reverse. now rewrite all_chars_rev_append, H.
Qed.

(** *** Name and code forms *)

(** X1.  [setUsername] sends [set_username], carrying the trimmed input,
    exactly when the length of the trimmed input, counted in UTF-16 code
    units as the code counts it, is from 2 to 20; otherwise it sends
    nothing and shows a message in the username error slot, to be hidden
    by a timer 5 seconds later. *)
Theorem X1_setUsername_length_window :
  forall (c : Client),
    let typed := trim (value (dom c "username-input")) in
    ((2 <= str_length typed <= 20)%nat ->
     outbox (setUsername c) = outbox c ++ [set_username typed] /\
     has_class "show" (dom (setUsername c) "username-error") = false /\
     timers (setUsername c) = timers c) /\
    (~ (2 <= str_length typed <= 20)%nat ->
     outbox (setUsername c) = outbox c /\
     has_class "show" (dom (setUsername c) "username-error") = true /\
     timers (setUsername c) = timers c ++ [mkTimer (now c + 5000) "username-error"]).
Proof.
  intros c typed. unfold setUsername, input_value. fold typed.
  destruct (hideError_keeps "username-error" c) as (Ho & Ht & Hn & _ & Hs & _).
  destruct (truthy_str typed) eqn:E0; simpl negb; cbv iota.
  2:{ assert (typed = "") as -> by (destruct typed; [reflexivity | discriminate E0]).
      simpl str_length. split; [lia|]. intros _.
      destruct (showError_element "username-error" "Username cannot be empty"
                  (hideError "username-error" c)) as (_ & B & C & D & E).
      rewrite B, C, E, Ho, Ht, Hn. auto. }
  destruct (str_length typed <? 2)%nat eqn:E2.
  { apply Nat.ltb_lt in E2. split; [lia|]. intros _.
    destruct (showError_element "username-error" "Username must be at least 2 characters"
                (hideError "username-error" c)) as (_ & B & C & D & E).
    rewrite B, C, E, Ho, Ht, Hn. auto. }
  apply Nat.ltb_ge in E2.
  destruct (20 <? str_length typed)%nat eqn:E20.
  { apply Nat.ltb_lt in E20. split; [lia|]. intros _.
    destruct (showError_element "username-error" "Username must be less than 20 characters"
                (hideError "username-error" c)) as (_ & B & C & D & E).
    rewrite B, C, E, Ho, Ht, Hn. auto. }
  apply Nat.ltb_ge in E20. split; [|lia]. intros _.
  split; [reflexivity|]. split; [exact Hs | reflexivity].
Qed.

Lemma X1_setUsername_length_window_witness :
  (outbox (setUsername (Sample.named "  abcdefghijklmnopqrst ")) =
     [set_username "abcdefghijklmnopqrst"] /\
   outbox (setUsername (Sample.named " a ")) = []) /\
  (outbox (setUsername (Sample.named "ééééééééééé")) = [set_username "ééééééééééé"] /\
   outbox (setUsername (Sample.named "é")) = []).
Proof.
  split; split.
  - apply (X1_setUsername_length_window (Sample.named "  abcdefghijklmnopqrst ")).
    vm_compute. split; apply Nat.leb_le; reflexivity.
  - apply (X1_setUsername_length_window (Sample.named " a ")).
    vm_compute. intros [H _]. apply Nat.leb_le in H. discriminate H.
  - apply (X1_setUsername_length_window (Sample.named "ééééééééééé")).
    vm_compute. split; apply Nat.leb_le; reflexivity.
  - apply (X1_setUsername_length_window (Sample.named "é")).
    vm_compute. intros [H _]. apply Nat.leb_le in H. discriminate H.
Defined.

(** What [joinLobby] does, by its three checks taken together. *)
Lemma joinLobby_cases (c : Client) :
  let code := toUpperCase (trim (value (dom c "lobby-code-input"))) in
  let c0 := hideError "join-lobby-error" c in
  ((str_length code =? 6)%nat && onlyCapitals code = true ->
   joinLobby c = emit (join_lobby code) c0) /\
  ((str_length code =? 6)%nat && onlyCapitals code = false ->
   exists msg, joinLobby c = showError "join-lobby-error" msg c0).
Proof.
  intros code c0.
  assert (E : joinLobby c =
              if negb (truthy_str code) then
                showError "join-lobby-error" "Please enter a lobby code" c0
              else if negb (str_length code =? 6)%nat then
                showError "join-lobby-error" "Lobby code must be 6 letters" c0
              else if negb (onlyCapitals code) then
                showError "join-lobby-error" "Lobby code must contain only letters" c0
              else emit (join_lobby code) c0) by reflexivity.
  rewrite E. unfold onlyCapitals.
  destruct (truthy_str code) eqn:Et; simpl negb; cbv iota.
  - destruct (str_length code =? 6)%nat; simpl.
    + destruct (all_chars is_upper code); simpl; split; intros H; try discriminate H.
      * reflexivity.
      * eexists. reflexivity.
    + split; intros H; [discriminate H | eexists; reflexivity].
  - rewrite andb_false_r. split; intros H; [discriminate H | eexists; reflexivity].
Qed.

(** X2.  For an input that, trimmed, is ASCII text: [joinLobby] sends
    [join_lobby] exactly when the trimmed input is six letters, of either
    case, and the code it sends is the input in capitals.  Otherwise
    nothing is sent and the join error slot shows a message. *)
Theorem X2_joinLobby_six_letters :
  forall (c : Client),
    let typed := trim (value (dom c "lobby-code-input")) in
    ascii_only typed = true ->
    ((str_length typed = 6%nat /\ all_chars is_letter typed = true) ->
     outbox (joinLobby c) = outbox c ++ [join_lobby (map_chars upper_char typed)] /\
     has_class "show" (dom (joinLobby c) "join-lobby-error") = false) /\
    (~ (str_length typed = 6%nat /\ all_chars is_letter typed = true) ->
     outbox (joinLobby c) = outbox c /\
     has_class "show" (dom (joinLobby c) "join-lobby-error") = true).
Proof.
  intros c typed Hascii. destruct (joinLobby_cases c) as [Hok Hbad].
  fold typed in Hok, Hbad.
  destruct (hideError_keeps "join-lobby-error" c) as (Ho & _ & _ & _ & Hs & _).
  rewrite (toUpperCase_ascii typed Hascii) in Hok, Hbad.
  set (code := map_chars upper_char typed) in *.
  assert (Hup : all_chars is_upper code = all_chars is_letter typed) by apply all_upper_map.
  assert (Hlen : str_length code = str_length typed).
  { unfold code.
    rewrite (ascii_length _ (map_upper_ascii typed Hascii)), (ascii_length typed Hascii).
    apply length_map_chars. }
  unfold onlyCapitals in Hok, Hbad. rewrite Hlen, Hup in Hok, Hbad.
  split.
  - intros [H6 Hl]. rewrite Hok.
    + split; [reflexivity | exact Hs].
    + rewrite H6, Hl. simpl.
      destruct code eqn:Ec; [|reflexivity].
      apply (f_equal String.length) in Ec. unfold code in Ec.
      rewrite length_map_chars, <- (ascii_length typed Hascii), H6 in Ec. discriminate Ec.
  - intros Hn.
    destruct ((str_length typed =? 6)%nat &&
              (truthy_str code && all_chars is_letter typed)) eqn:E.
    + exfalso. apply Hn. apply andb_true_iff in E. destruct E as [E6 El].
      apply andb_true_iff in El. destruct El as [_ El].
      apply Nat.eqb_eq in E6. now split.
    + destruct (Hbad eq_refl) as [msg ->].
      destruct (showError_element "join-lobby-error" msg
                  (hideError "join-lobby-error" c)) as (_ & B & C & _ & _).
      rewrite B, C, Ho. now split.
Qed.

Lemma X2_joinLobby_six_letters_witness :
  outbox (joinLobby (Sample.joining " abCdeF ")) = [join_lobby "ABCDEF"] /\
  outbox (joinLobby (Sample.joining "ABC4EF")) = [].
Proof.
  split.
  - apply (X2_joinLobby_six_letters (Sample.joining " abCdeF "));
      [reflexivity | split; reflexivity].
  - apply (X2_joinLobby_six_letters (Sample.joining "ABC4EF")); [reflexivity|].
    intros [_ H]. discriminate H.
Defined.

(** Beyond ASCII the count of letters typed no longer decides: a long s
    is raised to S, so five letters after it make a code, and a sharp s
    is raised to SS, so four letters before it do. *)
Lemma joinLobby_beyond_ascii :
  outbox (joinLobby (Sample.joining "ſabcde")) = [join_lobby "SABCDE"] /\
  outbox (joinLobby (Sample.joining "abcdß")) = [join_lobby "ABCDSS"] /\
  value (dom (onLobbyCodeInput (Sample.joining "abcdß")) "lobby-code-input") = "ABCDSS".
Proof. vm_compute. repeat split. Qed.

Lemma onLobbyCodeInput_value (c : Client) :
  value (dom (onLobbyCodeInput c) "lobby-code-input") =
  keep_chars is_upper (toUpperCase (value (dom c "lobby-code-input"))).
Proof. unfold onLobbyCodeInput, on_element. simpl dom. now rewrite upd_same. Qed.

(** X3.  The input listener of the code field leaves only capital
    letters in it, and changes nothing when run again; when the text
    typed is ASCII, what it leaves is the letters typed, in their order
    and raised, everything else removed.  [joinLobby] on a field so
    formatted sends its content exactly when it has six characters. *)
Theorem X3_formatted_code_joins_by_length :
  forall (c : Client),
    let typed := value (dom c "lobby-code-input") in
    let c1 := onLobbyCodeInput c in
    let code := value (dom c1 "lobby-code-input") in
    all_chars is_upper code = true /\
    (ascii_only typed = true ->
     code = map_chars upper_char (keep_chars is_letter typed)) /\
    value (dom (onLobbyCodeInput c1) "lobby-code-input") = code /\
    (str_length code = 6%nat ->
     outbox (joinLobby c1) = outbox c ++ [join_lobby code]) /\
    (str_length code <> 6%nat -> outbox (joinLobby c1) = outbox c).
Proof.
  intros c typed c1 code.
  assert (Ecode : code = keep_chars is_upper (toUpperCase typed)).
  { subst code c1 typed. apply onLobbyCodeInput_value. }
  assert (Hup : all_chars is_upper code = true) by (rewrite Ecode; apply all_keep_chars).
  assert (Hfix : toUpperCase (trim code) = code)
    by (rewrite (trim_capitals code Hup); now apply toUpperCase_capitals).
  split; [exact Hup|]. split; [|split].
  - intros Ha. rewrite Ecode, (toUpperCase_ascii typed Ha). apply keep_upper_map.
  - rewrite onLobbyCodeInput_value. fold code.
    rewrite (toUpperCase_capitals code Hup). now apply keep_chars_all.
  - destruct (joinLobby_cases c1) as [Hok Hbad]. fold code in Hok, Hbad.
    rewrite Hfix in Hok, Hbad. unfold onlyCapitals in Hok, Hbad.
    rewrite Hup, andb_true_r in Hok, Hbad.
    split; intros H.
    + rewrite Hok; [reflexivity|]. rewrite H. simpl.
      destruct code; [discriminate H | reflexivity].
    + apply Nat.eqb_neq in H. rewrite H in Hbad. destruct (Hbad eq_refl) as [msg ->].
      destruct (showError_element "join-lobby-error" msg
                  (hideError "join-lobby-error" c1)) as (_ & _ & C & _ & _).
      rewrite C. reflexivity.
Qed.

Lemma X3_formatted_code_joins_by_length_witness :
  value (dom (onLobbyCodeInput (Sample.joining "ab-c 1dEf")) "lobby-code-input") =
    map_chars upper_char (keep_chars is_letter "ab-c 1dEf") /\
  outbox (joinLobby (onLobbyCodeInput (Sample.joining "ab-c 1dEf"))) = [join_lobby "ABCDEF"].
Proof.
  destruct (X3_formatted_code_joins_by_length (Sample.joining "ab-c 1dEf"))
    as (_ & Hletters & _ & Hsix & _).
  split; [apply Hletters; reflexivity | apply Hsix; reflexivity].
Defined.

(** *** Settings and blinds *)

Lemma num_or_Num (z d : Z) : z <> 0%Z -> num_or (Num z) d = Num z.
Proof.
  intros H. unfold num_or. simpl.
  destruct (z =? 0)%Z eqn:E; [apply Z.eqb_eq in E; contradiction | reflexivity].
Qed.

(** A field read with a non-zero default is never 0. *)
Lemma field_nonzero (c : Client) (id : string) (d z : Z) :
  d <> 0%Z -> Spec.field c id d = Num z -> z <> 0%Z.
Proof.
  unfold Spec.field, num_or. intros Hd.
  destruct (parseInt (value (dom c id))) as [|v|n]; simpl.
  - intros H. injection H as <-. exact Hd.
  - destruct (v =? 0)%Z eqn:E; simpl; intros H; injection H as <-;
      [exact Hd | now apply Z.eqb_neq].
  - discriminate.
Qed.

(** A field into which a safe integer other than 0 was written reads as
    that integer. *)
Lemma field_written (c : Client) (id : string) (d z : Z) :
  value (dom c id) = string_of_num (Num z) -> safe z -> z <> 0%Z ->
  Spec.field c id d = Num z.
Proof.
  intros Hv Hs Hz. unfold Spec.field.
  rewrite Hv, (parseInt_string_of_num z Hs). now apply num_or_Num.
Qed.

Lemma safe_factor (z k : Z) : safe (z * k) -> k <> 0%Z -> safe z.
Proof. unfold safe. intros H Hk. nia. Qed.

(** What [saveSettings] does, by the outcome of its two checks. *)
Lemma saveSettings_cases (c : Client) (sb bb sf : Z) :
  Spec.field c "edit-small-blind" 5 = Num sb ->
  Spec.field c "edit-big-blind" 10 = Num bb ->
  Spec.field c "edit-starting-funds" 1000 = Num sf ->
  safe (sb * 2) -> safe (bb * 10) ->
  ((bb >= 2 * sb /\ sf >= 10 * bb)%Z ->
   outbox (saveSettings c) =
     outbox c ++ [update_lobby_config (Num sb) (Num bb) (Num sf)] /\
   styleDisplay (dom (saveSettings c) "settings-editor") = "none" /\
   styleDisplay (dom (saveSettings c) "game-settings") = "block") /\
  (~ (bb >= 2 * sb /\ sf >= 10 * bb)%Z -> saveSettings c = c).
Proof.
  unfold Spec.field. intros E1 E2 E3 Hs Hb.
  unfold saveSettings, input_value.
  rewrite E1, E2, E3, (num_mul_safe _ _ Hs), (num_mul_safe _ _ Hb). cbn [num_ltb].
  destruct (bb <? sb * 2)%Z eqn:C1.
  { apply Z.ltb_lt in C1. split; [lia | reflexivity]. }
  destruct (sf <? bb * 10)%Z eqn:C2.
  { apply Z.ltb_lt in C2. split; [lia | reflexivity]. }
  apply Z.ltb_ge in C1. apply Z.ltb_ge in C2.
  split; [|lia]. intros _. split; [reflexivity|]. split; reflexivity.
Qed.

(** X4.  Let the editor fields read as integers with 2 x small blind and
    10 x big blind below 2^53.  [saveSettings] applies the two checks of
    [createLobby] to them (big blind at least twice the small blind,
    funds at least ten times the big blind).  When they pass it sends one
    [update_lobby_config] with the values read and closes the editor;
    when one fails it changes nothing at all: nothing is sent, no error
    slot is written and the editor stays as it is. *)
Theorem X4_saveSettings_checks :
  forall (c : Client) (sb bb sf : Z),
    Spec.field c "edit-small-blind" 5 = Num sb ->
    Spec.field c "edit-big-blind" 10 = Num bb ->
    Spec.field c "edit-starting-funds" 1000 = Num sf ->
    safe (sb * 2) -> safe (bb * 10) ->
    ((bb >= 2 * sb /\ sf >= 10 * bb)%Z ->
     outbox (saveSettings c) =
       outbox c ++ [update_lobby_config (Num sb) (Num bb) (Num sf)] /\
     styleDisplay (dom (saveSettings c) "settings-editor") = "none" /\
     styleDisplay (dom (saveSettings c) "game-settings") = "block") /\
    (~ (bb >= 2 * sb /\ sf >= 10 * bb)%Z -> saveSettings c = c).
Proof. intros c sb bb sf. exact (saveSettings_cases c sb bb sf). Qed.

Lemma X4_saveSettings_checks_witness :
  outbox (saveSettings (Sample.editing "6" "12" "120")) =
    [] ++ [update_lobby_config (Num 6) (Num 12) (Num 120)] /\
  saveSettings (Sample.editing "6" "11" "120") = Sample.editing "6" "11" "120".
Proof.
  split.
  - apply (X4_saveSettings_checks (Sample.editing "6" "12" "120") 6 12 120);
      try (vm_compute; reflexivity).
    split; discriminate.
  - apply (X4_saveSettings_checks (Sample.editing "6" "11" "120") 6 11 120);
      try (vm_compute; reflexivity).
    intros [H _]. apply H. reflexivity.
Defined.

(** X5.  Opening the settings editor writes the held configuration into
    its fields, and saving without an edit sends that configuration back
    unchanged, provided its values are integers with 2 x small blind,
    10 x big blind and the funds below 2^53, it satisfies the two checks
    and none of its three values is 0 (a 0 would be replaced by the
    default on reading).  With no lobby held, opening the editor throws
    before it writes anything. *)
Theorem X5_settings_editor_round_trip :
  forall (c : Client),
    (currentLobby c = None -> exists msg, showSettingsEditor c = TypeError msg) /\
    (forall l,
        currentLobby c = Some l ->
        smallBlind (config l) <> 0%Z ->
        bigBlind (config l) <> 0%Z ->
        startingFunds (config l) <> 0%Z ->
        safe (smallBlind (config l) * 2) ->
        safe (bigBlind (config l) * 10) ->
        safe (startingFunds (config l)) ->
        (bigBlind (config l) >= 2 * smallBlind (config l))%Z ->
        (startingFunds (config l) >= 10 * bigBlind (config l))%Z ->
        exists c1,
          showSettingsEditor c = Ok c1 /\
          styleDisplay (dom c1 "settings-editor") = "block" /\
          outbox (saveSettings c1) =
            outbox c ++ [update_lobby_config (Num (smallBlind (config l)))
                           (Num (bigBlind (config l)))
                           (Num (startingFunds (config l)))]).
Proof.
  intros c. split.
  - intros H. unfold showSettingsEditor. rewrite H. eexists. reflexivity.
  - intros l Hl Hs Hb Hf Ss Sb Sf Hbs Hfb. unfold showSettingsEditor. rewrite Hl.
    eexists. split; [reflexivity|]. split; [reflexivity|].
    assert (Ss' : safe (smallBlind (config l))) by (apply (safe_factor _ 2 Ss); lia).
    assert (Sb' : safe (bigBlind (config l))) by (apply (safe_factor _ 10 Sb); lia).
    match goal with |- outbox (saveSettings ?c1) = _ =>
      assert (E1 : value (dom c1 "edit-small-blind") = string_of_Z (smallBlind (config l)))
        by reflexivity;
      assert (E2 : value (dom c1 "edit-big-blind") = string_of_Z (bigBlind (config l)))
        by reflexivity;
      assert (E3 : value (dom c1 "edit-starting-funds") =
                   string_of_Z (startingFunds (config l))) by reflexivity;
      destruct (saveSettings_cases c1 (smallBlind (config l)) (bigBlind (config l))
                  (startingFunds (config l))) as [Hok _]
    end.
    + apply field_written; [rewrite E1 | |]; try assumption.
      unfold string_of_Z. now rewrite round64_safe.
    + apply field_written; [rewrite E2 | |]; try assumption.
      unfold string_of_Z. now rewrite round64_safe.
    + apply field_written; [rewrite E3 | |]; try assumption.
      unfold string_of_Z. now rewrite round64_safe.
    + exact Ss.
    + exact Sb.
    + destruct (Hok (conj Hbs Hfb)) as [Ho _]. exact Ho.
Qed.

Lemma X5_settings_editor_round_trip_witness :
  exists c1,
    showSettingsEditor (Sample.editingAt Sample.highStakes "" "" "") = Ok c1 /\
    styleDisplay (dom c1 "settings-editor") = "block" /\
    outbox (saveSettings c1) =
      outbox (Sample.editingAt Sample.highStakes "" "" "") ++
      [update_lobby_config (Num (smallBlind (config Sample.highStakes)))
         (Num (bigBlind (config Sample.highStakes)))
         (Num (startingFunds (config Sample.highStakes)))].
Proof.
  apply (proj2 (X5_settings_editor_round_trip (Sample.editingAt Sample.highStakes "" "" ""))
           Sample.highStakes);
    try reflexivity; try discriminate; vm_compute; reflexivity.
Defined.

(** The field a listener rewrites, and the fields it leaves alone. *)
Lemma set_field_value (id v : string) (c : Client) :
  value (dom (on_element id (set_value v) c) id) = v /\
  (forall id', id' <> id -> dom (on_element id (set_value v) c) id' = dom c id') /\
  outbox (on_element id (set_value v) c) = outbox c /\
  username (on_element id (set_value v) c) = username c.
Proof.
  unfold on_element. simpl. rewrite upd_same. repeat split.
  intros id' H. now apply upd_other.
Qed.

Lemma field_elsewhere (c c' : Client) (id : string) (d : Z) :
  dom c' id = dom c id -> Spec.field c' id d = Spec.field c id d.
Proof. unfold Spec.field. now intros ->. Qed.

(** What the listeners of the big-blind and starting-funds fields leave
    behind, for fields that read as integers whose product is exact. *)
Lemma onBigBlindInput_cases (c : Client) (s b : Z) :
  Spec.field c "small-blind-input" 1 = Num s ->
  Spec.field c "big-blind-input" 2 = Num b ->
  safe (s * 2) ->
  let c1 := onBigBlindInput c in
  let b1 := if (b <? s * 2)%Z then (s * 2)%Z else b in
  (forall d, d <> 0%Z -> Spec.field c "big-blind-input" d = Num b ->
             Spec.field c1 "big-blind-input" d = Num b1) /\
  (forall id, id <> "big-blind-input" -> dom c1 id = dom c id) /\
  outbox c1 = outbox c /\ username c1 = username c.
Proof.
  intros Hs Hb Ss c1 b1. subst c1 b1.
  pose proof (field_nonzero c _ 1 s ltac:(discriminate) Hs) as Hs0.
  unfold onBigBlindInput, input_value.
  change (num_or (parseInt (value (dom c "small-blind-input"))) 1)
    with (Spec.field c "small-blind-input" 1).
  change (num_or (parseInt (value (dom c "big-blind-input"))) 2)
    with (Spec.field c "big-blind-input" 2).
  rewrite Hs, Hb, (num_mul_safe _ _ Ss). cbn [num_ltb].
  destruct (b <? s * 2)%Z.
  - destruct (set_field_value "big-blind-input" (string_of_num (Num (s * 2))) c)
      as (A & B & C & D).
    split; [|split; [exact B | split; [exact C | exact D]]].
    intros d _ _. apply field_written; [exact A | exact Ss | lia].
  - split; [|split; [reflexivity | split; reflexivity]]. intros d _ H. exact H.
Qed.

Lemma onStartingFundsInput_cases (c : Client) (f b : Z) :
  Spec.field c "starting-funds-input" 100 = Num f ->
  Spec.field c "big-blind-input" 10 = Num b ->
  safe (b * 10) ->
  let c1 := onStartingFundsInput c in
  let f1 := if (f <? b * 10)%Z then (b * 10)%Z else f in
  (forall d, d <> 0%Z -> Spec.field c "starting-funds-input" d = Num f ->
             Spec.field c1 "starting-funds-input" d = Num f1) /\
  (forall id, id <> "starting-funds-input" -> dom c1 id = dom c id) /\
  outbox c1 = outbox c /\ username c1 = username c.
Proof.
  intros Hf Hb Sb c1 f1. subst c1 f1.
  pose proof (field_nonzero c _ 10 b ltac:(discriminate) Hb) as Hb0.
  unfold onStartingFundsInput, input_value.
  change (num_or (parseInt (value (dom c "starting-funds-input"))) 100)
    with (Spec.field c "starting-funds-input" 100).
  change (num_or (parseInt (value (dom c "big-blind-input"))) 10)
    with (Spec.field c "big-blind-input" 10).
  rewrite Hf, Hb, (num_mul_safe _ _ Sb). cbn [num_ltb].
  destruct (f <? b * 10)%Z.
  - destruct (set_field_value "starting-funds-input" (string_of_num (Num (b * 10))) c)
      as (A & B & C & D).
    split; [|split; [exact B | split; [exact C | exact D]]].
    intros d _ _. apply field_written; [exact A | exact Sb | lia].
  - split; [|split; [reflexivity | split; reflexivity]]. intros d _ H. exact H.
Qed.

(** X6.  Let the fields read as integers whose products with 2 and 10
    stay below 2^53.  The listeners of the blind and funds fields then
    repair the field they watch: after the big-blind listener the big
    blind is at least twice the small blind, after the starting-funds
    listener the funds are at least ten times the big blind (empty or
    zero fields counting as 1, 2, 100 and 10, the listeners' own
    defaults); a field that already passes is left as it is.  The
    small-blind listener only raises a big blind that does not exceed the
    small blind: for a positive small blind it leaves the big blind above
    it. *)
Theorem X6_field_listeners_repair :
  forall (c : Client) (s b : Z),
    Spec.field c "small-blind-input" 1 = Num s ->
    safe (s * 2) ->
    (Spec.field c "big-blind-input" 2 = Num b ->
     exists b1,
       Spec.field (onBigBlindInput c) "big-blind-input" 2 = Num b1 /\
       Spec.field (onBigBlindInput c) "small-blind-input" 1 = Num s /\
       (b1 >= 2 * s)%Z /\ ((b >= 2 * s)%Z -> b1 = b)) /\
    (forall f,
       Spec.field c "big-blind-input" 10 = Num b ->
       Spec.field c "starting-funds-input" 100 = Num f ->
       safe (b * 10) ->
       exists f1,
         Spec.field (onStartingFundsInput c) "starting-funds-input" 100 = Num f1 /\
         Spec.field (onStartingFundsInput c) "big-blind-input" 10 = Num b /\
         (f1 >= 10 * b)%Z /\ ((f >= 10 * b)%Z -> f1 = f)) /\
    (Spec.field c "big-blind-input" 2 = Num b -> (s > 0)%Z ->
     exists b1,
       Spec.field (onSmallBlindInput c) "big-blind-input" 2 = Num b1 /\
       Spec.field (onSmallBlindInput c) "small-blind-input" 1 = Num s /\
       (b1 > s)%Z).
Proof.
  intros c s b Hs Ss. split; [|split].
  - intros Hb.
    destruct (onBigBlindInput_cases c s b Hs Hb Ss) as (A & B & _).
    exists (if (b <? s * 2)%Z then (s * 2)%Z else b).
    split; [apply A; [discriminate | exact Hb]|].
    split; [rewrite (field_elsewhere c _ _ 1 (B "small-blind-input" ltac:(discriminate)));
            exact Hs|].
    destruct (b <? s * 2)%Z eqn:E; [apply Z.ltb_lt in E | apply Z.ltb_ge in E]; lia.
  - intros f Hb Hf Sb.
    destruct (onStartingFundsInput_cases c f b Hf Hb Sb) as (A & B & _).
    exists (if (f <? b * 10)%Z then (b * 10)%Z else f).
    split; [apply A; [discriminate | exact Hf]|].
    split; [rewrite (field_elsewhere c _ _ 10 (B "big-blind-input" ltac:(discriminate)));
            exact Hb|].
    destruct (f <? b * 10)%Z eqn:E; [apply Z.ltb_lt in E | apply Z.ltb_ge in E]; lia.
  - intros Hb Hpos. unfold onSmallBlindInput, input_value.
    change (num_or (parseInt (value (dom c "small-blind-input"))) 1)
      with (Spec.field c "small-blind-input" 1).
    change (num_or (parseInt (value (dom c "big-blind-input"))) 2)
      with (Spec.field c "big-blind-input" 2).
    rewrite Hs, Hb, (num_mul_safe _ _ Ss). cbn [num_leb].
    destruct (b <=? s)%Z eqn:E.
    + destruct (set_field_value "big-blind-input" (string_of_num (Num (s * 2))) c)
        as (A & B & _).
      exists (s * 2)%Z.
      split; [apply field_written; [exact A | exact Ss | lia]|].
      split; [rewrite (field_elsewhere c _ _ 1 (B "small-blind-input" ltac:(discriminate)));
              exact Hs | lia].
    + apply Z.leb_gt in E. exists b. split; [exact Hb | split; [exact Hs | lia]].
Qed.

Lemma X6_field_listeners_repair_witness :
  exists b1,
    Spec.field (onBigBlindInput (Sample.creator "8" "9" "")) "big-blind-input" 2 = Num b1 /\
    Spec.field (onBigBlindInput (Sample.creator "8" "9" "")) "small-blind-input" 1 = Num 8 /\
    (b1 >= 2 * 8)%Z /\ ((9 >= 2 * 8)%Z -> b1 = 9%Z).
Proof.
  apply (proj1 (X6_field_listeners_repair (Sample.creator "8" "9" "") 8 9
                  eq_refl ltac:(vm_compute; reflexivity))).
  reflexivity.
Defined.

(** X7.  With the three fields holding non-zero integers, 20 x small
    blind and 10 x big blind below 2^53, running the big-blind listener
    and then the starting-funds listener leaves a form that [createLobby]
    accepts: one [create_lobby] is sent, with the small blind as typed and
    a big blind and funds that satisfy both checks. *)
Theorem X7_listeners_make_form_valid :
  forall (c : Client) (s b f mp : Z),
    parseInt (value (dom c "small-blind-input")) = Num s -> s <> 0%Z ->
    parseInt (value (dom c "big-blind-input")) = Num b -> b <> 0%Z ->
    parseInt (value (dom c "starting-funds-input")) = Num f -> f <> 0%Z ->
    Spec.field c "max-players-input" 8 = Num mp ->
    safe (s * 20) -> safe (b * 10) ->
    exists name bb sf,
      outbox (createLobby (onStartingFundsInput (onBigBlindInput c))) =
        outbox c ++ [create_lobby name (Num s) (Num bb) (Num sf) (Num mp)] /\
      (bb >= 2 * s)%Z /\ (sf >= 10 * bb)%Z.
Proof.
  intros c s b f mp Hs Hs0 Hb Hb0 Hf Hf0 Hmp Ss Sb.
  assert (Fs : forall d, Spec.field c "small-blind-input" d = Num s)
    by (intros d; unfold Spec.field; rewrite Hs; now apply num_or_Num).
  assert (Fb : forall d, Spec.field c "big-blind-input" d = Num b)
    by (intros d; unfold Spec.field; rewrite Hb; now apply num_or_Num).
  assert (Ff : forall d, Spec.field c "starting-funds-input" d = Num f)
    by (intros d; unfold Spec.field; rewrite Hf; now apply num_or_Num).
  assert (Ss2 : safe (s * 2)) by (unfold safe in *; lia).
  (* the big-blind listener *)
  destruct (onBigBlindInput_cases c s b (Fs 1%Z) (Fb 2%Z) Ss2) as (A1 & B1 & O1 & U1).
  set (c1 := onBigBlindInput c) in *.
  set (b1 := if (b <? s * 2)%Z then (s * 2)%Z else b) in *.
  assert (Hb1 : (b1 >= 2 * s)%Z)
    by (subst b1; destruct (b <? s * 2)%Z eqn:E;
        [apply Z.ltb_lt in E | apply Z.ltb_ge in E]; lia).
  assert (Sb1 : safe (b1 * 10))
    by (subst b1; destruct (b <? s * 2)%Z; [unfold safe in *; lia | exact Sb]).
  (* the starting-funds listener *)
  assert (Ff1 : forall d, Spec.field c1 "starting-funds-input" d = Num f)
    by (intros d;
        rewrite (field_elsewhere c c1 _ d (B1 "starting-funds-input" ltac:(discriminate)));
        apply Ff).
  destruct (onStartingFundsInput_cases c1 f b1 (Ff1 100%Z)
              (A1 10%Z ltac:(discriminate) (Fb 10%Z)) Sb1) as (A2 & B2 & O2 & U2).
  set (c2 := onStartingFundsInput c1) in *.
  set (f2 := if (f <? b1 * 10)%Z then (b1 * 10)%Z else f) in *.
  assert (Hf2 : (f2 >= 10 * b1)%Z)
    by (subst f2; destruct (f <? b1 * 10)%Z eqn:E;
        [apply Z.ltb_lt in E | apply Z.ltb_ge in E]; lia).
  (* the form as createLobby reads it *)
  assert (Hp : Spec.parsed c2 = Some (Spec.mkParsed s b1 f2 mp)).
  { unfold Spec.parsed.
    rewrite (field_elsewhere c1 c2 "small-blind-input" 5
               (B2 "small-blind-input" ltac:(discriminate))),
      (field_elsewhere c c1 "small-blind-input" 5
         (B1 "small-blind-input" ltac:(discriminate))), (Fs 5%Z).
    rewrite (field_elsewhere c1 c2 "big-blind-input" 10
               (B2 "big-blind-input" ltac:(discriminate))),
      (A1 10%Z ltac:(discriminate) (Fb 10%Z)).
    rewrite (A2 1000%Z ltac:(discriminate) (Ff1 1000%Z)).
    rewrite (field_elsewhere c1 c2 "max-players-input" 8
               (B2 "max-players-input" ltac:(discriminate))),
      (field_elsewhere c c1 "max-players-input" 8
         (B1 "max-players-input" ltac:(discriminate))), Hmp.
    reflexivity. }
  destruct (createLobby_cases c2 _ Hp (conj Ss2 Sb1)) as [Hok _].
  destruct Hok as [name Hname];
    [unfold Spec.validConfig;
     cbn [Spec.pSmallBlind Spec.pBigBlind Spec.pStartingFunds]; lia|].
  exists name, b1, f2.
  rewrite Hname. cbn [Spec.pSmallBlind Spec.pBigBlind Spec.pStartingFunds Spec.pMaxPlayers].
  split; [|split; assumption].
  change (outbox (emit ?m ?c0)) with (outbox c0 ++ [m]).
  change (outbox (hideError "create-lobby-error" c2)) with (outbox c2).
  now rewrite O2, O1.
Qed.

Lemma X7_listeners_make_form_valid_witness :
  exists name bb sf,
    outbox (createLobby (onStartingFundsInput (onBigBlindInput (Sample.creator "6" "7" "20")))) =
      outbox (Sample.creator "6" "7" "20") ++
      [create_lobby name (Num 6) (Num bb) (Num sf) (Num 8)] /\
    (bb >= 2 * 6)%Z /\ (sf >= 10 * bb)%Z.
Proof.
  apply (X7_listeners_make_form_valid (Sample.creator "6" "7" "20") 6 7 20 8);
    try discriminate; vm_compute; reflexivity.
Defined.

(** *** Errors from the server *)

(** X8.  A [lobby_error] is written to the error slot of the screen that
    is showing: the create slot on the create screen, the join slot on the
    join screen, each with its 5-second timer and leaving the other slot
    alone.  On every other screen the event changes nothing: the error is
    dropped, not kept for later. *)
Theorem X8_lobby_error_goes_to_visible_screen :
  forall (c : Client) (e : string),
    let c' := handle (lobby_error e) c in
    (activeScreen c = "create-lobby-screen" ->
     textContent (dom c' "create-lobby-error") = e /\
     has_class "show" (dom c' "create-lobby-error") = true /\
     dom c' "join-lobby-error" = dom c "join-lobby-error" /\
     timers c' = timers c ++ [mkTimer (now c + 5000) "create-lobby-error"]) /\
    (activeScreen c = "join-lobby-screen" ->
     textContent (dom c' "join-lobby-error") = e /\
     has_class "show" (dom c' "join-lobby-error") = true /\
     dom c' "create-lobby-error" = dom c "create-lobby-error" /\
     timers c' = timers c ++ [mkTimer (now c + 5000) "join-lobby-error"]) /\
    (activeScreen c <> "create-lobby-screen" ->
     activeScreen c <> "join-lobby-screen" -> c' = c).
Proof.
  intros c e c'. subst c'. unfold handle. split; [|split].
  - intros H. rewrite H. simpl String.eqb. cbv iota.
    change (activeScreen (showError "create-lobby-error" e c)) with (activeScreen c).
    rewrite H. simpl String.eqb. cbv iota.
    destruct (showError_element "create-lobby-error" e c) as (A & B & _ & _ & E).
    rewrite A, B, E. repeat split.
  - intros H. rewrite H. simpl String.eqb. cbv iota zeta.
    rewrite H. simpl String.eqb. cbv iota.
    destruct (showError_element "join-lobby-error" e c) as (A & B & _ & _ & E).
    rewrite A, B, E. repeat split.
  - intros H1 H2.
    apply String.eqb_neq in H1. apply String.eqb_neq in H2. now rewrite H1, H2.
Qed.

Lemma X8_lobby_error_goes_to_visible_screen_witness :
  textContent (dom (handle (lobby_error "Lobby is full") (Sample.joining "ABCDEF"))
                 "join-lobby-error") = "Lobby is full" /\
  handle (lobby_error "Lobby is full") (Sample.client false Sample.page) =
    Sample.client false Sample.page.
Proof.
  split.
  - apply (X8_lobby_error_goes_to_visible_screen (Sample.joining "ABCDEF") "Lobby is full").
    reflexivity.
  - apply (X8_lobby_error_goes_to_visible_screen (Sample.client false Sample.page)
             "Lobby is full"); discriminate.
Defined.

(** X9.  An error shown while the timer of an earlier error on the same
    slot is pending does not get its own 5 seconds: it is hidden when the
    earlier timer runs, 5 seconds after the first error. *)
Theorem X9_second_error_hidden_by_first_timer :
  forall (c : Client) (id first second : string) (dt : nat),
    (dt < 5000)%nat ->
    let c1 := advance dt (showError id first c) in
    let c2 := showError id second c1 in
    has_class "show" (dom c2 id) = true /\
    textContent (dom c2 id) = second /\
    has_class "show" (dom (advance (5000 - dt) c2) id) = false.
Proof.
  intros c id first second dt Hdt c1 c2.
  destruct (showError_element id second c1) as (A & B & _ & Hn2 & Ht2).
  fold c2 in A, B, Hn2, Ht2.
  split; [exact B|]. split; [exact A|].
  rewrite advance_dom.
  apply (run_timers_hide _ _ (mkTimer (now c + 5000) id)).
  apply filter_In. split.
  - rewrite Ht2. apply in_or_app. left.
    subst c1. change (timers (advance dt (showError id first c)))
      with (filter (fun t => negb (fireAt t <=? now (showError id first c) + dt)%nat)
              (timers (showError id first c))).
    destruct (showError_element id first c) as (_ & _ & _ & Hn1 & Ht1).
    rewrite Hn1, Ht1. apply filter_In. split.
    + apply in_or_app. right. left. reflexivity.
    + simpl. apply negb_true_iff. apply Nat.leb_gt. lia.
  - cbn [fireAt]. rewrite Hn2. subst c1.
    change (now (advance dt (showError id first c)))
      with (now (showError id first c) + dt)%nat.
    destruct (showError_element id first c) as (_ & _ & _ & Hn1 & _).
    rewrite Hn1. apply Nat.leb_le. lia.
Qed.

Lemma X9_second_error_hidden_by_first_timer_witness :
  has_class "show"
    (dom (advance 1000
            (showError "create-lobby-error" "second"
               (advance 4000 (showError "create-lobby-error" "first"
                                (Sample.client true Sample.page)))))
       "create-lobby-error") = false.
Proof.
  apply (X9_second_error_hidden_by_first_timer (Sample.client true Sample.page)
           "create-lobby-error" "first" "second" 4000). lia.
Defined.

(** *** The lobby room *)

Lemma contains_add_other (a b : string) (l : list string) :
  a <> b -> contains a (add b l) = contains a l.
Proof.
  intros H. unfold add. destruct (contains b l); [reflexivity|].
  unfold contains. rewrite existsb_app. simpl.
  apply String.eqb_neq in H. rewrite H. now rewrite !orb_false_r.
Qed.

Lemma updateReadyButton_shows (c : Client) :
  Inv.readyShown (isReady c) (dom (updateReadyButton c) "toggle-ready-btn") /\
  isReady (updateReadyButton c) = isReady c /\
  socketId (updateReadyButton c) = socketId c /\
  playersList (updateReadyButton c) = playersList c /\
  (forall id, id <> "toggle-ready-btn" -> dom (updateReadyButton c) id = dom c id).
Proof.
  unfold updateReadyButton, Inv.readyShown.
  destruct (isReady c) eqn:E; unfold on_element; simpl; rewrite E;
    repeat match goal with |- _ /\ _ => split end; try reflexivity.
  - unfold has_class, add_class. simpl. apply contains_add.
  - unfold has_class, add_class, remove_class. simpl.
    rewrite contains_add_other by discriminate. apply contains_remove.
  - intros id H. unfold upd. apply String.eqb_neq in H. now rewrite H.
  - unfold has_class, add_class, remove_class. simpl.
    rewrite contains_add_other by discriminate. apply contains_remove.
  - unfold has_class, add_class. simpl. apply contains_add.
  - intros id H. unfold upd. apply String.eqb_neq in H. now rewrite H.
Qed.

Lemma find_snoc {A : Type} (f : A -> bool) (l : list A) (x : A) :
  find f (l ++ [x]) =
  match find f l with
  | Some y => Some y
  | None => if f x then Some x else None
  end.
Proof.
  induction l as [|a l IH]; simpl; [reflexivity|].
  destruct (f a); [reflexivity | exact IH].
Qed.

(** The [forEach] of [updatePlayersDisplay]: one row is appended per
    player, and the last player carrying our socket id decides the ready
    flag and the ready button. *)
Lemma displayPlayers_fold (ps : list Player.t) (c : Client) :
  let c' := fold_left displayPlayer ps c in
  playersList c' = playersList c ++ map playerItem ps /\
  (forall id, id <> "toggle-ready-btn" -> dom c' id = dom c id) /\
  match find (fun p => String.eqb (Player.socketId p) (socketId c)) (rev ps) with
  | Some me =>
      isReady c' = Player.isReady me /\
      Inv.readyShown (Player.isReady me) (dom c' "toggle-ready-btn")
  | None => isReady c' = isReady c /\ dom c' "toggle-ready-btn" = dom c "toggle-ready-btn"
  end.
Proof.
  revert c. induction ps as [|p ps IH]; intros c; cbn [fold_left map rev]; cbv zeta.
  - simpl. rewrite app_nil_r. auto.
  - specialize (IH (displayPlayer c p)). cbv zeta in IH.
    destruct IH as (Hl & Hd & Hr).
    assert (Hstep :
              socketId (displayPlayer c p) = socketId c /\
              playersList (displayPlayer c p) = playersList c ++ [playerItem p] /\
              (forall id, id <> "toggle-ready-btn" -> dom (displayPlayer c p) id = dom c id) /\
              (if String.eqb (Player.socketId p) (socketId c)
               then isReady (displayPlayer c p) = Player.isReady p /\
                    Inv.readyShown (Player.isReady p)
                      (dom (displayPlayer c p) "toggle-ready-btn")
               else isReady (displayPlayer c p) = isReady c /\
                    dom (displayPlayer c p) "toggle-ready-btn" = dom c "toggle-ready-btn")).
    { unfold displayPlayer.
      destruct (String.eqb (Player.socketId p) (socketId c)); simpl; [|auto].
      destruct (updateReadyButton_shows (with_isReady (Player.isReady p) c))
        as (A & B & C & D & E).
      rewrite B, C, D. auto. }
    destruct Hstep as (S1 & S2 & S3 & S4).
    rewrite S1 in Hr. rewrite find_snoc.
    split; [rewrite Hl, S2, <- app_assoc; reflexivity|].
    split; [intros id H; rewrite (Hd id H); now apply S3|].
    destruct (find _ (rev ps)) as [me|]; [exact Hr|].
    destruct Hr as [R1 R2].
    destruct (String.eqb (Player.socketId p) (socketId c)).
    + destruct S4 as [S4 S5]. rewrite R1, R2. auto.
    + destruct S4 as [S4 S5]. rewrite R1, R2. auto.
Qed.

Lemma updatePlayersDisplay_rows (c : Client) (l : LobbyData) :
  currentLobby c = Some l ->
  playersList (updatePlayersDisplay c) = map playerItem (players l) /\
  textContent (dom (updatePlayersDisplay c) "player-count") =
    string_of_Z (Z.of_nat (List.length (players l))).
Proof.
  intros Hl. unfold updatePlayersDisplay. rewrite Hl.
  match goal with |- context [fold_left displayPlayer _ ?c0] =>
    destruct (displayPlayers_fold (players l) c0) as (A & B & _) end.
  split; [exact A|].
  rewrite B by discriminate. unfold on_element. simpl. reflexivity.
Qed.

(** X10.  [updatePlayersDisplay] rebuilds the players list with one row
    per player of the held snapshot, in order, and writes their number.
    The client's own ready flag follows the snapshot: it becomes the flag
    of the last player carrying the client's socket id, and the ready
    button is relabelled to match; when no player carries that id, flag and
    button are left as they were. *)
Theorem X10_players_list_and_ready_mirror :
  forall (c : Client) (l : LobbyData),
    currentLobby c = Some l ->
    let c' := updatePlayersDisplay c in
    playersList c' = map playerItem (players l) /\
    textContent (dom c' "player-count") =
      string_of_Z (Z.of_nat (List.length (players l))) /\
    match find (fun p => String.eqb (Player.socketId p) (socketId c))
               (rev (players l)) with
    | Some me =>
        isReady c' = Player.isReady me /\
        Inv.readyShown (Player.isReady me) (dom c' "toggle-ready-btn")
    | None =>
        isReady c' = isReady c /\
        dom c' "toggle-ready-btn" = dom c "toggle-ready-btn"
    end.
Proof.
  intros c l Hl c'. subst c'. unfold updatePlayersDisplay. rewrite Hl.
  match goal with |- context [fold_left displayPlayer _ ?c0] =>
    destruct (displayPlayers_fold (players l) c0) as (A & B & C) end.
  split; [exact A|]. split.
  - rewrite B by discriminate. unfold on_element. simpl. reflexivity.
  - exact C.
Qed.

Lemma X10_players_list_and_ready_mirror_witness :
  isReady (updatePlayersDisplay (Sample.inRoom Sample.readyPair)) = true /\
  textContent (dom (updatePlayersDisplay (Sample.inRoom Sample.readyPair))
                 "toggle-ready-btn") = "Not Ready".
Proof.
  destruct (X10_players_list_and_ready_mirror (Sample.inRoom Sample.readyPair)
              Sample.readyPair eq_refl) as (_ & _ & H).
  cbn in H. destruct H as (H1 & H2 & _). split; [exact H1 | exact H2].
Defined.

Lemma displayPlayers_keep {A : Type} (proj : Client -> A) :
  (forall c p, proj (displayPlayer c p) = proj c) ->
  forall ps c, proj (fold_left displayPlayer ps c) = proj c.
Proof.
  intros H ps. induction ps as [|p ps IH]; intros c; cbn [fold_left]; [reflexivity|].
  now rewrite IH, H.
Qed.

Lemma displayPlayer_screen (c : Client) (p : Player.t) :
  activeScreen (displayPlayer c p) = activeScreen c /\
  username (displayPlayer c p) = username c.
Proof.
  unfold displayPlayer, updateReadyButton.
  destruct (String.eqb (Player.socketId p) (socketId c));
    [destruct (Player.isReady p)|]; split; reflexivity.
Qed.

(** What [updatePlayersDisplay] leaves alone. *)
Lemma updatePlayersDisplay_frame (c : Client) :
  activeScreen (updatePlayersDisplay c) = activeScreen c /\
  username (updatePlayersDisplay c) = username c /\
  (forall id, id <> "toggle-ready-btn" -> id <> "player-count" ->
              dom (updatePlayersDisplay c) id = dom c id).
Proof.
  unfold updatePlayersDisplay. destruct (currentLobby c) as [l|]; [|auto].
  split; [|split].
  - rewrite (displayPlayers_keep activeScreen); [reflexivity|].
    intros c0 p. apply displayPlayer_screen.
  - rewrite (displayPlayers_keep username); [reflexivity|].
    intros c0 p. apply displayPlayer_screen.
  - intros id H1 H2.
    match goal with |- context [fold_left displayPlayer _ ?c0] =>
      destruct (displayPlayers_fold (players l) c0) as (_ & B & _) end.
    rewrite (B id H1). unfold on_element. simpl. now apply upd_other.
Qed.

Lemma updateStartButton_elsewhere (c : Client) (id : string) :
  id <> "start-game-btn" -> dom (updateStartButton c) id = dom c id.
Proof.
  intros H. apply String.eqb_neq in H. unfold updateStartButton.
  destruct (negb (isHost c)); [reflexivity|].
  destruct (currentLobby c) as [l|]; [|reflexivity].
  destruct (canStart (players l)); [|destruct (List.length (players l) <? 2)%nat];
    unfold on_element, upd; simpl; now rewrite H.
Qed.

Lemma updateStartButton_keeps (c : Client) :
  activeScreen (updateStartButton c) = activeScreen c /\
  currentLobby (updateStartButton c) = currentLobby c /\
  playersList (updateStartButton c) = playersList c /\
  username (updateStartButton c) = username c /\
  isHost (updateStartButton c) = isHost c /\
  styleDisplay (dom (updateStartButton c) "start-game-btn") =
    styleDisplay (dom c "start-game-btn").
Proof.
  unfold updateStartButton.
  destruct (negb (isHost c)); [now repeat split|].
  destruct (currentLobby c) as [l|] eqn:E; [|now repeat split].
  destruct (canStart (players l)); [|destruct (List.length (players l) <? 2)%nat];
    (split; [reflexivity|]); (split; [exact E|]); repeat split.
Qed.

Lemma updateHostControls_keeps (c : Client) :
  activeScreen (updateHostControls c) = activeScreen c /\
  currentLobby (updateHostControls c) = currentLobby c /\
  playersList (updateHostControls c) = playersList c /\
  username (updateHostControls c) = username c /\
  isHost (updateHostControls c) = isHost c.
Proof. unfold updateHostControls. destruct (isHost c) eqn:E; repeat split; exact E. Qed.

(** What [showLobbyRoom] leaves on the page. *)
Lemma showLobbyRoom_shows (c : Client) (l : LobbyData) :
  currentLobby c = Some l ->
  Inv.roomShown l (showLobbyRoom c) /\
  isHost (showLobbyRoom c) = isHost c /\
  username (showLobbyRoom c) = username c /\
  styleDisplay (dom (showLobbyRoom c) "edit-settings-btn") =
    (if isHost c then "inline-block" else "none") /\
  styleDisplay (dom (showLobbyRoom c) "start-game-btn") =
    (if isHost c then "inline-block" else "none") /\
  (isHost c = true ->
   disabled (dom (showLobbyRoom c) "start-game-btn") = negb (canStart (players l))).
Proof.
  intros Hl. unfold showLobbyRoom.
  set (c2 := updateLobbyDisplay (showScreen "lobby-room-screen" c)).
  assert (H2 : currentLobby c2 = Some l /\ isHost c2 = isHost c /\
               username c2 = username c /\ activeScreen c2 = "lobby-room-screen" /\
               textContent (dom c2 "lobby-title") = name l /\
               textContent (dom c2 "lobby-code-text") = code l /\
               textContent (dom c2 "max-player-count") = string_of_Z (maxPlayers (config l))).
  { subst c2. unfold updateLobbyDisplay.
    change (currentLobby (showScreen "lobby-room-screen" c)) with (currentLobby c).
    rewrite Hl. split; [exact Hl|]. repeat split. }
  destruct H2 as (L2 & Ho2 & U2 & S2 & T2 & C2 & M2). clearbody c2.
  set (c3 := updatePlayersDisplay c2).
  destruct (updatePlayersDisplay_keeps c2) as (Ho3 & L3 & _).
  destruct (updatePlayersDisplay_frame c2) as (S3 & U3 & D3).
  destruct (updatePlayersDisplay_rows c2 l L2) as (P3 & N3).
  fold c3 in Ho3, L3, S3, U3, D3, P3, N3. rewrite L2 in L3. clearbody c3.
  set (c4 := updateSettingsDisplay c3).
  assert (H4 : c4 = on_element "display-starting-funds"
                      (set_textContent (string_of_Z (startingFunds (config l))))
                      (on_element "display-big-blind"
                         (set_textContent (string_of_Z (bigBlind (config l))))
                         (on_element "display-small-blind"
                            (set_textContent (string_of_Z (smallBlind (config l)))) c3)))
    by (subst c4; unfold updateSettingsDisplay; now rewrite L3).
  set (c5 := updateHostControls c4).
  assert (H5 : c5 = if isHost c3 then
                      on_element "start-game-btn" (set_display "inline-block")
                        (on_element "edit-settings-btn" (set_display "inline-block") c4)
                    else
                      on_element "start-game-btn" (set_display "none")
                        (on_element "edit-settings-btn" (set_display "none") c4))
    by (subst c5; unfold updateHostControls; rewrite H4; reflexivity).
  destruct (updateStartButton_keeps c5) as (S6 & L6 & P6 & U6 & Ho6 & Dd6).
  assert (E6 : forall id, id <> "start-game-btn" -> dom (updateStartButton c5) id = dom c5 id)
    by (intros id H; now apply updateStartButton_elsewhere).
  assert (F5 : activeScreen c5 = "lobby-room-screen" /\ currentLobby c5 = Some l /\
               playersList c5 = map playerItem (players l) /\
               username c5 = username c /\ isHost c5 = isHost c)
.
  { destruct (updateHostControls_keeps c4) as (K1 & K2 & K3 & K4 & K5).
    fold c5 in K1, K2, K3, K4, K5. rewrite K1, K2, K3, K4, K5, H4. simpl.
    rewrite S3, S2, L3, P3, U3, U2, Ho3, Ho2. repeat split. }
  destruct F5 as (F1 & F2 & F3 & F4 & F5).
  assert (G5 : forall id,
             id <> "start-game-btn" -> id <> "edit-settings-btn" ->
             id <> "display-starting-funds" -> id <> "display-big-blind" ->
             id <> "display-small-blind" -> dom c5 id = dom c3 id).
  { intros id A1 A2 A3 A4 A5. rewrite H5, H4.
    apply String.eqb_neq in A1, A2, A3, A4, A5.
    destruct (isHost c3); unfold on_element, upd; simpl; now rewrite A1, A2, A3, A4, A5. }
  split; [|split; [|split; [|split; [|split]]]].
  - unfold Inv.roomShown. rewrite S6, L6, P6, !E6 by discriminate.
    rewrite F1, F2, F3.
    rewrite !(G5 "lobby-title"), !(G5 "lobby-code-text"), !(G5 "max-player-count"),
      !(G5 "player-count") by discriminate.
    rewrite !(D3 "lobby-title"), !(D3 "lobby-code-text"), !(D3 "max-player-count")
      by discriminate.
    rewrite T2, C2, M2, N3.
    repeat match goal with |- _ /\ _ => split end; try reflexivity;
      rewrite H5, H4; destruct (isHost c3); reflexivity.
  - now rewrite Ho6.
  - now rewrite U6.
  - rewrite E6 by discriminate. rewrite H5, Ho3, Ho2. destruct (isHost c); reflexivity.
  - rewrite Dd6, H5, Ho3, Ho2. destruct (isHost c); reflexivity.
  - intros Hh. apply (updateStartButton_host c5 l); [now rewrite F5 | exact F2].
Qed.

(** X11.  [lobby_joined] and [lobby_created] open the lobby room on the
    snapshot they carry: title, code, seat limit, player count, one row per
    player and the three settings read as in the snapshot.  A joiner is not
    the host, takes the user name the server assigned, and has the
    edit-settings and start buttons hidden; a creator is the host, sees
    both buttons, and finds the start button enabled or disabled by the
    snapshot. *)
Theorem X11_joining_or_creating_opens_room :
  forall (c : Client) (l : LobbyData) (assigned : string),
    let joined := handle (lobby_joined (Some l) assigned) c in
    let created := handle (lobby_created (Some l)) c in
    (Inv.roomShown l joined /\
     isHost joined = false /\
     username joined = assigned /\
     styleDisplay (dom joined "edit-settings-btn") = "none" /\
     styleDisplay (dom joined "start-game-btn") = "none") /\
    (Inv.roomShown l created /\
     isHost created = true /\
     username created = username c /\
     styleDisplay (dom created "edit-settings-btn") = "inline-block" /\
     styleDisplay (dom created "start-game-btn") = "inline-block" /\
     disabled (dom created "start-game-btn") = negb (canStart (players l))).
Proof.
  intros c l assigned joined created. subst joined created. unfold handle. split.
  - match goal with |- context [showLobbyRoom ?c0] =>
      destruct (showLobbyRoom_shows c0 l eq_refl) as (A & B & C & D & E & _) end.
    split; [exact A|]. rewrite B, C, D, E. repeat split.
  - match goal with |- context [showLobbyRoom ?c0] =>
      destruct (showLobbyRoom_shows c0 l eq_refl) as (A & B & C & D & E & F) end.
    split; [exact A|]. rewrite B, C, D, E, (F eq_refl). repeat split.
Qed.

End LobbyForms.

(* ================================================================= *)
(** ** The game room client: log, board and start-up *)

Section GameRoom.
Import JS Dom Game Inv.

(** *** The action log *)

(** X12.  [addActionLog] appends its line at the end of the log; when the
    log already holds 20 lines or more, the oldest line, and only that one,
    is dropped, the others keeping their order. *)
Theorem X12_log_appends_and_evicts_oldest :
  forall (msg type : string) (w : World),
    let item := mkLogItem ("action-item " ++ type) ("[" ++ timeString w ++ "] " ++ msg) in
    ((List.length (actionsLog w) < 20)%nat ->
     actionsLog (addActionLog msg type w) = actionsLog w ++ [item]) /\
    ((20 <= List.length (actionsLog w))%nat ->
     actionsLog (addActionLog msg type w) = tl (actionsLog w) ++ [item] /\
     List.length (actionsLog (addActionLog msg type w)) = List.length (actionsLog w)).
Proof.
  intros msg type w item. unfold addActionLog. simpl. fold item.
  rewrite length_app. simpl.
  split; intros H.
  - assert (E : (20 <? List.length (actionsLog w) + 1)%nat = false)
      by (apply Nat.ltb_ge; lia).
    now rewrite E.
  - assert (E : (20 <? List.length (actionsLog w) + 1)%nat = true)
      by (apply Nat.ltb_lt; lia).
    rewrite E. destruct (actionsLog w) as [|a l]; [simpl in H; lia|].
    simpl. split; [reflexivity|]. rewrite length_app. simpl. lia.
Qed.

Lemma X12_log_appends_and_evicts_oldest_witness :
  actionsLog (addActionLog "hello" "system" Sample.playing) =
  actionsLog Sample.playing ++ [mkLogItem "action-item system" "[12:00:00] hello"].
Proof.
  apply (X12_log_appends_and_evicts_oldest "hello" "system" Sample.playing).
  vm_compute. apply Nat.leb_le. reflexivity.
Defined.

Lemma keepsLogBound_trans (w1 w2 w3 : World) :
  keepsLogBound w1 w2 -> keepsLogBound w2 w3 -> keepsLogBound w1 w3.
Proof. unfold keepsLogBound. auto. Qed.

Lemma keepsLogBound_same (w w' : World) :
  actionsLog w' = actionsLog w -> keepsLogBound w w'.
Proof. unfold keepsLogBound, logBounded. intros ->. auto. Qed.

Lemma keepsLogBound_add (msg type : string) (w : World) :
  keepsLogBound w (addActionLog msg type w).
Proof. unfold keepsLogBound, logBounded. apply addActionLog_capped. Qed.

Lemma updateHoleCards_log (w : World) :
  actionsLog (fst (updateHoleCards w)) = actionsLog w.
Proof.
  unfold updateHoleCards. destruct (gamePlayers w) as [ps|]; [|reflexivity].
  destruct (find _ ps); [|reflexivity]. now destruct (appendCards _ _).
Qed.

Lemma updateBoardCards_log (g : GameState) (w : World) :
  actionsLog (fst (updateBoardCards g w)) = actionsLog w.
Proof.
  unfold updateBoardCards. destruct (Board g) as [[|card more]|]; try reflexivity.
  now destruct (appendCards _ _) as [els [|]].
Qed.

Lemma updateGameDisplay_log (w : World) : keepsLogBound w (fst (updateGameDisplay w)).
Proof.
  unfold updateGameDisplay. destruct (gameState w) as [g|];
    [|now apply keepsLogBound_same].
  revert w.
  repeat (intros w; apply (seq_fst_frame keepsLogBound);
          [exact keepsLogBound_trans | | clear w]).
  all: try intros w; try unfold run; cbn [fst].
  - now apply keepsLogBound_same.
  - now apply keepsLogBound_same.
  - now apply keepsLogBound_same.
  - apply keepsLogBound_same. now rewrite updateTurnIndicator_eq.
  - apply keepsLogBound_same, updateHoleCards_log.
  - apply keepsLogBound_same, updateBoardCards_log.
  - apply keepsLogBound_same. now rewrite updateAbilities_eq.
  - apply keepsLogBound_add.
Qed.

(** X13.  No event makes the log outgrow its cap: a log of at most 20
    lines has at most 20 lines after any socket event or click, also after
    the events that log two lines and after a handler that throws. *)
Theorem X13_log_stays_within_cap :
  forall (ev : Event) (w : World),
    (List.length (actionsLog w) <= 20)%nat ->
    (List.length (actionsLog (after ev w)) <= 20)%nat.
Proof.
  intros ev w. change (keepsLogBound w (after ev w)). unfold after.
  destruct ev as [se | ue]; cbn [handle].
  - destruct se as [ | | | pj tp | m | gs | gs | e | pa gs | m | data | e | m ];
      cbn [on_socket].
    + now apply keepsLogBound_same.
    + eapply keepsLogBound_trans; [|apply keepsLogBound_add]. now apply keepsLogBound_same.
    + now apply keepsLogBound_same.
    + eapply keepsLogBound_trans; [apply keepsLogBound_add|]. now apply keepsLogBound_same.
    + apply keepsLogBound_add.
    + apply (seq_fst_frame keepsLogBound); [exact keepsLogBound_trans | apply keepsLogBound_add |].
      intros w1. apply (seq_fst_frame keepsLogBound);
        [exact keepsLogBound_trans | now apply keepsLogBound_same |].
      intros w2. apply updateGameDisplay_log.
    + apply (seq_fst_frame keepsLogBound);
        [exact keepsLogBound_trans | now apply keepsLogBound_same |].
      intros w1. apply updateGameDisplay_log.
    + apply keepsLogBound_add.
    + apply (seq_fst_frame keepsLogBound); [exact keepsLogBound_trans | apply keepsLogBound_add |].
      intros w1. destruct gs as [g|]; [|now apply keepsLogBound_same].
      apply (seq_fst_frame keepsLogBound);
        [exact keepsLogBound_trans | now apply keepsLogBound_same |].
      intros w2. apply updateGameDisplay_log.
    + apply keepsLogBound_add.
    + unfold run, handleAbilityChoiceRequired, showAbilitySelection. cbn [fst].
      eapply keepsLogBound_trans; [|apply keepsLogBound_add].
      now apply keepsLogBound_same.
    + apply keepsLogBound_add.
    + apply keepsLogBound_add.
  - destruct ue as [t | | | | [|] | i | i | i | g i]; cbn [on_ui].
    + unfold run, useAbility. cbn [fst].
      eapply keepsLogBound_trans; [apply keepsLogBound_add|].
      now apply keepsLogBound_same.
    + now apply keepsLogBound_same.
    + unfold run, cancelAbility. cbn [fst].
      eapply keepsLogBound_trans; [|apply keepsLogBound_add].
      now apply keepsLogBound_same.
    + destruct (confirmSelection_cases w) as [-> | [[-> _] | (a & ch & sel & _ & _ & _ & _ & ->)]];
        cbn [fst].
      * now apply keepsLogBound_same.
      * apply keepsLogBound_add.
      * now apply keepsLogBound_same.
    + now apply keepsLogBound_same.
    + now apply keepsLogBound_same.
    + now apply keepsLogBound_same.
    + now apply keepsLogBound_same.
    + now apply keepsLogBound_same.
    + now apply keepsLogBound_same.
Qed.

Lemma X13_log_stays_within_cap_witness :
  (List.length (actionsLog (after (Socket (game_started (Some Sample.snapshot)))
                              Sample.playing)) <= 20)%nat.
Proof.
  apply (X13_log_stays_within_cap (Socket (game_started (Some Sample.snapshot)))
           Sample.playing).
  vm_compute. apply Nat.leb_le. reflexivity.
Defined.

(** *** The board *)

(** X14.  When [updateBoardCards] runs to its end, the board region holds
    the cards of the board in order, each as parsed, followed by hidden
    placeholders named after the positions still open ("Flop 1" to
    "River"): five slots in all, or as many as there are cards when the
    state lists more than five. *)
Theorem X14_board_has_five_slots :
  forall (g : GameState) (w w' : World),
    updateBoardCards g w = (w', Done) ->
    let board := match Board g with Some b => b | None => [] end in
    List.length (boardCards w') = Nat.max 5 (List.length board) /\
    firstn (List.length board) (boardCards w') = map Spec.cardFace board /\
    skipn (List.length board) (boardCards w') =
      map hiddenCard (skipn (List.length board) boardNames).
Proof.
  intros g w w' H board. apply updateBoardCards_done in H. subst w'.
  cbn [boardCards with_boardCards]. unfold Spec.boardOf. fold board.
  assert (Hl : List.length (map Spec.cardFace board) = List.length board)
    by apply length_map.
  split; [|split].
  - rewrite length_app, !length_map, length_skipn. simpl List.length. lia.
  - rewrite <- Hl at 1. rewrite firstn_app, firstn_all, Nat.sub_diag. simpl.
    now rewrite app_nil_r.
  - rewrite <- Hl at 1. rewrite skipn_app, skipn_all, Nat.sub_diag. reflexivity.
Qed.

Lemma X14_board_has_five_slots_witness :
  List.length (boardCards (fst (updateBoardCards Sample.snapshot Sample.loaded))) = 5%nat.
Proof.
  assert (H : updateBoardCards Sample.snapshot Sample.loaded =
              (fst (updateBoardCards Sample.snapshot Sample.loaded), Done))
    by (vm_compute; reflexivity).
  exact (proj1 (X14_board_has_five_slots Sample.snapshot Sample.loaded _ H)).
Defined.

(** *** Start-up *)

Lemma hasGameId_named (w : World) :
  hasGameId w = true <->
  textContent (dom w "current-game-id") <> "" /\
  textContent (dom w "current-game-id") <> "-----".
Proof.
  unfold hasGameId. cbv zeta.
  set (id := textContent (dom w "current-game-id")).
  rewrite negb_true_iff, orb_false_iff, negb_false_iff.
  split.
  - intros [H1 H2]. split.
    + intros E. rewrite E in H1. discriminate.
    + now apply String.eqb_neq.
  - intros [H1 H2]. split.
    + destruct id; [contradiction | reflexivity].
    + now apply String.eqb_neq.
Qed.

(** X15.  On load the client takes its game id from the page.  If the
    page names no game (empty text or the placeholder "-----") it logs an
    error and sets nothing up: no message is sent.  Otherwise it builds the
    ability dialog, hidden and with no prompt, and joins: with a non-empty
    stored token it sends one [join_game] carrying the page's game id and
    that token. *)
Theorem X15_init_joins_named_game :
  forall (w : World),
    let id := textContent (dom w "current-game-id") in
    ((id = "" \/ id = "-----") ->
     outbox (init w) = outbox w /\
     currentAbility (init w) = currentAbility w /\
     (forall d, last (actionsLog (init w)) d =
                mkLogItem "action-item system"
                  ("[" ++ timeString w ++ "] Error: No game ID provided"))) /\
    (id <> "" -> id <> "-----" ->
     gameId (init w) = id /\
     isHidden (init w) = true /\
     Spec.idle (init w) /\
     forall tok, playerToken w = Some tok -> tok <> "" ->
                 outbox (init w) = outbox w ++ [join_game id tok]).
Proof.
  intros w id. split.
  - intros H.
    assert (E : hasGameId w = false).
    { destruct (hasGameId w) eqn:E; [|reflexivity].
      apply hasGameId_named in E. fold id in E. destruct E as [E1 E2].
      destruct H; contradiction. }
    unfold init. rewrite E. split; [reflexivity|]. split; [reflexivity|].
    intros d. now rewrite addActionLog_last.
  - intros H1 H2.
    assert (E : hasGameId w = true) by (apply hasGameId_named; now split).
    unfold init. rewrite E. fold id.
    assert (Hj : forall w0, gameId (joinGame w0) = gameId w0 /\
                            dom (joinGame w0) = dom w0 /\
                            currentAbility (joinGame w0) = currentAbility w0 /\
                            currentChoices (joinGame w0) = currentChoices w0).
    { intros w0. unfold joinGame. cbv zeta.
      destruct (playerToken (addActionLog "Joining game room..." "system" w0))
        as [[|ch t]|]; repeat split. }
    match goal with |- context [joinGame ?w0] => destruct (Hj w0) as (J1 & J2 & J3 & J4) end.
    split; [rewrite J1; reflexivity|].
    split; [unfold isHidden; rewrite J2; reflexivity|].
    split; [unfold Spec.idle; rewrite J3, J4; split; reflexivity|].
    intros tok Ht Hne. unfold joinGame. cbv zeta.
    change (playerToken (addActionLog "Joining game room..." "system"
                           (newManager (with_gameId id w)))) with (playerToken w).
    rewrite Ht. destruct tok; [contradiction | reflexivity].
Qed.

Lemma X15_init_joins_named_game_witness :
  outbox (init (Sample.world (Some "tok"))) = [] ++ [join_game "g1" "tok"] /\
  outbox (init (Sample.unnamedPage (Some "tok"))) = [].
Proof.
  destruct (X15_init_joins_named_game (Sample.world (Some "tok"))) as [_ Hyes].
  destruct (X15_init_joins_named_game (Sample.unnamedPage (Some "tok"))) as [Hno _].
  split.
  - destruct Hyes as (_ & _ & _ & H); [discriminate | discriminate |].
    apply (H "tok"); [reflexivity | discriminate].
  - destruct Hno as (H & _); [right; reflexivity | exact H].
Defined.

(** *** Card colours and failing cards *)

(** X16.  A card that [parseCard] accepts is red exactly when its suit,
    compared without regard to case, is hearts or diamonds; unknown suits
    and the verbatim fallback are black. *)
Theorem X16_red_iff_hearts_or_diamonds :
  forall (card : string) (info : CardInfo),
    parseCard card = Ok info ->
    (isRed info = true <->
     exists rank, split " of " (toLowerCase card) = [rank; "hearts"] \/
                  split " of " (toLowerCase card) = [rank; "diamonds"]).
Proof.
  intros card info. unfold parseCard.
  destruct (split " of " (toLowerCase card)) as [|rank [|suit [|x rest]]];
    try (intros H; inversion H; subst; simpl; split;
         [discriminate | intros [r [E | E]]; discriminate E]).
  destruct (String.eqb suit "hearts") eqn:Eh.
  { apply String.eqb_eq in Eh. subst suit. intros H. inversion H; subst. simpl.
    split; [intros _; exists rank; now left | reflexivity]. }
  destruct (String.eqb suit "diamonds") eqn:Ed.
  { apply String.eqb_eq in Ed. subst suit. intros H. inversion H; subst. simpl.
    split; [intros _; exists rank; now right | reflexivity]. }
  apply String.eqb_neq in Eh. apply String.eqb_neq in Ed.
  assert (Hblack : forall i, isRed i = false ->
            (isRed i = true <->
             exists r, [rank; suit] = [r; "hearts"] \/ [rank; suit] = [r; "diamonds"])).
  { intros i Hi. rewrite Hi. split; [discriminate|].
    intros [r [E | E]]; inversion E; contradiction. }
  destruct (String.eqb suit "clubs"); [intros H; inversion H; now apply Hblack|].
  destruct (String.eqb suit "spades"); [intros H; inversion H; now apply Hblack|].
  destruct suit; [discriminate|]. intros H; inversion H. now apply Hblack.
Qed.

Lemma X16_red_iff_hearts_or_diamonds_witness :
  isRed (mkCardInfo "10♦" true) = true.
Proof.
  apply (X16_red_iff_hearts_or_diamonds "10 of DIAMONDS" (mkCardInfo "10♦" true));
    [reflexivity|].
  exists "10". right. reflexivity.
Defined.

Lemma appendCards_throws (cards : list string) (acc : list CardEl) (card msg : string) :
  In card cards -> parseCard card = TypeError msg ->
  snd (appendCards cards acc) = Threw.
Proof.
  revert acc. induction cards as [|c rest IH]; intros acc Hin Hbad; [contradiction|].
  simpl. destruct (parseCard c) as [info|m] eqn:E; [|reflexivity].
  destruct Hin as [-> | Hin]; [congruence|]. now apply IH.
Qed.

(** X17.  A state push in which the first seat that shows hole cards
    holds a card string that [parseCard] rejects is cut short in the
    hole-card region: the snapshot is already replaced and the banner and
    turn list already show it, but the board and the ability list keep
    what they showed before and no state line is logged. *)
Theorem X17_bad_hole_card_leaves_stale_regions :
  forall (w : World) (g : GameState) (ps : list Player.t) (me : Player.t)
         (card msg : string),
    Players g = Some ps ->
    find (fun p => nonEmpty (Player.HoleCards p)) ps = Some me ->
    In card (Player.HoleCards me) ->
    parseCard card = TypeError msg ->
    let r := handle (Socket (game_state_update (Some g))) w in
    snd r = Threw /\
    gameState (fst r) = Some g /\
    textContent (dom (fst r) "current-pot") = potText g /\
    turnList (fst r) = Spec.turnListOf g /\
    boardCards (fst r) = boardCards w /\
    abilityCards (fst r) = abilityCards w /\
    actionsLog (fst r) = actionsLog w.
Proof.
  intros w g ps me card msg Hps Hme Hin Hbad r. subst r.
  change (handle (Socket (game_state_update (Some g))) w)
    with (updateGameDisplay (with_gameState (Some g) w)).
  rewrite (updateGameDisplay_steps (with_gameState (Some g) w) g eq_refl). cbv zeta.
  rewrite updateTurnIndicator_eq.
  set (w4 := with_turnList _ _).
  assert (Hp4 : gamePlayers w4 = Some ps) by (subst w4; unfold gamePlayers; simpl; exact Hps).
  assert (E : updateHoleCards w4 =
              (with_holeCards (fst (appendCards (Player.HoleCards me) [])) w4, Threw)).
  { unfold updateHoleCards. rewrite Hp4, Hme.
    pose proof (appendCards_throws (Player.HoleCards me) [] card msg Hin Hbad) as Ht.
    destruct (appendCards (Player.HoleCards me) []) as [els c]. simpl in Ht. now subst c. }
  rewrite E. subst w4. unfold Spec.turnListOf, gamePlayers. simpl. rewrite Hps.
  repeat split.
Qed.

Lemma X17_bad_hole_card_leaves_stale_regions_witness :
  snd (handle (Socket (game_state_update (Some Sample.badHand))) Sample.playing) = Threw /\
  boardCards (fst (handle (Socket (game_state_update (Some Sample.badHand))) Sample.playing)) =
    boardCards Sample.playing.
Proof.
  destruct (X17_bad_hole_card_leaves_stale_regions Sample.playing Sample.badHand
              [Sample.seatBad] Sample.seatBad "Ace of "
              "Cannot read properties of undefined (reading 'toUpperCase')"
              eq_refl eq_refl (or_introl eq_refl) eq_refl)
    as (H1 & _ & _ & _ & H5 & _).
  exact (conj H1 H5).
Defined.

End GameRoom.

(** ** The ability dialog: what Confirm sends *)

Section AbilityDialog.

Import JS Dom Game Inv.

Lemma snoc_neq {A : Type} (l : list A) (x : A) : (l ++ [x])%list <> l.
Proof.
  intros H. apply (f_equal (@List.length A)) in H.
  rewrite length_app in H. simpl in H. lia.
Qed.

Lemma map_mapAt {A B : Type} (f : A -> B) (h : A -> A) (i : nat) (l : list A) :
  (forall x, f (h x) = f x) -> map f (mapAt i h l) = map f l.
Proof.
  intros Hh. revert i. induction l as [|x l IH]; intros [|i]; simpl; try reflexivity.
  - now rewrite Hh.
  - now rewrite IH.
Qed.

Lemma deselectGrid_idem (g : Grid) : deselectGrid (deselectGrid g) = deselectGrid g.
Proof.
  unfold deselectGrid. simpl. f_equal. rewrite map_map. now apply map_ext.
Qed.

Lemma deselectGrid_picked (i : nat) (g : Grid) :
  deselectGrid (mkGrid (gridId g) (mapAt i (setSelected true) (gridButtons g))) =
  deselectGrid g.
Proof. unfold deselectGrid. simpl. f_equal. now apply map_mapAt. Qed.

Lemma clickCard_buttons (g i : nat) (f : Form) :
  map deselectGrid (grids (clickCard g i f)) = map deselectGrid (grids f).
Proof.
  unfold clickCard. destruct (nth_error (grids f) g) as [grid|]; [|reflexivity].
  destruct (nth_error (gridButtons grid) i); [|reflexivity].
  cbn [grids]. rewrite map_mapAt by (intros x; apply deselectGrid_picked).
  destruct (isYoinkGrid grid).
  - apply map_mapAt. apply deselectGrid_idem.
  - rewrite map_map. apply map_ext. apply deselectGrid_idem.
Qed.

Lemma checkRadio_values (k i : nat) (l : list Radio) :
  map (fun r => (radioValue r, radioLabel r)) (checkRadio k i l) =
  map (fun r => (radioValue r, radioLabel r)) l.
Proof. revert k. induction l as [|r l IH]; intros k; simpl; [reflexivity | now rewrite IH]. Qed.

Lemma chooseOption_options (i : nat) (s : SelectEl) : options (chooseOption i s) = options s.
Proof. unfold chooseOption. now destruct (i <? _)%nat. Qed.

(** Operating a control moves a selection and leaves the controls. *)
Lemma applyEdit_controls (ev : UiEvent) (f : Form) :
  controlsOf (applyEdit ev f) = controlsOf f.
Proof.
  destruct ev as [t | | | | b | i | i | i | g i]; try reflexivity; unfold controlsOf; simpl.
  - destruct (peekPlayer f); simpl; [rewrite chooseOption_options|]; reflexivity.
  - destruct (peekCard f); simpl; [rewrite chooseOption_options|]; reflexivity.
  - unfold clickRadio. destruct (i <? _)%nat; [|reflexivity].
    cbn [peekPlayer peekCard burnChoice grids]. now rewrite checkRadio_values.
  - rewrite clickCard_buttons. unfold clickCard.
    destruct (nth_error (grids f) g) as [grid|]; [|reflexivity].
    destruct (nth_error (gridButtons grid) i); reflexivity.
Qed.

Lemma editAll_controls (edits : list UiEvent) (f : Form) :
  controlsOf (editAll edits f) = controlsOf f.
Proof.
  revert f. induction edits as [|ev edits IH]; intros f; [reflexivity|].
  unfold editAll in *. simpl. rewrite IH. apply applyEdit_controls.
Qed.

Lemma editAll_app (e1 e2 : list UiEvent) (f : Form) :
  editAll (e1 ++ e2) f = editAll e2 (editAll e1 f).
Proof. unfold editAll. apply fold_left_app. Qed.

Lemma edits_state (edits : list UiEvent) (w : World) :
  forallb Spec.isFormEdit edits = true ->
  let w' := Spec.afterAll (map Ui edits) w in
  currentAbility w' = currentAbility w /\
  currentChoices w' = currentChoices w /\
  isHidden w' = isHidden w /\
  (outbox w' = outbox w /\ gameId w' = gameId w) /\
  selectionContent w' = editAll edits (selectionContent w).
Proof.
  revert w. induction edits as [|ev edits IH]; intros w Hall; simpl.
  - repeat split.
  - simpl in Hall. apply andb_true_iff in Hall. destruct Hall as [Hev Hall].
    specialize (IH (after (Ui ev) w) Hall). simpl in IH.
    destruct IH as (A & B & C & (D & E) & F).
    rewrite (after_edit ev w Hev) in *. unfold editAll in *. simpl in *.
    repeat split; assumption.
Qed.

Lemma prompt_form (data : ChoiceData) (t : Spec.Tag) (w0 : World) :
  Spec.tagOf (abilityUsed data) = Some t ->
  selectionContent (after (Socket (ability_choice_required data)) w0) = formOf t data.
Proof.
  intros Ht. unfold after. simpl.
  unfold handleAbilityChoiceRequired, showAbilitySelection. simpl.
  unfold Spec.tagOf in Ht. cbv zeta in Ht.
  repeat match type of Ht with
         | context [String.eqb ?x ?y] => destruct (String.eqb x y)
         end; inversion Ht; reflexivity.
Qed.

(** The page a prompt and a run of edits lead to. *)
Lemma promptThen_state (data : ChoiceData) (t : Spec.Tag) (edits : list UiEvent) (w0 : World) :
  Spec.tagOf (abilityUsed data) = Some t ->
  forallb Spec.isFormEdit edits = true ->
  let w := promptThen data edits w0 in
  currentAbility w = Some (abilityUsed data) /\
  currentChoices w = Some data /\
  isHidden w = false /\
  selectionContent w = editAll edits (formOf t data).
Proof.
  intros Ht He w. subst w. unfold promptThen.
  destruct (edits_state edits (after (Socket (ability_choice_required data)) w0) He)
    as (A & B & C & _ & F).
  rewrite A, B, C, F, (prompt_form data t w0 Ht).
  split; [reflexivity|]. split; [reflexivity|].
  split; [apply showAbilitySelection_shown | reflexivity].
Qed.

(** A getter that answers makes Confirm send its answer. *)
Lemma prompt_confirm (data : ChoiceData) (t : Spec.Tag) (edits : list UiEvent) (w0 : World)
      (sel : list (string * JS.value)) :
  Spec.tagOf (abilityUsed data) = Some t ->
  forallb Spec.isFormEdit edits = true ->
  getterOf t data (editAll edits (formOf t data)) = Some sel ->
  confirmSends (promptThen data edits w0) (abilityUsed data) sel.
Proof.
  intros Ht He Hg.
  destruct (promptThen_state data t edits w0 Ht He) as (A & B & _ & F).
  unfold confirmSends, after. simpl. unfold confirmSelection.
  rewrite A, B, (tagOf_truthy _ _ Ht). simpl.
  rewrite (getSelectionData_tag _ _ _ _ Ht), F, Hg. reflexivity.
Qed.

Lemma edits_then (edits last : list UiEvent) :
  forallb Spec.isFormEdit edits = true ->
  forallb Spec.isFormEdit last = true ->
  forallb Spec.isFormEdit (edits ++ last) = true.
Proof. intros H1 H2. now rewrite forallb_app, H1, H2. Qed.

(** *** Confirm and the log *)

(** X18.  Confirm completes normally exactly when it sends nothing.  When
    it sends, the dialog is hidden first, which drops the prompt, and the
    line that would record the confirmation reads the dropped prompt: the
    handler throws, and the log is left as it was.  So the only line
    Confirm ever logs is the request to make a selection. *)
Theorem X18_confirm_never_logs_confirmation :
  forall (w : World),
    let r := handle (Ui click_confirm) w in
    (snd r = Threw <->
     exists a sel, outbox (fst r) = outbox w ++ [use_ability (gameId w) a sel]) /\
    (snd r = Threw ->
     isHidden (fst r) = true /\ Spec.idle (fst r) /\ actionsLog (fst r) = actionsLog w) /\
    (snd r = Done ->
     outbox (fst r) = outbox w /\
     (fst r = w \/
      fst r = addActionLog "Please make a selection before confirming" "system" w)).
Proof.
  intros w r. subst r. change (handle (Ui click_confirm) w) with (confirmSelection w).
  destruct (confirmSelection_cases w)
    as [E | [[E _] | (a & ch & sel & _ & _ & _ & _ & E)]]; rewrite E; cbn [fst snd].
  - split; [split; [discriminate|] | split; [discriminate|]].
    + intros (a & sel & H). symmetry in H. now apply snoc_neq in H.
    + intros _. split; [reflexivity | now left].
  - split; [split; [discriminate|] | split; [discriminate|]].
    + intros (a & sel & H). symmetry in H. now apply snoc_neq in H.
    + intros _. split; [reflexivity | now right].
  - split; [split | split; [|discriminate]].
    + intros _. exists a, sel. reflexivity.
    + reflexivity.
    + intros _. split; [apply hideSelectionWindow_idle|]. split; [split|]; reflexivity.
Qed.

Lemma X18_confirm_never_logs_confirmation_witness :
  snd (handle (Ui click_confirm) (Sample.prompted Sample.burnPrompt)) = Threw /\
  actionsLog (fst (handle (Ui click_confirm) (Sample.prompted Sample.burnPrompt))) =
    actionsLog (Sample.prompted Sample.burnPrompt).
Proof.
  pose proof (X18_confirm_never_logs_confirmation (Sample.prompted Sample.burnPrompt)) as H.
  cbv zeta in H. destruct H as [[_ Hsent] [Hthrew _]].
  assert (Ht : snd (handle (Ui click_confirm) (Sample.prompted Sample.burnPrompt)) = Threw).
  { apply Hsent. exists "Burn", [("revealSuit", VBool true)]. vm_compute. reflexivity. }
  split; [exact Ht | exact (proj2 (proj2 (Hthrew Ht)))].
Defined.

(** *** Peek *)

Lemma selectValue_choose (s : SelectEl) (k : nat) (v l : string) :
  nth_error (options s) k = Some (v, l) -> selectValue (chooseOption k s) = v.
Proof.
  intros H. unfold chooseOption.
  assert (Hk : (k <? List.length (options s))%nat = true).
  { apply Nat.ltb_lt. apply nth_error_Some. congruence. }
  rewrite Hk. unfold selectValue. simpl. now rewrite H.
Qed.

Lemma peek_selection (data : ChoiceData) (f : Form) (i j : nat)
      (p : PlayerOpt.t) (c : CardOpt.t) :
  controlsOf f = controlsOf (createPeekInterface data) ->
  nth_error (or_nil (availablePlayers data)) i = Some p ->
  nth_error (cardChoices data) j = Some c ->
  safe (PlayerOpt.id p) -> safe (CardOpt.index c) ->
  getPeekSelection (choosePeekCard (S j) (choosePeekPlayer (S i) f)) =
    Some [("targetPlayerId", VNum (Num (PlayerOpt.id p)));
          ("cardIndex", VNum (Num (CardOpt.index c)))].
Proof.
  intros Hf Hp Hc Sp Sc. unfold controlsOf in Hf. injection Hf as Ep Ec _ _.
  destruct (peekPlayer f) as [sp|] eqn:Esp; [|discriminate Ep].
  destruct (peekCard f) as [sc|] eqn:Esc; [|discriminate Ec].
  simpl in Ep, Ec. injection Ep as Ep. injection Ec as Ec. fold (cardChoices data) in Ec.
  unfold getPeekSelection, choosePeekCard, choosePeekPlayer.
  cbn [peekPlayer peekCard]. rewrite Esp, Esc. cbn [option_map].
  rewrite (selectValue_choose sp (S i) (string_of_Z (PlayerOpt.id p))
             (PlayerOpt.name p ++ " ($" ++ string_of_Z (PlayerOpt.balance p) ++ ")")%string).
  2:{ rewrite Ep. cbn [nth_error].
      now rewrite (map_nth_error _ _ _ Hp). }
  rewrite (selectValue_choose sc (S j) (string_of_Z (CardOpt.index c)) (CardOpt.name c)).
  2:{ rewrite Ec. cbn [nth_error].
      now rewrite (map_nth_error _ _ _ Hc). }
  unfold parseInt_opt. rewrite !parseInt_string_of_Z by assumption.
  pose proof (string_of_Z_nonempty (PlayerOpt.id p)) as Np.
  pose proof (string_of_Z_nonempty (CardOpt.index c)) as Nc.
  destruct (string_of_Z (PlayerOpt.id p)); [contradiction|].
  destruct (string_of_Z (CardOpt.index c)); [contradiction|]. reflexivity.
Qed.

(** X19.  With a peek prompt shown, whatever the user did with the form
    before, choosing the entry of a listed player and then the entry of a
    card makes Confirm send the id of that player as [targetPlayerId] and
    the index of that card as [cardIndex], when id and index are safe
    integers (below 2^53 in magnitude): the option values written into
    the selects then come back as the numbers the server sent. *)
Theorem X19_peek_sends_chosen_player_and_card :
  forall (w0 : World) (data : ChoiceData) (edits : list UiEvent) (i j : nat)
         (p : PlayerOpt.t) (c : CardOpt.t),
    Spec.tagOf (abilityUsed data) = Some Spec.Peek ->
    forallb Spec.isFormEdit edits = true ->
    nth_error (or_nil (availablePlayers data)) i = Some p ->
    nth_error (cardChoices data) j = Some c ->
    safe (PlayerOpt.id p) -> safe (CardOpt.index c) ->
    confirmSends
      (promptThen data (edits ++ [choose_peek_player (S i); choose_peek_card (S j)]) w0)
      (abilityUsed data)
      [("targetPlayerId", VNum (Num (PlayerOpt.id p)));
       ("cardIndex", VNum (Num (CardOpt.index c)))].
Proof.
  intros w0 data edits i j p c Ht He Hp Hc Sp Sc.
  apply (prompt_confirm data Spec.Peek); [exact Ht | now apply edits_then |].
  rewrite editAll_app. cbn [getterOf formOf].
  change (editAll [choose_peek_player (S i); choose_peek_card (S j)] ?f)
    with (choosePeekCard (S j) (choosePeekPlayer (S i) f)).
  apply (peek_selection data);
    [apply editAll_controls | exact Hp | exact Hc | exact Sp | exact Sc].
Qed.

Lemma X19_peek_sends_chosen_player_and_card_witness :
  confirmSends
    (promptThen Sample.peekPrompt
       ([choose_peek_card 1] ++ [choose_peek_player 1; choose_peek_card 2]) Sample.playing)
    (abilityUsed Sample.peekPrompt)
    [("targetPlayerId", VNum (Num (PlayerOpt.id (PlayerOpt.mk 7 "bob" 1000))));
     ("cardIndex", VNum (Num (CardOpt.index (CardOpt.mk 1 "Second Card"))))].
Proof.
  apply (X19_peek_sends_chosen_player_and_card Sample.playing Sample.peekPrompt
           [choose_peek_card 1] 0 1 (PlayerOpt.mk 7 "bob" 1000) (CardOpt.mk 1 "Second Card"));
    vm_compute; reflexivity.
Defined.

(** *** Burn *)

Lemma burnRadios_values (k : nat) (l : list RevealOpt.t) :
  map (fun r => (radioValue r, radioLabel r)) (burnRadios k l) =
  map (fun o => (string_of_bool (RevealOpt.value o), RevealOpt.name o)) l.
Proof. revert k. induction l as [|o l IH]; intros k; simpl; [reflexivity | now rewrite IH]. Qed.

Lemma find_checkRadio (k i : nat) (l : list Radio) (r : Radio) :
  nth_error l i = Some r ->
  find checked (checkRadio k (k + i) l) = Some (mkRadio (radioValue r) (radioLabel r) true).
Proof.
  revert k i. induction l as [|x l IH]; intros k [|i] H; simpl in *; try discriminate.
  - injection H as ->. now rewrite Nat.add_0_r, Nat.eqb_refl.
  - assert (E : Nat.eqb k (k + S i) = false) by (apply Nat.eqb_neq; lia).
    rewrite E. replace (k + S i)%nat with (S k + i)%nat by lia. now apply IH.
Qed.

Lemma string_of_bool_true (b : bool) : String.eqb (string_of_bool b) "true" = b.
Proof. now destruct b. Qed.

Lemma burn_selection (data : ChoiceData) (f : Form) (i : nat) (o : RevealOpt.t) :
  controlsOf f = controlsOf (createBurnInterface data) ->
  nth_error (revealChoices data) i = Some o ->
  getBurnSelection (clickRadio i f) = Some [("revealSuit", VBool (RevealOpt.value o))].
Proof.
  intros Hf Ho. unfold controlsOf in Hf. injection Hf as _ _ Er _.
  simpl in Er. fold (revealChoices data) in Er. rewrite burnRadios_values in Er.
  assert (Hn : nth_error (map (fun r => (radioValue r, radioLabel r)) (burnChoice f)) i =
               Some (string_of_bool (RevealOpt.value o), RevealOpt.name o))
    by (rewrite Er; now rewrite (map_nth_error _ _ _ Ho)).
  rewrite nth_error_map in Hn.
  destruct (nth_error (burnChoice f) i) as [r|] eqn:Enr; [|discriminate Hn].
  simpl in Hn. injection Hn as Hv _.
  unfold clickRadio.
  assert (Hi : (i <? List.length (burnChoice f))%nat = true).
  { apply Nat.ltb_lt. apply nth_error_Some. congruence. }
  rewrite Hi. unfold getBurnSelection. cbn [burnChoice].
  pose proof (find_checkRadio 0 i _ r Enr) as Hfind. cbn [Nat.add] in Hfind.
  rewrite Hfind. cbn [radioValue].
  now rewrite Hv, string_of_bool_true.
Qed.

(** X20.  With a burn prompt shown, Confirm pressed at once sends the
    value of the first reveal option, which the form comes with checked;
    after a click on the radio of a listed option, whatever was done
    before, Confirm sends the value of that option as [revealSuit]. *)
Theorem X20_burn_sends_checked_option :
  forall (w0 : World) (data : ChoiceData) (edits : list UiEvent) (i : nat)
         (first o : RevealOpt.t),
    Spec.tagOf (abilityUsed data) = Some Spec.Burn ->
    forallb Spec.isFormEdit edits = true ->
    nth_error (revealChoices data) 0 = Some first ->
    nth_error (revealChoices data) i = Some o ->
    confirmSends (promptThen data [] w0) (abilityUsed data)
      [("revealSuit", VBool (RevealOpt.value first))] /\
    confirmSends (promptThen data (edits ++ [click_radio i]) w0) (abilityUsed data)
      [("revealSuit", VBool (RevealOpt.value o))].
Proof.
  intros w0 data edits i first o Ht He Hfirst Ho. split.
  - apply (prompt_confirm data Spec.Burn); [exact Ht | reflexivity |].
    cbn [getterOf formOf editAll fold_left]. unfold createBurnInterface, getBurnSelection.
    fold (revealChoices data). cbn [burnChoice].
    destruct (revealChoices data) as [|x rest]; [discriminate Hfirst|].
    injection Hfirst as ->. simpl. now rewrite string_of_bool_true.
  - apply (prompt_confirm data Spec.Burn); [exact Ht | now apply edits_then |].
    rewrite editAll_app. cbn [getterOf formOf].
    change (editAll [click_radio i] ?f) with (clickRadio i f).
    apply (burn_selection data); [apply editAll_controls | exact Ho].
Qed.

Lemma X20_burn_sends_checked_option_witness :
  confirmSends (promptThen Sample.burnPrompt [] Sample.playing)
    (abilityUsed Sample.burnPrompt)
    [("revealSuit", VBool (RevealOpt.value (RevealOpt.mk true "Reveal Suit")))] /\
  confirmSends (promptThen Sample.burnPrompt ([click_radio 0] ++ [click_radio 1]) Sample.playing)
    (abilityUsed Sample.burnPrompt)
    [("revealSuit", VBool (RevealOpt.value (RevealOpt.mk false "Reveal Rank")))].
Proof.
  apply (X20_burn_sends_checked_option Sample.playing Sample.burnPrompt [click_radio 0] 1
           (RevealOpt.mk true "Reveal Suit") (RevealOpt.mk false "Reveal Rank"));
    vm_compute; reflexivity.
Defined.

(** *** Card grids *)

Lemma find_picked (i : nat) (l : list CardBtn) (b : CardBtn) :
  nth_error l i = Some b ->
  find selected (mapAt i (setSelected true) (map (setSelected false) l)) =
    Some (setSelected true b).
Proof.
  revert i. induction l as [|x l IH]; intros [|i] H; simpl in *; try discriminate.
  - injection H as ->. reflexivity.
  - now apply IH.
Qed.

Lemma same_buttons_nth (l l' : list CardBtn) (i : nat) (b : CardBtn) :
  map (setSelected false) l' = map (setSelected false) l ->
  nth_error l i = Some b ->
  exists b', nth_error l' i = Some b'.
Proof.
  intros Hm Hn. destruct (nth_error l' i) as [b'|] eqn:E; [now exists b'|].
  apply nth_error_None in E. apply (f_equal (@List.length CardBtn)) in Hm.
  rewrite !length_map in Hm.
  assert (i < List.length l)%nat by (apply nth_error_Some; congruence). lia.
Qed.

(** In a form with one unnamed grid, a click on a card leaves that card
    the selected one. *)
Lemma clickCard_single (f : Form) (btns : list CardBtn) (i : nat) (b : CardBtn) :
  map deselectGrid (grids f) = [deselectGrid (mkGrid "" btns)] ->
  nth_error btns i = Some b ->
  selectedButton (clickCard 0 i f) = Some (setSelected true b).
Proof.
  intros Hg Hb.
  destruct (grids f) as [|g [|g2 rest]] eqn:Eg; simpl in Hg; try discriminate Hg.
  injection Hg as Hid Hbs.
  destruct (same_buttons_nth btns (gridButtons g) i b Hbs Hb) as [b' Hb'].
  unfold clickCard. rewrite Eg. cbn [nth_error]. rewrite Hb'.
  assert (Hy : isYoinkGrid g = false) by (unfold isYoinkGrid; now rewrite Hid).
  rewrite Hy. unfold selectedButton. cbn [grids map mapAt flat_map deselectGrid gridButtons gridId].
  rewrite app_nil_r, Hbs. now apply find_picked.
Qed.

Lemma datasetIndex_cardButton (cls type : string) (c : CardRef.t) :
  safe (CardRef.index c) ->
  datasetIndex (setSelected true (cardButton cls type c)) = VNum (Num (CardRef.index c)).
Proof. intros H. unfold datasetIndex. simpl. now rewrite parseInt_string_of_Z. Qed.

(** X21.  With a manifest prompt shown, whatever was clicked before, a
    click on one of the offered cards, its index a safe integer, makes
    Confirm send the index of that card as [discardIndex], next to the
    rank and suit of the drawn card as the prompt gave them (null when it
    gave none): the last card clicked is the only one selected. *)
Theorem X21_manifest_sends_last_clicked_card :
  forall (w0 : World) (data : ChoiceData) (edits : list UiEvent) (i : nat) (c : CardRef.t),
    Spec.tagOf (abilityUsed data) = Some Spec.Manifest ->
    forallb Spec.isFormEdit edits = true ->
    nth_error (or_nil (availableCards data)) i = Some c ->
    safe (CardRef.index c) ->
    confirmSends (promptThen data (edits ++ [click_card 0 i]) w0) (abilityUsed data)
      [("discardIndex", VNum (Num (CardRef.index c)));
       ("drawnCard",
        match drawnCard data with Some d => DrawnCard.Rank d | None => VNull end);
       ("drawnCardSuit",
        match drawnCard data with Some d => DrawnCard.Suit d | None => VNull end)].
Proof.
  intros w0 data edits i c Ht He Hc Sc.
  apply (prompt_confirm data Spec.Manifest); [exact Ht | now apply edits_then |].
  rewrite editAll_app. cbn [getterOf formOf].
  change (editAll [click_card 0 i] ?f) with (clickCard 0 i f).
  unfold getManifestSelection.
  pose proof (editAll_controls edits (createManifestInterface data)) as Hf.
  unfold controlsOf in Hf. injection Hf as _ _ _ Hg.
  rewrite (clickCard_single _ _ i _ Hg (map_nth_error _ _ _ Hc)).
  now rewrite datasetIndex_cardButton by exact Sc.
Qed.

Lemma X21_manifest_sends_last_clicked_card_witness :
  confirmSends
    (promptThen Sample.manifestPrompt ([click_card 0 0] ++ [click_card 0 2]) Sample.playing)
    (abilityUsed Sample.manifestPrompt)
    [("discardIndex", VNum (Num (CardRef.index (CardRef.mk 2 "9 of Clubs" true))));
     ("drawnCard",
      match drawnCard Sample.manifestPrompt with
      | Some d => DrawnCard.Rank d | None => VNull end);
     ("drawnCardSuit",
      match drawnCard Sample.manifestPrompt with
      | Some d => DrawnCard.Suit d | None => VNull end)].
Proof.
  apply (X21_manifest_sends_last_clicked_card Sample.playing Sample.manifestPrompt
           [click_card 0 0] 2 (CardRef.mk 2 "9 of Clubs" true));
    vm_compute; reflexivity.
Defined.

Lemma createTrashmanInterface_grid (data : ChoiceData) :
  grids (createTrashmanInterface data) =
  [mkGrid ""
     (map (cardButton "card-selection-btn"
             (if (step_or_1 data =? 1)%Z then "(Burnt)" else "(Current)"))
          (trashmanOffer data))].
Proof.
  unfold createTrashmanInterface, trashmanOffer.
  now destruct (step_or_1 data =? 1)%Z.
Qed.

(** X22.  With a trashman prompt shown, a click on one of the cards the
    form offers at the step of the prompt (burnt cards at step one, hole
    cards later), its index a safe integer, makes Confirm send the index
    of that card: alone, as [burntCardIndex], at step one, and as
    [holeCardIndex] after the echoed burnt index at a later step. *)
Theorem X22_trashman_sends_clicked_card :
  forall (w0 : World) (data : ChoiceData) (edits : list UiEvent) (i : nat) (c : CardRef.t),
    Spec.tagOf (abilityUsed data) = Some Spec.Trashman ->
    forallb Spec.isFormEdit edits = true ->
    nth_error (trashmanOffer data) i = Some c ->
    safe (CardRef.index c) ->
    confirmSends (promptThen data (edits ++ [click_card 0 i]) w0) (abilityUsed data)
      (if (step_or_1 data =? 1)%Z
       then [("burntCardIndex", VNum (Num (CardRef.index c)))]
       else [("burntCardIndex", VNum (Num (echoedBurntIndex data)));
             ("holeCardIndex", VNum (Num (CardRef.index c)))]).
Proof.
  intros w0 data edits i c Ht He Hc Sc.
  apply (prompt_confirm data Spec.Trashman); [exact Ht | now apply edits_then |].
  rewrite editAll_app. cbn [getterOf formOf].
  change (editAll [click_card 0 i] ?f) with (clickCard 0 i f).
  unfold getTrashmanSelection.
  pose proof (editAll_controls edits (createTrashmanInterface data)) as Hf.
  unfold controlsOf in Hf. injection Hf as _ _ _ Hg.
  rewrite createTrashmanInterface_grid in Hg.
  rewrite (clickCard_single _ _ i _ Hg (map_nth_error _ _ _ Hc)).
  rewrite datasetIndex_cardButton by exact Sc. now destruct (step_or_1 data =? 1)%Z.
Qed.

Lemma X22_trashman_sends_clicked_card_witness :
  confirmSends
    (promptThen Sample.trashmanStep1 ([click_card 0 0] ++ [click_card 0 1]) Sample.playing)
    (abilityUsed Sample.trashmanStep1)
    (if (step_or_1 Sample.trashmanStep1 =? 1)%Z
     then [("burntCardIndex", VNum (Num (CardRef.index (CardRef.mk 9 "2 of Clubs" false))))]
     else [("burntCardIndex", VNum (Num (echoedBurntIndex Sample.trashmanStep1)));
           ("holeCardIndex", VNum (Num (CardRef.index (CardRef.mk 9 "2 of Clubs" false))))]).
Proof.
  apply (X22_trashman_sends_clicked_card Sample.playing Sample.trashmanStep1
           [click_card 0 0] 1 (CardRef.mk 9 "2 of Clubs" false));
    vm_compute; reflexivity.
Defined.

(** *** Yoink *)

Lemma yoink_click_hole (f : Form) (hb bb : list CardBtn) (i : nat) (h : CardBtn) :
  map deselectGrid (grids f) =
    [deselectGrid (mkGrid "yoink-hole-grid" hb); deselectGrid (mkGrid "yoink-board-grid" bb)] ->
  nth_error hb i = Some h ->
  selectedButtonIn "yoink-hole-grid" (clickCard 0 i f) = Some (setSelected true h) /\
  selectedButtonIn "yoink-board-grid" (clickCard 0 i f) =
    selectedButtonIn "yoink-board-grid" f.
Proof.
  intros Hg Hh.
  destruct (grids f) as [|g1 [|g2 [|g3 rest]]] eqn:Eg; simpl in Hg; try discriminate Hg.
  injection Hg as Hid1 Hb1 Hid2 Hb2.
  destruct (same_buttons_nth hb (gridButtons g1) i h Hb1 Hh) as [h' Hh'].
  unfold clickCard. rewrite Eg. cbn [nth_error]. rewrite Hh'.
  assert (Hy : isYoinkGrid g1 = true) by (unfold isYoinkGrid; now rewrite Hid1).
  rewrite Hy. unfold selectedButtonIn. rewrite Eg.
  cbn [grids mapAt filter deselectGrid gridId]. rewrite Hid1, Hid2.
  cbn [String.eqb Ascii.eqb Bool.eqb andb filter flat_map gridButtons].
  split; [|reflexivity].
  cbn [deselectGrid gridButtons]. rewrite app_nil_r, Hb1. now apply find_picked.
Qed.

Lemma yoink_click_board (f : Form) (hb bb : list CardBtn) (j : nat) (b : CardBtn) :
  map deselectGrid (grids f) =
    [deselectGrid (mkGrid "yoink-hole-grid" hb); deselectGrid (mkGrid "yoink-board-grid" bb)] ->
  nth_error bb j = Some b ->
  selectedButtonIn "yoink-board-grid" (clickCard 1 j f) = Some (setSelected true b) /\
  selectedButtonIn "yoink-hole-grid" (clickCard 1 j f) =
    selectedButtonIn "yoink-hole-grid" f.
Proof.
  intros Hg Hh.
  destruct (grids f) as [|g1 [|g2 [|g3 rest]]] eqn:Eg; simpl in Hg; try discriminate Hg.
  injection Hg as Hid1 Hb1 Hid2 Hb2.
  destruct (same_buttons_nth bb (gridButtons g2) j b Hb2 Hh) as [b' Hb'].
  unfold clickCard. rewrite Eg. cbn [nth_error]. rewrite Hb'.
  assert (Hy : isYoinkGrid g2 = true)
    by (unfold isYoinkGrid; rewrite Hid2; reflexivity).
  rewrite Hy. unfold selectedButtonIn. rewrite Eg.
  cbn [grids mapAt filter deselectGrid gridId]. rewrite Hid1, Hid2.
  cbn [String.eqb Ascii.eqb Bool.eqb andb filter flat_map gridButtons].
  split; [|reflexivity].
  cbn [deselectGrid gridButtons]. rewrite app_nil_r, Hb2. now apply find_picked.
Qed.

(** X23.  With a yoink prompt shown, one click on a hole card and one on
    a board card, their indices safe integers, in either order and
    whatever was clicked before, make Confirm send the index of the hole
    card as [cardIndex] and the index of the board card as
    [targetPlayerId]: a click clears only the grid of the card
    clicked. *)
Theorem X23_yoink_sends_one_card_of_each_grid :
  forall (w0 : World) (data : ChoiceData) (edits last : list UiEvent) (i j : nat)
         (h b : CardRef.t),
    Spec.tagOf (abilityUsed data) = Some Spec.Yoink ->
    forallb Spec.isFormEdit edits = true ->
    nth_error (or_nil (availableHoleCards data)) i = Some h ->
    nth_error (or_nil (availableBoardCards data)) j = Some b ->
    safe (CardRef.index h) -> safe (CardRef.index b) ->
    last = [click_card 0 i; click_card 1 j] \/ last = [click_card 1 j; click_card 0 i] ->
    confirmSends (promptThen data (edits ++ last) w0) (abilityUsed data)
      [("cardIndex", VNum (Num (CardRef.index h)));
       ("targetPlayerId", VNum (Num (CardRef.index b)))].
Proof.
  intros w0 data edits last i j h b Ht He Hh Hb Sh Sb Hlast.
  apply (prompt_confirm data Spec.Yoink);
    [exact Ht | apply edits_then; [exact He | destruct Hlast; subst last; reflexivity] |].
  rewrite editAll_app. cbn [getterOf formOf].
  pose proof (editAll_controls edits (createYoinkInterface data)) as Hf.
  unfold controlsOf in Hf. injection Hf as _ _ _ Hg.
  set (f := editAll edits (createYoinkInterface data)) in *.
  set (hb := map (cardButton "card-selection-btn hole-card" "(Your card)")
                 (or_nil (availableHoleCards data))).
  set (bb := map (cardButton "card-selection-btn board-card" "(Board card)")
                 (or_nil (availableBoardCards data))).
  change (map deselectGrid (grids f) =
          [deselectGrid (mkGrid "yoink-hole-grid" hb);
           deselectGrid (mkGrid "yoink-board-grid" bb)]) in Hg.
  pose proof (map_nth_error (cardButton "card-selection-btn hole-card" "(Your card)") _ _ Hh)
    as Hh'.
  pose proof (map_nth_error (cardButton "card-selection-btn board-card" "(Board card)") _ _ Hb)
    as Hb'.
  unfold getYoinkSelection.
  destruct Hlast as [-> | ->].
  - change (editAll [click_card 0 i; click_card 1 j] f)
      with (clickCard 1 j (clickCard 0 i f)).
    destruct (yoink_click_hole f hb bb i _ Hg Hh') as [H1 _].
    assert (Hg1 : map deselectGrid (grids (clickCard 0 i f)) = _)
      by (rewrite clickCard_buttons; exact Hg).
    destruct (yoink_click_board (clickCard 0 i f) hb bb j _ Hg1 Hb') as [H2 H3].
    rewrite H3, H1, H2, !datasetIndex_cardButton by assumption. reflexivity.
  - change (editAll [click_card 1 j; click_card 0 i] f)
      with (clickCard 0 i (clickCard 1 j f)).
    destruct (yoink_click_board f hb bb j _ Hg Hb') as [H1 _].
    assert (Hg1 : map deselectGrid (grids (clickCard 1 j f)) = _)
      by (rewrite clickCard_buttons; exact Hg).
    destruct (yoink_click_hole (clickCard 1 j f) hb bb i _ Hg1 Hh') as [H2 H3].
    rewrite H2, H3, H1, !datasetIndex_cardButton by assumption. reflexivity.
Qed.

Lemma X23_yoink_sends_one_card_of_each_grid_witness :
  confirmSends
    (promptThen Sample.yoinkPrompt
       ([click_card 0 0; click_card 1 0] ++ [click_card 1 2; click_card 0 1]) Sample.playing)
    (abilityUsed Sample.yoinkPrompt)
    [("cardIndex", VNum (Num (CardRef.index (CardRef.mk 1 "3 of Hearts" false))));
     ("targetPlayerId", VNum (Num (CardRef.index (CardRef.mk 2 "Joker" false))))].
Proof.
  apply (X23_yoink_sends_one_card_of_each_grid Sample.playing Sample.yoinkPrompt
           [click_card 0 0; click_card 1 0] [click_card 1 2; click_card 0 1] 1 2
           (CardRef.mk 1 "3 of Hearts" false) (CardRef.mk 2 "Joker" false));
    try (vm_compute; reflexivity).
  right. reflexivity.
Defined.

(** *** Prompts without a form *)

Lemma applyEdit_generic (ev : UiEvent) (data : ChoiceData) :
  applyEdit ev (createGenericInterface data) = createGenericInterface data.
Proof.
  destruct ev as [t | | | | b | i | i | i | g i]; try reflexivity.
  simpl. unfold clickCard. simpl. now destruct g.
Qed.

Lemma editAll_generic (edits : list UiEvent) (data : ChoiceData) :
  editAll edits (createGenericInterface data) = createGenericInterface data.
Proof.
  induction edits as [|ev edits IH]; [reflexivity|].
  unfold editAll in *. simpl. now rewrite applyEdit_generic.
Qed.

(** X24.  A prompt whose ability is none of the five with a form of
    their own (deadman and chaos among them) gets the generic form,
    which shows the payload and has no control to operate: whatever the
    user does with it, Confirm completes without sending anything and
    leaves the dialog open with the prompt held. *)
Theorem X24_prompt_without_form_cannot_confirm :
  forall (w0 : World) (data : ChoiceData) (edits : list UiEvent),
    Spec.tagOf (abilityUsed data) = None ->
    forallb Spec.isFormEdit edits = true ->
    let w := promptThen data edits w0 in
    selectionContent w = createGenericInterface data /\
    snd (handle (Ui click_confirm) w) = Done /\
    outbox (after (Ui click_confirm) w) = outbox w /\
    isHidden (after (Ui click_confirm) w) = false /\
    currentChoices (after (Ui click_confirm) w) = Some data.
Proof.
  intros w0 data edits Ht He w.
  destruct (edits_state edits (after (Socket (ability_choice_required data)) w0) He)
    as (A & B & C & _ & F).
  fold (promptThen data edits w0) in A, B, C, F. fold w in A, B, C, F.
  assert (Hform : selectionContent w = createGenericInterface data).
  { assert (Hp : selectionContent (after (Socket (ability_choice_required data)) w0) =
                 createGenericInterface data).
    { unfold after. simpl. unfold handleAbilityChoiceRequired, showAbilitySelection. simpl.
      unfold Spec.tagOf in Ht. cbv zeta in Ht.
      repeat match type of Ht with
             | context [String.eqb ?x ?y] => destruct (String.eqb x y)
             end; try discriminate Ht; reflexivity. }
    rewrite F, Hp. apply editAll_generic. }
  assert (Ha : currentAbility w = Some (abilityUsed data)) by (rewrite A; reflexivity).
  assert (Hc : currentChoices w = Some data) by (rewrite B; reflexivity).
  assert (Hh : isHidden w = false) by (rewrite C; apply showAbilitySelection_shown).
  split; [exact Hform|].
  unfold after. change (handle (Ui click_confirm) w) with (confirmSelection w).
  unfold confirmSelection. rewrite Ha, Hc.
  destruct (truthy_str (abilityUsed data)); cbn [negb].
  - rewrite (unknown_tag_never_sends data _ Ht). cbn [fst snd].
    split; [reflexivity|]. split; [reflexivity|]. split; [exact Hh | exact Hc].
  - cbn [fst snd]. split; [reflexivity|]. split; [reflexivity|]. split; [exact Hh | exact Hc].
Qed.

Lemma X24_prompt_without_form_cannot_confirm_witness :
  outbox (after (Ui click_confirm)
            (promptThen Sample.unknownPrompt [click_card 0 0; click_radio 1] Sample.playing)) =
  outbox (promptThen Sample.unknownPrompt [click_card 0 0; click_radio 1] Sample.playing).
Proof.
  assert (Ht : Spec.tagOf (abilityUsed Sample.unknownPrompt) = None) by (vm_compute; reflexivity).
  exact (proj1 (proj2 (proj2
           (X24_prompt_without_form_cannot_confirm Sample.playing Sample.unknownPrompt
              [click_card 0 0; click_radio 1] Ht eq_refl)))).
Defined.

(** *** Ability buttons *)

(** X25.  When the ability list shows buttons, they are the abilities of
    the first seat of the snapshot that holds any, one button each and in
    order; a click on a button sends one [use_ability] naming the type of
    its ability in lower case, which is also the button's [data-ability]
    attribute, with no selection. *)
Theorem X25_ability_button_sends_its_type :
  forall (w : World) (buttons : list AbilityEl) (b : AbilityEl),
    abilityCards (updateAbilities w) = AbilityButtons buttons ->
    In b buttons ->
    (exists ps me a,
        gamePlayers w = Some ps /\
        find (fun p => nonEmpty (Player.Abilities p)) ps = Some me /\
        buttons = map abilityButton (Player.Abilities me) /\
        In a (Player.Abilities me) /\
        abilityName b = Ability.Name a /\
        dataAbility b = toLowerCase (Ability.Type_ a)) /\
    forall w',
      outbox (after (Ui (click_ability (clickType b))) w') =
      outbox w' ++ [use_ability (gameId w') (dataAbility b) []].
Proof.
  intros w buttons b Hshow Hin. unfold updateAbilities in Hshow.
  destruct (gamePlayers w) as [ps|] eqn:Eps; [|discriminate Hshow].
  destruct (find (fun p => nonEmpty (Player.Abilities p)) ps) as [me|] eqn:Eme;
    [|discriminate Hshow].
  cbn [abilityCards with_abilityCards] in Hshow. injection Hshow as <-.
  apply in_map_iff in Hin. destruct Hin as (a & <- & Ha).
  split.
  - exists ps, me, a. repeat split; try assumption; reflexivity.
  - intros w'. reflexivity.
Qed.

Lemma X25_ability_button_sends_its_type_witness :
  outbox (after (Ui (click_ability
                       (clickType (abilityButton (Ability.mk "Peek" "Peek" "Look at a card")))))
                Sample.playing) =
  outbox Sample.playing ++
    [use_ability (gameId Sample.playing)
       (dataAbility (abilityButton (Ability.mk "Peek" "Peek" "Look at a card"))) []].
Proof.
  assert (Hs : abilityCards (updateAbilities Sample.playing) =
               AbilityButtons [abilityButton (Ability.mk "Peek" "Peek" "Look at a card")])
    by (vm_compute; reflexivity).
  exact (proj2 (X25_ability_button_sends_its_type Sample.playing _ _ Hs (or_introl eq_refl))
           Sample.playing).
Defined.

End AbilityDialog.
